(** * The CPU tier of BlastEm: the MAME-derived Z80 interpreter and the
      Musashi-derived 68000 interpreter

    A shallow embedding of the run-to-deadline loops, the memory fast paths,
    the reset and bus-request entry points, the cycle rebasing, the flag
    tables and the fast-path pointer tables of [mame_z80/z80.c] and of the
    68000 core, with the properties the specification states about them.

    Conventions.  A C integer is a [Z]; every store into a [uint8_t],
    [uint16_t], [uint32_t] or [int] object is written with its wrap-around
    ([uint8], [uint16], [uint32], [int32]).  A host pointer is a [Z] (an
    address into the host memory [host]); a nullable pointer is an
    [option Z], [None] being [NULL].  Definitions come first, facts after. *)

From Stdlib Require Import ZArith List Lia Bool.
Import ListNotations.
Local Open Scope Z_scope.

(** ** C integer conversions *)

Definition uint8 (x : Z) : Z := x mod 2 ^ 8.
Definition uint16 (x : Z) : Z := x mod 2 ^ 16.
Definition uint32 (x : Z) : Z := x mod 2 ^ 32.

(** Conversion to [int8_t] and to [int] (two's complement). *)
Definition int8 (x : Z) : Z :=
  let y := x mod 2 ^ 8 in if y <? 2 ^ 7 then y else y - 2 ^ 8.
Definition int32 (x : Z) : Z :=
  let y := x mod 2 ^ 32 in if y <? 2 ^ 31 then y else y - 2 ^ 32.

Definition INT_MIN : Z := - 2 ^ 31.

(** A C condition: non-zero is true. *)
Definition truthy (x : Z) : bool := negb (x =? 0).

(** [table[i]] for a table of [uint8_t]; the tables of both cores are
    indexed within their bounds. *)
Definition tbl (t : list Z) (i : Z) : Z := nth (Z.to_nat i) t 0.

(** One cell of the host memory replaced. *)
Definition upd (f : Z -> Z) (k v : Z) : Z -> Z :=
  fun x => if x =? k then v else f x.

(** One slot of a pointer table replaced. *)
Definition upd_ptr (f : Z -> option Z) (k : Z) (v : option Z) : Z -> option Z :=
  fun x => if x =? k then v else f x.

(** ** The memory map (backend.h is not among the sources) *)

(** Modelled from the spec: the sentinel "never" of the cycle timestamps,
    [CYCLE_NEVER] of backend.h, the largest [uint32_t]. *)
Definition CYCLE_NEVER : Z := 0xFFFFFFFF.

(** Modelled from the spec: the chunk flags READ, WRITE, CODE, PTR_IDX,
    ONLY_ODD, ONLY_EVEN and FUNC_NULL, a bitset; backend.h, which numbers
    the bits, is not among the sources, and the facts below only use that
    they are distinct single bits. *)
Definition MMAP_READ : Z := 0x01.
Definition MMAP_WRITE : Z := 0x02.
Definition MMAP_CODE : Z := 0x04.
Definition MMAP_PTR_IDX : Z := 0x08.
Definition MMAP_ONLY_ODD : Z := 0x10.
Definition MMAP_ONLY_EVEN : Z := 0x20.

(** Modelled from the spec: a memory-map chunk, "start, end, address_mask,
    flags, ptr_index, optional buffer"; the four callbacks are the slow
    path, which the cores reach through [read_byte], [write_byte],
    [read_word] and [write_word]. *)
Record memmap_chunk : Type := Build_memmap_chunk {
  chunk_start : Z;
  chunk_end : Z;
  chunk_mask : Z;
  chunk_flags : Z;
  chunk_ptr_index : Z;
  chunk_buffer : option Z
}.

(** Modelled from the spec: [cpu_options], the part the cores read. *)
Record cpu_options : Type := Build_cpu_options {
  address_mask : Z;
  clock_divider : Z;
  memmap : list memmap_chunk
}.

Definition has_flag (c : memmap_chunk) (f : Z) : bool :=
  truthy (Z.land (chunk_flags c) f).

(** Modelled from the spec: [find_map_chunk] of backend.c, "chunks do not
    overlap; lookup returns the first matching chunk", a chunk covering
    [[start, end]]. *)
Definition find_map_chunk (address : Z) (opts : cpu_options) : option memmap_chunk :=
  let a := Z.land address (address_mask opts) in
  find (fun c => (chunk_start c <=? a) && (a <=? chunk_end c)) (memmap opts).

(** Modelled from the spec: [get_native_pointer] of backend.c,
    "native_pointer(addr) -> buffer?": the chunk's buffer, or for a PTR_IDX
    chunk the buffer bound to its pointer-index slot, moved by the address
    under the chunk's mask; null when there is none. *)
Definition get_native_pointer (address : Z) (mem_pointers : Z -> option Z)
    (opts : cpu_options) : option Z :=
  match find_map_chunk address opts with
  | None => None
  | Some c =>
      let base := if has_flag c MMAP_PTR_IDX then mem_pointers (chunk_ptr_index c)
                  else chunk_buffer c in
      match base with
      | None => None
      | Some b => Some (b + Z.land (Z.land address (address_mask opts)) (chunk_mask c))
      end
  end.

(** The two lookups of backend.c as the initialisers use them. *)
Record map_lookup : Type := Build_map_lookup {
  lookup_chunk : Z -> cpu_options -> option memmap_chunk;
  lookup_native : Z -> (Z -> option Z) -> cpu_options -> option Z
}.

Definition spec_lookup : map_lookup :=
  Build_map_lookup find_map_chunk get_native_pointer.

(** * The Z80 core (mame_z80/z80.h, mame_z80/z80.c) *)

Module Z80.

(** ** [PAIR]: a register pair seen as bytes, as a word or as 32 bits

    The union is carried as its 32-bit member [d]; the byte and word members
    are read and written through it ([LSB_FIRST] is defined). *)

Definition PAIR : Type := Z.

Definition w_l (p : PAIR) : Z := Z.land p 0xFFFF.
Definition b_l (p : PAIR) : Z := Z.land p 0xFF.
Definition b_h (p : PAIR) : Z := Z.land (Z.shiftr p 8) 0xFF.

Definition set_d (v : Z) : PAIR := uint32 v.
Definition set_w_l (v : Z) (p : PAIR) : PAIR :=
  Z.lor (Z.land p 0xFFFF0000) (uint16 v).
Definition set_b_l (v : Z) (p : PAIR) : PAIR :=
  Z.lor (Z.land p 0xFFFFFF00) (uint8 v).
Definition set_b_h (v : Z) (p : PAIR) : PAIR :=
  Z.lor (Z.land p 0xFFFF00FF) (Z.shiftl (uint8 v) 8).

Record z80_options : Type := Build_z80_options {
  gen : cpu_options;
  iomap : list memmap_chunk;
  io_address_mask : Z
}.

(** ** [struct z80_device]

    The function pointer [next_int_pulse] is a host callback and lives in
    [z80_env] below; every other member is here, with the host memory the
    buffer pointers point into. *)

Record z80_device : Type := Build_z80_device {
  options : z80_options;  (* z80_options *options *)
  mem_pointers : Z -> option Z;  (* uint8_t *mem_pointers[ZNUM_MEM_AREAS] *)
  system : list Z;  (* void *system: the host's side-band state, opaque to the core *)
  m_prvpc : PAIR;
  m_pc : PAIR;
  m_sp : PAIR;
  m_af : PAIR;
  m_bc : PAIR;
  m_de : PAIR;
  m_hl : PAIR;
  m_ix : PAIR;
  m_iy : PAIR;
  m_wz : PAIR;
  m_af2 : PAIR;
  m_bc2 : PAIR;
  m_de2 : PAIR;
  m_hl2 : PAIR;
  m_r : Z;  (* uint8_t *)
  m_r2 : Z;  (* uint8_t *)
  m_iff1 : Z;  (* uint8_t *)
  m_iff2 : Z;  (* uint8_t *)
  m_halt : Z;  (* uint8_t *)
  m_im : Z;  (* uint8_t *)
  m_i : Z;  (* uint8_t *)
  m_nmi_state : Z;  (* uint8_t *)
  m_nmi_pending : Z;  (* uint8_t *)
  m_irq_state : Z;  (* uint8_t *)
  m_wait_state : Z;  (* int *)
  busreq : Z;  (* int *)
  busack : Z;  (* int *)
  reset : Z;  (* int *)
  m_after_ei : Z;  (* uint8_t *)
  m_after_ldair : Z;  (* uint8_t *)
  m_ea : Z;  (* uint32_t *)
  m_icount : Z;  (* int *)
  current_cycle : Z;  (* uint32_t *)
  nmi_start : Z;  (* uint32_t *)
  int_pulse_start : Z;  (* uint32_t *)
  int_pulse_end : Z;  (* uint32_t *)
  bank_reg : Z;  (* uint16_t *)
  m_rtemp : Z;  (* uint8_t *)
  int_is_nmi : Z;  (* uint8_t *)
  im2_vector : Z;  (* uint8_t *)
  m_cc_op : list Z;  (* const uint8_t * *)
  m_cc_cb : list Z;
  m_cc_ed : list Z;
  m_cc_xy : list Z;
  m_cc_xycb : list Z;
  m_cc_ex : list Z;
  read_pointers : Z -> option Z;  (* uint8_t *read_pointers[64/8] *)
  write_pointers : Z -> option Z;  (* uint8_t *write_pointers[64/8] *)
  host : Z -> Z  (* the host memory the buffer pointers point into, byte by byte *)
}.

Definition set_options (v : z80_options) (z : z80_device) : z80_device :=
  Build_z80_device v (mem_pointers z) (system z) (m_prvpc z) (m_pc z) (m_sp z) (m_af z) (m_bc z)
    (m_de z) (m_hl z) (m_ix z) (m_iy z) (m_wz z) (m_af2 z) (m_bc2 z) (m_de2 z) (m_hl2 z) (m_r z)
    (m_r2 z) (m_iff1 z) (m_iff2 z) (m_halt z) (m_im z) (m_i z) (m_nmi_state z) (m_nmi_pending z)
    (m_irq_state z) (m_wait_state z) (busreq z) (busack z) (reset z) (m_after_ei z)
    (m_after_ldair z) (m_ea z) (m_icount z) (current_cycle z) (nmi_start z) (int_pulse_start z)
    (int_pulse_end z) (bank_reg z) (m_rtemp z) (int_is_nmi z) (im2_vector z) (m_cc_op z)
    (m_cc_cb z) (m_cc_ed z) (m_cc_xy z) (m_cc_xycb z) (m_cc_ex z) (read_pointers z)
    (write_pointers z) (host z).
Definition set_mem_pointers (v : Z -> option Z) (z : z80_device) : z80_device :=
  Build_z80_device (options z) v (system z) (m_prvpc z) (m_pc z) (m_sp z) (m_af z) (m_bc z)
    (m_de z) (m_hl z) (m_ix z) (m_iy z) (m_wz z) (m_af2 z) (m_bc2 z) (m_de2 z) (m_hl2 z) (m_r z)
    (m_r2 z) (m_iff1 z) (m_iff2 z) (m_halt z) (m_im z) (m_i z) (m_nmi_state z) (m_nmi_pending z)
    (m_irq_state z) (m_wait_state z) (busreq z) (busack z) (reset z) (m_after_ei z)
    (m_after_ldair z) (m_ea z) (m_icount z) (current_cycle z) (nmi_start z) (int_pulse_start z)
    (int_pulse_end z) (bank_reg z) (m_rtemp z) (int_is_nmi z) (im2_vector z) (m_cc_op z)
    (m_cc_cb z) (m_cc_ed z) (m_cc_xy z) (m_cc_xycb z) (m_cc_ex z) (read_pointers z)
    (write_pointers z) (host z).
Definition set_system (v : list Z) (z : z80_device) : z80_device :=
  Build_z80_device (options z) (mem_pointers z) v (m_prvpc z) (m_pc z) (m_sp z) (m_af z)
    (m_bc z) (m_de z) (m_hl z) (m_ix z) (m_iy z) (m_wz z) (m_af2 z) (m_bc2 z) (m_de2 z)
    (m_hl2 z) (m_r z) (m_r2 z) (m_iff1 z) (m_iff2 z) (m_halt z) (m_im z) (m_i z) (m_nmi_state z)
    (m_nmi_pending z) (m_irq_state z) (m_wait_state z) (busreq z) (busack z) (reset z)
    (m_after_ei z) (m_after_ldair z) (m_ea z) (m_icount z) (current_cycle z) (nmi_start z)
    (int_pulse_start z) (int_pulse_end z) (bank_reg z) (m_rtemp z) (int_is_nmi z) (im2_vector z)
    (m_cc_op z) (m_cc_cb z) (m_cc_ed z) (m_cc_xy z) (m_cc_xycb z) (m_cc_ex z) (read_pointers z)
    (write_pointers z) (host z).
Definition set_m_prvpc (v : PAIR) (z : z80_device) : z80_device :=
  Build_z80_device (options z) (mem_pointers z) (system z) v (m_pc z) (m_sp z) (m_af z) (m_bc z)
    (m_de z) (m_hl z) (m_ix z) (m_iy z) (m_wz z) (m_af2 z) (m_bc2 z) (m_de2 z) (m_hl2 z) (m_r z)
    (m_r2 z) (m_iff1 z) (m_iff2 z) (m_halt z) (m_im z) (m_i z) (m_nmi_state z) (m_nmi_pending z)
    (m_irq_state z) (m_wait_state z) (busreq z) (busack z) (reset z) (m_after_ei z)
    (m_after_ldair z) (m_ea z) (m_icount z) (current_cycle z) (nmi_start z) (int_pulse_start z)
    (int_pulse_end z) (bank_reg z) (m_rtemp z) (int_is_nmi z) (im2_vector z) (m_cc_op z)
    (m_cc_cb z) (m_cc_ed z) (m_cc_xy z) (m_cc_xycb z) (m_cc_ex z) (read_pointers z)
    (write_pointers z) (host z).
Definition set_m_pc (v : PAIR) (z : z80_device) : z80_device :=
  Build_z80_device (options z) (mem_pointers z) (system z) (m_prvpc z) v (m_sp z) (m_af z)
    (m_bc z) (m_de z) (m_hl z) (m_ix z) (m_iy z) (m_wz z) (m_af2 z) (m_bc2 z) (m_de2 z)
    (m_hl2 z) (m_r z) (m_r2 z) (m_iff1 z) (m_iff2 z) (m_halt z) (m_im z) (m_i z) (m_nmi_state z)
    (m_nmi_pending z) (m_irq_state z) (m_wait_state z) (busreq z) (busack z) (reset z)
    (m_after_ei z) (m_after_ldair z) (m_ea z) (m_icount z) (current_cycle z) (nmi_start z)
    (int_pulse_start z) (int_pulse_end z) (bank_reg z) (m_rtemp z) (int_is_nmi z) (im2_vector z)
    (m_cc_op z) (m_cc_cb z) (m_cc_ed z) (m_cc_xy z) (m_cc_xycb z) (m_cc_ex z) (read_pointers z)
    (write_pointers z) (host z).
Definition set_m_sp (v : PAIR) (z : z80_device) : z80_device :=
  Build_z80_device (options z) (mem_pointers z) (system z) (m_prvpc z) (m_pc z) v (m_af z)
    (m_bc z) (m_de z) (m_hl z) (m_ix z) (m_iy z) (m_wz z) (m_af2 z) (m_bc2 z) (m_de2 z)
    (m_hl2 z) (m_r z) (m_r2 z) (m_iff1 z) (m_iff2 z) (m_halt z) (m_im z) (m_i z) (m_nmi_state z)
    (m_nmi_pending z) (m_irq_state z) (m_wait_state z) (busreq z) (busack z) (reset z)
    (m_after_ei z) (m_after_ldair z) (m_ea z) (m_icount z) (current_cycle z) (nmi_start z)
    (int_pulse_start z) (int_pulse_end z) (bank_reg z) (m_rtemp z) (int_is_nmi z) (im2_vector z)
    (m_cc_op z) (m_cc_cb z) (m_cc_ed z) (m_cc_xy z) (m_cc_xycb z) (m_cc_ex z) (read_pointers z)
    (write_pointers z) (host z).
Definition set_m_af (v : PAIR) (z : z80_device) : z80_device :=
  Build_z80_device (options z) (mem_pointers z) (system z) (m_prvpc z) (m_pc z) (m_sp z) v
    (m_bc z) (m_de z) (m_hl z) (m_ix z) (m_iy z) (m_wz z) (m_af2 z) (m_bc2 z) (m_de2 z)
    (m_hl2 z) (m_r z) (m_r2 z) (m_iff1 z) (m_iff2 z) (m_halt z) (m_im z) (m_i z) (m_nmi_state z)
    (m_nmi_pending z) (m_irq_state z) (m_wait_state z) (busreq z) (busack z) (reset z)
    (m_after_ei z) (m_after_ldair z) (m_ea z) (m_icount z) (current_cycle z) (nmi_start z)
    (int_pulse_start z) (int_pulse_end z) (bank_reg z) (m_rtemp z) (int_is_nmi z) (im2_vector z)
    (m_cc_op z) (m_cc_cb z) (m_cc_ed z) (m_cc_xy z) (m_cc_xycb z) (m_cc_ex z) (read_pointers z)
    (write_pointers z) (host z).
Definition set_m_bc (v : PAIR) (z : z80_device) : z80_device :=
  Build_z80_device (options z) (mem_pointers z) (system z) (m_prvpc z) (m_pc z) (m_sp z)
    (m_af z) v (m_de z) (m_hl z) (m_ix z) (m_iy z) (m_wz z) (m_af2 z) (m_bc2 z) (m_de2 z)
    (m_hl2 z) (m_r z) (m_r2 z) (m_iff1 z) (m_iff2 z) (m_halt z) (m_im z) (m_i z) (m_nmi_state z)
    (m_nmi_pending z) (m_irq_state z) (m_wait_state z) (busreq z) (busack z) (reset z)
    (m_after_ei z) (m_after_ldair z) (m_ea z) (m_icount z) (current_cycle z) (nmi_start z)
    (int_pulse_start z) (int_pulse_end z) (bank_reg z) (m_rtemp z) (int_is_nmi z) (im2_vector z)
    (m_cc_op z) (m_cc_cb z) (m_cc_ed z) (m_cc_xy z) (m_cc_xycb z) (m_cc_ex z) (read_pointers z)
    (write_pointers z) (host z).
Definition set_m_de (v : PAIR) (z : z80_device) : z80_device :=
  Build_z80_device (options z) (mem_pointers z) (system z) (m_prvpc z) (m_pc z) (m_sp z)
    (m_af z) (m_bc z) v (m_hl z) (m_ix z) (m_iy z) (m_wz z) (m_af2 z) (m_bc2 z) (m_de2 z)
    (m_hl2 z) (m_r z) (m_r2 z) (m_iff1 z) (m_iff2 z) (m_halt z) (m_im z) (m_i z) (m_nmi_state z)
    (m_nmi_pending z) (m_irq_state z) (m_wait_state z) (busreq z) (busack z) (reset z)
    (m_after_ei z) (m_after_ldair z) (m_ea z) (m_icount z) (current_cycle z) (nmi_start z)
    (int_pulse_start z) (int_pulse_end z) (bank_reg z) (m_rtemp z) (int_is_nmi z) (im2_vector z)
    (m_cc_op z) (m_cc_cb z) (m_cc_ed z) (m_cc_xy z) (m_cc_xycb z) (m_cc_ex z) (read_pointers z)
    (write_pointers z) (host z).
Definition set_m_hl (v : PAIR) (z : z80_device) : z80_device :=
  Build_z80_device (options z) (mem_pointers z) (system z) (m_prvpc z) (m_pc z) (m_sp z)
    (m_af z) (m_bc z) (m_de z) v (m_ix z) (m_iy z) (m_wz z) (m_af2 z) (m_bc2 z) (m_de2 z)
    (m_hl2 z) (m_r z) (m_r2 z) (m_iff1 z) (m_iff2 z) (m_halt z) (m_im z) (m_i z) (m_nmi_state z)
    (m_nmi_pending z) (m_irq_state z) (m_wait_state z) (busreq z) (busack z) (reset z)
    (m_after_ei z) (m_after_ldair z) (m_ea z) (m_icount z) (current_cycle z) (nmi_start z)
    (int_pulse_start z) (int_pulse_end z) (bank_reg z) (m_rtemp z) (int_is_nmi z) (im2_vector z)
    (m_cc_op z) (m_cc_cb z) (m_cc_ed z) (m_cc_xy z) (m_cc_xycb z) (m_cc_ex z) (read_pointers z)
    (write_pointers z) (host z).
Definition set_m_ix (v : PAIR) (z : z80_device) : z80_device :=
  Build_z80_device (options z) (mem_pointers z) (system z) (m_prvpc z) (m_pc z) (m_sp z)
    (m_af z) (m_bc z) (m_de z) (m_hl z) v (m_iy z) (m_wz z) (m_af2 z) (m_bc2 z) (m_de2 z)
    (m_hl2 z) (m_r z) (m_r2 z) (m_iff1 z) (m_iff2 z) (m_halt z) (m_im z) (m_i z) (m_nmi_state z)
    (m_nmi_pending z) (m_irq_state z) (m_wait_state z) (busreq z) (busack z) (reset z)
    (m_after_ei z) (m_after_ldair z) (m_ea z) (m_icount z) (current_cycle z) (nmi_start z)
    (int_pulse_start z) (int_pulse_end z) (bank_reg z) (m_rtemp z) (int_is_nmi z) (im2_vector z)
    (m_cc_op z) (m_cc_cb z) (m_cc_ed z) (m_cc_xy z) (m_cc_xycb z) (m_cc_ex z) (read_pointers z)
    (write_pointers z) (host z).
Definition set_m_iy (v : PAIR) (z : z80_device) : z80_device :=
  Build_z80_device (options z) (mem_pointers z) (system z) (m_prvpc z) (m_pc z) (m_sp z)
    (m_af z) (m_bc z) (m_de z) (m_hl z) (m_ix z) v (m_wz z) (m_af2 z) (m_bc2 z) (m_de2 z)
    (m_hl2 z) (m_r z) (m_r2 z) (m_iff1 z) (m_iff2 z) (m_halt z) (m_im z) (m_i z) (m_nmi_state z)
    (m_nmi_pending z) (m_irq_state z) (m_wait_state z) (busreq z) (busack z) (reset z)
    (m_after_ei z) (m_after_ldair z) (m_ea z) (m_icount z) (current_cycle z) (nmi_start z)
    (int_pulse_start z) (int_pulse_end z) (bank_reg z) (m_rtemp z) (int_is_nmi z) (im2_vector z)
    (m_cc_op z) (m_cc_cb z) (m_cc_ed z) (m_cc_xy z) (m_cc_xycb z) (m_cc_ex z) (read_pointers z)
    (write_pointers z) (host z).
Definition set_m_wz (v : PAIR) (z : z80_device) : z80_device :=
  Build_z80_device (options z) (mem_pointers z) (system z) (m_prvpc z) (m_pc z) (m_sp z)
    (m_af z) (m_bc z) (m_de z) (m_hl z) (m_ix z) (m_iy z) v (m_af2 z) (m_bc2 z) (m_de2 z)
    (m_hl2 z) (m_r z) (m_r2 z) (m_iff1 z) (m_iff2 z) (m_halt z) (m_im z) (m_i z) (m_nmi_state z)
    (m_nmi_pending z) (m_irq_state z) (m_wait_state z) (busreq z) (busack z) (reset z)
    (m_after_ei z) (m_after_ldair z) (m_ea z) (m_icount z) (current_cycle z) (nmi_start z)
    (int_pulse_start z) (int_pulse_end z) (bank_reg z) (m_rtemp z) (int_is_nmi z) (im2_vector z)
    (m_cc_op z) (m_cc_cb z) (m_cc_ed z) (m_cc_xy z) (m_cc_xycb z) (m_cc_ex z) (read_pointers z)
    (write_pointers z) (host z).
Definition set_m_af2 (v : PAIR) (z : z80_device) : z80_device :=
  Build_z80_device (options z) (mem_pointers z) (system z) (m_prvpc z) (m_pc z) (m_sp z)
    (m_af z) (m_bc z) (m_de z) (m_hl z) (m_ix z) (m_iy z) (m_wz z) v (m_bc2 z) (m_de2 z)
    (m_hl2 z) (m_r z) (m_r2 z) (m_iff1 z) (m_iff2 z) (m_halt z) (m_im z) (m_i z) (m_nmi_state z)
    (m_nmi_pending z) (m_irq_state z) (m_wait_state z) (busreq z) (busack z) (reset z)
    (m_after_ei z) (m_after_ldair z) (m_ea z) (m_icount z) (current_cycle z) (nmi_start z)
    (int_pulse_start z) (int_pulse_end z) (bank_reg z) (m_rtemp z) (int_is_nmi z) (im2_vector z)
    (m_cc_op z) (m_cc_cb z) (m_cc_ed z) (m_cc_xy z) (m_cc_xycb z) (m_cc_ex z) (read_pointers z)
    (write_pointers z) (host z).
Definition set_m_bc2 (v : PAIR) (z : z80_device) : z80_device :=
  Build_z80_device (options z) (mem_pointers z) (system z) (m_prvpc z) (m_pc z) (m_sp z)
    (m_af z) (m_bc z) (m_de z) (m_hl z) (m_ix z) (m_iy z) (m_wz z) (m_af2 z) v (m_de2 z)
    (m_hl2 z) (m_r z) (m_r2 z) (m_iff1 z) (m_iff2 z) (m_halt z) (m_im z) (m_i z) (m_nmi_state z)
    (m_nmi_pending z) (m_irq_state z) (m_wait_state z) (busreq z) (busack z) (reset z)
    (m_after_ei z) (m_after_ldair z) (m_ea z) (m_icount z) (current_cycle z) (nmi_start z)
    (int_pulse_start z) (int_pulse_end z) (bank_reg z) (m_rtemp z) (int_is_nmi z) (im2_vector z)
    (m_cc_op z) (m_cc_cb z) (m_cc_ed z) (m_cc_xy z) (m_cc_xycb z) (m_cc_ex z) (read_pointers z)
    (write_pointers z) (host z).
Definition set_m_de2 (v : PAIR) (z : z80_device) : z80_device :=
  Build_z80_device (options z) (mem_pointers z) (system z) (m_prvpc z) (m_pc z) (m_sp z)
    (m_af z) (m_bc z) (m_de z) (m_hl z) (m_ix z) (m_iy z) (m_wz z) (m_af2 z) (m_bc2 z) v
    (m_hl2 z) (m_r z) (m_r2 z) (m_iff1 z) (m_iff2 z) (m_halt z) (m_im z) (m_i z) (m_nmi_state z)
    (m_nmi_pending z) (m_irq_state z) (m_wait_state z) (busreq z) (busack z) (reset z)
    (m_after_ei z) (m_after_ldair z) (m_ea z) (m_icount z) (current_cycle z) (nmi_start z)
    (int_pulse_start z) (int_pulse_end z) (bank_reg z) (m_rtemp z) (int_is_nmi z) (im2_vector z)
    (m_cc_op z) (m_cc_cb z) (m_cc_ed z) (m_cc_xy z) (m_cc_xycb z) (m_cc_ex z) (read_pointers z)
    (write_pointers z) (host z).
Definition set_m_hl2 (v : PAIR) (z : z80_device) : z80_device :=
  Build_z80_device (options z) (mem_pointers z) (system z) (m_prvpc z) (m_pc z) (m_sp z)
    (m_af z) (m_bc z) (m_de z) (m_hl z) (m_ix z) (m_iy z) (m_wz z) (m_af2 z) (m_bc2 z) (m_de2 z)
    v (m_r z) (m_r2 z) (m_iff1 z) (m_iff2 z) (m_halt z) (m_im z) (m_i z) (m_nmi_state z)
    (m_nmi_pending z) (m_irq_state z) (m_wait_state z) (busreq z) (busack z) (reset z)
    (m_after_ei z) (m_after_ldair z) (m_ea z) (m_icount z) (current_cycle z) (nmi_start z)
    (int_pulse_start z) (int_pulse_end z) (bank_reg z) (m_rtemp z) (int_is_nmi z) (im2_vector z)
    (m_cc_op z) (m_cc_cb z) (m_cc_ed z) (m_cc_xy z) (m_cc_xycb z) (m_cc_ex z) (read_pointers z)
    (write_pointers z) (host z).
Definition set_m_r (v : Z) (z : z80_device) : z80_device :=
  Build_z80_device (options z) (mem_pointers z) (system z) (m_prvpc z) (m_pc z) (m_sp z)
    (m_af z) (m_bc z) (m_de z) (m_hl z) (m_ix z) (m_iy z) (m_wz z) (m_af2 z) (m_bc2 z) (m_de2 z)
    (m_hl2 z) v (m_r2 z) (m_iff1 z) (m_iff2 z) (m_halt z) (m_im z) (m_i z) (m_nmi_state z)
    (m_nmi_pending z) (m_irq_state z) (m_wait_state z) (busreq z) (busack z) (reset z)
    (m_after_ei z) (m_after_ldair z) (m_ea z) (m_icount z) (current_cycle z) (nmi_start z)
    (int_pulse_start z) (int_pulse_end z) (bank_reg z) (m_rtemp z) (int_is_nmi z) (im2_vector z)
    (m_cc_op z) (m_cc_cb z) (m_cc_ed z) (m_cc_xy z) (m_cc_xycb z) (m_cc_ex z) (read_pointers z)
    (write_pointers z) (host z).
Definition set_m_r2 (v : Z) (z : z80_device) : z80_device :=
  Build_z80_device (options z) (mem_pointers z) (system z) (m_prvpc z) (m_pc z) (m_sp z)
    (m_af z) (m_bc z) (m_de z) (m_hl z) (m_ix z) (m_iy z) (m_wz z) (m_af2 z) (m_bc2 z) (m_de2 z)
    (m_hl2 z) (m_r z) v (m_iff1 z) (m_iff2 z) (m_halt z) (m_im z) (m_i z) (m_nmi_state z)
    (m_nmi_pending z) (m_irq_state z) (m_wait_state z) (busreq z) (busack z) (reset z)
    (m_after_ei z) (m_after_ldair z) (m_ea z) (m_icount z) (current_cycle z) (nmi_start z)
    (int_pulse_start z) (int_pulse_end z) (bank_reg z) (m_rtemp z) (int_is_nmi z) (im2_vector z)
    (m_cc_op z) (m_cc_cb z) (m_cc_ed z) (m_cc_xy z) (m_cc_xycb z) (m_cc_ex z) (read_pointers z)
    (write_pointers z) (host z).
Definition set_m_iff1 (v : Z) (z : z80_device) : z80_device :=
  Build_z80_device (options z) (mem_pointers z) (system z) (m_prvpc z) (m_pc z) (m_sp z)
    (m_af z) (m_bc z) (m_de z) (m_hl z) (m_ix z) (m_iy z) (m_wz z) (m_af2 z) (m_bc2 z) (m_de2 z)
    (m_hl2 z) (m_r z) (m_r2 z) v (m_iff2 z) (m_halt z) (m_im z) (m_i z) (m_nmi_state z)
    (m_nmi_pending z) (m_irq_state z) (m_wait_state z) (busreq z) (busack z) (reset z)
    (m_after_ei z) (m_after_ldair z) (m_ea z) (m_icount z) (current_cycle z) (nmi_start z)
    (int_pulse_start z) (int_pulse_end z) (bank_reg z) (m_rtemp z) (int_is_nmi z) (im2_vector z)
    (m_cc_op z) (m_cc_cb z) (m_cc_ed z) (m_cc_xy z) (m_cc_xycb z) (m_cc_ex z) (read_pointers z)
    (write_pointers z) (host z).
Definition set_m_iff2 (v : Z) (z : z80_device) : z80_device :=
  Build_z80_device (options z) (mem_pointers z) (system z) (m_prvpc z) (m_pc z) (m_sp z)
    (m_af z) (m_bc z) (m_de z) (m_hl z) (m_ix z) (m_iy z) (m_wz z) (m_af2 z) (m_bc2 z) (m_de2 z)
    (m_hl2 z) (m_r z) (m_r2 z) (m_iff1 z) v (m_halt z) (m_im z) (m_i z) (m_nmi_state z)
    (m_nmi_pending z) (m_irq_state z) (m_wait_state z) (busreq z) (busack z) (reset z)
    (m_after_ei z) (m_after_ldair z) (m_ea z) (m_icount z) (current_cycle z) (nmi_start z)
    (int_pulse_start z) (int_pulse_end z) (bank_reg z) (m_rtemp z) (int_is_nmi z) (im2_vector z)
    (m_cc_op z) (m_cc_cb z) (m_cc_ed z) (m_cc_xy z) (m_cc_xycb z) (m_cc_ex z) (read_pointers z)
    (write_pointers z) (host z).
Definition set_m_halt (v : Z) (z : z80_device) : z80_device :=
  Build_z80_device (options z) (mem_pointers z) (system z) (m_prvpc z) (m_pc z) (m_sp z)
    (m_af z) (m_bc z) (m_de z) (m_hl z) (m_ix z) (m_iy z) (m_wz z) (m_af2 z) (m_bc2 z) (m_de2 z)
    (m_hl2 z) (m_r z) (m_r2 z) (m_iff1 z) (m_iff2 z) v (m_im z) (m_i z) (m_nmi_state z)
    (m_nmi_pending z) (m_irq_state z) (m_wait_state z) (busreq z) (busack z) (reset z)
    (m_after_ei z) (m_after_ldair z) (m_ea z) (m_icount z) (current_cycle z) (nmi_start z)
    (int_pulse_start z) (int_pulse_end z) (bank_reg z) (m_rtemp z) (int_is_nmi z) (im2_vector z)
    (m_cc_op z) (m_cc_cb z) (m_cc_ed z) (m_cc_xy z) (m_cc_xycb z) (m_cc_ex z) (read_pointers z)
    (write_pointers z) (host z).
Definition set_m_im (v : Z) (z : z80_device) : z80_device :=
  Build_z80_device (options z) (mem_pointers z) (system z) (m_prvpc z) (m_pc z) (m_sp z)
    (m_af z) (m_bc z) (m_de z) (m_hl z) (m_ix z) (m_iy z) (m_wz z) (m_af2 z) (m_bc2 z) (m_de2 z)
    (m_hl2 z) (m_r z) (m_r2 z) (m_iff1 z) (m_iff2 z) (m_halt z) v (m_i z) (m_nmi_state z)
    (m_nmi_pending z) (m_irq_state z) (m_wait_state z) (busreq z) (busack z) (reset z)
    (m_after_ei z) (m_after_ldair z) (m_ea z) (m_icount z) (current_cycle z) (nmi_start z)
    (int_pulse_start z) (int_pulse_end z) (bank_reg z) (m_rtemp z) (int_is_nmi z) (im2_vector z)
    (m_cc_op z) (m_cc_cb z) (m_cc_ed z) (m_cc_xy z) (m_cc_xycb z) (m_cc_ex z) (read_pointers z)
    (write_pointers z) (host z).
Definition set_m_i (v : Z) (z : z80_device) : z80_device :=
  Build_z80_device (options z) (mem_pointers z) (system z) (m_prvpc z) (m_pc z) (m_sp z)
    (m_af z) (m_bc z) (m_de z) (m_hl z) (m_ix z) (m_iy z) (m_wz z) (m_af2 z) (m_bc2 z) (m_de2 z)
    (m_hl2 z) (m_r z) (m_r2 z) (m_iff1 z) (m_iff2 z) (m_halt z) (m_im z) v (m_nmi_state z)
    (m_nmi_pending z) (m_irq_state z) (m_wait_state z) (busreq z) (busack z) (reset z)
    (m_after_ei z) (m_after_ldair z) (m_ea z) (m_icount z) (current_cycle z) (nmi_start z)
    (int_pulse_start z) (int_pulse_end z) (bank_reg z) (m_rtemp z) (int_is_nmi z) (im2_vector z)
    (m_cc_op z) (m_cc_cb z) (m_cc_ed z) (m_cc_xy z) (m_cc_xycb z) (m_cc_ex z) (read_pointers z)
    (write_pointers z) (host z).
Definition set_m_nmi_state (v : Z) (z : z80_device) : z80_device :=
  Build_z80_device (options z) (mem_pointers z) (system z) (m_prvpc z) (m_pc z) (m_sp z)
    (m_af z) (m_bc z) (m_de z) (m_hl z) (m_ix z) (m_iy z) (m_wz z) (m_af2 z) (m_bc2 z) (m_de2 z)
    (m_hl2 z) (m_r z) (m_r2 z) (m_iff1 z) (m_iff2 z) (m_halt z) (m_im z) (m_i z) v
    (m_nmi_pending z) (m_irq_state z) (m_wait_state z) (busreq z) (busack z) (reset z)
    (m_after_ei z) (m_after_ldair z) (m_ea z) (m_icount z) (current_cycle z) (nmi_start z)
    (int_pulse_start z) (int_pulse_end z) (bank_reg z) (m_rtemp z) (int_is_nmi z) (im2_vector z)
    (m_cc_op z) (m_cc_cb z) (m_cc_ed z) (m_cc_xy z) (m_cc_xycb z) (m_cc_ex z) (read_pointers z)
    (write_pointers z) (host z).
Definition set_m_nmi_pending (v : Z) (z : z80_device) : z80_device :=
  Build_z80_device (options z) (mem_pointers z) (system z) (m_prvpc z) (m_pc z) (m_sp z)
    (m_af z) (m_bc z) (m_de z) (m_hl z) (m_ix z) (m_iy z) (m_wz z) (m_af2 z) (m_bc2 z) (m_de2 z)
    (m_hl2 z) (m_r z) (m_r2 z) (m_iff1 z) (m_iff2 z) (m_halt z) (m_im z) (m_i z) (m_nmi_state z)
    v (m_irq_state z) (m_wait_state z) (busreq z) (busack z) (reset z) (m_after_ei z)
    (m_after_ldair z) (m_ea z) (m_icount z) (current_cycle z) (nmi_start z) (int_pulse_start z)
    (int_pulse_end z) (bank_reg z) (m_rtemp z) (int_is_nmi z) (im2_vector z) (m_cc_op z)
    (m_cc_cb z) (m_cc_ed z) (m_cc_xy z) (m_cc_xycb z) (m_cc_ex z) (read_pointers z)
    (write_pointers z) (host z).
Definition set_m_irq_state (v : Z) (z : z80_device) : z80_device :=
  Build_z80_device (options z) (mem_pointers z) (system z) (m_prvpc z) (m_pc z) (m_sp z)
    (m_af z) (m_bc z) (m_de z) (m_hl z) (m_ix z) (m_iy z) (m_wz z) (m_af2 z) (m_bc2 z) (m_de2 z)
    (m_hl2 z) (m_r z) (m_r2 z) (m_iff1 z) (m_iff2 z) (m_halt z) (m_im z) (m_i z) (m_nmi_state z)
    (m_nmi_pending z) v (m_wait_state z) (busreq z) (busack z) (reset z) (m_after_ei z)
    (m_after_ldair z) (m_ea z) (m_icount z) (current_cycle z) (nmi_start z) (int_pulse_start z)
    (int_pulse_end z) (bank_reg z) (m_rtemp z) (int_is_nmi z) (im2_vector z) (m_cc_op z)
    (m_cc_cb z) (m_cc_ed z) (m_cc_xy z) (m_cc_xycb z) (m_cc_ex z) (read_pointers z)
    (write_pointers z) (host z).
Definition set_m_wait_state (v : Z) (z : z80_device) : z80_device :=
  Build_z80_device (options z) (mem_pointers z) (system z) (m_prvpc z) (m_pc z) (m_sp z)
    (m_af z) (m_bc z) (m_de z) (m_hl z) (m_ix z) (m_iy z) (m_wz z) (m_af2 z) (m_bc2 z) (m_de2 z)
    (m_hl2 z) (m_r z) (m_r2 z) (m_iff1 z) (m_iff2 z) (m_halt z) (m_im z) (m_i z) (m_nmi_state z)
    (m_nmi_pending z) (m_irq_state z) v (busreq z) (busack z) (reset z) (m_after_ei z)
    (m_after_ldair z) (m_ea z) (m_icount z) (current_cycle z) (nmi_start z) (int_pulse_start z)
    (int_pulse_end z) (bank_reg z) (m_rtemp z) (int_is_nmi z) (im2_vector z) (m_cc_op z)
    (m_cc_cb z) (m_cc_ed z) (m_cc_xy z) (m_cc_xycb z) (m_cc_ex z) (read_pointers z)
    (write_pointers z) (host z).
Definition set_busreq (v : Z) (z : z80_device) : z80_device :=
  Build_z80_device (options z) (mem_pointers z) (system z) (m_prvpc z) (m_pc z) (m_sp z)
    (m_af z) (m_bc z) (m_de z) (m_hl z) (m_ix z) (m_iy z) (m_wz z) (m_af2 z) (m_bc2 z) (m_de2 z)
    (m_hl2 z) (m_r z) (m_r2 z) (m_iff1 z) (m_iff2 z) (m_halt z) (m_im z) (m_i z) (m_nmi_state z)
    (m_nmi_pending z) (m_irq_state z) (m_wait_state z) v (busack z) (reset z) (m_after_ei z)
    (m_after_ldair z) (m_ea z) (m_icount z) (current_cycle z) (nmi_start z) (int_pulse_start z)
    (int_pulse_end z) (bank_reg z) (m_rtemp z) (int_is_nmi z) (im2_vector z) (m_cc_op z)
    (m_cc_cb z) (m_cc_ed z) (m_cc_xy z) (m_cc_xycb z) (m_cc_ex z) (read_pointers z)
    (write_pointers z) (host z).
Definition set_busack (v : Z) (z : z80_device) : z80_device :=
  Build_z80_device (options z) (mem_pointers z) (system z) (m_prvpc z) (m_pc z) (m_sp z)
    (m_af z) (m_bc z) (m_de z) (m_hl z) (m_ix z) (m_iy z) (m_wz z) (m_af2 z) (m_bc2 z) (m_de2 z)
    (m_hl2 z) (m_r z) (m_r2 z) (m_iff1 z) (m_iff2 z) (m_halt z) (m_im z) (m_i z) (m_nmi_state z)
    (m_nmi_pending z) (m_irq_state z) (m_wait_state z) (busreq z) v (reset z) (m_after_ei z)
    (m_after_ldair z) (m_ea z) (m_icount z) (current_cycle z) (nmi_start z) (int_pulse_start z)
    (int_pulse_end z) (bank_reg z) (m_rtemp z) (int_is_nmi z) (im2_vector z) (m_cc_op z)
    (m_cc_cb z) (m_cc_ed z) (m_cc_xy z) (m_cc_xycb z) (m_cc_ex z) (read_pointers z)
    (write_pointers z) (host z).
Definition set_reset (v : Z) (z : z80_device) : z80_device :=
  Build_z80_device (options z) (mem_pointers z) (system z) (m_prvpc z) (m_pc z) (m_sp z)
    (m_af z) (m_bc z) (m_de z) (m_hl z) (m_ix z) (m_iy z) (m_wz z) (m_af2 z) (m_bc2 z) (m_de2 z)
    (m_hl2 z) (m_r z) (m_r2 z) (m_iff1 z) (m_iff2 z) (m_halt z) (m_im z) (m_i z) (m_nmi_state z)
    (m_nmi_pending z) (m_irq_state z) (m_wait_state z) (busreq z) (busack z) v (m_after_ei z)
    (m_after_ldair z) (m_ea z) (m_icount z) (current_cycle z) (nmi_start z) (int_pulse_start z)
    (int_pulse_end z) (bank_reg z) (m_rtemp z) (int_is_nmi z) (im2_vector z) (m_cc_op z)
    (m_cc_cb z) (m_cc_ed z) (m_cc_xy z) (m_cc_xycb z) (m_cc_ex z) (read_pointers z)
    (write_pointers z) (host z).
Definition set_m_after_ei (v : Z) (z : z80_device) : z80_device :=
  Build_z80_device (options z) (mem_pointers z) (system z) (m_prvpc z) (m_pc z) (m_sp z)
    (m_af z) (m_bc z) (m_de z) (m_hl z) (m_ix z) (m_iy z) (m_wz z) (m_af2 z) (m_bc2 z) (m_de2 z)
    (m_hl2 z) (m_r z) (m_r2 z) (m_iff1 z) (m_iff2 z) (m_halt z) (m_im z) (m_i z) (m_nmi_state z)
    (m_nmi_pending z) (m_irq_state z) (m_wait_state z) (busreq z) (busack z) (reset z) v
    (m_after_ldair z) (m_ea z) (m_icount z) (current_cycle z) (nmi_start z) (int_pulse_start z)
    (int_pulse_end z) (bank_reg z) (m_rtemp z) (int_is_nmi z) (im2_vector z) (m_cc_op z)
    (m_cc_cb z) (m_cc_ed z) (m_cc_xy z) (m_cc_xycb z) (m_cc_ex z) (read_pointers z)
    (write_pointers z) (host z).
Definition set_m_after_ldair (v : Z) (z : z80_device) : z80_device :=
  Build_z80_device (options z) (mem_pointers z) (system z) (m_prvpc z) (m_pc z) (m_sp z)
    (m_af z) (m_bc z) (m_de z) (m_hl z) (m_ix z) (m_iy z) (m_wz z) (m_af2 z) (m_bc2 z) (m_de2 z)
    (m_hl2 z) (m_r z) (m_r2 z) (m_iff1 z) (m_iff2 z) (m_halt z) (m_im z) (m_i z) (m_nmi_state z)
    (m_nmi_pending z) (m_irq_state z) (m_wait_state z) (busreq z) (busack z) (reset z)
    (m_after_ei z) v (m_ea z) (m_icount z) (current_cycle z) (nmi_start z) (int_pulse_start z)
    (int_pulse_end z) (bank_reg z) (m_rtemp z) (int_is_nmi z) (im2_vector z) (m_cc_op z)
    (m_cc_cb z) (m_cc_ed z) (m_cc_xy z) (m_cc_xycb z) (m_cc_ex z) (read_pointers z)
    (write_pointers z) (host z).
Definition set_m_ea (v : Z) (z : z80_device) : z80_device :=
  Build_z80_device (options z) (mem_pointers z) (system z) (m_prvpc z) (m_pc z) (m_sp z)
    (m_af z) (m_bc z) (m_de z) (m_hl z) (m_ix z) (m_iy z) (m_wz z) (m_af2 z) (m_bc2 z) (m_de2 z)
    (m_hl2 z) (m_r z) (m_r2 z) (m_iff1 z) (m_iff2 z) (m_halt z) (m_im z) (m_i z) (m_nmi_state z)
    (m_nmi_pending z) (m_irq_state z) (m_wait_state z) (busreq z) (busack z) (reset z)
    (m_after_ei z) (m_after_ldair z) v (m_icount z) (current_cycle z) (nmi_start z)
    (int_pulse_start z) (int_pulse_end z) (bank_reg z) (m_rtemp z) (int_is_nmi z) (im2_vector z)
    (m_cc_op z) (m_cc_cb z) (m_cc_ed z) (m_cc_xy z) (m_cc_xycb z) (m_cc_ex z) (read_pointers z)
    (write_pointers z) (host z).
Definition set_m_icount (v : Z) (z : z80_device) : z80_device :=
  Build_z80_device (options z) (mem_pointers z) (system z) (m_prvpc z) (m_pc z) (m_sp z)
    (m_af z) (m_bc z) (m_de z) (m_hl z) (m_ix z) (m_iy z) (m_wz z) (m_af2 z) (m_bc2 z) (m_de2 z)
    (m_hl2 z) (m_r z) (m_r2 z) (m_iff1 z) (m_iff2 z) (m_halt z) (m_im z) (m_i z) (m_nmi_state z)
    (m_nmi_pending z) (m_irq_state z) (m_wait_state z) (busreq z) (busack z) (reset z)
    (m_after_ei z) (m_after_ldair z) (m_ea z) v (current_cycle z) (nmi_start z)
    (int_pulse_start z) (int_pulse_end z) (bank_reg z) (m_rtemp z) (int_is_nmi z) (im2_vector z)
    (m_cc_op z) (m_cc_cb z) (m_cc_ed z) (m_cc_xy z) (m_cc_xycb z) (m_cc_ex z) (read_pointers z)
    (write_pointers z) (host z).
Definition set_current_cycle (v : Z) (z : z80_device) : z80_device :=
  Build_z80_device (options z) (mem_pointers z) (system z) (m_prvpc z) (m_pc z) (m_sp z)
    (m_af z) (m_bc z) (m_de z) (m_hl z) (m_ix z) (m_iy z) (m_wz z) (m_af2 z) (m_bc2 z) (m_de2 z)
    (m_hl2 z) (m_r z) (m_r2 z) (m_iff1 z) (m_iff2 z) (m_halt z) (m_im z) (m_i z) (m_nmi_state z)
    (m_nmi_pending z) (m_irq_state z) (m_wait_state z) (busreq z) (busack z) (reset z)
    (m_after_ei z) (m_after_ldair z) (m_ea z) (m_icount z) v (nmi_start z) (int_pulse_start z)
    (int_pulse_end z) (bank_reg z) (m_rtemp z) (int_is_nmi z) (im2_vector z) (m_cc_op z)
    (m_cc_cb z) (m_cc_ed z) (m_cc_xy z) (m_cc_xycb z) (m_cc_ex z) (read_pointers z)
    (write_pointers z) (host z).
Definition set_nmi_start (v : Z) (z : z80_device) : z80_device :=
  Build_z80_device (options z) (mem_pointers z) (system z) (m_prvpc z) (m_pc z) (m_sp z)
    (m_af z) (m_bc z) (m_de z) (m_hl z) (m_ix z) (m_iy z) (m_wz z) (m_af2 z) (m_bc2 z) (m_de2 z)
    (m_hl2 z) (m_r z) (m_r2 z) (m_iff1 z) (m_iff2 z) (m_halt z) (m_im z) (m_i z) (m_nmi_state z)
    (m_nmi_pending z) (m_irq_state z) (m_wait_state z) (busreq z) (busack z) (reset z)
    (m_after_ei z) (m_after_ldair z) (m_ea z) (m_icount z) (current_cycle z) v
    (int_pulse_start z) (int_pulse_end z) (bank_reg z) (m_rtemp z) (int_is_nmi z) (im2_vector z)
    (m_cc_op z) (m_cc_cb z) (m_cc_ed z) (m_cc_xy z) (m_cc_xycb z) (m_cc_ex z) (read_pointers z)
    (write_pointers z) (host z).
Definition set_int_pulse_start (v : Z) (z : z80_device) : z80_device :=
  Build_z80_device (options z) (mem_pointers z) (system z) (m_prvpc z) (m_pc z) (m_sp z)
    (m_af z) (m_bc z) (m_de z) (m_hl z) (m_ix z) (m_iy z) (m_wz z) (m_af2 z) (m_bc2 z) (m_de2 z)
    (m_hl2 z) (m_r z) (m_r2 z) (m_iff1 z) (m_iff2 z) (m_halt z) (m_im z) (m_i z) (m_nmi_state z)
    (m_nmi_pending z) (m_irq_state z) (m_wait_state z) (busreq z) (busack z) (reset z)
    (m_after_ei z) (m_after_ldair z) (m_ea z) (m_icount z) (current_cycle z) (nmi_start z) v
    (int_pulse_end z) (bank_reg z) (m_rtemp z) (int_is_nmi z) (im2_vector z) (m_cc_op z)
    (m_cc_cb z) (m_cc_ed z) (m_cc_xy z) (m_cc_xycb z) (m_cc_ex z) (read_pointers z)
    (write_pointers z) (host z).
Definition set_int_pulse_end (v : Z) (z : z80_device) : z80_device :=
  Build_z80_device (options z) (mem_pointers z) (system z) (m_prvpc z) (m_pc z) (m_sp z)
    (m_af z) (m_bc z) (m_de z) (m_hl z) (m_ix z) (m_iy z) (m_wz z) (m_af2 z) (m_bc2 z) (m_de2 z)
    (m_hl2 z) (m_r z) (m_r2 z) (m_iff1 z) (m_iff2 z) (m_halt z) (m_im z) (m_i z) (m_nmi_state z)
    (m_nmi_pending z) (m_irq_state z) (m_wait_state z) (busreq z) (busack z) (reset z)
    (m_after_ei z) (m_after_ldair z) (m_ea z) (m_icount z) (current_cycle z) (nmi_start z)
    (int_pulse_start z) v (bank_reg z) (m_rtemp z) (int_is_nmi z) (im2_vector z) (m_cc_op z)
    (m_cc_cb z) (m_cc_ed z) (m_cc_xy z) (m_cc_xycb z) (m_cc_ex z) (read_pointers z)
    (write_pointers z) (host z).
Definition set_bank_reg (v : Z) (z : z80_device) : z80_device :=
  Build_z80_device (options z) (mem_pointers z) (system z) (m_prvpc z) (m_pc z) (m_sp z)
    (m_af z) (m_bc z) (m_de z) (m_hl z) (m_ix z) (m_iy z) (m_wz z) (m_af2 z) (m_bc2 z) (m_de2 z)
    (m_hl2 z) (m_r z) (m_r2 z) (m_iff1 z) (m_iff2 z) (m_halt z) (m_im z) (m_i z) (m_nmi_state z)
    (m_nmi_pending z) (m_irq_state z) (m_wait_state z) (busreq z) (busack z) (reset z)
    (m_after_ei z) (m_after_ldair z) (m_ea z) (m_icount z) (current_cycle z) (nmi_start z)
    (int_pulse_start z) (int_pulse_end z) v (m_rtemp z) (int_is_nmi z) (im2_vector z)
    (m_cc_op z) (m_cc_cb z) (m_cc_ed z) (m_cc_xy z) (m_cc_xycb z) (m_cc_ex z) (read_pointers z)
    (write_pointers z) (host z).
Definition set_m_rtemp (v : Z) (z : z80_device) : z80_device :=
  Build_z80_device (options z) (mem_pointers z) (system z) (m_prvpc z) (m_pc z) (m_sp z)
    (m_af z) (m_bc z) (m_de z) (m_hl z) (m_ix z) (m_iy z) (m_wz z) (m_af2 z) (m_bc2 z) (m_de2 z)
    (m_hl2 z) (m_r z) (m_r2 z) (m_iff1 z) (m_iff2 z) (m_halt z) (m_im z) (m_i z) (m_nmi_state z)
    (m_nmi_pending z) (m_irq_state z) (m_wait_state z) (busreq z) (busack z) (reset z)
    (m_after_ei z) (m_after_ldair z) (m_ea z) (m_icount z) (current_cycle z) (nmi_start z)
    (int_pulse_start z) (int_pulse_end z) (bank_reg z) v (int_is_nmi z) (im2_vector z)
    (m_cc_op z) (m_cc_cb z) (m_cc_ed z) (m_cc_xy z) (m_cc_xycb z) (m_cc_ex z) (read_pointers z)
    (write_pointers z) (host z).
Definition set_int_is_nmi (v : Z) (z : z80_device) : z80_device :=
  Build_z80_device (options z) (mem_pointers z) (system z) (m_prvpc z) (m_pc z) (m_sp z)
    (m_af z) (m_bc z) (m_de z) (m_hl z) (m_ix z) (m_iy z) (m_wz z) (m_af2 z) (m_bc2 z) (m_de2 z)
    (m_hl2 z) (m_r z) (m_r2 z) (m_iff1 z) (m_iff2 z) (m_halt z) (m_im z) (m_i z) (m_nmi_state z)
    (m_nmi_pending z) (m_irq_state z) (m_wait_state z) (busreq z) (busack z) (reset z)
    (m_after_ei z) (m_after_ldair z) (m_ea z) (m_icount z) (current_cycle z) (nmi_start z)
    (int_pulse_start z) (int_pulse_end z) (bank_reg z) (m_rtemp z) v (im2_vector z) (m_cc_op z)
    (m_cc_cb z) (m_cc_ed z) (m_cc_xy z) (m_cc_xycb z) (m_cc_ex z) (read_pointers z)
    (write_pointers z) (host z).
Definition set_im2_vector (v : Z) (z : z80_device) : z80_device :=
  Build_z80_device (options z) (mem_pointers z) (system z) (m_prvpc z) (m_pc z) (m_sp z)
    (m_af z) (m_bc z) (m_de z) (m_hl z) (m_ix z) (m_iy z) (m_wz z) (m_af2 z) (m_bc2 z) (m_de2 z)
    (m_hl2 z) (m_r z) (m_r2 z) (m_iff1 z) (m_iff2 z) (m_halt z) (m_im z) (m_i z) (m_nmi_state z)
    (m_nmi_pending z) (m_irq_state z) (m_wait_state z) (busreq z) (busack z) (reset z)
    (m_after_ei z) (m_after_ldair z) (m_ea z) (m_icount z) (current_cycle z) (nmi_start z)
    (int_pulse_start z) (int_pulse_end z) (bank_reg z) (m_rtemp z) (int_is_nmi z) v (m_cc_op z)
    (m_cc_cb z) (m_cc_ed z) (m_cc_xy z) (m_cc_xycb z) (m_cc_ex z) (read_pointers z)
    (write_pointers z) (host z).
Definition set_m_cc_op (v : list Z) (z : z80_device) : z80_device :=
  Build_z80_device (options z) (mem_pointers z) (system z) (m_prvpc z) (m_pc z) (m_sp z)
    (m_af z) (m_bc z) (m_de z) (m_hl z) (m_ix z) (m_iy z) (m_wz z) (m_af2 z) (m_bc2 z) (m_de2 z)
    (m_hl2 z) (m_r z) (m_r2 z) (m_iff1 z) (m_iff2 z) (m_halt z) (m_im z) (m_i z) (m_nmi_state z)
    (m_nmi_pending z) (m_irq_state z) (m_wait_state z) (busreq z) (busack z) (reset z)
    (m_after_ei z) (m_after_ldair z) (m_ea z) (m_icount z) (current_cycle z) (nmi_start z)
    (int_pulse_start z) (int_pulse_end z) (bank_reg z) (m_rtemp z) (int_is_nmi z) (im2_vector z)
    v (m_cc_cb z) (m_cc_ed z) (m_cc_xy z) (m_cc_xycb z) (m_cc_ex z) (read_pointers z)
    (write_pointers z) (host z).
Definition set_m_cc_cb (v : list Z) (z : z80_device) : z80_device :=
  Build_z80_device (options z) (mem_pointers z) (system z) (m_prvpc z) (m_pc z) (m_sp z)
    (m_af z) (m_bc z) (m_de z) (m_hl z) (m_ix z) (m_iy z) (m_wz z) (m_af2 z) (m_bc2 z) (m_de2 z)
    (m_hl2 z) (m_r z) (m_r2 z) (m_iff1 z) (m_iff2 z) (m_halt z) (m_im z) (m_i z) (m_nmi_state z)
    (m_nmi_pending z) (m_irq_state z) (m_wait_state z) (busreq z) (busack z) (reset z)
    (m_after_ei z) (m_after_ldair z) (m_ea z) (m_icount z) (current_cycle z) (nmi_start z)
    (int_pulse_start z) (int_pulse_end z) (bank_reg z) (m_rtemp z) (int_is_nmi z) (im2_vector z)
    (m_cc_op z) v (m_cc_ed z) (m_cc_xy z) (m_cc_xycb z) (m_cc_ex z) (read_pointers z)
    (write_pointers z) (host z).
Definition set_m_cc_ed (v : list Z) (z : z80_device) : z80_device :=
  Build_z80_device (options z) (mem_pointers z) (system z) (m_prvpc z) (m_pc z) (m_sp z)
    (m_af z) (m_bc z) (m_de z) (m_hl z) (m_ix z) (m_iy z) (m_wz z) (m_af2 z) (m_bc2 z) (m_de2 z)
    (m_hl2 z) (m_r z) (m_r2 z) (m_iff1 z) (m_iff2 z) (m_halt z) (m_im z) (m_i z) (m_nmi_state z)
    (m_nmi_pending z) (m_irq_state z) (m_wait_state z) (busreq z) (busack z) (reset z)
    (m_after_ei z) (m_after_ldair z) (m_ea z) (m_icount z) (current_cycle z) (nmi_start z)
    (int_pulse_start z) (int_pulse_end z) (bank_reg z) (m_rtemp z) (int_is_nmi z) (im2_vector z)
    (m_cc_op z) (m_cc_cb z) v (m_cc_xy z) (m_cc_xycb z) (m_cc_ex z) (read_pointers z)
    (write_pointers z) (host z).
Definition set_m_cc_xy (v : list Z) (z : z80_device) : z80_device :=
  Build_z80_device (options z) (mem_pointers z) (system z) (m_prvpc z) (m_pc z) (m_sp z)
    (m_af z) (m_bc z) (m_de z) (m_hl z) (m_ix z) (m_iy z) (m_wz z) (m_af2 z) (m_bc2 z) (m_de2 z)
    (m_hl2 z) (m_r z) (m_r2 z) (m_iff1 z) (m_iff2 z) (m_halt z) (m_im z) (m_i z) (m_nmi_state z)
    (m_nmi_pending z) (m_irq_state z) (m_wait_state z) (busreq z) (busack z) (reset z)
    (m_after_ei z) (m_after_ldair z) (m_ea z) (m_icount z) (current_cycle z) (nmi_start z)
    (int_pulse_start z) (int_pulse_end z) (bank_reg z) (m_rtemp z) (int_is_nmi z) (im2_vector z)
    (m_cc_op z) (m_cc_cb z) (m_cc_ed z) v (m_cc_xycb z) (m_cc_ex z) (read_pointers z)
    (write_pointers z) (host z).
Definition set_m_cc_xycb (v : list Z) (z : z80_device) : z80_device :=
  Build_z80_device (options z) (mem_pointers z) (system z) (m_prvpc z) (m_pc z) (m_sp z)
    (m_af z) (m_bc z) (m_de z) (m_hl z) (m_ix z) (m_iy z) (m_wz z) (m_af2 z) (m_bc2 z) (m_de2 z)
    (m_hl2 z) (m_r z) (m_r2 z) (m_iff1 z) (m_iff2 z) (m_halt z) (m_im z) (m_i z) (m_nmi_state z)
    (m_nmi_pending z) (m_irq_state z) (m_wait_state z) (busreq z) (busack z) (reset z)
    (m_after_ei z) (m_after_ldair z) (m_ea z) (m_icount z) (current_cycle z) (nmi_start z)
    (int_pulse_start z) (int_pulse_end z) (bank_reg z) (m_rtemp z) (int_is_nmi z) (im2_vector z)
    (m_cc_op z) (m_cc_cb z) (m_cc_ed z) (m_cc_xy z) v (m_cc_ex z) (read_pointers z)
    (write_pointers z) (host z).
Definition set_m_cc_ex (v : list Z) (z : z80_device) : z80_device :=
  Build_z80_device (options z) (mem_pointers z) (system z) (m_prvpc z) (m_pc z) (m_sp z)
    (m_af z) (m_bc z) (m_de z) (m_hl z) (m_ix z) (m_iy z) (m_wz z) (m_af2 z) (m_bc2 z) (m_de2 z)
    (m_hl2 z) (m_r z) (m_r2 z) (m_iff1 z) (m_iff2 z) (m_halt z) (m_im z) (m_i z) (m_nmi_state z)
    (m_nmi_pending z) (m_irq_state z) (m_wait_state z) (busreq z) (busack z) (reset z)
    (m_after_ei z) (m_after_ldair z) (m_ea z) (m_icount z) (current_cycle z) (nmi_start z)
    (int_pulse_start z) (int_pulse_end z) (bank_reg z) (m_rtemp z) (int_is_nmi z) (im2_vector z)
    (m_cc_op z) (m_cc_cb z) (m_cc_ed z) (m_cc_xy z) (m_cc_xycb z) v (read_pointers z)
    (write_pointers z) (host z).
Definition set_read_pointers (v : Z -> option Z) (z : z80_device) : z80_device :=
  Build_z80_device (options z) (mem_pointers z) (system z) (m_prvpc z) (m_pc z) (m_sp z)
    (m_af z) (m_bc z) (m_de z) (m_hl z) (m_ix z) (m_iy z) (m_wz z) (m_af2 z) (m_bc2 z) (m_de2 z)
    (m_hl2 z) (m_r z) (m_r2 z) (m_iff1 z) (m_iff2 z) (m_halt z) (m_im z) (m_i z) (m_nmi_state z)
    (m_nmi_pending z) (m_irq_state z) (m_wait_state z) (busreq z) (busack z) (reset z)
    (m_after_ei z) (m_after_ldair z) (m_ea z) (m_icount z) (current_cycle z) (nmi_start z)
    (int_pulse_start z) (int_pulse_end z) (bank_reg z) (m_rtemp z) (int_is_nmi z) (im2_vector z)
    (m_cc_op z) (m_cc_cb z) (m_cc_ed z) (m_cc_xy z) (m_cc_xycb z) (m_cc_ex z) v
    (write_pointers z) (host z).
Definition set_write_pointers (v : Z -> option Z) (z : z80_device) : z80_device :=
  Build_z80_device (options z) (mem_pointers z) (system z) (m_prvpc z) (m_pc z) (m_sp z)
    (m_af z) (m_bc z) (m_de z) (m_hl z) (m_ix z) (m_iy z) (m_wz z) (m_af2 z) (m_bc2 z) (m_de2 z)
    (m_hl2 z) (m_r z) (m_r2 z) (m_iff1 z) (m_iff2 z) (m_halt z) (m_im z) (m_i z) (m_nmi_state z)
    (m_nmi_pending z) (m_irq_state z) (m_wait_state z) (busreq z) (busack z) (reset z)
    (m_after_ei z) (m_after_ldair z) (m_ea z) (m_icount z) (current_cycle z) (nmi_start z)
    (int_pulse_start z) (int_pulse_end z) (bank_reg z) (m_rtemp z) (int_is_nmi z) (im2_vector z)
    (m_cc_op z) (m_cc_cb z) (m_cc_ed z) (m_cc_xy z) (m_cc_xycb z) (m_cc_ex z) (read_pointers z)
    v (host z).
Definition set_host (v : Z -> Z) (z : z80_device) : z80_device :=
  Build_z80_device (options z) (mem_pointers z) (system z) (m_prvpc z) (m_pc z) (m_sp z)
    (m_af z) (m_bc z) (m_de z) (m_hl z) (m_ix z) (m_iy z) (m_wz z) (m_af2 z) (m_bc2 z) (m_de2 z)
    (m_hl2 z) (m_r z) (m_r2 z) (m_iff1 z) (m_iff2 z) (m_halt z) (m_im z) (m_i z) (m_nmi_state z)
    (m_nmi_pending z) (m_irq_state z) (m_wait_state z) (busreq z) (busack z) (reset z)
    (m_after_ei z) (m_after_ldair z) (m_ea z) (m_icount z) (current_cycle z) (nmi_start z)
    (int_pulse_start z) (int_pulse_end z) (bank_reg z) (m_rtemp z) (int_is_nmi z) (im2_vector z)
    (m_cc_op z) (m_cc_cb z) (m_cc_ed z) (m_cc_xy z) (m_cc_xycb z) (m_cc_ex z) (read_pointers z)
    (write_pointers z) v.

(** ** The register shortcuts of z80.c *)

Definition PRVPC (z : z80_device) : Z := m_prvpc z.
Definition PCD (z : z80_device) : Z := m_pc z.
Definition PC (z : z80_device) : Z := w_l (m_pc z).
Definition SPD (z : z80_device) : Z := m_sp z.
Definition SP (z : z80_device) : Z := w_l (m_sp z).
Definition AFD (z : z80_device) : Z := m_af z.
Definition A (z : z80_device) : Z := b_h (m_af z).
Definition F (z : z80_device) : Z := b_l (m_af z).
Definition BC (z : z80_device) : Z := w_l (m_bc z).
Definition B (z : z80_device) : Z := b_h (m_bc z).
Definition DE (z : z80_device) : Z := w_l (m_de z).
Definition HL (z : z80_device) : Z := w_l (m_hl z).
Definition IX (z : z80_device) : Z := w_l (m_ix z).
Definition IY (z : z80_device) : Z := w_l (m_iy z).
Definition WZ (z : z80_device) : Z := w_l (m_wz z).

Definition set_PCD (v : Z) (z : z80_device) : z80_device := set_m_pc (set_d v) z.
Definition set_PC (v : Z) (z : z80_device) : z80_device :=
  set_m_pc (set_w_l v (m_pc z)) z.
Definition set_SP (v : Z) (z : z80_device) : z80_device :=
  set_m_sp (set_w_l v (m_sp z)) z.
Definition set_A (v : Z) (z : z80_device) : z80_device :=
  set_m_af (set_b_h v (m_af z)) z.
Definition set_F (v : Z) (z : z80_device) : z80_device :=
  set_m_af (set_b_l v (m_af z)) z.
Definition set_BC (v : Z) (z : z80_device) : z80_device :=
  set_m_bc (set_w_l v (m_bc z)) z.
Definition set_HL (v : Z) (z : z80_device) : z80_device :=
  set_m_hl (set_w_l v (m_hl z)) z.
Definition set_IX (v : Z) (z : z80_device) : z80_device :=
  set_m_ix (set_w_l v (m_ix z)) z.
Definition set_IY (v : Z) (z : z80_device) : z80_device :=
  set_m_iy (set_w_l v (m_iy z)) z.
Definition set_WZ (v : Z) (z : z80_device) : z80_device :=
  set_m_wz (set_w_l v (m_wz z)) z.
Definition set_WZ_L (v : Z) (z : z80_device) : z80_device :=
  set_m_wz (set_b_l v (m_wz z)) z.
Definition set_WZ_H (v : Z) (z : z80_device) : z80_device :=
  set_m_wz (set_b_h v (m_wz z)) z.

(** A [PAIR *] argument always points at a register pair of the context
    itself ([&z80->m_pc], [&z80->m_bc], ...): it is carried as the name of
    that member, so that a store through it is a store into the context. *)
Inductive pair_ref : Type :=
  | R_pc | R_sp | R_af | R_bc | R_de | R_hl | R_ix | R_iy | R_wz.

Definition get_pair (r : pair_ref) (z : z80_device) : PAIR :=
  match r with
  | R_pc => m_pc z | R_sp => m_sp z | R_af => m_af z | R_bc => m_bc z
  | R_de => m_de z | R_hl => m_hl z | R_ix => m_ix z | R_iy => m_iy z
  | R_wz => m_wz z
  end.

Definition set_pair (r : pair_ref) (v : PAIR) (z : z80_device) : z80_device :=
  match r with
  | R_pc => set_m_pc v z | R_sp => set_m_sp v z | R_af => set_m_af v z
  | R_bc => set_m_bc v z | R_de => set_m_de v z | R_hl => set_m_hl v z
  | R_ix => set_m_ix v z | R_iy => set_m_iy v z | R_wz => set_m_wz v z
  end.

(** ** What the core reaches outside z80.c

    [read_byte] and [write_byte] are the slow path of backend.c (the chunk
    callbacks, which receive the context and may change it);
    [next_int_pulse] is the host callback member of the context, which may
    be null; [op_other] stands for the handlers of z80.c that are not
    translated below, by opcode. *)
Record z80_env : Type := Build_z80_env {
  read_byte : Z -> z80_device -> Z * z80_device;
  write_byte : Z -> Z -> z80_device -> z80_device;
  next_int_pulse : option (z80_device -> z80_device);
  op_other : Z -> z80_device -> z80_device
}.

(** ** Flag bits and cycle tables *)

Definition CF : Z := 0x01.
Definition NF : Z := 0x02.
Definition PF : Z := 0x04.
Definition VF : Z := PF.
Definition XF : Z := 0x08.
Definition HF : Z := 0x10.
Definition YF : Z := 0x20.
Definition ZF : Z := 0x40.
Definition SF : Z := 0x80.

Definition cc_op : list Z := [
   4; 10;  7;  6;  4;  4;  7;  4;  4; 11;  7;  6;  4;  4;  7;  4;
   8; 10;  7;  6;  4;  4;  7;  4; 12; 11;  7;  6;  4;  4;  7;  4;
   7; 10; 16;  6;  4;  4;  7;  4;  7; 11; 16;  6;  4;  4;  7;  4;
   7; 10; 13;  6; 11; 11; 10;  4;  7; 11; 13;  6;  4;  4;  7;  4;
   4;  4;  4;  4;  4;  4;  7;  4;  4;  4;  4;  4;  4;  4;  7;  4;
   4;  4;  4;  4;  4;  4;  7;  4;  4;  4;  4;  4;  4;  4;  7;  4;
   4;  4;  4;  4;  4;  4;  7;  4;  4;  4;  4;  4;  4;  4;  7;  4;
   7;  7;  7;  7;  7;  7;  4;  7;  4;  4;  4;  4;  4;  4;  7;  4;
   4;  4;  4;  4;  4;  4;  7;  4;  4;  4;  4;  4;  4;  4;  7;  4;
   4;  4;  4;  4;  4;  4;  7;  4;  4;  4;  4;  4;  4;  4;  7;  4;
   4;  4;  4;  4;  4;  4;  7;  4;  4;  4;  4;  4;  4;  4;  7;  4;
   4;  4;  4;  4;  4;  4;  7;  4;  4;  4;  4;  4;  4;  4;  7;  4;
   5; 10; 10; 10; 10; 11;  7; 11;  5; 10; 10;  0; 10; 17;  7; 11;
   5; 10; 10; 11; 10; 11;  7; 11;  5;  4; 10; 11; 10;  0;  7; 11;
   5; 10; 10; 19; 10; 11;  7; 11;  5;  4; 10;  4; 10;  0;  7; 11;
   5; 10; 10;  4; 10; 11;  7; 11;  5;  6; 10;  4; 10;  0;  7; 11
].

Definition cc_cb : list Z := [
   8;  8;  8;  8;  8;  8; 15;  8;  8;  8;  8;  8;  8;  8; 15;  8;
   8;  8;  8;  8;  8;  8; 15;  8;  8;  8;  8;  8;  8;  8; 15;  8;
   8;  8;  8;  8;  8;  8; 15;  8;  8;  8;  8;  8;  8;  8; 15;  8;
   8;  8;  8;  8;  8;  8; 15;  8;  8;  8;  8;  8;  8;  8; 15;  8;
   8;  8;  8;  8;  8;  8; 12;  8;  8;  8;  8;  8;  8;  8; 12;  8;
   8;  8;  8;  8;  8;  8; 12;  8;  8;  8;  8;  8;  8;  8; 12;  8;
   8;  8;  8;  8;  8;  8; 12;  8;  8;  8;  8;  8;  8;  8; 12;  8;
   8;  8;  8;  8;  8;  8; 12;  8;  8;  8;  8;  8;  8;  8; 12;  8;
   8;  8;  8;  8;  8;  8; 15;  8;  8;  8;  8;  8;  8;  8; 15;  8;
   8;  8;  8;  8;  8;  8; 15;  8;  8;  8;  8;  8;  8;  8; 15;  8;
   8;  8;  8;  8;  8;  8; 15;  8;  8;  8;  8;  8;  8;  8; 15;  8;
   8;  8;  8;  8;  8;  8; 15;  8;  8;  8;  8;  8;  8;  8; 15;  8;
   8;  8;  8;  8;  8;  8; 15;  8;  8;  8;  8;  8;  8;  8; 15;  8;
   8;  8;  8;  8;  8;  8; 15;  8;  8;  8;  8;  8;  8;  8; 15;  8;
   8;  8;  8;  8;  8;  8; 15;  8;  8;  8;  8;  8;  8;  8; 15;  8;
   8;  8;  8;  8;  8;  8; 15;  8;  8;  8;  8;  8;  8;  8; 15;  8
].

Definition cc_ed : list Z := [
   8;  8;  8;  8;  8;  8;  8;  8;  8;  8;  8;  8;  8;  8;  8;  8;
   8;  8;  8;  8;  8;  8;  8;  8;  8;  8;  8;  8;  8;  8;  8;  8;
   8;  8;  8;  8;  8;  8;  8;  8;  8;  8;  8;  8;  8;  8;  8;  8;
   8;  8;  8;  8;  8;  8;  8;  8;  8;  8;  8;  8;  8;  8;  8;  8;
  12; 12; 15; 20;  8; 14;  8;  9; 12; 12; 15; 20;  8; 14;  8;  9;
  12; 12; 15; 20;  8; 14;  8;  9; 12; 12; 15; 20;  8; 14;  8;  9;
  12; 12; 15; 20;  8; 14;  8; 18; 12; 12; 15; 20;  8; 14;  8; 18;
  12; 12; 15; 20;  8; 14;  8;  8; 12; 12; 15; 20;  8; 14;  8;  8;
   8;  8;  8;  8;  8;  8;  8;  8;  8;  8;  8;  8;  8;  8;  8;  8;
   8;  8;  8;  8;  8;  8;  8;  8;  8;  8;  8;  8;  8;  8;  8;  8;
  16; 16; 16; 16;  8;  8;  8;  8; 16; 16; 16; 16;  8;  8;  8;  8;
  16; 16; 16; 16;  8;  8;  8;  8; 16; 16; 16; 16;  8;  8;  8;  8;
   8;  8;  8;  8;  8;  8;  8;  8;  8;  8;  8;  8;  8;  8;  8;  8;
   8;  8;  8;  8;  8;  8;  8;  8;  8;  8;  8;  8;  8;  8;  8;  8;
   8;  8;  8;  8;  8;  8;  8;  8;  8;  8;  8;  8;  8;  8;  8;  8;
   8;  8;  8;  8;  8;  8;  8;  8;  8;  8;  8;  8;  8;  8;  8;  8
].

Definition cc_xy : list Z := [
   8; 14; 11; 10;  8;  8; 11;  8;  8; 15; 11; 10;  8;  8; 11;  8;
  12; 14; 11; 10;  8;  8; 11;  8; 16; 15; 11; 10;  8;  8; 11;  8;
  11; 14; 20; 10;  8;  8; 11;  8; 11; 15; 20; 10;  8;  8; 11;  8;
  11; 14; 17; 10; 23; 23; 19;  8; 11; 15; 17; 10;  8;  8; 11;  8;
   8;  8;  8;  8;  8;  8; 19;  8;  8;  8;  8;  8;  8;  8; 19;  8;
   8;  8;  8;  8;  8;  8; 19;  8;  8;  8;  8;  8;  8;  8; 19;  8;
   8;  8;  8;  8;  8;  8; 19;  8;  8;  8;  8;  8;  8;  8; 19;  8;
  19; 19; 19; 19; 19; 19;  8; 19;  8;  8;  8;  8;  8;  8; 19;  8;
   8;  8;  8;  8;  8;  8; 19;  8;  8;  8;  8;  8;  8;  8; 19;  8;
   8;  8;  8;  8;  8;  8; 19;  8;  8;  8;  8;  8;  8;  8; 19;  8;
   8;  8;  8;  8;  8;  8; 19;  8;  8;  8;  8;  8;  8;  8; 19;  8;
   8;  8;  8;  8;  8;  8; 19;  8;  8;  8;  8;  8;  8;  8; 19;  8;
   9; 14; 14; 14; 14; 15; 11; 15;  9; 14; 14;  0; 14; 21; 11; 15;
   9; 14; 14; 15; 14; 15; 11; 15;  9;  8; 14; 15; 14;  4; 11; 15;
   9; 14; 14; 23; 14; 15; 11; 15;  9;  8; 14;  8; 14;  4; 11; 15;
   9; 14; 14;  8; 14; 15; 11; 15;  9; 10; 14;  8; 14;  4; 11; 15
].

Definition cc_xycb : list Z := [
  23; 23; 23; 23; 23; 23; 23; 23; 23; 23; 23; 23; 23; 23; 23; 23;
  23; 23; 23; 23; 23; 23; 23; 23; 23; 23; 23; 23; 23; 23; 23; 23;
  23; 23; 23; 23; 23; 23; 23; 23; 23; 23; 23; 23; 23; 23; 23; 23;
  23; 23; 23; 23; 23; 23; 23; 23; 23; 23; 23; 23; 23; 23; 23; 23;
  20; 20; 20; 20; 20; 20; 20; 20; 20; 20; 20; 20; 20; 20; 20; 20;
  20; 20; 20; 20; 20; 20; 20; 20; 20; 20; 20; 20; 20; 20; 20; 20;
  20; 20; 20; 20; 20; 20; 20; 20; 20; 20; 20; 20; 20; 20; 20; 20;
  20; 20; 20; 20; 20; 20; 20; 20; 20; 20; 20; 20; 20; 20; 20; 20;
  23; 23; 23; 23; 23; 23; 23; 23; 23; 23; 23; 23; 23; 23; 23; 23;
  23; 23; 23; 23; 23; 23; 23; 23; 23; 23; 23; 23; 23; 23; 23; 23;
  23; 23; 23; 23; 23; 23; 23; 23; 23; 23; 23; 23; 23; 23; 23; 23;
  23; 23; 23; 23; 23; 23; 23; 23; 23; 23; 23; 23; 23; 23; 23; 23;
  23; 23; 23; 23; 23; 23; 23; 23; 23; 23; 23; 23; 23; 23; 23; 23;
  23; 23; 23; 23; 23; 23; 23; 23; 23; 23; 23; 23; 23; 23; 23; 23;
  23; 23; 23; 23; 23; 23; 23; 23; 23; 23; 23; 23; 23; 23; 23; 23;
  23; 23; 23; 23; 23; 23; 23; 23; 23; 23; 23; 23; 23; 23; 23; 23
].

Definition cc_ex : list Z := [
   0;  0;  0;  0;  0;  0;  0;  0;  0;  0;  0;  0;  0;  0;  0;  0;
   5;  0;  0;  0;  0;  0;  0;  0;  0;  0;  0;  0;  0;  0;  0;  0;
   5;  0;  0;  0;  0;  0;  0;  0;  5;  0;  0;  0;  0;  0;  0;  0;
   5;  0;  0;  0;  0;  0;  0;  0;  5;  0;  0;  0;  0;  0;  0;  0;
   0;  0;  0;  0;  0;  0;  0;  0;  0;  0;  0;  0;  0;  0;  0;  0;
   0;  0;  0;  0;  0;  0;  0;  0;  0;  0;  0;  0;  0;  0;  0;  0;
   0;  0;  0;  0;  0;  0;  0;  0;  0;  0;  0;  0;  0;  0;  0;  0;
   0;  0;  0;  0;  0;  0;  0;  0;  0;  0;  0;  0;  0;  0;  0;  0;
   0;  0;  0;  0;  0;  0;  0;  0;  0;  0;  0;  0;  0;  0;  0;  0;
   0;  0;  0;  0;  0;  0;  0;  0;  0;  0;  0;  0;  0;  0;  0;  0;
   0;  0;  0;  0;  0;  0;  0;  0;  0;  0;  0;  0;  0;  0;  0;  0;
   5;  5;  5;  5;  0;  0;  0;  0;  5;  5;  5;  5;  0;  0;  0;  0;
   6;  0;  0;  0;  7;  0;  0;  2;  6;  0;  0;  0;  7;  0;  0;  2;
   6;  0;  0;  0;  7;  0;  0;  2;  6;  0;  0;  0;  7;  0;  0;  2;
   6;  0;  0;  0;  7;  0;  0;  2;  6;  0;  0;  0;  7;  0;  0;  2;
   6;  0;  0;  0;  7;  0;  0;  2;  6;  0;  0;  0;  7;  0;  0;  2
].


(** [CC(prefix,opcode)]: [m_icount -= m_cc_prefix[opcode]]. *)
Definition CC_op (opcode : Z) (z : z80_device) : z80_device :=
  set_m_icount (int32 (m_icount z - tbl (m_cc_op z) opcode)) z.
Definition CC_ex (opcode : Z) (z : z80_device) : z80_device :=
  set_m_icount (int32 (m_icount z - tbl (m_cc_ex z) opcode)) z.

(** ** The flag tables built once by [init_z80_context] *)

Definition range256 : list Z := map Z.of_nat (seq 0 256).

(** The four stores of one round of the inner loop, for [oldval] and
    [newval]. *)
Definition padd_entry (oldval newval : Z) : Z :=
  let val := newval - oldval in
  let e := if truthy newval then (if truthy (Z.land newval 0x80) then SF else 0) else ZF in
  let e := Z.lor e (Z.land newval (Z.lor YF XF)) in
  let e := if Z.land newval 0x0f <? Z.land oldval 0x0f then Z.lor e HF else e in
  let e := if newval <? oldval then Z.lor e CF else e in
  if truthy (Z.land (Z.land (Z.lxor (Z.lxor val oldval) 0x80) (Z.lxor val newval)) 0x80)
  then Z.lor e VF else e.

Definition padc_entry (oldval newval : Z) : Z :=
  let val := newval - oldval - 1 in
  let e := if truthy newval then (if truthy (Z.land newval 0x80) then SF else 0) else ZF in
  let e := Z.lor e (Z.land newval (Z.lor YF XF)) in
  let e := if Z.land newval 0x0f <=? Z.land oldval 0x0f then Z.lor e HF else e in
  let e := if newval <=? oldval then Z.lor e CF else e in
  if truthy (Z.land (Z.land (Z.lxor (Z.lxor val oldval) 0x80) (Z.lxor val newval)) 0x80)
  then Z.lor e VF else e.

Definition psub_entry (oldval newval : Z) : Z :=
  let val := oldval - newval in
  let e := Z.lor NF
             (if truthy newval then (if truthy (Z.land newval 0x80) then SF else 0) else ZF) in
  let e := Z.lor e (Z.land newval (Z.lor YF XF)) in
  let e := if Z.land newval 0x0f >? Z.land oldval 0x0f then Z.lor e HF else e in
  let e := if newval >? oldval then Z.lor e CF else e in
  if truthy (Z.land (Z.land (Z.lxor val oldval) (Z.lxor oldval newval)) 0x80)
  then Z.lor e VF else e.

Definition psbc_entry (oldval newval : Z) : Z :=
  let val := oldval - newval - 1 in
  let e := Z.lor NF
             (if truthy newval then (if truthy (Z.land newval 0x80) then SF else 0) else ZF) in
  let e := Z.lor e (Z.land newval (Z.lor YF XF)) in
  let e := if Z.land newval 0x0f >=? Z.land oldval 0x0f then Z.lor e HF else e in
  let e := if newval >=? oldval then Z.lor e CF else e in
  if truthy (Z.land (Z.land (Z.lxor val oldval) (Z.lxor oldval newval)) 0x80)
  then Z.lor e VF else e.

(** The rows a pointer walks while the two loops run: [oldval] outside,
    [newval] inside. *)
Definition walk (entry : Z -> Z -> Z) : list Z :=
  flat_map (fun oldval => map (entry oldval) range256) range256.

(** [SZHVC_add[2*256*256]]: [padd] fills the first half, [padc] the second;
    [SZHVC_sub] likewise with [psub] and [psbc]. *)
Definition SZHVC_add : list Z := walk padd_entry ++ walk padc_entry.
Definition SZHVC_sub : list Z := walk psub_entry ++ walk psbc_entry.

(** The 256-entry tables of the second loop. *)
Definition parity_count (i : Z) : Z :=
  fold_left (fun p b => if truthy (Z.land i b) then p + 1 else p)
    [0x01; 0x02; 0x04; 0x08; 0x10; 0x20; 0x40; 0x80] 0.

Definition SZ_entry (i : Z) : Z :=
  Z.lor (if truthy i then Z.land i SF else ZF) (Z.land i (Z.lor YF XF)).
Definition SZ_BIT_entry (i : Z) : Z :=
  Z.lor (if truthy i then Z.land i SF else Z.lor ZF PF) (Z.land i (Z.lor YF XF)).
Definition SZP_entry (i : Z) : Z :=
  Z.lor (SZ_entry i) (if truthy (Z.land (parity_count i) 1) then 0 else PF).
Definition SZHV_inc_entry (i : Z) : Z :=
  let e := SZ_entry i in
  let e := if i =? 0x80 then Z.lor e VF else e in
  if Z.land i 0x0f =? 0x00 then Z.lor e HF else e.
Definition SZHV_dec_entry (i : Z) : Z :=
  let e := Z.lor (SZ_entry i) NF in
  let e := if i =? 0x7f then Z.lor e VF else e in
  if Z.land i 0x0f =? 0x0f then Z.lor e HF else e.

Definition SZ_BIT : list Z := map SZ_BIT_entry range256.
Definition SZP : list Z := map SZP_entry range256.
Definition SZHV_inc : list Z := map SZHV_inc_entry range256.
Definition SZHV_dec : list Z := map SZHV_dec_entry range256.

(** ** Memory access *)

Section WithEnv.

Variable E : z80_env.

(** [rm]: the fast path indexes the page's buffer, the slow path is
    [read_byte]. *)
Definition rm (z : z80_device) (addr : Z) : Z * z80_device :=
  let addr := uint16 addr in
  let index := Z.shiftr addr 13 in
  match read_pointers z index with
  | Some p => (uint8 (host z (p + Z.land addr 0x1FFF)), z)
  | None => let (v, z') := read_byte E addr z in (uint8 v, z')
  end.

(** [rm16]: [r->b.l = rm(addr); r->b.h = rm(addr+1)], the second address
    converted to the [uint16_t] parameter of [rm]. *)
Definition rm16 (z : z80_device) (addr : Z) (r : pair_ref) : z80_device :=
  let addr := uint16 addr in
  let (lo, z) := rm z addr in
  let z := set_pair r (set_b_l lo (get_pair r z)) z in
  let (hi, z) := rm z (addr + 1) in
  set_pair r (set_b_h hi (get_pair r z)) z.

Definition wm (z : z80_device) (addr : Z) (value : Z) : z80_device :=
  let addr := uint16 addr in
  let value := uint8 value in
  let index := Z.shiftr addr 13 in
  match write_pointers z index with
  | Some p => set_host (upd (host z) (p + Z.land addr 0x1FFF) value) z
  | None => write_byte E addr value z
  end.

Definition wm16 (z : z80_device) (addr : Z) (r : pair_ref) : z80_device :=
  let addr := uint16 addr in
  let z := wm z addr (b_l (get_pair r z)) in
  wm z (addr + 1) (b_h (get_pair r z)).

(** [rop]: [pc = PCD; PC++; return rm(pc)]. *)
Definition rop (z : z80_device) : Z * z80_device :=
  let pc := PCD z in
  let z := set_PC (PC z + 1) z in
  rm z pc.

Definition arg (z : z80_device) : Z * z80_device := rop z.

Definition arg16 (z : z80_device) : Z * z80_device :=
  let pc := PCD z in
  let z := set_PC (PC z + 2) z in
  let (lo, z) := rm z pc in
  let (hi, z) := rm z (Z.land (pc + 1) 0xffff) in
  (uint16 (Z.lor lo (Z.shiftl hi 8)), z).

(** ** Helpers of the opcode handlers *)

Definition halt (z : z80_device) : z80_device :=
  let z := set_PC (PC z - 1) z in
  set_m_halt 1 z.

Definition leave_halt (z : z80_device) : z80_device :=
  if truthy (m_halt z) then
    let z := set_m_halt 0 z in
    set_PC (PC z + 1) z
  else z.

Definition pop (z : z80_device) (r : pair_ref) : z80_device :=
  let z := rm16 z (SPD z) r in
  set_SP (SP z + 2) z.

Definition push (z : z80_device) (r : pair_ref) : z80_device :=
  let z := set_SP (SP z - 2) z in
  wm16 z (SPD z) r.

Definition jp (z : z80_device) : z80_device :=
  let (a, z) := arg16 z in
  let z := set_PCD a z in
  set_WZ (PCD z) z.

Definition call (z : z80_device) : z80_device :=
  let (a, z) := arg16 z in
  let z := set_m_ea (uint32 a) z in
  let z := set_WZ (m_ea z) z in
  let z := push z R_pc in
  set_PCD (m_ea z) z.

Definition rst (z : z80_device) (addr : Z) : z80_device :=
  let z := push z R_pc in
  let z := set_PCD (uint16 addr) z in
  set_WZ (PC z) z.

Definition add_a (z : z80_device) (value : Z) : z80_device :=
  let value := uint8 value in
  let ah := Z.land (AFD z) 0xff00 in
  let res := uint8 (Z.shiftr ah 8 + value) in
  let z := set_F (tbl SZHVC_add (Z.lor ah res)) z in
  set_A res z.

Definition adc_a (z : z80_device) (value : Z) : z80_device :=
  let value := uint8 value in
  let ah := Z.land (AFD z) 0xff00 in
  let c := Z.land (AFD z) 1 in
  let res := uint8 (Z.shiftr ah 8 + value + c) in
  let z := set_F (tbl SZHVC_add (Z.lor (Z.lor (Z.shiftl c 16) ah) res)) z in
  set_A res z.

Definition ei (z : z80_device) : z80_device :=
  let z := set_m_iff2 1 z in
  let z := set_m_iff1 1 z in
  set_m_after_ei 1 z.

(** ** The opcode handlers translated from the main table *)

Definition op_00 (z : z80_device) : z80_device := z.
Definition op_01 (z : z80_device) : z80_device :=
  let (w, z) := arg16 z in set_BC w z.
Definition op_21 (z : z80_device) : z80_device :=
  let (w, z) := arg16 z in set_HL w z.
Definition op_22 (z : z80_device) : z80_device :=
  let (w, z) := arg16 z in
  let z := set_m_ea (uint32 w) z in
  let z := wm16 z (m_ea z) R_hl in
  set_WZ (m_ea z + 1) z.
Definition op_2a (z : z80_device) : z80_device :=
  let (w, z) := arg16 z in
  let z := set_m_ea (uint32 w) z in
  let z := rm16 z (m_ea z) R_hl in
  set_WZ (m_ea z + 1) z.
Definition op_31 (z : z80_device) : z80_device :=
  let (w, z) := arg16 z in set_SP w z.
Definition op_32 (z : z80_device) : z80_device :=
  let (w, z) := arg16 z in
  let z := set_m_ea (uint32 w) z in
  let z := wm z (m_ea z) (A z) in
  let z := set_WZ_L (Z.land (m_ea z + 1) 0xFF) z in
  set_WZ_H (A z) z.
Definition op_36 (z : z80_device) : z80_device :=
  let hl := HL z in
  let (n, z) := arg z in
  wm z hl n.
Definition op_3a (z : z80_device) : z80_device :=
  let (w, z) := arg16 z in
  let z := set_m_ea (uint32 w) z in
  let (v, z) := rm z (m_ea z) in
  let z := set_A v z in
  set_WZ (m_ea z + 1) z.
Definition op_3e (z : z80_device) : z80_device :=
  let (n, z) := arg z in set_A n z.
Definition op_76 (z : z80_device) : z80_device := halt z.
Definition op_77 (z : z80_device) : z80_device := wm z (HL z) (A z).
Definition op_7e (z : z80_device) : z80_device :=
  let (v, z) := rm z (HL z) in set_A v z.
Definition op_80 (z : z80_device) : z80_device := add_a z (B z).
Definition op_88 (z : z80_device) : z80_device := adc_a z (B z).
Definition op_c1 (z : z80_device) : z80_device := pop z R_bc.
Definition op_c3 (z : z80_device) : z80_device := jp z.
Definition op_c5 (z : z80_device) : z80_device := push z R_bc.
Definition op_c6 (z : z80_device) : z80_device :=
  let (n, z) := arg z in add_a z n.
Definition op_c9 (z : z80_device) : z80_device :=
  let z := pop z R_pc in set_WZ (PCD z) z.
Definition op_cd (z : z80_device) : z80_device := call z.
Definition op_ce (z : z80_device) : z80_device :=
  let (n, z) := arg z in adc_a z n.
Definition op_f3 (z : z80_device) : z80_device :=
  let z := set_m_iff2 0 z in set_m_iff1 0 z.
Definition op_fb (z : z80_device) : z80_device := ei z.
Definition op_ff (z : z80_device) : z80_device := rst z 0x38.

(** [EXEC(op,opcode)]: charge [cc_op[opcode]], then the 256-way switch; the
    cases not translated above go to [op_other]. *)
Definition EXEC_op (opcode : Z) (z : z80_device) : z80_device :=
  let op := opcode in
  let z := CC_op op z in
  match op with
  | 0x00 => op_00 z | 0x01 => op_01 z | 0x21 => op_21 z | 0x22 => op_22 z
  | 0x2a => op_2a z | 0x31 => op_31 z | 0x32 => op_32 z | 0x36 => op_36 z
  | 0x3a => op_3a z | 0x3e => op_3e z | 0x76 => op_76 z | 0x77 => op_77 z
  | 0x7e => op_7e z | 0x80 => op_80 z | 0x88 => op_88 z | 0xc1 => op_c1 z
  | 0xc3 => op_c3 z | 0xc5 => op_c5 z | 0xc6 => op_c6 z | 0xc9 => op_c9 z
  | 0xcd => op_cd z | 0xce => op_ce z | 0xf3 => op_f3 z | 0xfb => op_fb z
  | 0xff => op_ff z
  | _ => op_other E op z
  end.

(** ** Interrupt entry *)

Definition take_interrupt (z : z80_device) : z80_device :=
  let z := set_m_prvpc 0xffff z in
  let z := leave_halt z in
  let z := set_m_iff2 0 z in
  let z := set_m_iff1 0 z in
  let irq_vector := im2_vector z in
  let z :=
    if m_im z =? 2 then
      let irq_vector := Z.lor (Z.land irq_vector 0xff) (Z.shiftl (m_i z) 8) in
      let z := push z R_pc in
      let z := rm16 z irq_vector R_pc in
      set_m_icount (int32 (m_icount z - (tbl (m_cc_op z) 0xcd + tbl (m_cc_ex z) 0xff))) z
    else if m_im z =? 1 then
      let z := push z R_pc in
      let z := set_PCD 0x0038 z in
      set_m_icount (int32 (m_icount z - (tbl (m_cc_op z) 0xff + tbl cc_ex 0xff))) z
    else
      let z :=
        if negb (irq_vector =? 0x00) then
          match Z.land irq_vector 0xff0000 with
          | 0xcd0000 =>
              let z := push z R_pc in
              let z := set_PCD (Z.land irq_vector 0xffff) z in
              set_m_icount (int32 (m_icount z - tbl (m_cc_op z) 0xcd)) z
          | 0xc30000 =>
              let z := set_PCD (Z.land irq_vector 0xffff) z in
              set_m_icount (int32 (m_icount z - tbl (m_cc_op z) 0xc3)) z
          | _ =>
              let z := push z R_pc in
              let z := set_PCD (Z.land irq_vector 0x0038) z in
              set_m_icount (int32 (m_icount z - tbl (m_cc_op z) 0xff)) z
          end
        else z in
      set_m_icount (int32 (m_icount z - tbl (m_cc_ex z) 0xff)) z in
  set_WZ (PCD z) z.

(** ** [z80_run]: execute up to the deadline *)

(** How a call ends: it returns, or it calls through a null
    [next_int_pulse], or the model's fuel was too small for the loop. *)
Inductive outcome : Type :=
  | Done (z : z80_device)
  | NullCall
  | OutOfFuel.

(** T-states for [cycles] host cycles, rounded up, stored in an [int]. *)
Definition to_icount (z : z80_device) (cycles : Z) : Z :=
  int32 (uint32 (uint32 cycles + clock_divider (gen (options z)) - 1)
         / clock_divider (gen (options z))).

(** The value given to [int_icount] when the pulse starts before the
    deadline. *)
Definition pulse_icount (z : z80_device) : Z :=
  if int_pulse_start z <? current_cycle z then int32 (uint32 (m_icount z))
  else to_icount z (int_pulse_start z - current_cycle z).

(** [current_cycle = target_cycle - m_icount * clock_divider]. *)
Definition sync_cycle (target_cycle : Z) (z : z80_device) : z80_device :=
  set_current_cycle
    (uint32 (target_cycle - m_icount z * clock_divider (gen (options z)))) z.

(** The interrupt check at the head of the loop body; [None] is the call
    through a null [next_int_pulse]. *)
Definition check_interrupt (target_cycle : Z) (z : z80_device) (int_icount : Z)
    : option (z80_device * Z) :=
  if (m_icount z <=? int_icount) && truthy (m_iff1 z) && negb (truthy (m_after_ei z))
  then
    let z := take_interrupt z in
    let z := sync_cycle target_cycle z in
    match next_int_pulse E with
    | None => None
    | Some f =>
        let z := f z in
        Some (z, if int_pulse_start z <? target_cycle then pulse_icount z
                 else int_icount)
    end
  else Some (z, int_icount).

(** One instruction: the rest of the loop body up to the bus-request test. *)
Definition exec_one (z : z80_device) : z80_device :=
  let z := set_m_after_ei 0 z in
  let z := set_m_after_ldair 0 z in
  let z := set_m_prvpc (PCD z) z in
  let z := set_m_r (uint8 (m_r z + 1)) z in
  let (opcode, z) := rop z in
  EXEC_op opcode z.

(** [if (z80->busreq) { busack = 1; m_icount = 0; }]. *)
Definition ack_busreq (z : z80_device) : z80_device :=
  if truthy (busreq z) then set_m_icount 0 (set_busack 1 z) else z.

(** The [do ... while (m_icount > 0)] loop, [fuel] bounding the number of
    rounds. *)
Fixpoint run_loop (fuel : nat) (target_cycle : Z) (int_icount : Z)
    (z : z80_device) : outcome :=
  match fuel with
  | O => OutOfFuel
  | S fuel' =>
      match check_interrupt target_cycle z int_icount with
      | None => NullCall
      | Some (z, int_icount) =>
          let z := ack_busreq (exec_one z) in
          if m_icount z >? 0 then run_loop fuel' target_cycle int_icount z
          else Done (sync_cycle target_cycle z)
      end
  end.

(** What precedes the loop: the pulse window is refreshed, [m_icount] and
    [int_icount] get their first values. *)
Definition loop_entry (z : z80_device) (target_cycle : Z) : z80_device * Z :=
  let z :=
    match next_int_pulse E with
    | Some f =>
        if (int_pulse_end z <? current_cycle z) || (int_pulse_end z =? CYCLE_NEVER)
        then f z else z
    | None => z
    end in
  let z := set_m_icount (to_icount z (target_cycle - current_cycle z)) z in
  (z, if int_pulse_start z <? target_cycle then pulse_icount z else INT_MIN).

Definition z80_run (fuel : nat) (z : z80_device) (target_cycle : Z) : outcome :=
  if truthy (busack z) || truthy (reset z) then
    Done (set_current_cycle target_cycle z)
  else if current_cycle z >=? target_cycle then Done z
  else
    let (z, int_icount) := loop_entry z target_cycle in
    run_loop fuel target_cycle int_icount z.

(** ** Reset, bus request, NMI latch *)

(** The entry points that call [z80_run] inherit its fuel. *)
Definition z80_assert_reset (fuel : nat) (z : z80_device) (cycle : Z) : outcome :=
  match z80_run fuel z cycle with
  | Done z => Done (set_reset 1 z)
  | o => o
  end.

Definition z80_clear_reset (fuel : nat) (z : z80_device) (cycle : Z) : outcome :=
  if negb (truthy (reset z)) then Done z
  else
    match z80_run fuel z cycle with
    | Done z =>
        let z := set_PC 0x0000 z in
        let z := set_m_i 0 z in
        let z := set_m_r 0 z in
        let z := set_m_r2 0 z in
        let z := set_m_after_ei 0 z in
        let z := set_m_after_ldair 0 z in
        let z := set_m_iff1 0 z in
        let z := set_m_iff2 0 z in
        let z := set_reset 0 z in
        Done (set_WZ (PCD z) z)
    | o => o
    end.

Definition z80_get_busack (fuel : nat) (z : z80_device) (cycle : Z)
    : option (Z * z80_device) :=
  match z80_run fuel z cycle with
  | Done z => Some (uint8 (busack z), z)
  | _ => None
  end.

End WithEnv.

Definition z80_assert_busreq (z : z80_device) (cycle : Z) : z80_device :=
  set_busreq 1 z.

Definition z80_clear_busreq (z : z80_device) (cycle : Z) : z80_device :=
  let z := set_busreq 0 z in
  set_busack 0 z.

Definition z80_assert_nmi (z : z80_device) (cycle : Z) : z80_device :=
  set_nmi_start cycle z.

(** ** Rebasing the timestamps *)

Definition z80_adjust_cycles (z : z80_device) (deduction : Z) : z80_device :=
  let z :=
    if current_cycle z <? deduction then set_current_cycle 0 z
    else set_current_cycle (uint32 (current_cycle z - deduction)) z in
  if negb (int_pulse_start z =? CYCLE_NEVER) then
    if int_pulse_end z <? deduction then
      let z := set_int_pulse_end CYCLE_NEVER z in
      set_int_pulse_start (int_pulse_end z) z
    else
      let z :=
        if negb (int_pulse_end z =? CYCLE_NEVER)
        then set_int_pulse_end (uint32 (int_pulse_end z - deduction)) z
        else z in
      if int_pulse_start z <? deduction then set_int_pulse_start 0 z
      else set_int_pulse_start (uint32 (int_pulse_start z - deduction)) z
  else z.

(** ** State snapshots: both bodies are empty *)

(** A [serialize_buffer] and a [deserialize_buffer] hold bytes. *)
Definition serialize_buffer : Type := list Z.

Definition z80_serialize (context : z80_device) (buf : serialize_buffer)
    : serialize_buffer := buf.

Definition z80_deserialize (buf : serialize_buffer) (vcontext : z80_device)
    : z80_device := vcontext.

Definition z80_set_cycle_tables (z : z80_device)
    (op cb ed xy xycb ex : option (list Z)) : z80_device :=
  let pick (t : option (list Z)) (d : list Z) := match t with Some l => l | None => d end in
  let z := set_m_cc_op (pick op cc_op) z in
  let z := set_m_cc_cb (pick cb cc_cb) z in
  let z := set_m_cc_ed (pick ed cc_ed) z in
  let z := set_m_cc_xy (pick xy cc_xy) z in
  let z := set_m_cc_xycb (pick xycb cc_xycb) z in
  set_m_cc_ex (pick ex cc_ex) z.

(** ** Initialisation *)

(** The context as [calloc] returns it, before [init_z80_context] fills it
    in; [options] has no null in the model and holds [opts] at once. *)
Definition calloc_z80 (opts : z80_options) (host0 : Z -> Z) : z80_device :=
  Build_z80_device opts (fun _ => None) []
    0 0 0 0 0 0 0 0 0 0 0 0 0 0
    0 0 0 0 0 0 0
    0 0 0 0 0 0 0 0 0 0
    0 0 0 0 0 0 0 0 0
    [] [] [] [] [] []
    (fun _ => None) (fun _ => None) host0.

(** One round of the loop over the eight 8 KiB pages. *)
Definition init_page (L : map_lookup) (z : z80_device) (address : Z) : z80_device :=
  let z := set_read_pointers (upd_ptr (read_pointers z) (Z.shiftr address 13) None) z in
  let z := set_write_pointers (upd_ptr (write_pointers z) (Z.shiftr address 13) None) z in
  match lookup_chunk L address (gen (options z)) with
  | None => z
  | Some chunk =>
      if (chunk_end chunk <? address + 8 * 1024)
         || has_flag chunk MMAP_PTR_IDX
         || match chunk_buffer chunk with None => true | Some _ => false end
      then z
      else
        match lookup_native L address (mem_pointers z) (gen (options z)) with
        | None => z
        | Some ptr =>
            let z :=
              if has_flag chunk MMAP_READ
              then set_read_pointers
                     (upd_ptr (read_pointers z) (Z.shiftr address 13) (Some ptr)) z
              else z in
            if has_flag chunk MMAP_WRITE
            then set_write_pointers
                   (upd_ptr (write_pointers z) (Z.shiftr address 13) (Some ptr)) z
            else z
        end
  end.

(** The addresses [0, 8*1024, ...] below [64*1024]. *)
Definition z80_pages : list Z := map (fun i => Z.of_nat i * (8 * 1024)) (seq 0 8).

Definition init_z80_context (L : map_lookup) (opts : z80_options) (host0 : Z -> Z)
    : z80_device :=
  let z := calloc_z80 opts host0 in
  let z := set_options opts z in
  let z := set_m_prvpc 0 z in
  let z := set_m_pc 0 z in
  let z := set_m_sp 0 z in
  let z := set_m_af 0 z in
  let z := set_m_bc 0 z in
  let z := set_m_de 0 z in
  let z := set_m_hl 0 z in
  let z := set_m_ix 0 z in
  let z := set_m_iy 0 z in
  let z := set_WZ 0 z in
  let z := set_m_af2 0 z in
  let z := set_m_bc2 0 z in
  let z := set_m_de2 0 z in
  let z := set_m_hl2 0 z in
  let z := set_m_r 0 z in
  let z := set_m_r2 0 z in
  let z := set_m_iff1 0 z in
  let z := set_m_iff2 0 z in
  let z := set_m_halt 0 z in
  let z := set_m_im 0 z in
  let z := set_m_i 0 z in
  let z := set_m_nmi_state 0 z in
  let z := set_m_nmi_pending 0 z in
  let z := set_m_irq_state 0 z in
  let z := set_m_wait_state 0 z in
  let z := set_busreq 0 z in
  let z := set_m_after_ei 0 z in
  let z := set_m_after_ldair 0 z in
  let z := set_m_ea 0 z in
  let z := set_IY 0xffff z in
  let z := set_IX (IY z) z in
  let z := set_F ZF z in
  let z := set_m_cc_op cc_op z in
  let z := set_m_cc_cb cc_cb z in
  let z := set_m_cc_ed cc_ed z in
  let z := set_m_cc_xy cc_xy z in
  let z := set_m_cc_xycb cc_xycb z in
  let z := set_m_cc_ex cc_ex z in
  fold_left (init_page L) z80_pages z.

(** ** The remaining register shortcuts *)

Definition HLD (z : z80_device) : Z := m_hl z.
Definition set_DE (v : Z) (z : z80_device) : z80_device :=
  set_m_de (set_w_l v (m_de z)) z.

(** The value of a C comparison: 1 or 0. *)
Definition cbool (b : bool) : Z := if b then 1 else 0.

(** ** The arithmetic and logic helpers of the opcode handlers

    A helper that returns a value returns it with the context, as [rm]
    does; every [uint8_t] parameter is converted on entry. *)

Definition inc (z : z80_device) (value : Z) : Z * z80_device :=
  let value := uint8 value in
  let res := uint8 (value + 1) in
  let z := set_F (Z.lor (Z.land (F z) CF) (tbl SZHV_inc res)) z in
  (res, z).

Definition dec (z : z80_device) (value : Z) : Z * z80_device :=
  let value := uint8 value in
  let res := uint8 (value - 1) in
  let z := set_F (Z.lor (Z.land (F z) CF) (tbl SZHV_dec res)) z in
  (res, z).

Definition rlca (z : z80_device) : z80_device :=
  let z := set_A (Z.lor (Z.shiftl (A z) 1) (Z.shiftr (A z) 7)) z in
  set_F (Z.lor (Z.land (F z) (Z.lor (Z.lor SF ZF) PF))
               (Z.land (A z) (Z.lor (Z.lor YF XF) CF))) z.

Definition rrca (z : z80_device) : z80_device :=
  let z := set_F (Z.lor (Z.land (F z) (Z.lor (Z.lor SF ZF) PF)) (Z.land (A z) CF)) z in
  let z := set_A (Z.lor (Z.shiftr (A z) 1) (Z.shiftl (A z) 7)) z in
  set_F (Z.lor (F z) (Z.land (A z) (Z.lor YF XF))) z.

Definition rla (z : z80_device) : z80_device :=
  let res := uint8 (Z.lor (Z.shiftl (A z) 1) (Z.land (F z) CF)) in
  let c := uint8 (if truthy (Z.land (A z) 0x80) then CF else 0) in
  let z := set_F (Z.lor (Z.lor (Z.land (F z) (Z.lor (Z.lor SF ZF) PF)) c)
                        (Z.land res (Z.lor YF XF))) z in
  set_A res z.

Definition rra (z : z80_device) : z80_device :=
  let res := uint8 (Z.lor (Z.shiftr (A z) 1) (Z.shiftl (F z) 7)) in
  let c := uint8 (if truthy (Z.land (A z) 0x01) then CF else 0) in
  let z := set_F (Z.lor (Z.lor (Z.land (F z) (Z.lor (Z.lor SF ZF) PF)) c)
                        (Z.land res (Z.lor YF XF))) z in
  set_A res z.

Definition sub (z : z80_device) (value : Z) : z80_device :=
  let value := uint8 value in
  let ah := Z.land (AFD z) 0xff00 in
  let res := uint8 (Z.shiftr ah 8 - value) in
  let z := set_F (tbl SZHVC_sub (Z.lor ah res)) z in
  set_A res z.

Definition sbc_a (z : z80_device) (value : Z) : z80_device :=
  let value := uint8 value in
  let ah := Z.land (AFD z) 0xff00 in
  let c := Z.land (AFD z) 1 in
  let res := uint8 (Z.shiftr ah 8 - value - c) in
  let z := set_F (tbl SZHVC_sub (Z.lor (Z.lor (Z.shiftl c 16) ah) res)) z in
  set_A res z.

Definition neg (z : z80_device) : z80_device :=
  let value := A z in
  let z := set_A 0 z in
  sub z value.

Definition daa (z : z80_device) : z80_device :=
  let a := A z in
  let a :=
    if truthy (Z.land (F z) NF) then
      let a := if truthy (Z.lor (Z.land (F z) HF) (cbool (Z.land (A z) 0xf >? 9)))
               then uint8 (a - 6) else a in
      if truthy (Z.lor (Z.land (F z) CF) (cbool (A z >? 0x99)))
      then uint8 (a - 0x60) else a
    else
      let a := if truthy (Z.lor (Z.land (F z) HF) (cbool (Z.land (A z) 0xf >? 9)))
               then uint8 (a + 6) else a in
      if truthy (Z.lor (Z.land (F z) CF) (cbool (A z >? 0x99)))
      then uint8 (a + 0x60) else a in
  let z := set_F (Z.lor (Z.lor (Z.lor (Z.land (F z) (Z.lor CF NF)) (cbool (A z >? 0x99)))
                               (Z.land (Z.lxor (A z) a) HF))
                        (tbl SZP a)) z in
  set_A a z.

Definition and_a (z : z80_device) (value : Z) : z80_device :=
  let value := uint8 value in
  let z := set_A (Z.land (A z) value) z in
  set_F (Z.lor (tbl SZP (A z)) HF) z.

Definition or_a (z : z80_device) (value : Z) : z80_device :=
  let value := uint8 value in
  let z := set_A (Z.lor (A z) value) z in
  set_F (tbl SZP (A z)) z.

Definition xor_a (z : z80_device) (value : Z) : z80_device :=
  let value := uint8 value in
  let z := set_A (Z.lxor (A z) value) z in
  set_F (tbl SZP (A z)) z.

Definition cp (z : z80_device) (value : Z) : z80_device :=
  let val := uint8 value in
  let ah := Z.land (AFD z) 0xff00 in
  let res := uint8 (Z.shiftr ah 8 - val) in
  set_F (Z.lor (Z.land (tbl SZHVC_sub (Z.lor ah res)) (Z.lnot (Z.lor YF XF)))
               (Z.land val (Z.lor YF XF))) z.

(** ** Exchanges *)




(** ** 16-bit arithmetic *)

Definition add16 (z : z80_device) (dr sr : pair_ref) : z80_device :=
  let res := uint32 (get_pair dr z + get_pair sr z) in
  let z := set_WZ (get_pair dr z + 1) z in
  let z :=
    set_F (Z.lor (Z.lor (Z.lor
             (Z.land (F z) (Z.lor (Z.lor SF ZF) VF))
             (Z.land (Z.shiftr (Z.lxor (Z.lxor (get_pair dr z) res) (get_pair sr z)) 8) HF))
             (Z.land (Z.shiftr res 16) CF))
             (Z.land (Z.shiftr res 8) (Z.lor YF XF))) z in
  set_pair dr (set_w_l res (get_pair dr z)) z.

(** ** Rotates and shifts of a byte *)

Definition rlc (z : z80_device) (value : Z) : Z * z80_device :=
  let res := uint8 value in
  let c := if truthy (Z.land res 0x80) then CF else 0 in
  let res := Z.land (Z.lor (Z.shiftl res 1) (Z.shiftr res 7)) 0xff in
  (uint8 res, set_F (Z.lor (tbl SZP res) c) z).

Definition rrc (z : z80_device) (value : Z) : Z * z80_device :=
  let res := uint8 value in
  let c := if truthy (Z.land res 0x01) then CF else 0 in
  let res := Z.land (Z.lor (Z.shiftr res 1) (Z.shiftl res 7)) 0xff in
  (uint8 res, set_F (Z.lor (tbl SZP res) c) z).

Definition rl (z : z80_device) (value : Z) : Z * z80_device :=
  let res := uint8 value in
  let c := if truthy (Z.land res 0x80) then CF else 0 in
  let res := Z.land (Z.lor (Z.shiftl res 1) (Z.land (F z) CF)) 0xff in
  (uint8 res, set_F (Z.lor (tbl SZP res) c) z).

Definition rr (z : z80_device) (value : Z) : Z * z80_device :=
  let res := uint8 value in
  let c := if truthy (Z.land res 0x01) then CF else 0 in
  let res := Z.land (Z.lor (Z.shiftr res 1) (Z.shiftl (F z) 7)) 0xff in
  (uint8 res, set_F (Z.lor (tbl SZP res) c) z).

Definition sla (z : z80_device) (value : Z) : Z * z80_device :=
  let res := uint8 value in
  let c := if truthy (Z.land res 0x80) then CF else 0 in
  let res := Z.land (Z.shiftl res 1) 0xff in
  (uint8 res, set_F (Z.lor (tbl SZP res) c) z).

Definition sra (z : z80_device) (value : Z) : Z * z80_device :=
  let res := uint8 value in
  let c := if truthy (Z.land res 0x01) then CF else 0 in
  let res := Z.land (Z.lor (Z.shiftr res 1) (Z.land res 0x80)) 0xff in
  (uint8 res, set_F (Z.lor (tbl SZP res) c) z).

Definition sll (z : z80_device) (value : Z) : Z * z80_device :=
  let res := uint8 value in
  let c := if truthy (Z.land res 0x80) then CF else 0 in
  let res := Z.land (Z.lor (Z.shiftl res 1) 0x01) 0xff in
  (uint8 res, set_F (Z.lor (tbl SZP res) c) z).

Definition srl (z : z80_device) (value : Z) : Z * z80_device :=
  let res := uint8 value in
  let c := if truthy (Z.land res 0x01) then CF else 0 in
  let res := Z.land (Z.shiftr res 1) 0xff in
  (uint8 res, set_F (Z.lor (tbl SZP res) c) z).

(** ** Bit test, reset and set *)

Definition bit (z : z80_device) (bit : Z) (value : Z) : z80_device :=
  let value := uint8 value in
  set_F (Z.lor (Z.lor (Z.lor (Z.land (F z) CF) HF)
                      (Z.land (tbl SZ_BIT (Z.land value (Z.shiftl 1 bit)))
                              (Z.lnot (Z.lor YF XF))))
               (Z.land value (Z.lor YF XF))) z.

Definition res (bit : Z) (value : Z) : Z :=
  uint8 (Z.land (uint8 value) (Z.lnot (Z.shiftl 1 bit))).

Definition set (bit : Z) (value : Z) : Z :=
  uint8 (Z.lor (uint8 value) (Z.shiftl 1 bit)).

(** ** Loads of the interrupt and refresh registers *)





(** ** Jumps, calls and returns under a condition; block transfers *)

Section Transfers.

Variable E : z80_env.






Definition retn (z : z80_device) : z80_device :=
  let z := pop E z R_pc in
  let z := set_WZ (PC z) z in
  set_m_iff1 (m_iff2 z) z.

Definition reti (z : z80_device) : z80_device :=
  let z := pop E z R_pc in
  let z := set_WZ (PC z) z in
  set_m_iff1 (m_iff2 z) z.

Definition ldi (z : z80_device) : z80_device :=
  let (io, z) := rm E z (HL z) in
  let z := wm E z (DE z) io in
  let z := set_F (Z.land (F z) (Z.lor (Z.lor SF ZF) CF)) z in
  let z := if truthy (Z.land (A z + io) 0x02) then set_F (Z.lor (F z) YF) z else z in
  let z := if truthy (Z.land (A z + io) 0x08) then set_F (Z.lor (F z) XF) z else z in
  let z := set_HL (HL z + 1) z in
  let z := set_DE (DE z + 1) z in
  let z := set_BC (BC z - 1) z in
  if truthy (BC z) then set_F (Z.lor (F z) VF) z else z.

Definition ldd (z : z80_device) : z80_device :=
  let (io, z) := rm E z (HL z) in
  let z := wm E z (DE z) io in
  let z := set_F (Z.land (F z) (Z.lor (Z.lor SF ZF) CF)) z in
  let z := if truthy (Z.land (A z + io) 0x02) then set_F (Z.lor (F z) YF) z else z in
  let z := if truthy (Z.land (A z + io) 0x08) then set_F (Z.lor (F z) XF) z else z in
  let z := set_HL (HL z - 1) z in
  let z := set_DE (DE z - 1) z in
  let z := set_BC (BC z - 1) z in
  if truthy (BC z) then set_F (Z.lor (F z) VF) z else z.

Definition ldir (z : z80_device) : z80_device :=
  let z := ldi z in
  if negb (BC z =? 0) then
    let z := set_PC (PC z - 2) z in
    let z := set_WZ (PC z + 1) z in
    CC_ex 0xb0 z
  else z.

Definition lddr (z : z80_device) : z80_device :=
  let z := ldd z in
  if negb (BC z =? 0) then
    let z := set_PC (PC z - 2) z in
    let z := set_WZ (PC z + 1) z in
    CC_ex 0xb8 z
  else z.

End Transfers.

End Z80.

(** * The 68000 core (Musashi, as adapted for BlastEm) *)

Module M68K.

Record m68k_options : Type := Build_m68k_options {
  gen : cpu_options
}.

(** ** [m68000_base_device] *)

(** Modelled from the spec: m68kcpu.h, which declares the structure, is not
    among the sources. The members are those the functions of m68kcpu.c
    translated below name ([c.] members first), with the status-register
    fields of "SR / CCR" and the banked stack pointers. The
    cycle adjustments [cyc_bcc_notake_b] ... [cyc_reset], which only the
    opcode handlers read, are left out. *)

Record m68000_base_device : Type := Build_m68000_base_device {
  options : m68k_options;  (* c.options *)
  mem_pointers : Z -> option Z;  (* c.mem_pointers *)
  system : list Z;  (* c.system: the host's side-band state, opaque to the core *)
  current_cycle : Z;  (* c.current_cycle, uint32_t *)
  target_cycle : Z;  (* c.target_cycle, uint32_t *)
  status : Z;  (* c.status, uint8_t *)
  int_pending : Z;  (* c.int_pending, uint8_t *)
  int_ack : Z;  (* c.int_ack *)
  cpu_type : Z;
  dar : Z -> Z;  (* D0-D7, A0-A7; REG_SP is dar[15] *)
  ppc : Z;  (* previous program counter *)
  pc : Z;  (* program counter *)
  sp : Z -> Z;  (* REG_SP_BASE: the banked stack pointers (USP, ISP, MSP) *)
  ir : Z;  (* instruction register *)
  t1_flag : Z;  (* 0 or 0x8000 *)
  t0_flag : Z;  (* 0 or 0x4000 *)
  s_flag : Z;  (* 0 or SFLAG_SET *)
  m_flag : Z;  (* 0 or MFLAG_SET *)
  ccr : Z;  (* the condition codes X N Z V C, bits 4..0 *)
  int_mask : Z;  (* I2-I0, kept shifted left by 8 *)
  stopped : Z;
  pref_addr : Z;
  run_mode : Z;
  instr_mode : Z;
  sr_mask : Z;
  cyc_instruction : list Z;  (* uint8_t *, 65536 entries *)
  cyc_exception : list Z;  (* uint8_t *, 256 entries *)
  read_pointers : Z -> option Z;  (* void *read_pointers[256] *)
  write_pointers : Z -> option Z;  (* void *write_pointers[256] *)
  host : Z -> Z  (* the host memory the buffer pointers point into, byte by byte *)
}.

Definition set_options (v : m68k_options) (z : m68000_base_device) : m68000_base_device :=
  Build_m68000_base_device v (mem_pointers z) (system z) (current_cycle z) (target_cycle z)
    (status z) (int_pending z) (int_ack z) (cpu_type z) (dar z) (ppc z) (pc z) (sp z) (ir z)
    (t1_flag z) (t0_flag z) (s_flag z) (m_flag z) (ccr z) (int_mask z) (stopped z) (pref_addr z)
    (run_mode z) (instr_mode z) (sr_mask z) (cyc_instruction z) (cyc_exception z)
    (read_pointers z) (write_pointers z) (host z).
Definition set_mem_pointers (v : Z -> option Z) (z : m68000_base_device) : m68000_base_device :=
  Build_m68000_base_device (options z) v (system z) (current_cycle z) (target_cycle z)
    (status z) (int_pending z) (int_ack z) (cpu_type z) (dar z) (ppc z) (pc z) (sp z) (ir z)
    (t1_flag z) (t0_flag z) (s_flag z) (m_flag z) (ccr z) (int_mask z) (stopped z) (pref_addr z)
    (run_mode z) (instr_mode z) (sr_mask z) (cyc_instruction z) (cyc_exception z)
    (read_pointers z) (write_pointers z) (host z).
Definition set_system (v : list Z) (z : m68000_base_device) : m68000_base_device :=
  Build_m68000_base_device (options z) (mem_pointers z) v (current_cycle z) (target_cycle z)
    (status z) (int_pending z) (int_ack z) (cpu_type z) (dar z) (ppc z) (pc z) (sp z) (ir z)
    (t1_flag z) (t0_flag z) (s_flag z) (m_flag z) (ccr z) (int_mask z) (stopped z) (pref_addr z)
    (run_mode z) (instr_mode z) (sr_mask z) (cyc_instruction z) (cyc_exception z)
    (read_pointers z) (write_pointers z) (host z).
Definition set_current_cycle (v : Z) (z : m68000_base_device) : m68000_base_device :=
  Build_m68000_base_device (options z) (mem_pointers z) (system z) v (target_cycle z) (status z)
    (int_pending z) (int_ack z) (cpu_type z) (dar z) (ppc z) (pc z) (sp z) (ir z) (t1_flag z)
    (t0_flag z) (s_flag z) (m_flag z) (ccr z) (int_mask z) (stopped z) (pref_addr z)
    (run_mode z) (instr_mode z) (sr_mask z) (cyc_instruction z) (cyc_exception z)
    (read_pointers z) (write_pointers z) (host z).
Definition set_target_cycle (v : Z) (z : m68000_base_device) : m68000_base_device :=
  Build_m68000_base_device (options z) (mem_pointers z) (system z) (current_cycle z) v
    (status z) (int_pending z) (int_ack z) (cpu_type z) (dar z) (ppc z) (pc z) (sp z) (ir z)
    (t1_flag z) (t0_flag z) (s_flag z) (m_flag z) (ccr z) (int_mask z) (stopped z) (pref_addr z)
    (run_mode z) (instr_mode z) (sr_mask z) (cyc_instruction z) (cyc_exception z)
    (read_pointers z) (write_pointers z) (host z).
Definition set_status (v : Z) (z : m68000_base_device) : m68000_base_device :=
  Build_m68000_base_device (options z) (mem_pointers z) (system z) (current_cycle z)
    (target_cycle z) v (int_pending z) (int_ack z) (cpu_type z) (dar z) (ppc z) (pc z) (sp z)
    (ir z) (t1_flag z) (t0_flag z) (s_flag z) (m_flag z) (ccr z) (int_mask z) (stopped z)
    (pref_addr z) (run_mode z) (instr_mode z) (sr_mask z) (cyc_instruction z) (cyc_exception z)
    (read_pointers z) (write_pointers z) (host z).
Definition set_int_pending (v : Z) (z : m68000_base_device) : m68000_base_device :=
  Build_m68000_base_device (options z) (mem_pointers z) (system z) (current_cycle z)
    (target_cycle z) (status z) v (int_ack z) (cpu_type z) (dar z) (ppc z) (pc z) (sp z) (ir z)
    (t1_flag z) (t0_flag z) (s_flag z) (m_flag z) (ccr z) (int_mask z) (stopped z) (pref_addr z)
    (run_mode z) (instr_mode z) (sr_mask z) (cyc_instruction z) (cyc_exception z)
    (read_pointers z) (write_pointers z) (host z).
Definition set_int_ack (v : Z) (z : m68000_base_device) : m68000_base_device :=
  Build_m68000_base_device (options z) (mem_pointers z) (system z) (current_cycle z)
    (target_cycle z) (status z) (int_pending z) v (cpu_type z) (dar z) (ppc z) (pc z) (sp z)
    (ir z) (t1_flag z) (t0_flag z) (s_flag z) (m_flag z) (ccr z) (int_mask z) (stopped z)
    (pref_addr z) (run_mode z) (instr_mode z) (sr_mask z) (cyc_instruction z) (cyc_exception z)
    (read_pointers z) (write_pointers z) (host z).
Definition set_cpu_type (v : Z) (z : m68000_base_device) : m68000_base_device :=
  Build_m68000_base_device (options z) (mem_pointers z) (system z) (current_cycle z)
    (target_cycle z) (status z) (int_pending z) (int_ack z) v (dar z) (ppc z) (pc z) (sp z)
    (ir z) (t1_flag z) (t0_flag z) (s_flag z) (m_flag z) (ccr z) (int_mask z) (stopped z)
    (pref_addr z) (run_mode z) (instr_mode z) (sr_mask z) (cyc_instruction z) (cyc_exception z)
    (read_pointers z) (write_pointers z) (host z).
Definition set_dar (v : Z -> Z) (z : m68000_base_device) : m68000_base_device :=
  Build_m68000_base_device (options z) (mem_pointers z) (system z) (current_cycle z)
    (target_cycle z) (status z) (int_pending z) (int_ack z) (cpu_type z) v (ppc z) (pc z) (sp z)
    (ir z) (t1_flag z) (t0_flag z) (s_flag z) (m_flag z) (ccr z) (int_mask z) (stopped z)
    (pref_addr z) (run_mode z) (instr_mode z) (sr_mask z) (cyc_instruction z) (cyc_exception z)
    (read_pointers z) (write_pointers z) (host z).
Definition set_ppc (v : Z) (z : m68000_base_device) : m68000_base_device :=
  Build_m68000_base_device (options z) (mem_pointers z) (system z) (current_cycle z)
    (target_cycle z) (status z) (int_pending z) (int_ack z) (cpu_type z) (dar z) v (pc z) (sp z)
    (ir z) (t1_flag z) (t0_flag z) (s_flag z) (m_flag z) (ccr z) (int_mask z) (stopped z)
    (pref_addr z) (run_mode z) (instr_mode z) (sr_mask z) (cyc_instruction z) (cyc_exception z)
    (read_pointers z) (write_pointers z) (host z).
Definition set_pc (v : Z) (z : m68000_base_device) : m68000_base_device :=
  Build_m68000_base_device (options z) (mem_pointers z) (system z) (current_cycle z)
    (target_cycle z) (status z) (int_pending z) (int_ack z) (cpu_type z) (dar z) (ppc z) v
    (sp z) (ir z) (t1_flag z) (t0_flag z) (s_flag z) (m_flag z) (ccr z) (int_mask z) (stopped z)
    (pref_addr z) (run_mode z) (instr_mode z) (sr_mask z) (cyc_instruction z) (cyc_exception z)
    (read_pointers z) (write_pointers z) (host z).
Definition set_sp (v : Z -> Z) (z : m68000_base_device) : m68000_base_device :=
  Build_m68000_base_device (options z) (mem_pointers z) (system z) (current_cycle z)
    (target_cycle z) (status z) (int_pending z) (int_ack z) (cpu_type z) (dar z) (ppc z) (pc z)
    v (ir z) (t1_flag z) (t0_flag z) (s_flag z) (m_flag z) (ccr z) (int_mask z) (stopped z)
    (pref_addr z) (run_mode z) (instr_mode z) (sr_mask z) (cyc_instruction z) (cyc_exception z)
    (read_pointers z) (write_pointers z) (host z).
Definition set_ir (v : Z) (z : m68000_base_device) : m68000_base_device :=
  Build_m68000_base_device (options z) (mem_pointers z) (system z) (current_cycle z)
    (target_cycle z) (status z) (int_pending z) (int_ack z) (cpu_type z) (dar z) (ppc z) (pc z)
    (sp z) v (t1_flag z) (t0_flag z) (s_flag z) (m_flag z) (ccr z) (int_mask z) (stopped z)
    (pref_addr z) (run_mode z) (instr_mode z) (sr_mask z) (cyc_instruction z) (cyc_exception z)
    (read_pointers z) (write_pointers z) (host z).
Definition set_t1_flag (v : Z) (z : m68000_base_device) : m68000_base_device :=
  Build_m68000_base_device (options z) (mem_pointers z) (system z) (current_cycle z)
    (target_cycle z) (status z) (int_pending z) (int_ack z) (cpu_type z) (dar z) (ppc z) (pc z)
    (sp z) (ir z) v (t0_flag z) (s_flag z) (m_flag z) (ccr z) (int_mask z) (stopped z)
    (pref_addr z) (run_mode z) (instr_mode z) (sr_mask z) (cyc_instruction z) (cyc_exception z)
    (read_pointers z) (write_pointers z) (host z).
Definition set_t0_flag (v : Z) (z : m68000_base_device) : m68000_base_device :=
  Build_m68000_base_device (options z) (mem_pointers z) (system z) (current_cycle z)
    (target_cycle z) (status z) (int_pending z) (int_ack z) (cpu_type z) (dar z) (ppc z) (pc z)
    (sp z) (ir z) (t1_flag z) v (s_flag z) (m_flag z) (ccr z) (int_mask z) (stopped z)
    (pref_addr z) (run_mode z) (instr_mode z) (sr_mask z) (cyc_instruction z) (cyc_exception z)
    (read_pointers z) (write_pointers z) (host z).
Definition set_s_flag (v : Z) (z : m68000_base_device) : m68000_base_device :=
  Build_m68000_base_device (options z) (mem_pointers z) (system z) (current_cycle z)
    (target_cycle z) (status z) (int_pending z) (int_ack z) (cpu_type z) (dar z) (ppc z) (pc z)
    (sp z) (ir z) (t1_flag z) (t0_flag z) v (m_flag z) (ccr z) (int_mask z) (stopped z)
    (pref_addr z) (run_mode z) (instr_mode z) (sr_mask z) (cyc_instruction z) (cyc_exception z)
    (read_pointers z) (write_pointers z) (host z).
Definition set_m_flag (v : Z) (z : m68000_base_device) : m68000_base_device :=
  Build_m68000_base_device (options z) (mem_pointers z) (system z) (current_cycle z)
    (target_cycle z) (status z) (int_pending z) (int_ack z) (cpu_type z) (dar z) (ppc z) (pc z)
    (sp z) (ir z) (t1_flag z) (t0_flag z) (s_flag z) v (ccr z) (int_mask z) (stopped z)
    (pref_addr z) (run_mode z) (instr_mode z) (sr_mask z) (cyc_instruction z) (cyc_exception z)
    (read_pointers z) (write_pointers z) (host z).
Definition set_ccr (v : Z) (z : m68000_base_device) : m68000_base_device :=
  Build_m68000_base_device (options z) (mem_pointers z) (system z) (current_cycle z)
    (target_cycle z) (status z) (int_pending z) (int_ack z) (cpu_type z) (dar z) (ppc z) (pc z)
    (sp z) (ir z) (t1_flag z) (t0_flag z) (s_flag z) (m_flag z) v (int_mask z) (stopped z)
    (pref_addr z) (run_mode z) (instr_mode z) (sr_mask z) (cyc_instruction z) (cyc_exception z)
    (read_pointers z) (write_pointers z) (host z).
Definition set_int_mask (v : Z) (z : m68000_base_device) : m68000_base_device :=
  Build_m68000_base_device (options z) (mem_pointers z) (system z) (current_cycle z)
    (target_cycle z) (status z) (int_pending z) (int_ack z) (cpu_type z) (dar z) (ppc z) (pc z)
    (sp z) (ir z) (t1_flag z) (t0_flag z) (s_flag z) (m_flag z) (ccr z) v (stopped z)
    (pref_addr z) (run_mode z) (instr_mode z) (sr_mask z) (cyc_instruction z) (cyc_exception z)
    (read_pointers z) (write_pointers z) (host z).
Definition set_stopped (v : Z) (z : m68000_base_device) : m68000_base_device :=
  Build_m68000_base_device (options z) (mem_pointers z) (system z) (current_cycle z)
    (target_cycle z) (status z) (int_pending z) (int_ack z) (cpu_type z) (dar z) (ppc z) (pc z)
    (sp z) (ir z) (t1_flag z) (t0_flag z) (s_flag z) (m_flag z) (ccr z) (int_mask z) v
    (pref_addr z) (run_mode z) (instr_mode z) (sr_mask z) (cyc_instruction z) (cyc_exception z)
    (read_pointers z) (write_pointers z) (host z).
Definition set_pref_addr (v : Z) (z : m68000_base_device) : m68000_base_device :=
  Build_m68000_base_device (options z) (mem_pointers z) (system z) (current_cycle z)
    (target_cycle z) (status z) (int_pending z) (int_ack z) (cpu_type z) (dar z) (ppc z) (pc z)
    (sp z) (ir z) (t1_flag z) (t0_flag z) (s_flag z) (m_flag z) (ccr z) (int_mask z) (stopped z)
    v (run_mode z) (instr_mode z) (sr_mask z) (cyc_instruction z) (cyc_exception z)
    (read_pointers z) (write_pointers z) (host z).
Definition set_run_mode (v : Z) (z : m68000_base_device) : m68000_base_device :=
  Build_m68000_base_device (options z) (mem_pointers z) (system z) (current_cycle z)
    (target_cycle z) (status z) (int_pending z) (int_ack z) (cpu_type z) (dar z) (ppc z) (pc z)
    (sp z) (ir z) (t1_flag z) (t0_flag z) (s_flag z) (m_flag z) (ccr z) (int_mask z) (stopped z)
    (pref_addr z) v (instr_mode z) (sr_mask z) (cyc_instruction z) (cyc_exception z)
    (read_pointers z) (write_pointers z) (host z).
Definition set_instr_mode (v : Z) (z : m68000_base_device) : m68000_base_device :=
  Build_m68000_base_device (options z) (mem_pointers z) (system z) (current_cycle z)
    (target_cycle z) (status z) (int_pending z) (int_ack z) (cpu_type z) (dar z) (ppc z) (pc z)
    (sp z) (ir z) (t1_flag z) (t0_flag z) (s_flag z) (m_flag z) (ccr z) (int_mask z) (stopped z)
    (pref_addr z) (run_mode z) v (sr_mask z) (cyc_instruction z) (cyc_exception z)
    (read_pointers z) (write_pointers z) (host z).
Definition set_sr_mask (v : Z) (z : m68000_base_device) : m68000_base_device :=
  Build_m68000_base_device (options z) (mem_pointers z) (system z) (current_cycle z)
    (target_cycle z) (status z) (int_pending z) (int_ack z) (cpu_type z) (dar z) (ppc z) (pc z)
    (sp z) (ir z) (t1_flag z) (t0_flag z) (s_flag z) (m_flag z) (ccr z) (int_mask z) (stopped z)
    (pref_addr z) (run_mode z) (instr_mode z) v (cyc_instruction z) (cyc_exception z)
    (read_pointers z) (write_pointers z) (host z).
Definition set_cyc_instruction (v : list Z) (z : m68000_base_device) : m68000_base_device :=
  Build_m68000_base_device (options z) (mem_pointers z) (system z) (current_cycle z)
    (target_cycle z) (status z) (int_pending z) (int_ack z) (cpu_type z) (dar z) (ppc z) (pc z)
    (sp z) (ir z) (t1_flag z) (t0_flag z) (s_flag z) (m_flag z) (ccr z) (int_mask z) (stopped z)
    (pref_addr z) (run_mode z) (instr_mode z) (sr_mask z) v (cyc_exception z) (read_pointers z)
    (write_pointers z) (host z).
Definition set_cyc_exception (v : list Z) (z : m68000_base_device) : m68000_base_device :=
  Build_m68000_base_device (options z) (mem_pointers z) (system z) (current_cycle z)
    (target_cycle z) (status z) (int_pending z) (int_ack z) (cpu_type z) (dar z) (ppc z) (pc z)
    (sp z) (ir z) (t1_flag z) (t0_flag z) (s_flag z) (m_flag z) (ccr z) (int_mask z) (stopped z)
    (pref_addr z) (run_mode z) (instr_mode z) (sr_mask z) (cyc_instruction z) v
    (read_pointers z) (write_pointers z) (host z).
Definition set_read_pointers (v : Z -> option Z) (z : m68000_base_device) : m68000_base_device :=
  Build_m68000_base_device (options z) (mem_pointers z) (system z) (current_cycle z)
    (target_cycle z) (status z) (int_pending z) (int_ack z) (cpu_type z) (dar z) (ppc z) (pc z)
    (sp z) (ir z) (t1_flag z) (t0_flag z) (s_flag z) (m_flag z) (ccr z) (int_mask z) (stopped z)
    (pref_addr z) (run_mode z) (instr_mode z) (sr_mask z) (cyc_instruction z) (cyc_exception z)
    v (write_pointers z) (host z).
Definition set_write_pointers (v : Z -> option Z) (z : m68000_base_device) : m68000_base_device :=
  Build_m68000_base_device (options z) (mem_pointers z) (system z) (current_cycle z)
    (target_cycle z) (status z) (int_pending z) (int_ack z) (cpu_type z) (dar z) (ppc z) (pc z)
    (sp z) (ir z) (t1_flag z) (t0_flag z) (s_flag z) (m_flag z) (ccr z) (int_mask z) (stopped z)
    (pref_addr z) (run_mode z) (instr_mode z) (sr_mask z) (cyc_instruction z) (cyc_exception z)
    (read_pointers z) v (host z).
Definition set_host (v : Z -> Z) (z : m68000_base_device) : m68000_base_device :=
  Build_m68000_base_device (options z) (mem_pointers z) (system z) (current_cycle z)
    (target_cycle z) (status z) (int_pending z) (int_ack z) (cpu_type z) (dar z) (ppc z) (pc z)
    (sp z) (ir z) (t1_flag z) (t0_flag z) (s_flag z) (m_flag z) (ccr z) (int_mask z) (stopped z)
    (pref_addr z) (run_mode z) (instr_mode z) (sr_mask z) (cyc_instruction z) (cyc_exception z)
    (read_pointers z) (write_pointers z) v.

(** Modelled from the spec: the names m68kcpu.h gives to the constants used
    below (exception vector 0 is the reset vector; supervisor and master
    state are bits 13 and 12 of the status register, kept in [s_flag] and
    [m_flag] shifted right by 11). *)
Definition EXCEPTION_RESET : Z := 0.
Definition SFLAG_SET : Z := 4.
Definition MFLAG_SET : Z := 2.
Definition MFLAG_CLEAR : Z := 0.
Definition RUN_MODE_NORMAL : Z := 0.
Definition RUN_MODE_BERR_AERR_RESET : Z := 1.
Definition CPU_TYPE_000 : Z := 1.

Definition REG_PC (m : m68000_base_device) : Z := pc m.
Definition REG_PPC (m : m68000_base_device) : Z := ppc m.
Definition REG_SP (m : m68000_base_device) : Z := dar m 15.
Definition set_REG_SP (v : Z) (m : m68000_base_device) : m68000_base_device :=
  set_dar (upd (dar m) 15 (uint32 v)) m.

(** ** What the core reaches outside the translated file

    The slow path of backend.c ([read_byte], [write_byte], [read_word],
    [write_word]: the chunk callbacks, which receive the context and may
    change it), and the parts of m68kcpu.h and m68kops.c that
    [m68k_cpu_execute] and the initialiser use: the interrupt check, the
    two trace hooks, the handler table by opcode word and the 68000's
    opcode cycle table. *)
Record m68k_env : Type := Build_m68k_env {
  read_byte : Z -> m68000_base_device -> Z * m68000_base_device;
  write_byte : Z -> Z -> m68000_base_device -> m68000_base_device;
  read_word : Z -> m68000_base_device -> Z * m68000_base_device;
  write_word : Z -> Z -> m68000_base_device -> m68000_base_device;
  m68ki_check_interrupts : m68000_base_device -> m68000_base_device;
  m68ki_trace_t1 : m68000_base_device -> m68000_base_device;
  m68ki_exception_if_trace : m68000_base_device -> m68000_base_device;
  jump_table : Z -> m68000_base_device -> m68000_base_device;
  m68ki_cycles_000 : list Z
}.


(** Row 0 (the 68000) of [m68ki_exception_cycle_table]. *)
Definition m68ki_exception_cycle_table_000 : list Z := [
  40;  4; 50; 50; 34; 38; 40; 34; 34; 34;  4;  4;  4;  4;  4; 44;
   4;  4;  4;  4;  4;  4;  4;  4; 44; 44; 44; 44; 44; 44; 44; 44;
  34; 34; 34; 34; 34; 34; 34; 34; 34; 34; 34; 34; 34; 34; 34; 34;
   4;  4;  4;  4;  4;  4;  4;  4;  4;  4;  4;  4;  4;  4;  4;  4;
   4;  4;  4;  4;  4;  4;  4;  4;  4;  4;  4;  4;  4;  4;  4;  4;
   4;  4;  4;  4;  4;  4;  4;  4;  4;  4;  4;  4;  4;  4;  4;  4;
   4;  4;  4;  4;  4;  4;  4;  4;  4;  4;  4;  4;  4;  4;  4;  4;
   4;  4;  4;  4;  4;  4;  4;  4;  4;  4;  4;  4;  4;  4;  4;  4;
   4;  4;  4;  4;  4;  4;  4;  4;  4;  4;  4;  4;  4;  4;  4;  4;
   4;  4;  4;  4;  4;  4;  4;  4;  4;  4;  4;  4;  4;  4;  4;  4;
   4;  4;  4;  4;  4;  4;  4;  4;  4;  4;  4;  4;  4;  4;  4;  4;
   4;  4;  4;  4;  4;  4;  4;  4;  4;  4;  4;  4;  4;  4;  4;  4;
   4;  4;  4;  4;  4;  4;  4;  4;  4;  4;  4;  4;  4;  4;  4;  4;
   4;  4;  4;  4;  4;  4;  4;  4;  4;  4;  4;  4;  4;  4;  4;  4;
   4;  4;  4;  4;  4;  4;  4;  4;  4;  4;  4;  4;  4;  4;  4;  4;
   4;  4;  4;  4;  4;  4;  4;  4;  4;  4;  4;  4;  4;  4;  4;  4
].
(** ** The data memory interface *)

(** The host is little-endian: a [uint16_t] of a buffer is two bytes of the
    host memory, low byte first. *)
Definition host16 (h : Z -> Z) (a : Z) : Z :=
  Z.lor (uint8 (h a)) (Z.shiftl (uint8 (h (a + 1))) 8).

Definition store16 (h : Z -> Z) (a v : Z) : Z -> Z :=
  upd (upd h a (Z.land v 0xFF)) (a + 1) (Z.land (Z.shiftr v 8) 0xFF).

Section WithEnv.

Variable E : m68k_env.

Definition m68ki_read_8 (m : m68000_base_device) (address : Z)
    : Z * m68000_base_device :=
  let address := Z.land (uint32 address) 0xFFFFFF in
  let base := Z.shiftr address 16 in
  match read_pointers m base with
  | Some chunk => (uint8 (host m (chunk + Z.land (Z.lxor address 1) 0xFFFF)), m)
  | None => let (v, m') := read_byte E address m in (uint8 v, m')
  end.

Definition m68ki_write_8 (m : m68000_base_device) (address : Z) (value : Z)
    : m68000_base_device :=
  let address := Z.land (uint32 address) 0xFFFFFF in
  let value := uint8 value in
  let base := Z.shiftr address 16 in
  match write_pointers m base with
  | Some chunk =>
      set_host (upd (host m) (chunk + Z.land (Z.lxor address 1) 0xFFFF) value) m
  | None => write_byte E address value m
  end.

Definition m68ki_read_16 (m : m68000_base_device) (address : Z)
    : Z * m68000_base_device :=
  let address := Z.land (uint32 address) 0xFFFFFF in
  let base := Z.shiftr address 16 in
  match read_pointers m base with
  | Some chunk =>
      (host16 (host m) (chunk + 2 * Z.land (Z.shiftr address 1) 0x7FFF), m)
  | None => let (v, m') := read_word E address m in (uint16 v, m')
  end.

(** [m68ki_write_16] tests [write_pointers[base]] and then stores through
    [read_pointers[base]]; a store through a null pointer has no result
    ([None]). *)
Definition m68ki_write_16 (m : m68000_base_device) (address : Z) (value : Z)
    : option m68000_base_device :=
  let address := Z.land (uint32 address) 0xFFFFFF in
  let value := uint16 value in
  let base := Z.shiftr address 16 in
  match write_pointers m base with
  | Some _ =>
      match read_pointers m base with
      | Some chunk =>
          Some (set_host
                  (store16 (host m) (chunk + 2 * Z.land (Z.shiftr address 1) 0x7FFF) value)
                  m)
      | None => None
      end
  | None => Some (write_word E address value m)
  end.

(** ** Helpers of m68kcpu.h used by the reset *)

(** Modelled from the spec: the bank of the stack pointer in use ("two
    copies: user SP and supervisor SP"), by the S and M bits. *)
Definition sp_bank (s m : Z) : Z := Z.lor s (Z.land (Z.shiftr s 1) m).

(** Modelled from the spec: [m68ki_set_sm_flag] of m68kcpu.h, "the active
    one is exchanged when the S bit toggles": the
    running stack pointer is put back in its bank, S and M are set from the
    argument, and the stack pointer of the new mode becomes A7. *)
Definition m68ki_set_sm_flag (m : m68000_base_device) (s_value : Z)
    : m68000_base_device :=
  let m := set_sp (upd (sp m) (sp_bank (s_flag m) (m_flag m)) (REG_SP m)) m in
  let m := set_s_flag (Z.land s_value SFLAG_SET) m in
  let m := set_m_flag (Z.land s_value MFLAG_SET) m in
  set_REG_SP (sp m (sp_bank (s_flag m) (m_flag m))) m.

(** Modelled from the spec: [m68ki_jump] of m68kcpu.h sets the program
    counter. *)
Definition m68ki_jump (m : m68000_base_device) (new_pc : Z) : m68000_base_device :=
  set_pc (uint32 new_pc) m.

(** Modelled from the spec: [m68ki_read_imm_16] of m68kcpu.h, "reads a
    16-bit opcode via the memory map" with "prefetch-free fetch semantics":
    a word is read at the program counter, which moves past it. *)
Definition m68ki_read_imm_16 (m : m68000_base_device) : Z * m68000_base_device :=
  let (v, m) := m68ki_read_16 m (REG_PC m) in
  (v, set_pc (uint32 (pc m + 2)) m).

(** Modelled from the spec: [m68ki_read_imm_32] of m68kcpu.h: a long is two
    such words, the high one first (big-endian). *)
Definition m68ki_read_imm_32 (m : m68000_base_device) : Z * m68000_base_device :=
  let (hi, m) := m68ki_read_imm_16 m in
  let (lo, m) := m68ki_read_imm_16 m in
  (uint32 (Z.lor (Z.shiftl hi 16) lo), m).

(** Modelled from the spec: [m68ki_get_sr] of m68kcpu.h, the status register
    "T1 T0 S M 0 I2 I1 I0 0 0 0 X N Z V C". *)
Definition m68ki_get_sr (m : m68000_base_device) : Z :=
  Z.lor (Z.lor (Z.lor (Z.lor (Z.lor (t1_flag m) (t0_flag m))
    (Z.shiftl (s_flag m) 11)) (Z.shiftl (m_flag m) 11)) (int_mask m))
    (Z.land (ccr m) 0x1F).

(** ** Reset *)

Definition m68k_reset_cpu (m : m68000_base_device) : m68000_base_device :=
  let m := set_stopped 0 m in
  let m := set_run_mode RUN_MODE_BERR_AERR_RESET m in
  let m := m68ki_set_sm_flag m (Z.lor SFLAG_SET MFLAG_CLEAR) in
  let m := set_pref_addr 0x1000 m in
  let m := m68ki_jump m 0 in
  let (v, m) := m68ki_read_imm_32 m in
  let m := set_REG_SP v m in
  let (v, m) := m68ki_read_imm_32 m in
  let m := set_pc v m in
  let m := m68ki_jump m (REG_PC m) in
  let m := set_run_mode RUN_MODE_NORMAL m in
  set_current_cycle
    (uint32 (current_cycle m + tbl (cyc_exception m) EXCEPTION_RESET)) m.

(** ** [m68k_cpu_execute]: run up to [target_cycle] *)

(** One round of the main loop. *)
Definition execute_one (m : m68000_base_device) : m68000_base_device :=
  let m := m68ki_trace_t1 E m in
  let m := set_ppc (REG_PC m) m in
  let m := set_run_mode RUN_MODE_NORMAL m in
  let (w, m) := m68ki_read_imm_16 m in
  let m := set_ir w m in
  let m := jump_table E (ir m) m in
  let m := set_current_cycle
             (uint32 (current_cycle m + tbl (cyc_instruction m) (ir m))) m in
  m68ki_exception_if_trace E m.

(** [while (current_cycle < target_cycle)], [fuel] bounding the rounds;
    [None] when the fuel was too small. *)
Fixpoint execute_loop (fuel : nat) (m : m68000_base_device)
    : option m68000_base_device :=
  if current_cycle m <? target_cycle m then
    match fuel with
    | O => None
    | S fuel' => execute_loop fuel' (execute_one m)
    end
  else Some m.

Definition m68k_cpu_execute (fuel : nat) (m : m68000_base_device)
    : option m68000_base_device :=
  let m := m68ki_check_interrupts E m in
  let r :=
    if negb (truthy (stopped m)) then
      match execute_loop fuel m with
      | Some m => Some (set_ppc (REG_PC m) m)
      | None => None
      end
    else if current_cycle m <? target_cycle m
    then Some (set_current_cycle (target_cycle m) m)
    else Some m in
  match r with
  | Some m => Some (set_status (uint8 (Z.shiftr (m68ki_get_sr m) 8)) m)
  | None => None
  end.

(** ** Initialisation of a 68000 *)

(** The opcode table built on the first call is [jump_table] of the
    environment. *)
Definition m68k_init_cpu_common (m : m68000_base_device) : m68000_base_device :=
  set_current_cycle 0 m.

(** One round of the loop over the 64 KiB pages. *)
Definition init_page (L : map_lookup) (m : m68000_base_device) (address : Z)
    : m68000_base_device :=
  let m := set_read_pointers (upd_ptr (read_pointers m) (Z.shiftr address 16) None) m in
  let m := set_write_pointers (upd_ptr (write_pointers m) (Z.shiftr address 16) None) m in
  match lookup_chunk L address (gen (options m)) with
  | None => m
  | Some chunk =>
      if (chunk_end chunk <? address + 64 * 1024)
         || has_flag chunk (Z.lor MMAP_ONLY_ODD MMAP_ONLY_EVEN)
         || match chunk_buffer chunk with None => true | Some _ => false end
      then m
      else
        match lookup_native L address (mem_pointers m) (gen (options m)) with
        | None => m
        | Some ptr =>
            let m :=
              if has_flag chunk MMAP_READ
              then set_read_pointers
                     (upd_ptr (read_pointers m) (Z.shiftr address 16) (Some ptr)) m
              else m in
            if has_flag chunk MMAP_WRITE
            then set_write_pointers
                   (upd_ptr (write_pointers m) (Z.shiftr address 16) (Some ptr)) m
            else m
        end
  end.

(** The addresses [0, 64*1024, ...] below [24*1024*1024], the bound the
    loop is written with. *)
Definition m68k_pages : list Z :=
  map (fun i => Z.of_nat i * (64 * 1024)) (seq 0 384).

(** [tmp[i] = table[i] * clock_divider] with [uint8_t *tmp]: the scaled
    entry is cut to a byte. *)
Definition scale_cycles (divider : Z) (t : list Z) : list Z :=
  map (fun c => uint8 (c * divider)) t.

Definition m68k_init_cpu_m68000 (L : map_lookup) (m : m68000_base_device)
    : m68000_base_device :=
  let m := m68k_init_cpu_common m in
  let m := set_cpu_type CPU_TYPE_000 m in
  let m := set_sr_mask 0xa71f m in
  let d := clock_divider (gen (options m)) in
  let m := set_cyc_instruction (scale_cycles d (m68ki_cycles_000 E)) m in
  let m := set_cyc_exception (scale_cycles d m68ki_exception_cycle_table_000) m in
  let m := set_int_mask (Z.shiftl 7 8) m in
  let m := set_status (uint8 (Z.shiftr (m68ki_get_sr m) 8)) m in
  fold_left (init_page L) m68k_pages m.

End WithEnv.

End M68K.

(** * The gate array of the Sega CD (segacd.c) *)

Module SegaCD.

(** [segacd_context], the part the gate-array handlers reach:
    [gate_array[0x100]] of [uint16_t], by index.  [console] collects what
    the handlers [printf]: the address and the value of each unhandled
    write, the latest first.  A handler receives the 68000 context and
    reaches the Sega CD through [system] (the sub CPU) or through
    [system->expansion] (the main CPU); here it is handed the
    [segacd_context] it reaches, and a write handler returns it. *)
Record segacd_context : Type := Build_segacd_context {
  gate_array : Z -> Z;
  console : list (Z * Z)
}.

Definition set_gate (reg v : Z) (cd : segacd_context) : segacd_context :=
  Build_segacd_context (upd (gate_array cd) reg (uint16 v)) (console cd).

Definition printf_unhandled (address value : Z) (cd : segacd_context) : segacd_context :=
  Build_segacd_context (gate_array cd) ((address, value) :: console cd).

(** The handlers of the sub CPU. *)
Definition sub_gate_read16 (address : Z) (cd : segacd_context) : Z :=
  let address := uint32 address in
  uint16 (gate_array cd (Z.shiftr (Z.land address 0x1FF) 1)).


Definition sub_gate_write16 (address : Z) (cd : segacd_context) (value : Z)
    : segacd_context :=
  let address := uint32 address in
  let value := uint16 value in
  let reg := Z.shiftr (Z.land address 0x1FF) 1 in
  match reg with
  | 0x7 =>
      let cd := set_gate reg (Z.land (gate_array cd reg) 0xFF00) cd in
      set_gate reg (Z.lor (gate_array cd reg) (Z.land value 0xFF)) cd
  | 0x10 | 0x11 | 0x12 | 0x13 | 0x14 | 0x15 | 0x16 | 0x17 =>
      set_gate reg value cd
  | _ => printf_unhandled address value cd
  end.

Definition sub_gate_write8 (address : Z) (cd : segacd_context) (value : Z)
    : segacd_context :=
  let address := uint32 address in
  let value := uint8 value in
  let reg := Z.shiftr (Z.land address 0x1FF) 1 in
  let value16 :=
    if truthy (Z.land address 1)
    then uint16 (Z.lor (Z.land (gate_array cd reg) 0xFF00) value)
    else uint16 (Z.lor (Z.land (gate_array cd reg) 0xFF) (Z.shiftl value 8)) in
  sub_gate_write16 address cd value16.

(** The handlers of the main CPU. *)
Definition main_gate_read16 (address : Z) (cd : segacd_context) : Z :=
  let address := uint32 address in
  uint16 (gate_array cd (Z.shiftr (Z.land address 0x1FF) 1)).


Definition main_gate_write16 (address : Z) (cd : segacd_context) (value : Z)
    : segacd_context :=
  let address := uint32 address in
  let value := uint16 value in
  let reg := Z.shiftr (Z.land address 0x1FF) 1 in
  match reg with
  | 0x7 =>
      let cd := set_gate reg (Z.land (gate_array cd reg) 0xFF) cd in
      set_gate reg (Z.lor (gate_array cd reg) (Z.land value 0xFF00)) cd
  | 0x8 | 0x9 | 0xA | 0xB | 0xC | 0xD | 0xE | 0xF =>
      set_gate reg value cd
  | _ => printf_unhandled address value cd
  end.

Definition main_gate_write8 (address : Z) (cd : segacd_context) (value : Z)
    : segacd_context :=
  let address := uint32 address in
  let value := uint8 value in
  let reg := Z.shiftr (Z.land address 0x1FF) 1 in
  let value16 :=
    if truthy (Z.land address 1)
    then uint16 (Z.lor (Z.land (gate_array cd reg) 0xFF00) value)
    else uint16 (Z.lor (Z.land (gate_array cd reg) 0xFF) (Z.shiftl value 8)) in
  main_gate_write16 address cd value16.

End SegaCD.

(** * The vocabulary of the statements *)

(** ** Checks over a byte, and the reference recipe of the add flags *)

(** Exhaustive checks over a byte. *)
Definition all256 (P : Z -> bool) : bool := forallb P Z80.range256.

(** The flag byte of an 8-bit addition [a + b + c] by the reference recipe:
    S from bit 7 of the result, Z from a zero result, Y and X from bits 5
    and 3 of the result, H from the carry out of bit 3, V from the signed
    overflow, C from the carry out of bit 7. *)
Definition add_flags_reference (a b c : Z) : Z :=
  let r := (a + b + c) mod 256 in
  let s := int8 a + int8 b + c in
  (if Z.testbit r 7 then Z80.SF else 0)
  + (if r =? 0 then Z80.ZF else 0)
  + (if Z.testbit r 5 then Z80.YF else 0)
  + (if Z.testbit r 3 then Z80.XF else 0)
  + (if a mod 16 + b mod 16 + c >? 15 then Z80.HF else 0)
  + (if (s <? -128) || (s >? 127) then Z80.VF else 0)
  + (if a + b + c >? 255 then Z80.CF else 0).

Definition add_index (c a r : Z) : Z :=
  Z.lor (Z.lor (Z.shiftl c 16) (Z.shiftl a 8)) r.

(** ** Ranges, runs and their observations *)

Definition is_uint32 (x : Z) : Prop := 0 <= x < 2 ^ 32.

(** The observation of the round trip: the program counter and the cycle
    count after each of a sequence of runs, one per deadline. *)
Fixpoint run_trace (E : Z80.z80_env) (fuel : nat) (z : Z80.z80_device)
    (deadlines : list Z) : list (Z * Z) :=
  match deadlines with
  | [] => []
  | t :: ts =>
      match Z80.z80_run E fuel z t with
      | Z80.Done z' => (Z80.PC z', Z80.current_cycle z') :: run_trace E fuel z' ts
      | _ => []
      end
  end.

(** One round of the loop up to the bus-request test: the interrupt check,
    then one instruction. *)
Definition z80_round (E : Z80.z80_env) (t : Z) (z : Z80.z80_device) (int_icount : Z)
    : option (Z80.z80_device * Z) :=
  match Z80.check_interrupt E t z int_icount with
  | None => None
  | Some (z1, ic1) => Some (Z80.exec_one E z1, ic1)
  end.

(** The context after the first instruction of a run that enters the
    loop. *)
Definition first_round (E : Z80.z80_env) (z : Z80.z80_device) (t : Z)
    : option Z80.z80_device :=
  let (z0, ic) := Z80.loop_entry E z t in
  match z80_round E t z0 ic with
  | None => None
  | Some (z2, _) => Some z2
  end.

(** Successive runs, one per deadline. *)
Fixpoint run_deadlines (E : Z80.z80_env) (fuel : nat) (z : Z80.z80_device)
    (deadlines : list Z) : Z80.outcome :=
  match deadlines with
  | [] => Z80.Done z
  | t :: ts =>
      match Z80.z80_run E fuel z t with
      | Z80.Done z' => run_deadlines E fuel z' ts
      | o => o
      end
  end.

(** Every round from a context that satisfies [Inv] returns, takes at
    least one T-state and fewer than [K], keeps the clock divider [d], and
    unless the bus is requested re-establishes [Inv]. *)
Definition z80_rounds_bounded (E : Z80.z80_env) (Inv : Z80.z80_device -> Prop)
    (K d t : Z) : Prop :=
  forall z ic, Inv z -> 0 < Z80.m_icount z ->
  exists z' ic',
    z80_round E t z ic = Some (z', ic')
    /\ Z80.m_icount z - K < Z80.m_icount z' < Z80.m_icount z
    /\ clock_divider (Z80.gen (Z80.options z')) = d
    /\ (truthy (Z80.busreq z') = false -> Inv z').

(** What a run that enters the loop needs: the loop is entered at the
    caller's [current_cycle] with the clock divider [d] in a context that
    satisfies [Inv], the budget fits an [int], and the fuel covers it. *)
Definition z80_run_prepared (E : Z80.z80_env) (Inv : Z80.z80_device -> Prop)
    (K d : Z) (fuel : nat) (z : Z80.z80_device) (t : Z) : Prop :=
  let z0 := fst (Z80.loop_entry E z t) in
  Inv z0
  /\ Z80.current_cycle z0 = Z80.current_cycle z
  /\ clock_divider (Z80.gen (Z80.options z0)) = d
  /\ t - Z80.current_cycle z < 2 ^ 31
  /\ t - Z80.current_cycle z <= Z.of_nat fuel
  /\ z80_rounds_bounded E Inv K d t.

(** Every round of the main loop from a context that satisfies [Inv]
    re-establishes [Inv], keeps the deadline, and moves [current_cycle]
    forward by at least one cycle and by fewer than [K]. *)
Definition m68k_rounds_bounded (E : M68K.m68k_env)
    (Inv : M68K.m68000_base_device -> Prop) (K : Z) : Prop :=
  forall m, Inv m -> M68K.current_cycle m < M68K.target_cycle m ->
  let m' := M68K.execute_one E m in
  Inv m'
  /\ M68K.target_cycle m' = M68K.target_cycle m
  /\ M68K.current_cycle m < M68K.current_cycle m' < M68K.current_cycle m + K.

(** The largest entry of a cycle table, and the cost in host cycles that
    no single opcode of the context's tables exceeds: the largest base
    cost of any page of opcodes plus the largest extra cost. *)
Definition table_max (t : list Z) : Z := fold_right Z.max 0 t.

Definition z80_max_opcode_cost (z : Z80.z80_device) : Z :=
  (table_max (Z80.m_cc_op z ++ Z80.m_cc_cb z ++ Z80.m_cc_ed z ++ Z80.m_cc_xy z
              ++ Z80.m_cc_xycb z)
   + table_max (Z80.m_cc_ex z))
  * clock_divider (Z80.gen (Z80.options z)).

(** ** Memory of the 68000 and the pointer tables *)

(** The big-endian long at [address] as the byte reads of the 68000 see
    it. *)
Definition be32_at (E : M68K.m68k_env) (m : M68K.m68000_base_device) (address : Z) : Z :=
  Z.lor (Z.lor (Z.lor
    (Z.shiftl (fst (M68K.m68ki_read_8 E m address)) 24)
    (Z.shiftl (fst (M68K.m68ki_read_8 E m (address + 1))) 16))
    (Z.shiftl (fst (M68K.m68ki_read_8 E m (address + 2))) 8))
    (fst (M68K.m68ki_read_8 E m (address + 3))).


(** ** The flag byte by the reference recipes of the other 8-bit operations *)

(** S, Z, Y and X as every 8-bit operation derives them from its result. *)
Definition szyx_reference (r : Z) : Z :=
  (if Z.testbit r 7 then Z80.SF else 0)
  + (if r =? 0 then Z80.ZF else 0)
  + (if Z.testbit r 5 then Z80.YF else 0)
  + (if Z.testbit r 3 then Z80.XF else 0).

(** The flag byte of an 8-bit subtraction [a - b - c]: N set, H from the
    borrow out of bit 4, V from the signed overflow, C from the borrow. *)
Definition sub_flags_reference (a b c : Z) : Z :=
  let r := (a - b - c) mod 256 in
  let s := int8 a - int8 b - c in
  szyx_reference r
  + Z80.NF
  + (if a mod 16 <? b mod 16 + c then Z80.HF else 0)
  + (if (s <? -128) || (s >? 127) then Z80.VF else 0)
  + (if a <? b + c then Z80.CF else 0).

(** Whether a byte has an even number of bits set. *)
Definition even_parity (r : Z) : bool :=
  negb (fold_right xorb false (map (Z.testbit r) [0; 1; 2; 3; 4; 5; 6; 7])).

(** The flag byte of a logical operation with result [r]: P from the
    parity of the result, N and C clear; [h] is the H flag the operation
    sets. *)
Definition logic_flags_reference (r : Z) (h : bool) : Z :=
  szyx_reference r
  + (if h then Z80.HF else 0)
  + (if even_parity r then Z80.PF else 0).

(** A byte as two decimal digits, and the number they spell. *)
Definition is_bcd (x : Z) : bool := (Z.land x 0xF <? 10) && (Z.shiftr x 4 <? 10).
Definition bcd_value (x : Z) : Z := 10 * Z.shiftr x 4 + Z.land x 0xF.

(** The flag byte after [INC] and [DEC] of a byte [b], the carry flag
    being [c]: H from the carry or borrow between the nibbles, V from the
    step across the signed range, C unchanged. *)
Definition inc_flags_reference (b c : Z) : Z :=
  szyx_reference ((b + 1) mod 256)
  + (if b mod 16 =? 15 then Z80.HF else 0)
  + (if b =? 0x7f then Z80.VF else 0)
  + c.

Definition dec_flags_reference (b c : Z) : Z :=
  szyx_reference ((b - 1) mod 256)
  + Z80.NF
  + (if b mod 16 =? 0 then Z80.HF else 0)
  + (if b =? 0x80 then Z80.VF else 0)
  + c.

(** The flag byte after a rotate of the accumulator: S, Z and P as they
    were in [f], Y and X from the new accumulator [r], the carry [c]. *)
Definition rotate_a_flags_reference (f r c : Z) : Z :=
  Z.land f (Z.lor (Z.lor Z80.SF Z80.ZF) Z80.PF)
  + (if Z.testbit r 5 then Z80.YF else 0)
  + (if Z.testbit r 3 then Z80.XF else 0)
  + c.

(** Bit [n] of a byte as 0 or 1. *)
Definition bit_of (x n : Z) : Z := if Z.testbit x n then 1 else 0.

(** The flag byte after a rotate or shift of a byte with result [r], the
    bit that left the byte being [c]. *)
Definition shift_flags_reference (r c : Z) : Z :=
  logic_flags_reference r false + c.

(** ** Z80 addresses on the fast path *)

(** The host cell behind the Z80 address [a] for a read and for a write,
    when the page of [a] is on the fast path. *)
Definition read_cell (z : Z80.z80_device) (a : Z) : option Z :=
  match Z80.read_pointers z (Z.shiftr (uint16 a) 13) with
  | Some p => Some (p + Z.land (uint16 a) 0x1FFF)
  | None => None
  end.

Definition write_cell (z : Z80.z80_device) (a : Z) : option Z :=
  match Z80.write_pointers z (Z.shiftr (uint16 a) 13) with
  | Some p => Some (p + Z.land (uint16 a) 0x1FFF)
  | None => None
  end.

(** [a] is RAM on the fast path: reads and writes go to the same cell. *)
Definition ram_cell (z : Z80.z80_device) (a cell : Z) : Prop :=
  read_cell z a = Some cell /\ write_cell z a = Some cell.

(** The byte the Z80 reads at [a]. *)
Definition z80_byte (E : Z80.z80_env) (z : Z80.z80_device) (a : Z) : Z :=
  fst (Z80.rm E z a).

(** The little-endian word the Z80 reads at [a] and [a + 1]. *)
Definition z80_word (E : Z80.z80_env) (z : Z80.z80_device) (a : Z) : Z :=
  z80_byte E z a + 256 * z80_byte E z (a + 1).

(** The register of the gate array an address selects, and the byte lane:
    the low byte of the register at an odd address, the high byte at an
    even one. *)
Definition gate_reg (address : Z) : Z :=
  Z.shiftr (Z.land (uint32 address) 0x1FF) 1.

Definition gate_odd (address : Z) : bool := truthy (Z.land (uint32 address) 1).

(** ** The T-state accounting of the Z80 *)

(** The budget of a run and the tables it is charged from. *)
Definition budget (z : Z80.z80_device) : Z * list Z * list Z :=
  (Z80.m_icount z, Z80.m_cc_op z, Z80.m_cc_ex z).

(** A host whose memory callbacks leave the budget and the tables
    alone. *)
Definition quiet_host (E : Z80.z80_env) : Prop :=
  (forall a z, budget (snd (Z80.read_byte E a z)) = budget z)
  /\ (forall a v z, budget (Z80.write_byte E a v z) = budget z).

(** The opcodes of the main table whose handlers are translated. *)
Definition translated_opcodes : list Z :=
  [0x00; 0x01; 0x21; 0x22; 0x2a; 0x31; 0x32; 0x36; 0x3a; 0x3e; 0x76; 0x77;
   0x7e; 0x80; 0x88; 0xc1; 0xc3; 0xc5; 0xc6; 0xc9; 0xcd; 0xce; 0xf3; 0xfb;
   0xff].

(** The opcode the next instruction fetches. *)
Definition next_opcode (E : Z80.z80_env) (z : Z80.z80_device) : Z :=
  let z := Z80.set_m_after_ei 0 z in
  let z := Z80.set_m_after_ldair 0 z in
  let z := Z80.set_m_prvpc (Z80.PCD z) z in
  let z := Z80.set_m_r (uint8 (Z80.m_r z + 1)) z in
  fst (Z80.rop E z).

(** * Example contexts *)

(** ** Z80 *)

(** A Z80 whose 64 KiB are one 8 KiB RAM at host address 0x100000, seen
    eight times, readable and writable, with a clock divider of 15. *)
Definition example_ram : memmap_chunk :=
  Build_memmap_chunk 0x0000 0x10000 0x1FFF
    (Z.lor (Z.lor MMAP_READ MMAP_WRITE) MMAP_CODE) 0 (Some 0x100000).

Definition example_options : Z80.z80_options :=
  Z80.Build_z80_options (Build_cpu_options 0xFFFF 15 [example_ram]) [] 0xFF.

(** The context [init_z80_context] returns for it, the RAM holding zeros
    (NOP everywhere). *)
Definition example_z80 : Z80.z80_device :=
  Z80.init_z80_context spec_lookup example_options (fun _ => 0).

(** A host that answers every unmapped access by the memory map's default
    (a read yields 0, a write is dropped), has no [next_int_pulse] and
    whose remaining handlers do nothing: the examples below never reach
    any of them. *)
Definition example_env : Z80.z80_env :=
  Z80.Build_z80_env (fun _ z => (0, z)) (fun _ _ z => z) None (fun _ z => z).

(** What the rounds of [example_z80] keep: the eight pages on the fast
    path of a RAM of zeros, the cycle table of the source, interrupts
    off, the divider 15, and [m_icount] far from the ends of [int]. *)
Definition nop_machine (z : Z80.z80_device) : Prop :=
  (forall i, 0 <= i < 8 -> Z80.read_pointers z i = Some 0x100000)
  /\ (forall a, Z80.host z a = 0)
  /\ Z80.m_cc_op z = Z80.cc_op
  /\ truthy (Z80.m_iff1 z) = false
  /\ clock_divider (Z80.gen (Z80.options z)) = 15
  /\ - 2 ^ 30 < Z80.m_icount z < 2 ^ 30.

(** A context with timestamps: the Z80 is at cycle 5000, an NMI was
    latched at cycle 4000, the pulse window is [[4500, 4600)]. *)
Definition rebase_example : Z80.z80_device :=
  Z80.set_int_pulse_end 4600
    (Z80.set_int_pulse_start 4500
       (Z80.z80_assert_nmi (Z80.set_current_cycle 5000 example_z80) 4000)).

(** A context that has run to cycle 100 with program counter 0x1234, and a
    fresh one to load its snapshot into. *)
Definition snapshot_source : Z80.z80_device :=
  Z80.set_current_cycle 100 (Z80.set_PC 0x1234 example_z80).

(** A halted Z80 held in reset. *)
Definition halted_in_reset : Z80.z80_device :=
  Z80.set_reset 1 (Z80.halt (Z80.set_PC 0x0201 example_z80)).

(** The RAM of [example_z80] holding a program from address 0 on. *)
Definition with_program (bytes : list Z) (z : Z80.z80_device) : Z80.z80_device :=
  Z80.set_host (fun a => nth (Z.to_nat (a - 0x100000)) bytes 0) z.

(** A Z80 about to execute [LD (HL),A] with HL = 0x0100 and A = 0x42, no
    interrupt pulse scheduled, and the bus requested at cycle 0. *)
Definition busreq_example : Z80.z80_device :=
  Z80.z80_assert_busreq
    (Z80.set_int_pulse_end CYCLE_NEVER
       (Z80.set_int_pulse_start CYCLE_NEVER
          (Z80.set_HL 0x0100 (Z80.set_A 0x42 (with_program [0x77] example_z80)))))
    0.

(** The halted Z80 held in reset, in interrupt mode 1. *)
Definition halted_in_reset_im1 : Z80.z80_device :=
  Z80.set_m_im 1 halted_in_reset.

(** The word the Z80 finds at its stack pointer. *)
Definition top_of_stack (E : Z80.z80_env) (z : Z80.z80_device) : Z :=
  fst (Z80.rm E z (Z80.SP z)) + 256 * fst (Z80.rm E z (Z80.SP z + 1)).

(** A host whose [next_int_pulse] schedules no further pulse. *)
Definition pulse_env : Z80.z80_env :=
  Z80.Build_z80_env (fun _ z => (0, z)) (fun _ _ z => z)
    (Some (fun z => Z80.set_int_pulse_end CYCLE_NEVER
                      (Z80.set_int_pulse_start CYCLE_NEVER z)))
    (fun _ z => z).

(** A Z80 at cycle 10 in interrupt mode 2 with interrupts enabled and the
    pulse window [[5, 20)] open; the vector at address 0 points to
    address 2, where a CALL to address 2 sits. *)
Definition interrupt_due_z80 : Z80.z80_device :=
  Z80.set_int_pulse_end 20
    (Z80.set_int_pulse_start 5
       (Z80.set_current_cycle 10
          (Z80.set_m_iff1 1
             (Z80.set_m_im 2
                (with_program [0x02; 0x00; 0xCD; 0x02; 0x00] example_z80))))).



(** ** 68000 *)

(** A host without devices, interrupts or tracing, every handler of which
    does nothing and takes 4 cycles. *)
Definition example_m68k_env : M68K.m68k_env :=
  M68K.Build_m68k_env
    (fun _ m => (0, m)) (fun _ _ m => m) (fun _ m => (0, m)) (fun _ _ m => m)
    (fun m => m) (fun m => m) (fun m => m) (fun _ m => m)
    (repeat 4 (Nat.pow 2 16)).

(** A 68000 whose 16 MiB are one 64 KiB RAM at host address 0x200000,
    readable and writable, with a clock divider of 7. *)
Definition example_m68k_ram : memmap_chunk :=
  Build_memmap_chunk 0x000000 0x1000000 0xFFFF
    (Z.lor MMAP_READ MMAP_WRITE) 0 (Some 0x200000).

Definition blank_m68k (opts : M68K.m68k_options) (h : Z -> Z)
    : M68K.m68000_base_device :=
  M68K.Build_m68000_base_device opts (fun _ => None) []
    0 0 0 0 0 0 (fun _ => 0) 0 0 (fun _ => 0) 0
    0 0 0 0 0 0 0 0 0 0 0 [] []
    (fun _ => None) (fun _ => None) h.

Definition example_m68k_blank : M68K.m68000_base_device :=
  blank_m68k (M68K.Build_m68k_options (Build_cpu_options 0xFFFFFF 7 [example_m68k_ram]))
    (fun _ => 0).

Definition example_m68k : M68K.m68000_base_device :=
  M68K.m68k_init_cpu_m68000 example_m68k_env spec_lookup example_m68k_blank.

(** What the rounds of [example_m68k] keep, for the deadline 1000. *)
Definition idle_m68k (m : M68K.m68000_base_device) : Prop :=
  (forall i, 0 <= i < 256 -> M68K.read_pointers m i = Some 0x200000)
  /\ (forall a, M68K.host m a = 0)
  /\ tbl (M68K.cyc_instruction m) 0 = 28
  /\ M68K.target_cycle m = 1000
  /\ 0 <= M68K.current_cycle m < 1000 + 28.

(** The example 68000 with the reset vectors of a cartridge in its RAM:
    stack pointer 0x00001000, program counter 0x00000400. *)
Definition vectors_m68k : M68K.m68000_base_device :=
  M68K.set_host
    (fun a => nth (Z.to_nat (a - 0x200000)) [0x00; 0x00; 0x00; 0x10; 0x00; 0x00; 0x00; 0x04] 0)
    example_m68k.

(** A 68000 whose first 128 KiB are a write-only buffer at host address
    0x300000. *)
Definition write_only_chunk : memmap_chunk :=
  Build_memmap_chunk 0x000000 0x01FFFF 0xFFFF MMAP_WRITE 0 (Some 0x300000).

Definition write_only_m68k : M68K.m68000_base_device :=
  M68K.m68k_init_cpu_m68000 example_m68k_env spec_lookup
    (blank_m68k (M68K.Build_m68k_options
                   (Build_cpu_options 0xFFFFFF 7 [write_only_chunk]))
       (fun _ => 0)).

(** The same context with [read_pointers[0]] naming another buffer, at
    host address 0x400000. *)
Definition two_buffers_m68k : M68K.m68000_base_device :=
  M68K.set_read_pointers
    (upd_ptr (M68K.read_pointers write_only_m68k) 0 (Some 0x400000)) write_only_m68k.



(** * Facts *)

(** ** Machine integers *)

Lemma uint32_small (x : Z) : is_uint32 x -> uint32 x = x.
Proof. intros H. apply Z.mod_small. exact H. Qed.

Lemma int32_small (x : Z) : - 2 ^ 31 <= x < 2 ^ 31 -> int32 x = x.
Proof.
  intros H. unfold int32. cbv zeta.
  destruct (Z_lt_le_dec x 0) as [Hneg | Hpos].
  - replace (x mod 2 ^ 32) with (x + 2 ^ 32).
    + destruct (Z.ltb_spec (x + 2 ^ 32) (2 ^ 31)); lia.
    + apply Z.mod_unique with (q := -1); lia.
  - rewrite Z.mod_small by lia.
    destruct (Z.ltb_spec x (2 ^ 31)); lia.
Qed.

Lemma uint8_range (x : Z) : 0 <= uint8 x < 256.
Proof. unfold uint8. apply Z.mod_pos_bound. lia. Qed.

Lemma uint8_land_FF (x : Z) : uint8 (Z.land x 0xFF) = Z.land x 0xFF.
Proof.
  unfold uint8. change 0xFF with (Z.ones 8).
  rewrite Z.land_ones by lia. apply Z.mod_mod. lia.
Qed.

Lemma lor_shiftl_add (hi lo k : Z) :
  0 <= k -> 0 <= lo < 2 ^ k -> Z.lor (Z.shiftl hi k) lo = hi * 2 ^ k + lo.
Proof.
  intros Hk Hlo.
  rewrite <- Z.lxor_lor, <- Z.add_nocarry_lxor, Z.shiftl_mul_pow2; try lia.
  all: apply Z.bits_inj'; intros n Hn; rewrite Z.land_spec, Z.bits_0;
    destruct (Z_lt_le_dec n k) as [Hlt | Hge];
    [ rewrite Z.shiftl_spec_low by lia; reflexivity
    | rewrite <- (Z.mod_small lo (2 ^ k)) by lia;
      rewrite Z.mod_pow2_bits_high by lia; apply andb_false_r ].
Qed.

Lemma lor_mul_add (hi lo k : Z) :
  0 <= k -> 0 <= lo < 2 ^ k -> Z.lor (hi * 2 ^ k) lo = hi * 2 ^ k + lo.
Proof.
  intros Hk Hlo. rewrite <- (lor_shiftl_add hi lo k) by assumption.
  rewrite Z.shiftl_mul_pow2 by lia. reflexivity.
Qed.

(** ** Tables as lists *)

Lemma tbl_app_l (l1 l2 : list Z) (i : Z) :
  0 <= i < Z.of_nat (length l1) -> tbl (l1 ++ l2) i = tbl l1 i.
Proof.
  intros Hi. unfold tbl. apply app_nth1. lia.
Qed.

Lemma tbl_app_r (l1 l2 : list Z) (i : Z) :
  0 <= i -> tbl (l1 ++ l2) (Z.of_nat (length l1) + i) = tbl l2 i.
Proof.
  intros Hi. unfold tbl. rewrite app_nth2 by lia. f_equal. lia.
Qed.

Lemma range256_nth (j : nat) :
  (j < 256)%nat -> nth j Z80.range256 0 = Z.of_nat j.
Proof.
  intros Hj. unfold Z80.range256.
  change 0 with (Z.of_nat 0). rewrite map_nth, seq_nth by exact Hj. reflexivity.
Qed.

Lemma range256_length : length Z80.range256 = 256%nat.
Proof. unfold Z80.range256. rewrite length_map, length_seq. reflexivity. Qed.

Lemma range256_In (x : Z) : 0 <= x < 256 -> In x Z80.range256.
Proof.
  intros Hx. unfold Z80.range256. apply in_map_iff.
  exists (Z.to_nat x). split; [lia | apply in_seq; lia].
Qed.

(** Rows of equal length laid end to end: entry [i * k + j] is entry [j] of
    row [i]. *)
Lemma nth_rows (f : Z -> list Z) (k : nat) (l : list Z) :
  (forall x, length (f x) = k) ->
  forall i j, (j < k)%nat -> (i < length l)%nat ->
  nth (i * k + j) (flat_map f l) 0 = nth j (f (nth i l 0)) 0.
Proof.
  intros Hlen. induction l as [|x l IH]; intros i j Hj Hi; simpl in Hi.
  - lia.
  - simpl flat_map. destruct i as [|i].
    + simpl. apply app_nth1. rewrite Hlen. exact Hj.
    + rewrite app_nth2 by (rewrite Hlen; simpl; lia).
      rewrite Hlen. replace (S i * k + j - k)%nat with (i * k + j)%nat by (simpl; lia).
      simpl nth. apply IH; lia.
Qed.

Lemma length_rows (f : Z -> list Z) (k : nat) (l : list Z) :
  (forall x, length (f x) = k) -> length (flat_map f l) = (length l * k)%nat.
Proof.
  intros Hlen. induction l as [|x l IH]; simpl; [reflexivity|].
  rewrite length_app, Hlen, IH. reflexivity.
Qed.

Lemma tbl_walk (entry : Z -> Z -> Z) (o n : Z) :
  0 <= o < 256 -> 0 <= n < 256 ->
  tbl (Z80.walk entry) (o * 256 + n) = entry o n.
Proof.
  intros Ho Hn. unfold tbl, Z80.walk.
  replace (Z.to_nat (o * 256 + n)) with (Z.to_nat o * 256 + Z.to_nat n)%nat by lia.
  rewrite (nth_rows _ 256).
  - rewrite range256_nth by lia.
    rewrite (nth_indep _ 0 (entry (Z.of_nat (Z.to_nat o)) 0))
      by (rewrite length_map, range256_length; lia).
    rewrite map_nth, range256_nth by lia. f_equal; lia.
  - intros x. rewrite length_map. apply range256_length.
  - lia.
  - rewrite range256_length. lia.
Qed.

Lemma length_walk (entry : Z -> Z -> Z) :
  Z.of_nat (length (Z80.walk entry)) = 65536.
Proof.
  unfold Z80.walk. rewrite (length_rows _ 256).
  - rewrite range256_length, Nat2Z.inj_mul. reflexivity.
  - intros x. rewrite length_map. apply range256_length.
Qed.

Lemma all256_spec (P : Z -> bool) :
  all256 P = true -> forall x, 0 <= x < 256 -> P x = true.
Proof.
  unfold all256. intros H x Hx.
  rewrite forallb_forall in H. apply H, range256_In, Hx.
Qed.

(** ** The add table against the reference recipe *)

Lemma add_index_sum (c a r : Z) :
  0 <= c <= 1 -> 0 <= a < 256 -> 0 <= r < 256 ->
  add_index c a r = c * 65536 + (a * 256 + r).
Proof.
  intros Hc Ha Hr.
  assert (H : all256 (fun a => all256 (fun r =>
            (add_index 0 a r =? a * 256 + r)
            && (add_index 1 a r =? 65536 + (a * 256 + r)))) = true)
    by (vm_compute; reflexivity).
  pose proof (all256_spec _ (all256_spec _ H a Ha) r Hr) as H'.
  apply andb_true_iff in H'. destruct H' as [H0 H1].
  apply Z.eqb_eq in H0, H1.
  assert (c = 0 \/ c = 1) as [-> | ->] by lia; [exact H0 | exact H1].
Qed.

Lemma add_entries_reference (a b : Z) :
  0 <= a < 256 -> 0 <= b < 256 ->
  Z80.padd_entry a ((a + b) mod 256) = add_flags_reference a b 0
  /\ Z80.padc_entry a ((a + b + 1) mod 256) = add_flags_reference a b 1.
Proof.
  intros Ha Hb.
  assert (H : all256 (fun a => all256 (fun b =>
            (Z80.padd_entry a ((a + b) mod 256) =? add_flags_reference a b 0)
            && (Z80.padc_entry a ((a + b + 1) mod 256) =? add_flags_reference a b 1))) = true)
    by (vm_compute; reflexivity).
  pose proof (all256_spec _ (all256_spec _ H a Ha) b Hb) as H'.
  apply andb_true_iff in H'. destruct H' as [H0 H1].
  apply Z.eqb_eq in H0, H1. split; assumption.
Qed.

(** C8.  For all bytes [a], [b] and every carry [c], the entry of
    [SZHVC_add] at [(c << 16) | (a << 8) | ((a + b + c) mod 256)] is the
    flag byte of the reference recipe. *)
Theorem SZHVC_add_reference (a b c : Z) :
  0 <= a < 256 -> 0 <= b < 256 -> 0 <= c <= 1 ->
  tbl Z80.SZHVC_add
    (Z.lor (Z.lor (Z.shiftl c 16) (Z.shiftl a 8)) ((a + b + c) mod 256))
  = add_flags_reference a b c.
Proof.
  intros Ha Hb Hc.
  assert (Hr : 0 <= (a + b + c) mod 256 < 256) by (apply Z.mod_pos_bound; lia).
  fold (add_index c a ((a + b + c) mod 256)).
  rewrite add_index_sum by assumption.
  destruct (add_entries_reference a b Ha Hb) as [Hadd Hadc].
  unfold Z80.SZHVC_add.
  assert (c = 0 \/ c = 1) as [-> | ->] by lia.
  - rewrite tbl_app_l by (rewrite length_walk; lia).
    simpl (0 * 65536 + _). rewrite tbl_walk by assumption.
    rewrite Z.add_0_r in *. exact Hadd.
  - rewrite <- (length_walk Z80.padd_entry), Z.mul_1_l.
    rewrite tbl_app_r by lia.
    rewrite tbl_walk by assumption. exact Hadc.
Qed.

Lemma SZHVC_add_reference_witness :
  (0 <= 0x7f < 256 /\ 0 <= 1 < 256 /\ 0 <= 0 <= 1)
  /\ tbl Z80.SZHVC_add
       (Z.lor (Z.lor (Z.shiftl 0 16) (Z.shiftl 0x7f 8)) ((0x7f + 1 + 0) mod 256))
     = add_flags_reference 0x7f 1 0.
Proof.
  split; [lia|]. apply (SZHVC_add_reference 0x7f 1 0); lia.
Defined.

(** ** Bytes and words of a [PAIR] *)

Lemma uint8_b_l (p : Z80.PAIR) : uint8 (Z80.b_l p) = Z80.b_l p.
Proof. apply uint8_land_FF. Qed.

Lemma uint8_b_h (p : Z80.PAIR) : uint8 (Z80.b_h p) = Z80.b_h p.
Proof. apply uint8_land_FF. Qed.

Lemma w_l_set_w_l (v : Z) (p : Z80.PAIR) : Z80.w_l (Z80.set_w_l v p) = uint16 v.
Proof.
  unfold Z80.w_l, Z80.set_w_l, uint16.
  rewrite Z.land_lor_distr_l, <- Z.land_assoc.
  change (Z.land 0xFFFF0000 0xFFFF) with 0. rewrite Z.land_0_r, Z.lor_0_l.
  change 0xFFFF with (Z.ones 16). rewrite Z.land_ones by lia.
  apply Z.mod_mod. lia.
Qed.

Lemma uint16_high_half (p : Z) : uint16 (Z.land p 0xFFFF0000) = 0.
Proof.
  unfold uint16. rewrite <- Z.land_ones by lia. rewrite <- Z.land_assoc.
  change (Z.land 0xFFFF0000 (Z.ones 16)) with 0. apply Z.land_0_r.
Qed.

Lemma uint16_set_w_l (v : Z) (p : Z80.PAIR) : uint16 (Z80.set_w_l v p) = uint16 v.
Proof.
  unfold Z80.set_w_l, uint16 at 1. rewrite <- Z.land_ones by lia.
  rewrite Z.land_lor_distr_l, <- Z.land_assoc.
  change (Z.land 0xFFFF0000 (Z.ones 16)) with 0. rewrite Z.land_0_r, Z.lor_0_l.
  rewrite Z.land_ones by lia. unfold uint16. apply Z.mod_mod. lia.
Qed.

Lemma get_set_pair (r : Z80.pair_ref) (v : Z80.PAIR) (z : Z80.z80_device) :
  Z80.get_pair r (Z80.set_pair r v z) = v.
Proof. destruct r; reflexivity. Qed.

Lemma get_pair_set_host (r : Z80.pair_ref) (h : Z -> Z) (z : Z80.z80_device) :
  Z80.get_pair r (Z80.set_host h z) = Z80.get_pair r z.
Proof. destruct r; reflexivity. Qed.

Lemma set_pair_set_pair (r : Z80.pair_ref) (v w : Z80.PAIR) (z : Z80.z80_device) :
  Z80.set_pair r w (Z80.set_pair r v z) = Z80.set_pair r w z.
Proof. destruct r; reflexivity. Qed.

Lemma read_pointers_set_pair (r : Z80.pair_ref) (v : Z80.PAIR) (z : Z80.z80_device) :
  Z80.read_pointers (Z80.set_pair r v z) = Z80.read_pointers z.
Proof. destruct r; reflexivity. Qed.

Lemma host_set_pair (r : Z80.pair_ref) (v : Z80.PAIR) (z : Z80.z80_device) :
  Z80.host (Z80.set_pair r v z) = Z80.host z.
Proof. destruct r; reflexivity. Qed.

(** ** 16-bit accesses at the top of the Z80 address space *)

Section WordAccess.

Variable E : Z80.z80_env.

(** The fast path of a byte access. *)
Lemma rm_fast (z : Z80.z80_device) (addr p : Z) :
  Z80.read_pointers z (Z.shiftr (uint16 addr) 13) = Some p ->
  Z80.rm E z addr = (uint8 (Z80.host z (p + Z.land (uint16 addr) 0x1FFF)), z).
Proof. intros H. unfold Z80.rm. cbv zeta. rewrite H. reflexivity. Qed.

Lemma wm_fast (z : Z80.z80_device) (addr value p : Z) :
  Z80.write_pointers z (Z.shiftr (uint16 addr) 13) = Some p ->
  Z80.wm E z addr value =
    Z80.set_host (upd (Z80.host z) (p + Z.land (uint16 addr) 0x1FFF) (uint8 value)) z.
Proof. intros H. unfold Z80.wm. cbv zeta. rewrite H. reflexivity. Qed.

(** C10.  [rm16] and [wm16] at address 0xFFFF access the low byte at
    0xFFFF and the high byte at 0x0000: each is the two byte accesses at
    these addresses, in this order; and when both pages are on the fast
    path, the write changes the two host cells of these addresses and
    nothing else of the context, the read fills the pair from them. *)
Theorem word_access_wraps (z : Z80.z80_device) (r : Z80.pair_ref) :
  Z80.rm16 E z 0xFFFF r =
    (let (lo, z1) := Z80.rm E z 0xFFFF in
     let z2 := Z80.set_pair r (Z80.set_b_l lo (Z80.get_pair r z1)) z1 in
     let (hi, z3) := Z80.rm E z2 0x0000 in
     Z80.set_pair r (Z80.set_b_h hi (Z80.get_pair r z3)) z3)
  /\ Z80.wm16 E z 0xFFFF r =
       (let z1 := Z80.wm E z 0xFFFF (Z80.b_l (Z80.get_pair r z)) in
        Z80.wm E z1 0x0000 (Z80.b_h (Z80.get_pair r z1)))
  /\ (forall p7 p0,
        Z80.write_pointers z 7 = Some p7 -> Z80.write_pointers z 0 = Some p0 ->
        Z80.wm16 E z 0xFFFF r =
          Z80.set_host
            (upd (upd (Z80.host z) (p7 + 0x1FFF) (Z80.b_l (Z80.get_pair r z)))
               p0 (Z80.b_h (Z80.get_pair r z))) z)
  /\ (forall p7 p0,
        Z80.read_pointers z 7 = Some p7 -> Z80.read_pointers z 0 = Some p0 ->
        Z80.rm16 E z 0xFFFF r =
          Z80.set_pair r
            (Z80.set_b_h (uint8 (Z80.host z p0))
               (Z80.set_b_l (uint8 (Z80.host z (p7 + 0x1FFF))) (Z80.get_pair r z))) z).
Proof.
  split; [reflexivity|]. split; [reflexivity|]. split.
  - intros p7 p0 H7 H0.
    unfold Z80.wm16.
    change (uint16 65535) with 65535. change (65535 + 1) with 65536.
    rewrite (wm_fast z 65535 _ p7) by exact H7.
    rewrite (wm_fast _ 65536 _ p0) by exact H0.
    rewrite get_pair_set_host, uint8_b_l, uint8_b_h.
    change (Z.land (uint16 65535) 8191) with 0x1FFF.
    change (Z.land (uint16 65536) 8191) with 0. rewrite Z.add_0_r. reflexivity.
  - intros p7 p0 H7 H0.
    unfold Z80.rm16.
    change (uint16 65535) with 65535. change (65535 + 1) with 65536.
    rewrite (rm_fast z 65535 p7) by exact H7.
    rewrite (rm_fast _ 65536 p0) by (rewrite read_pointers_set_pair; exact H0).
    rewrite host_set_pair, !get_set_pair, set_pair_set_pair.
    change (Z.land (uint16 65535) 8191) with 0x1FFF.
    change (Z.land (uint16 65536) 8191) with 0. rewrite Z.add_0_r. reflexivity.
Qed.

End WordAccess.

(** ** Rebasing the timestamps *)

(** C5, as the code has it.  [z80_adjust_cycles] takes [deduction] off
    [current_cycle], stopping at zero.  It leaves [nmi_start] as it was.
    When [int_pulse_start] is [CYCLE_NEVER] the pulse window is left as it
    was; otherwise, when [int_pulse_end] is before the deduction both
    ends become [CYCLE_NEVER], and if not, [int_pulse_end] loses the
    deduction unless it is [CYCLE_NEVER] and [int_pulse_start] loses it,
    stopping at zero. *)
Theorem z80_adjust_cycles_spec (z : Z80.z80_device) (deduction : Z) :
  is_uint32 deduction ->
  is_uint32 (Z80.current_cycle z) ->
  is_uint32 (Z80.int_pulse_start z) ->
  is_uint32 (Z80.int_pulse_end z) ->
  let z' := Z80.z80_adjust_cycles z deduction in
  Z80.current_cycle z' = Z.max 0 (Z80.current_cycle z - deduction)
  /\ Z80.nmi_start z' = Z80.nmi_start z
  /\ (Z80.int_pulse_start z = CYCLE_NEVER ->
      Z80.int_pulse_start z' = CYCLE_NEVER
      /\ Z80.int_pulse_end z' = Z80.int_pulse_end z)
  /\ (Z80.int_pulse_start z <> CYCLE_NEVER ->
      Z80.int_pulse_end z < deduction ->
      Z80.int_pulse_start z' = CYCLE_NEVER /\ Z80.int_pulse_end z' = CYCLE_NEVER)
  /\ (Z80.int_pulse_start z <> CYCLE_NEVER ->
      deduction <= Z80.int_pulse_end z ->
      Z80.int_pulse_start z' = Z.max 0 (Z80.int_pulse_start z - deduction)
      /\ Z80.int_pulse_end z' =
           (if Z80.int_pulse_end z =? CYCLE_NEVER then CYCLE_NEVER
            else Z80.int_pulse_end z - deduction)).
Proof.
  unfold is_uint32. intros Hd Hc Hs He.
  assert (Hnever : CYCLE_NEVER = 4294967295) by reflexivity.
  unfold Z80.z80_adjust_cycles.
  destruct (Z.ltb_spec (Z80.current_cycle z) deduction) as [C | C]; simpl;
    (destruct (Z.eqb_spec (Z80.int_pulse_start z) CYCLE_NEVER) as [S | S]; simpl;
     [ | destruct (Z.ltb_spec (Z80.int_pulse_end z) deduction) as [L | L]; simpl;
         [ | destruct (Z.eqb_spec (Z80.int_pulse_end z) CYCLE_NEVER) as [N | N]; simpl;
             destruct (Z.ltb_spec (Z80.int_pulse_start z) deduction) as [M | M]; simpl ] ]);
    rewrite ?uint32_small by (unfold is_uint32; lia);
    repeat split; intros; try reflexivity; try assumption; try lia.
Qed.

Lemma z80_adjust_cycles_spec_witness :
  (is_uint32 1000 /\ is_uint32 (Z80.current_cycle rebase_example)
   /\ is_uint32 (Z80.int_pulse_start rebase_example)
   /\ is_uint32 (Z80.int_pulse_end rebase_example))
  /\ Z80.current_cycle (Z80.z80_adjust_cycles rebase_example 1000) = 4000
  /\ Z80.nmi_start (Z80.z80_adjust_cycles rebase_example 1000) = 4000
  /\ Z80.int_pulse_start (Z80.z80_adjust_cycles rebase_example 1000) = 3500
  /\ Z80.int_pulse_end (Z80.z80_adjust_cycles rebase_example 1000) = 3600.
Proof.
  assert (R : is_uint32 1000 /\ is_uint32 (Z80.current_cycle rebase_example)
              /\ is_uint32 (Z80.int_pulse_start rebase_example)
              /\ is_uint32 (Z80.int_pulse_end rebase_example))
    by (unfold is_uint32; vm_compute; intuition discriminate).
  split; [exact R|].
  destruct R as (R1 & R2 & R3 & R4).
  destruct (z80_adjust_cycles_spec rebase_example 1000 R1 R2 R3 R4)
    as (Hc & Hn & _ & _ & Hw).
  split; [exact Hc|]. split; [exact Hn|].
  apply Hw; vm_compute; discriminate.
Defined.

(** C5 as stated fails: the latched [nmi_start] is not reduced by the
    deduction (it stays 4000 where the claim has 3000). *)
Lemma z80_adjust_cycles_keeps_nmi_start :
  Z80.nmi_start rebase_example = 4000
  /\ Z80.nmi_start (Z80.z80_adjust_cycles rebase_example 1000) = 4000
  /\ 4000 - 1000 = 3000.
Proof. vm_compute. repeat split. Qed.

(** ** State snapshots *)

(** C6, as the code has it.  [z80_serialize] leaves the buffer as it was
    and [z80_deserialize] leaves the context it is given as it was; so a
    snapshot taken of a context and loaded into that same context gives
    the same trace, and loaded into any other context it gives that other
    context's trace. *)
Theorem z80_snapshot_is_identity (E : Z80.z80_env) (fuel : nat)
    (context other : Z80.z80_device) (buf : Z80.serialize_buffer)
    (deadlines : list Z) :
  Z80.z80_serialize context buf = buf
  /\ Z80.z80_deserialize (Z80.z80_serialize context buf) other = other
  /\ run_trace E fuel (Z80.z80_deserialize (Z80.z80_serialize context buf) context)
       deadlines
     = run_trace E fuel context deadlines
  /\ run_trace E fuel (Z80.z80_deserialize (Z80.z80_serialize context buf) other)
       deadlines
     = run_trace E fuel other deadlines.
Proof. repeat split. Qed.

(** C6 as stated fails: the snapshot of [snapshot_source] loaded into a
    fresh context gives a context whose trace from deadline 150 differs
    from the original's (one NOP from 0x1234 against three from 0). *)
Lemma z80_snapshot_loses_state :
  run_trace example_env 10 snapshot_source [150] = [(0x1235, 150)]
  /\ run_trace example_env 10
       (Z80.z80_deserialize (Z80.z80_serialize snapshot_source []) example_z80) [150]
     = [(3, 180)].
Proof. vm_compute. split; reflexivity. Qed.

(** ** The run loop of the Z80 *)

(** With the reset line asserted (or the bus acknowledged), [z80_run] only
    moves [current_cycle] to the deadline, whatever the fuel. *)
Lemma z80_run_frozen (E : Z80.z80_env) (fuel : nat) (z : Z80.z80_device) (t : Z) :
  truthy (Z80.busack z) || truthy (Z80.reset z) = true ->
  Z80.z80_run E fuel z t = Z80.Done (Z80.set_current_cycle t z).
Proof. intros H. unfold Z80.z80_run. rewrite H. reflexivity. Qed.

Section RunLoop.

Variable E : Z80.z80_env.

Lemma run_loop_round (fuel : nat) (t ic : Z) (z : Z80.z80_device) :
  Z80.run_loop E (S fuel) t ic z =
    match z80_round E t z ic with
    | None => Z80.NullCall
    | Some (z2, ic1) =>
        let z3 := Z80.ack_busreq z2 in
        if Z80.m_icount z3 >? 0 then Z80.run_loop E fuel t ic1 z3
        else Z80.Done (Z80.sync_cycle t z3)
    end.
Proof.
  unfold z80_round. simpl.
  destruct (Z80.check_interrupt E t z ic) as [[z1 ic1]|]; reflexivity.
Qed.

Lemma z80_run_past (fuel : nat) (z : Z80.z80_device) (t : Z) :
  truthy (Z80.busack z) || truthy (Z80.reset z) = false ->
  t <= Z80.current_cycle z ->
  Z80.z80_run E fuel z t = Z80.Done z.
Proof.
  intros Hf Hp. unfold Z80.z80_run. rewrite Hf.
  destruct (Z.geb_spec (Z80.current_cycle z) t); [reflexivity | lia].
Qed.

Lemma z80_run_enters (fuel : nat) (z : Z80.z80_device) (t : Z) :
  truthy (Z80.busack z) || truthy (Z80.reset z) = false ->
  Z80.current_cycle z < t ->
  Z80.z80_run E fuel z t =
    Z80.run_loop E fuel t (snd (Z80.loop_entry E z t)) (fst (Z80.loop_entry E z t)).
Proof.
  intros Hf Hp. unfold Z80.z80_run. rewrite Hf.
  destruct (Z.geb_spec (Z80.current_cycle z) t); [lia|].
  destruct (Z80.loop_entry E z t); reflexivity.
Qed.

Lemma set_current_cycle_same (z : Z80.z80_device) :
  Z80.set_current_cycle (Z80.current_cycle z) z = z.
Proof. destruct z; reflexivity. Qed.

Lemma last_cons_indep (a : Z) (l : list Z) (d d' : Z) :
  last (a :: l) d = last (a :: l) d'.
Proof.
  revert a. induction l as [|b l IH]; intros a; [reflexivity|].
  change (last (b :: l) d = last (b :: l) d'). apply IH.
Qed.

(** While the bus is acknowledged, any sequence of runs only moves
    [current_cycle], to the last deadline. *)
Lemma run_deadlines_frozen (fuel : nat) (ts : list Z) :
  forall z, truthy (Z80.busack z) = true ->
  run_deadlines E fuel z ts =
    Z80.Done (Z80.set_current_cycle (last ts (Z80.current_cycle z)) z).
Proof.
  induction ts as [|t ts IH]; intros z Hack.
  - simpl. rewrite set_current_cycle_same. reflexivity.
  - cbn [run_deadlines].
    rewrite z80_run_frozen by (rewrite Hack; reflexivity).
    rewrite IH by exact Hack.
    destruct ts as [|t' ts]; [reflexivity|].
    rewrite (last_cons_indep t' ts _ (Z80.current_cycle z)). reflexivity.
Qed.

(** The run that finds the request pending after its first instruction
    acknowledges it and returns at the deadline. *)
Lemma z80_run_acknowledges (fuel : nat) (z z2 : Z80.z80_device) (t : Z) :
  truthy (Z80.busack z) || truthy (Z80.reset z) = false ->
  Z80.current_cycle z < t ->
  first_round E z t = Some z2 ->
  truthy (Z80.busreq z2) = true ->
  Z80.z80_run E (S fuel) z t =
    Z80.Done (Z80.set_current_cycle (uint32 t)
                (Z80.set_m_icount 0 (Z80.set_busack 1 z2))).
Proof.
  intros Hf Hp Hfirst Hreq.
  rewrite z80_run_enters by assumption.
  unfold first_round in Hfirst.
  destruct (Z80.loop_entry E z t) as [z0 ic]. cbn [fst snd].
  rewrite run_loop_round.
  destruct (z80_round E t z0 ic) as [[z2' ic1]|]; [|discriminate].
  injection Hfirst as ->.
  unfold Z80.ack_busreq. cbv zeta. rewrite Hreq.
  cbn [Z80.m_icount Z80.set_m_icount]. change (0 >? 0) with false. cbv iota.
  unfold Z80.sync_cycle. cbn [Z80.m_icount Z80.set_m_icount].
  rewrite Z.mul_0_l, Z.sub_0_r. reflexivity.
Qed.

End RunLoop.

(** ** Reset of the Z80 *)

(** What [z80_clear_reset] assigns on a context whose reset line is
    asserted: PC, I, R, R2, IFF1, IFF2, the EI and LD A,I/R shadows and WZ
    are zero, the reset line is released and [current_cycle] is the given
    cycle.  [m_halt] is not among them. *)
Lemma z80_clear_reset_fields (E : Z80.z80_env) (fuel : nat)
    (z : Z80.z80_device) (cycle : Z) :
  truthy (Z80.reset z) = true ->
  exists z',
    Z80.z80_clear_reset E fuel z cycle = Z80.Done z'
    /\ Z80.PC z' = 0 /\ Z80.m_i z' = 0 /\ Z80.m_r z' = 0 /\ Z80.m_r2 z' = 0
    /\ Z80.m_iff1 z' = 0 /\ Z80.m_iff2 z' = 0
    /\ Z80.m_after_ei z' = 0 /\ Z80.m_after_ldair z' = 0
    /\ Z80.WZ z' = 0 /\ Z80.reset z' = 0
    /\ Z80.current_cycle z' = cycle
    /\ Z80.m_halt z' = Z80.m_halt z.
Proof.
  intros Hreset. unfold Z80.z80_clear_reset. rewrite Hreset. simpl negb. cbv iota.
  rewrite z80_run_frozen by (rewrite Hreset; apply orb_true_r).
  eexists. split; [reflexivity|].
  repeat split; try reflexivity.
  - unfold Z80.PC, Z80.set_WZ, Z80.set_PC. simpl. apply w_l_set_w_l.
  - unfold Z80.WZ, Z80.set_WZ, Z80.PCD, Z80.set_PC. simpl.
    rewrite w_l_set_w_l. apply uint16_set_w_l.
Qed.

(** C4 fails on the code.  [z80_clear_reset] clears PC, I, R, R2, IFF1 and
    IFF2 but has no statement for the halt flag, which every context
    keeps through it.  A Z80 that was halted when the reset line was
    asserted leaves the reset with PC at 0 and [m_halt] still 1; the
    first interrupt it takes (mode 1) then steps over a HALT it is not
    on, and the return address it pushes is 1, where the same context
    with the halt flag cleared pushes 0. *)
Theorem z80_clear_reset_leaves_halt :
  (forall (E : Z80.z80_env) (fuel : nat) (z : Z80.z80_device) (cycle : Z),
     truthy (Z80.reset z) = true ->
     exists z',
       Z80.z80_clear_reset E fuel z cycle = Z80.Done z'
       /\ Z80.PC z' = 0 /\ Z80.m_i z' = 0 /\ Z80.m_r z' = 0 /\ Z80.m_r2 z' = 0
       /\ Z80.m_iff1 z' = 0 /\ Z80.m_iff2 z' = 0
       /\ Z80.m_halt z' = Z80.m_halt z)
  /\ Z80.m_halt halted_in_reset_im1 = 1
  /\ truthy (Z80.reset halted_in_reset_im1) = true
  /\ match Z80.z80_clear_reset example_env 0 halted_in_reset_im1 700 with
     | Z80.Done z' =>
         (Z80.m_halt z', Z80.PC z',
          Z80.PC (Z80.take_interrupt example_env z'),
          top_of_stack example_env (Z80.take_interrupt example_env z'),
          top_of_stack example_env
            (Z80.take_interrupt example_env (Z80.set_m_halt 0 z')))
     | _ => (0, 0, 0, 0, 0)
     end = (1, 0, 0x38, 1, 0).
Proof.
  split.
  - intros E fuel z cycle Hreset.
    destruct (z80_clear_reset_fields E fuel z cycle Hreset)
      as (z' & Hrun & Hpc & Hi & Hr & Hr2 & Hiff1 & Hiff2 & _ & _ & _ & _ & _ & Hhalt).
    exists z'. repeat split; assumption.
  - vm_compute. repeat split.
Qed.

(** ** The bus-request handshake *)

(** C9, as the code has it.  [z80_assert_busreq] sets [busreq] and nothing
    else.  A run that then enters the loop executes one instruction
    (after interrupt entry, if one is due), and with the request still
    pending sets [busack], zeroes [m_icount] and returns with
    [current_cycle] at the deadline.  From then on, while [busack] is set,
    every run leaves the whole context (memory included) as it was but for
    [current_cycle], which it sets to its deadline.  [z80_clear_busreq]
    clears both lines. *)
Theorem busreq_handshake (E : Z80.z80_env) (fuel : nat) (z : Z80.z80_device)
    (cycle : Z) :
  Z80.z80_assert_busreq z cycle = Z80.set_busreq 1 z
  /\ (forall t z2,
        truthy (Z80.busack z) || truthy (Z80.reset z) = false ->
        Z80.current_cycle z < t ->
        first_round E (Z80.z80_assert_busreq z cycle) t = Some z2 ->
        truthy (Z80.busreq z2) = true ->
        Z80.z80_run E (S fuel) (Z80.z80_assert_busreq z cycle) t =
          Z80.Done (Z80.set_current_cycle (uint32 t)
                      (Z80.set_m_icount 0 (Z80.set_busack 1 z2))))
  /\ (forall za ts,
        truthy (Z80.busack za) = true ->
        run_deadlines E fuel za ts =
          Z80.Done (Z80.set_current_cycle (last ts (Z80.current_cycle za)) za))
  /\ (forall za,
        Z80.busreq (Z80.z80_clear_busreq za cycle) = 0
        /\ Z80.busack (Z80.z80_clear_busreq za cycle) = 0).
Proof.
  split; [reflexivity|]. split; [|split].
  - intros t z2 Hf Hp Hfirst Hreq.
    apply z80_run_acknowledges; assumption.
  - intros za ts Hack. apply run_deadlines_frozen, Hack.
  - intros za. split; reflexivity.
Qed.

(** The handshake on this example: the first run acknowledges at the
    deadline, the following ones change nothing but [current_cycle]. *)
Lemma busreq_handshake_witness :
  (exists z2,
     first_round example_env busreq_example 100 = Some z2
     /\ Z80.z80_run example_env 1 busreq_example 100 =
          Z80.Done (Z80.set_current_cycle (uint32 100)
                      (Z80.set_m_icount 0 (Z80.set_busack 1 z2))))
  /\ run_deadlines example_env 0 (Z80.set_busack 1 busreq_example) [200; 300]
     = Z80.Done (Z80.set_current_cycle 300 (Z80.set_busack 1 busreq_example)).
Proof.
  destruct (busreq_handshake example_env 0
              (Z80.set_int_pulse_end CYCLE_NEVER
                 (Z80.set_int_pulse_start CYCLE_NEVER
                    (Z80.set_HL 0x0100
                       (Z80.set_A 0x42 (with_program [0x77] example_z80))))) 0)
    as (_ & Hack & Hfrozen & _).
  fold busreq_example in Hack.
  split.
  - assert (Hreq : match first_round example_env busreq_example 100 with
                   | Some z2 => truthy (Z80.busreq z2)
                   | None => false
                   end = true) by (vm_compute; reflexivity).
    destruct (first_round example_env busreq_example 100) as [z2|] eqn:Hfirst;
      [|discriminate Hreq].
    exists z2. split; [reflexivity|].
    apply Hack; [vm_compute; reflexivity | vm_compute; reflexivity | exact Hfirst | exact Hreq].
  - apply (Hfrozen (Z80.set_busack 1 busreq_example) [200; 300]).
    vm_compute; reflexivity.
Defined.

(** C9 as stated fails: the first run after [z80_assert_busreq] still
    executes [LD (HL),A], which writes 0x42 to address 0x0100, before it
    acknowledges the request. *)
Lemma busreq_run_still_writes :
  truthy (Z80.busreq busreq_example) = true
  /\ fst (Z80.rm example_env busreq_example 0x0100) = 0
  /\ match Z80.z80_run example_env 1 busreq_example 100 with
     | Z80.Done z' =>
         (fst (Z80.rm example_env z' 0x0100), Z80.busack z', Z80.current_cycle z')
     | _ => (0, 0, 0)
     end = (0x42, 1, 100).
Proof. vm_compute. repeat split. Qed.

(** ** The overshoot of a run *)

Section Overshoot.

Variable E : Z80.z80_env.
Variable Inv : Z80.z80_device -> Prop.
Variables K d t : Z.

Hypothesis d_pos : 0 < d.
Hypothesis K_pos : 0 < K.
Hypothesis t_range : 0 <= t /\ t + K * d <= 2 ^ 32.
Hypothesis rounds : z80_rounds_bounded E Inv K d t.

Lemma run_loop_overshoot (fuel : nat) :
  forall z ic,
  Inv z -> 0 < Z80.m_icount z <= Z.of_nat fuel ->
  exists z',
    Z80.run_loop E fuel t ic z = Z80.Done z'
    /\ t <= Z80.current_cycle z' < t + K * d.
Proof.
  induction fuel as [|fuel IH]; intros z ic HInv Hm; [simpl in Hm; lia|].
  rewrite run_loop_round.
  destruct (rounds z ic HInv (proj1 Hm)) as (z2 & ic1 & -> & Hcost & Hd & Hkeep).
  cbv zeta. unfold Z80.ack_busreq.
  destruct (truthy (Z80.busreq z2)) eqn:Hreq.
  - cbn [Z80.m_icount Z80.set_m_icount]. change (0 >? 0) with false. cbv iota.
    eexists. split; [reflexivity|].
    unfold Z80.sync_cycle. cbn [Z80.current_cycle Z80.set_current_cycle
                                  Z80.m_icount Z80.set_m_icount].
    rewrite Z.mul_0_l, Z.sub_0_r. unfold uint32.
    rewrite Z.mod_small by nia. nia.
  - destruct (Z.gtb_spec (Z80.m_icount z2) 0) as [Hgo | Hstop].
    + apply IH; [apply Hkeep; reflexivity | lia].
    + eexists. split; [reflexivity|].
      unfold Z80.sync_cycle. cbn [Z80.current_cycle Z80.set_current_cycle].
      rewrite Hd. unfold uint32.
      assert (0 <= - Z80.m_icount z2 <= K - 1) by lia.
      rewrite Z.mod_small by nia. nia.
Qed.

End Overshoot.

Lemma to_icount_budget (z : Z80.z80_device) (d c : Z) :
  clock_divider (Z80.gen (Z80.options z)) = d ->
  0 < d -> 0 < c < 2 ^ 31 -> c + d <= 2 ^ 32 ->
  0 < Z80.to_icount z c <= c.
Proof.
  intros Hd Hpos Hc Hsum. unfold Z80.to_icount. rewrite Hd.
  unfold uint32. rewrite (Z.mod_small c) by lia.
  rewrite (Z.mod_small (c + d - 1)) by lia.
  assert (Hq : 0 < (c + d - 1) / d <= c).
  { split.
    - apply Z.div_str_pos. lia.
    - apply Z.div_le_upper_bound; nia. }
  rewrite int32_small by lia. exact Hq.
Qed.

(** The Z80 half of C1. *)
Lemma z80_run_overshoot (E : Z80.z80_env) (Inv : Z80.z80_device -> Prop)
    (K d : Z) (fuel : nat) (z : Z80.z80_device) (t : Z) :
  0 < d -> 0 < K -> 0 <= t -> t + K * d <= 2 ^ 32 ->
  0 <= Z80.current_cycle z ->
  (truthy (Z80.busack z) || truthy (Z80.reset z) = false ->
   Z80.current_cycle z < t -> z80_run_prepared E Inv K d fuel z t) ->
  exists z',
    Z80.z80_run E fuel z t = Z80.Done z'
    /\ t <= Z80.current_cycle z'
    /\ (Z80.current_cycle z <= t -> Z80.current_cycle z' - t < K * d).
Proof.
  intros Hd HK Ht Hwrap Hcur Hprep.
  destruct (truthy (Z80.busack z) || truthy (Z80.reset z)) eqn:Hfrozen.
  - rewrite z80_run_frozen by exact Hfrozen.
    eexists. split; [reflexivity|]. cbn [Z80.current_cycle Z80.set_current_cycle].
    split; [lia | nia].
  - destruct (Z_lt_le_dec (Z80.current_cycle z) t) as [Hbehind | Hpast].
    + specialize (Hprep eq_refl Hbehind).
      destruct Hprep as (HInv & Hsame & Hdiv & Hint & Hfuel & Hrounds).
      rewrite (z80_run_enters E) by assumption.
      assert (Hentry : Z80.m_icount (fst (Z80.loop_entry E z t))
                       = Z80.to_icount (fst (Z80.loop_entry E z t))
                           (t - Z80.current_cycle z)).
      { rewrite <- Hsame. unfold Z80.loop_entry. cbv zeta. reflexivity. }
      pose proof (to_icount_budget (fst (Z80.loop_entry E z t)) d
                    (t - Z80.current_cycle z) Hdiv Hd) as Hbudget.
      destruct (run_loop_overshoot E Inv K d t Hd HK (conj Ht Hwrap) Hrounds fuel
                  (fst (Z80.loop_entry E z t)) (snd (Z80.loop_entry E z t)) HInv)
        as (z' & Hrun & Hres).
      { rewrite Hentry. assert (d <= K * d) by nia.
        assert (0 < t - Z80.current_cycle z < 2 ^ 31) by lia.
        assert (t - Z80.current_cycle z + d <= 2 ^ 32) by lia.
        specialize (Hbudget ltac:(assumption) ltac:(assumption)). lia. }
      exists z'. split; [exact Hrun|]. lia.
    + rewrite (z80_run_past E) by assumption.
      exists z. split; [reflexivity|]. split; [lia | nia].
Qed.

Lemma execute_loop_overshoot (E : M68K.m68k_env)
    (Inv : M68K.m68000_base_device -> Prop) (K : Z) :
  m68k_rounds_bounded E Inv K ->
  forall fuel m,
  Inv m -> M68K.target_cycle m - M68K.current_cycle m <= Z.of_nat fuel ->
  exists m',
    M68K.execute_loop E fuel m = Some m'
    /\ M68K.target_cycle m' = M68K.target_cycle m
    /\ M68K.target_cycle m <= M68K.current_cycle m'
    /\ (M68K.current_cycle m < M68K.target_cycle m ->
        M68K.current_cycle m' < M68K.target_cycle m + K)
    /\ (M68K.target_cycle m <= M68K.current_cycle m -> m' = m).
Proof.
  intros Hrounds. induction fuel as [|fuel IH]; intros m HInv Hfuel.
  - exists m. cbn [M68K.execute_loop].
    destruct (Z.ltb_spec (M68K.current_cycle m) (M68K.target_cycle m)); [simpl in Hfuel; lia|].
    repeat split; try reflexivity; lia.
  - cbn [M68K.execute_loop].
    destruct (Z.ltb_spec (M68K.current_cycle m) (M68K.target_cycle m)) as [Hgo | Hstop].
    + destruct (Hrounds m HInv Hgo) as (HInv' & Htarget & Hstep).
      destruct (IH (M68K.execute_one E m) HInv' ltac:(lia))
        as (m' & Hrun & Ht' & Hge & Hlt & Hid).
      exists m'. split; [exact Hrun|]. split; [congruence|].
      split; [lia|]. split; [|lia].
      intros _.
      destruct (Z_lt_le_dec (M68K.current_cycle (M68K.execute_one E m))
                  (M68K.target_cycle (M68K.execute_one E m))) as [Hmore | Hdone].
      * specialize (Hlt Hmore). lia.
      * rewrite (Hid Hdone). lia.
    + exists m. repeat split; try reflexivity; lia.
Qed.

(** The 68000 half of C1; the deadline is [target_cycle] and the run
    starts after the interrupt check. *)
Lemma m68k_execute_overshoot (E : M68K.m68k_env)
    (Inv : M68K.m68000_base_device -> Prop) (K : Z) (fuel : nat)
    (m : M68K.m68000_base_device) :
  let m0 := M68K.m68ki_check_interrupts E m in
  0 < K ->
  (truthy (M68K.stopped m0) = false ->
   Inv m0
   /\ M68K.target_cycle m0 - M68K.current_cycle m0 <= Z.of_nat fuel
   /\ m68k_rounds_bounded E Inv K) ->
  exists m',
    M68K.m68k_cpu_execute E fuel m = Some m'
    /\ M68K.target_cycle m0 <= M68K.current_cycle m'
    /\ (M68K.current_cycle m0 <= M68K.target_cycle m0 ->
        M68K.current_cycle m' - M68K.target_cycle m0 < K).
Proof.
  intros m0 HK Hrun. unfold M68K.m68k_cpu_execute. cbv zeta. fold m0.
  destruct (truthy (M68K.stopped m0)) eqn:Hstopped; cbn [negb].
  - destruct (Z.ltb_spec (M68K.current_cycle m0) (M68K.target_cycle m0)).
    + eexists. split; [reflexivity|].
      cbn [M68K.current_cycle M68K.set_status M68K.set_current_cycle]. lia.
    + eexists. split; [reflexivity|].
      cbn [M68K.current_cycle M68K.set_status]. lia.
  - destruct (Hrun eq_refl) as (HInv & Hfuel & Hrounds).
    destruct (execute_loop_overshoot E Inv K Hrounds fuel m0 HInv Hfuel)
      as (m' & -> & _ & Hge & Hlt & Hid).
    eexists. split; [reflexivity|].
    cbn [M68K.current_cycle M68K.set_status M68K.set_ppc].
    split; [exact Hge|]. intros Hle.
    destruct (Z_lt_le_dec (M68K.current_cycle m0) (M68K.target_cycle m0)) as [Hb | Hp].
    + specialize (Hlt Hb). lia.
    + rewrite (Hid Hp). lia.
Qed.

(** The two examples satisfy what the bound asks for. *)

Lemma page_of_uint16 (a : Z) : 0 <= Z.shiftr (uint16 a) 13 < 8.
Proof.
  unfold uint16. rewrite Z.shiftr_div_pow2 by lia.
  pose proof (Z.mod_pos_bound a (2 ^ 16) ltac:(lia)) as H.
  split.
  - apply Z.div_pos; lia.
  - apply Z.div_lt_upper_bound; lia.
Qed.

Lemma nop_machine_round (t : Z) : z80_rounds_bounded example_env nop_machine 5 15 t.
Proof.
  intros z ic (Hrp & Hhost & Hcc & Hiff & Hdiv & Hm) Hpos.
  unfold z80_round, Z80.check_interrupt. cbv zeta.
  rewrite Hiff, andb_false_r. cbn [andb].
  unfold Z80.exec_one, Z80.rop. cbv zeta.
  rewrite (rm_fast example_env _ _ 0x100000) by (apply Hrp, page_of_uint16).
  cbn [Z80.host Z80.set_PC Z80.set_m_pc Z80.set_m_r Z80.set_m_prvpc
       Z80.set_m_after_ldair Z80.set_m_after_ei].
  rewrite Hhost. change (uint8 0) with 0.
  unfold Z80.EXEC_op. cbv zeta. cbv iota. unfold Z80.op_00, Z80.CC_op.
  cbn [Z80.m_cc_op Z80.m_icount Z80.set_PC Z80.set_m_pc Z80.set_m_r Z80.set_m_prvpc
       Z80.set_m_after_ldair Z80.set_m_after_ei].
  rewrite Hcc. change (tbl Z80.cc_op 0) with 4.
  rewrite int32_small by lia.
  eexists. eexists. split; [reflexivity|].
  cbn [Z80.m_icount Z80.set_m_icount Z80.options Z80.busreq Z80.read_pointers
       Z80.host Z80.m_cc_op Z80.m_iff1
       Z80.set_PC Z80.set_m_pc Z80.set_m_r Z80.set_m_prvpc
       Z80.set_m_after_ldair Z80.set_m_after_ei].
  split; [lia|]. split; [exact Hdiv|].
  intros _. unfold nop_machine.
  cbn [Z80.m_icount Z80.set_m_icount Z80.options Z80.busreq Z80.read_pointers
       Z80.host Z80.m_cc_op Z80.m_iff1
       Z80.set_PC Z80.set_m_pc Z80.set_m_r Z80.set_m_prvpc
       Z80.set_m_after_ldair Z80.set_m_after_ei].
  repeat split; try assumption; lia.
Qed.

Lemma example_z80_prepared :
  z80_run_prepared example_env nop_machine 5 15 100 example_z80 100.
Proof.
  unfold z80_run_prepared. cbv zeta.
  split; [|split; [|split; [|split; [|split]]]].
  - unfold nop_machine. split; [|split; [|split; [|split; [|split]]]].
    + intros i Hi.
      assert (i = 0 \/ i = 1 \/ i = 2 \/ i = 3 \/ i = 4 \/ i = 5 \/ i = 6 \/ i = 7)
        as [-> | [-> | [-> | [-> | [-> | [-> | [-> | ->]]]]]]] by lia;
        vm_compute; reflexivity.
    + intros a. vm_compute. reflexivity.
    + vm_compute. reflexivity.
    + vm_compute. reflexivity.
    + vm_compute. reflexivity.
    + vm_compute. split; reflexivity.
  - vm_compute. reflexivity.
  - vm_compute. reflexivity.
  - vm_compute. reflexivity.
  - vm_compute. discriminate.
  - apply nop_machine_round.
Qed.

Lemma page_of_address (a : Z) : 0 <= Z.shiftr (Z.land (uint32 a) 0xFFFFFF) 16 < 256.
Proof.
  change 0xFFFFFF with (Z.ones 24). rewrite Z.land_ones by lia.
  rewrite Z.shiftr_div_pow2 by lia.
  pose proof (Z.mod_pos_bound (uint32 a) (2 ^ 24) ltac:(lia)) as H.
  split.
  - apply Z.div_pos; lia.
  - apply Z.div_lt_upper_bound; lia.
Qed.

Lemma idle_m68k_round : m68k_rounds_bounded example_m68k_env idle_m68k 29.
Proof.
  intros m (Hrp & Hhost & Hcyc & Htarget & Hcur) Hgo.
  unfold M68K.execute_one, M68K.m68ki_read_imm_16, M68K.m68ki_read_16.
  cbv zeta.
  cbn [example_m68k_env M68K.m68ki_trace_t1 M68K.m68ki_exception_if_trace
       M68K.jump_table M68K.read_pointers M68K.set_ppc M68K.set_run_mode
       M68K.REG_PC M68K.pc].
  rewrite Hrp by apply page_of_address.
  cbn [M68K.host M68K.set_ppc M68K.set_run_mode].
  unfold M68K.host16. rewrite !Hhost.
  change (Z.lor (uint8 0) (Z.shiftl (uint8 0) 8)) with 0.
  cbn [M68K.ir M68K.set_ir M68K.set_pc M68K.set_ppc M68K.set_run_mode
       M68K.cyc_instruction M68K.current_cycle M68K.target_cycle
       M68K.set_current_cycle M68K.read_pointers M68K.host].
  rewrite Hcyc. rewrite !(uint32_small (_ + 28)) by (unfold is_uint32; lia).
  unfold idle_m68k.
  cbn [M68K.ir M68K.set_ir M68K.set_pc M68K.set_ppc M68K.set_run_mode
       M68K.cyc_instruction M68K.current_cycle M68K.target_cycle
       M68K.set_current_cycle M68K.read_pointers M68K.host].
  repeat split; try assumption; lia.
Qed.

Lemma example_m68k_idle :
  idle_m68k (M68K.set_target_cycle 1000 example_m68k).
Proof.
  unfold idle_m68k. split; [|split; [|split; [|split]]].
  - intros i Hi.
    assert (H : all256 (fun i =>
              match M68K.read_pointers (M68K.set_target_cycle 1000 example_m68k) i with
              | Some p => p =? 0x200000
              | None => false
              end) = true) by (vm_compute; reflexivity).
    pose proof (all256_spec _ H i Hi) as Hp. cbv beta in Hp.
    destruct (M68K.read_pointers (M68K.set_target_cycle 1000 example_m68k) i);
      [|discriminate].
    apply Z.eqb_eq in Hp. congruence.
  - intros a. vm_compute. reflexivity.
  - vm_compute. reflexivity.
  - vm_compute. reflexivity.
  - vm_compute. split; [discriminate | reflexivity].
Qed.

(** A run of the 68000 entered at or past its deadline executes nothing
    and leaves [current_cycle] as the interrupt check left it. *)
Lemma m68k_execute_past (E : M68K.m68k_env) (fuel : nat)
    (m : M68K.m68000_base_device) :
  let m0 := M68K.m68ki_check_interrupts E m in
  M68K.target_cycle m0 <= M68K.current_cycle m0 ->
  exists m',
    M68K.m68k_cpu_execute E fuel m = Some m'
    /\ M68K.current_cycle m' = M68K.current_cycle m0.
Proof.
  intros m0 Hpast. unfold M68K.m68k_cpu_execute. cbv zeta. fold m0.
  destruct (truthy (M68K.stopped m0)); cbn [negb].
  - destruct (Z.ltb_spec (M68K.current_cycle m0) (M68K.target_cycle m0)); [lia|].
    eexists. split; reflexivity.
  - assert (Hloop : M68K.execute_loop E fuel m0 = Some m0).
    { destruct fuel; cbn [M68K.execute_loop];
        destruct (Z.ltb_spec (M68K.current_cycle m0) (M68K.target_cycle m0));
        solve [ lia | reflexivity ]. }
    rewrite Hloop. eexists. split; reflexivity.
Qed.

(** C1, as the code has it.  After [z80_run] with deadline [t], and after
    [m68k_cpu_execute] with deadline [target_cycle] once its interrupt
    check is done, [current_cycle] is at least the deadline; and if it was
    at most the deadline on entry, the overshoot is less than [K] T-states
    of [d] cycles (Z80) or [K] cycles (68000), for every [K] such that
    each round of the loop (the interrupt entry, when one is taken, and
    one opcode) costs at least one and fewer than [K].  With [busack] or
    [reset] set, [z80_run] sets [current_cycle] to the deadline, whatever
    it was; otherwise a run entered at or past its deadline returns at
    once and leaves [current_cycle] as it was (the Z80 its whole
    context). *)
Theorem run_to_deadline_overshoot :
  (forall (E : Z80.z80_env) (Inv : Z80.z80_device -> Prop) (K d : Z) (fuel : nat)
          (z : Z80.z80_device) (t : Z),
     0 < d -> 0 < K -> 0 <= t -> t + K * d <= 2 ^ 32 ->
     0 <= Z80.current_cycle z ->
     (truthy (Z80.busack z) || truthy (Z80.reset z) = false ->
      Z80.current_cycle z < t -> z80_run_prepared E Inv K d fuel z t) ->
     exists z',
       Z80.z80_run E fuel z t = Z80.Done z'
       /\ t <= Z80.current_cycle z'
       /\ (Z80.current_cycle z <= t -> Z80.current_cycle z' - t < K * d))
  /\ (forall (E : Z80.z80_env) (fuel : nat) (z : Z80.z80_device) (t : Z),
        truthy (Z80.busack z) || truthy (Z80.reset z) = true ->
        Z80.z80_run E fuel z t = Z80.Done (Z80.set_current_cycle t z))
  /\ (forall (E : Z80.z80_env) (fuel : nat) (z : Z80.z80_device) (t : Z),
        truthy (Z80.busack z) || truthy (Z80.reset z) = false ->
        t <= Z80.current_cycle z ->
        Z80.z80_run E fuel z t = Z80.Done z)
  /\ (forall (E : M68K.m68k_env) (Inv : M68K.m68000_base_device -> Prop) (K : Z)
             (fuel : nat) (m : M68K.m68000_base_device),
        let m0 := M68K.m68ki_check_interrupts E m in
        0 < K ->
        (truthy (M68K.stopped m0) = false ->
         Inv m0
         /\ M68K.target_cycle m0 - M68K.current_cycle m0 <= Z.of_nat fuel
         /\ m68k_rounds_bounded E Inv K) ->
        exists m',
          M68K.m68k_cpu_execute E fuel m = Some m'
          /\ M68K.target_cycle m0 <= M68K.current_cycle m'
          /\ (M68K.current_cycle m0 <= M68K.target_cycle m0 ->
              M68K.current_cycle m' - M68K.target_cycle m0 < K))
  /\ (forall (E : M68K.m68k_env) (fuel : nat) (m : M68K.m68000_base_device),
        let m0 := M68K.m68ki_check_interrupts E m in
        M68K.target_cycle m0 <= M68K.current_cycle m0 ->
        exists m',
          M68K.m68k_cpu_execute E fuel m = Some m'
          /\ M68K.current_cycle m' = M68K.current_cycle m0).
Proof.
  split; [ | split; [ | split; [ | split ] ] ].
  - intros. eapply z80_run_overshoot; eassumption.
  - intros E fuel z t. apply z80_run_frozen.
  - intros E fuel z t. apply z80_run_past.
  - intros E Inv K fuel m. apply m68k_execute_overshoot.
  - intros E fuel m. apply m68k_execute_past.
Qed.

Lemma run_to_deadline_overshoot_witness :
  (exists z',
     Z80.z80_run example_env 100 example_z80 100 = Z80.Done z'
     /\ 100 <= Z80.current_cycle z'
     /\ (Z80.current_cycle example_z80 <= 100 -> Z80.current_cycle z' - 100 < 5 * 15))
  /\ (exists m',
        M68K.m68k_cpu_execute example_m68k_env 1000
          (M68K.set_target_cycle 1000 example_m68k) = Some m'
        /\ 1000 <= M68K.current_cycle m'
        /\ (M68K.current_cycle (M68K.set_target_cycle 1000 example_m68k) <= 1000 ->
            M68K.current_cycle m' - 1000 < 29)).
Proof.
  destruct run_to_deadline_overshoot as (Hz80 & _ & _ & Hm68k & _).
  assert (Hcur : 0 <= Z80.current_cycle example_z80) by (vm_compute; discriminate).
  assert (Hfuel : M68K.target_cycle (M68K.set_target_cycle 1000 example_m68k)
                  - M68K.current_cycle (M68K.set_target_cycle 1000 example_m68k)
                  <= Z.of_nat 1000) by (vm_compute; discriminate).
  split.
  - exact (Hz80 example_env nop_machine 5 15 100%nat example_z80 100
             ltac:(lia) ltac:(lia) ltac:(lia) ltac:(lia) Hcur
             (fun _ _ => example_z80_prepared)).
  - exact (Hm68k example_m68k_env idle_m68k 29 1000%nat
             (M68K.set_target_cycle 1000 example_m68k) ltac:(lia)
             (fun _ => conj example_m68k_idle (conj Hfuel idle_m68k_round))).
Defined.

(** C1 as stated fails, on both sides of the deadline.  A Z80 already a
    million cycles past the deadline returns from [z80_run] as it was, its
    overshoot far above the cost of any opcode.  And a Z80 entered before
    its deadline, one T-state short of it with an interrupt due, takes the
    interrupt (mode 2: 19 T-states) and executes the CALL at its vector
    (17 T-states) in one round of the loop: it returns 525 cycles past
    the deadline, above the 450 cycles that no single opcode of its
    tables exceeds. *)
Lemma z80_run_overshoot_above_opcode_cost :
  match Z80.z80_run example_env 0 (Z80.set_current_cycle 1000000 example_z80) 0 with
  | Z80.Done z' => (Z80.current_cycle z' - 0, z80_max_opcode_cost z')
  | _ => (0, 0)
  end = (1000000, 450)
  /\ (Z80.current_cycle interrupt_due_z80 <? 25) = true
  /\ match Z80.z80_run pulse_env 10 interrupt_due_z80 25 with
     | Z80.Done z' => (Z80.current_cycle z' - 25, z80_max_opcode_cost z')
     | _ => (0, 0)
     end = (525, 450).
Proof. vm_compute. repeat split. Qed.

(** ** The 16-bit write of the 68000 *)

(** On the fast path [m68ki_write_16] stores through [read_pointers]: the
    buffer that [write_pointers] names plays no part in the result. *)
Lemma m68ki_write_16_fast (E : M68K.m68k_env) (m : M68K.m68000_base_device)
    (address value w : Z) :
  M68K.write_pointers m (Z.shiftr (Z.land (uint32 address) 0xFFFFFF) 16) = Some w ->
  M68K.m68ki_write_16 E m address value =
    match M68K.read_pointers m (Z.shiftr (Z.land (uint32 address) 0xFFFFFF) 16) with
    | Some r =>
        Some (M68K.set_host
                (M68K.store16 (M68K.host m)
                   (r + 2 * Z.land (Z.shiftr (Z.land (uint32 address) 0xFFFFFF) 1) 0x7FFF)
                   (uint16 value)) m)
    | None => None
    end.
Proof. intros H. unfold M68K.m68ki_write_16. cbv zeta. rewrite H. reflexivity. Qed.

(** C2 fails on the code.  After the initialiser, page 0 has a write
    pointer and no read pointer, and a 16-bit write to it is a store
    through the null read pointer; with a read pointer to another buffer,
    the word lands in that buffer and the buffer of the write pointer
    keeps its old word. *)
Theorem m68ki_write_16_uses_read_pointers :
  M68K.write_pointers write_only_m68k 0 = Some 0x300000
  /\ M68K.read_pointers write_only_m68k 0 = None
  /\ M68K.m68ki_write_16 example_m68k_env write_only_m68k 0x000010 0xBEEF = None
  /\ match M68K.m68ki_write_16 example_m68k_env two_buffers_m68k 0x000010 0xBEEF with
     | Some m' =>
         (M68K.host16 (M68K.host m') (0x300000 + 2 * 8),
          M68K.host16 (M68K.host m') (0x400000 + 2 * 8))
     | None => (0, 0)
     end = (0, 0xBEEF).
Proof. vm_compute. repeat split. Qed.

(** ** Reset of the 68000 *)

(** Two little-endian host words read as one big-endian long. *)
Lemma be32_of_host_words (b0 b1 b2 b3 : Z) :
  0 <= b0 < 256 -> 0 <= b1 < 256 -> 0 <= b2 < 256 -> 0 <= b3 < 256 ->
  uint32 (uint32 (Z.lor (Z.shiftl (Z.lor b1 (Z.shiftl b0 8)) 16)
                    (Z.lor b3 (Z.shiftl b2 8))))
  = Z.lor (Z.lor (Z.lor (Z.shiftl b0 24) (Z.shiftl b1 16)) (Z.shiftl b2 8)) b3.
Proof.
  intros H0 H1 H2 H3.
  rewrite !Z.shiftl_mul_pow2 by lia.
  rewrite (Z.lor_comm b1), (Z.lor_comm b3).
  rewrite (lor_mul_add b0 b1 8), (lor_mul_add b2 b3 8) by lia.
  rewrite (lor_mul_add _ _ 16) by lia.
  rewrite (lor_mul_add b0 _ 24) by lia.
  replace (b0 * 2 ^ 24 + b1 * 2 ^ 16) with ((b0 * 2 ^ 8 + b1) * 2 ^ 16) by ring.
  rewrite (lor_mul_add _ _ 16) by lia.
  replace ((b0 * 2 ^ 8 + b1) * 2 ^ 16 + b2 * 2 ^ 8)
    with ((b0 * 2 ^ 16 + b1 * 2 ^ 8 + b2) * 2 ^ 8) by ring.
  rewrite (lor_mul_add _ _ 8) by lia.
  unfold uint32. rewrite Z.mod_mod by lia. rewrite Z.mod_small by lia. ring.
Qed.

Section Reset.

Variable E : M68K.m68k_env.

Lemma m68ki_read_imm_16_fast (m : M68K.m68000_base_device) (p : Z) :
  M68K.read_pointers m (Z.shiftr (Z.land (uint32 (M68K.pc m)) 0xFFFFFF) 16) = Some p ->
  M68K.m68ki_read_imm_16 E m =
    (M68K.host16 (M68K.host m)
       (p + 2 * Z.land (Z.shiftr (Z.land (uint32 (M68K.pc m)) 0xFFFFFF) 1) 0x7FFF),
     M68K.set_pc (uint32 (M68K.pc m + 2)) m).
Proof.
  intros H. unfold M68K.m68ki_read_imm_16, M68K.m68ki_read_16, M68K.REG_PC.
  cbv zeta. rewrite H. reflexivity.
Qed.

(** Reading a long at program counter [a], word-aligned in page 0. *)
Lemma m68ki_read_imm_32_page0 (m : M68K.m68000_base_device) (p a : Z) :
  M68K.read_pointers m 0 = Some p ->
  M68K.pc m = a -> a = 0 \/ a = 4 ->
  M68K.m68ki_read_imm_32 E m =
    (uint32 (Z.lor (Z.shiftl (M68K.host16 (M68K.host m) (p + a)) 16)
               (M68K.host16 (M68K.host m) (p + (a + 2)))),
     M68K.set_pc (a + 4) m).
Proof.
  intros Hp Hpc Ha. unfold M68K.m68ki_read_imm_32.
  rewrite (m68ki_read_imm_16_fast m p)
    by (rewrite Hpc; destruct Ha as [-> | ->]; exact Hp).
  rewrite (m68ki_read_imm_16_fast _ p)
    by (cbn [M68K.pc M68K.set_pc M68K.read_pointers]; rewrite Hpc;
        destruct Ha as [-> | ->]; exact Hp).
  cbn [M68K.pc M68K.set_pc M68K.host]. rewrite Hpc.
  destruct Ha as [-> | ->]; reflexivity.
Qed.

Lemma be32_at_page0 (m : M68K.m68000_base_device) (p a : Z) :
  M68K.read_pointers m 0 = Some p -> a = 0 \/ a = 4 ->
  be32_at E m a =
    uint32 (uint32 (Z.lor (Z.shiftl (M68K.host16 (M68K.host m) (p + a)) 16)
                      (M68K.host16 (M68K.host m) (p + (a + 2))))).
Proof.
  intros Hp Ha. unfold be32_at, M68K.m68ki_read_8. cbv zeta.
  unfold M68K.host16. rewrite be32_of_host_words by apply uint8_range.
  destruct Ha as [-> | ->]; cbn [Z.add Pos.add Pos.succ];
    repeat match goal with
    | |- context [M68K.read_pointers m ?i] =>
        change i with 0; rewrite Hp
    end; cbn [fst];
    repeat match goal with
    | |- context [Z.land (Z.lxor ?x 1) 65535] =>
        let v := eval vm_compute in (Z.land (Z.lxor x 1) 65535) in
        change (Z.land (Z.lxor x 1) 65535) with v
    end;
    repeat (f_equal; try lia).
Qed.

(** C3, as the code has it.  With the vector table in buffer-backed
    memory, [m68k_reset_cpu] loads the stack pointer from the big-endian
    long at address 0 and the program counter from the one at address 4,
    enters supervisor mode with M cleared, clears every stop level, ends
    in the normal run mode and adds [cyc_exception[EXCEPTION_RESET]] to
    [current_cycle]; it leaves T1, T0 and the interrupt mask as they
    were. *)
Theorem m68k_reset_cpu_spec (m : M68K.m68000_base_device) (p : Z) :
  M68K.read_pointers m 0 = Some p ->
  let m' := M68K.m68k_reset_cpu E m in
  M68K.REG_SP m' = be32_at E m 0
  /\ M68K.REG_PC m' = be32_at E m 4
  /\ M68K.s_flag m' = M68K.SFLAG_SET
  /\ M68K.m_flag m' = 0
  /\ M68K.stopped m' = 0
  /\ M68K.run_mode m' = M68K.RUN_MODE_NORMAL
  /\ M68K.current_cycle m' =
       uint32 (M68K.current_cycle m + tbl (M68K.cyc_exception m) M68K.EXCEPTION_RESET)
  /\ M68K.t1_flag m' = M68K.t1_flag m
  /\ M68K.t0_flag m' = M68K.t0_flag m
  /\ M68K.int_mask m' = M68K.int_mask m.
Proof.
  intros Hp m'. subst m'. unfold M68K.m68k_reset_cpu. cbv zeta.
  rewrite (m68ki_read_imm_32_page0 _ p 0) by (try reflexivity; try exact Hp; auto).
  rewrite (m68ki_read_imm_32_page0 _ p 4) by (try reflexivity; try exact Hp; auto).
  rewrite !(be32_at_page0 m p) by auto.
  repeat split.
Qed.

End Reset.

Lemma m68k_reset_cpu_spec_witness :
  M68K.read_pointers vectors_m68k 0 = Some 0x200000
  /\ M68K.REG_SP (M68K.m68k_reset_cpu example_m68k_env vectors_m68k) = 0x1000
  /\ M68K.REG_PC (M68K.m68k_reset_cpu example_m68k_env vectors_m68k) = 0x0400
  /\ M68K.s_flag (M68K.m68k_reset_cpu example_m68k_env vectors_m68k) = M68K.SFLAG_SET
  /\ M68K.current_cycle (M68K.m68k_reset_cpu example_m68k_env vectors_m68k)
     = (40 * 7) mod 256.
Proof.
  assert (Hp : M68K.read_pointers vectors_m68k 0 = Some 0x200000)
    by (vm_compute; reflexivity).
  pose proof (m68k_reset_cpu_spec example_m68k_env vectors_m68k 0x200000 Hp) as H.
  cbv zeta in H. destruct H as (Hsp & Hpc & Hs & _ & _ & _ & Hcyc & _).
  split; [exact Hp|].
  split; [rewrite Hsp; vm_compute; reflexivity|].
  split; [rewrite Hpc; vm_compute; reflexivity|].
  split; [exact Hs|].
  rewrite Hcyc. vm_compute. reflexivity.
Defined.

(** C3 as stated fails: a 68000 tracing (T1 set) at interrupt mask 3 comes
    out of [m68k_reset_cpu] still tracing and still at mask 3. *)
Lemma m68k_reset_keeps_trace_and_mask :
  let m := M68K.set_t1_flag 0x8000 (M68K.set_int_mask 0x0300 vectors_m68k) in
  M68K.t1_flag (M68K.m68k_reset_cpu example_m68k_env m) = 0x8000
  /\ M68K.int_mask (M68K.m68k_reset_cpu example_m68k_env m) = 0x0300
  /\ Z.shiftr (M68K.m68ki_get_sr (M68K.m68k_reset_cpu example_m68k_env m)) 8 = 0xA3.
Proof. vm_compute. repeat split. Qed.

(** ** The fast-path pointer tables *)






Section PointerTables.

Variable L : map_lookup.









End PointerTables.








(** * Further facts about the code *)

(** ** Bytes of a register pair, bit by bit *)

(** The masks of the [PAIR] accessors as runs of ones. *)
Ltac pair_masks :=
  change 0xFF with (Z.ones 8) in *;
  change 0xFFFF with (Z.ones 16) in *;
  change 0xff00 with (Z.shiftl (Z.ones 8) 8) in *;
  change 0xFFFFFF00 with (Z.shiftl (Z.ones 24) 8) in *;
  change 0xFFFF00FF with (Z.lor (Z.ones 8) (Z.shiftl (Z.ones 16) 16)) in *;
  change 0xFFFF0000 with (Z.shiftl (Z.ones 16) 16) in *.

(** One bit of an expression built from masks, shifts and [mod 2 ^ k]. *)
Ltac bit_step :=
  repeat first
    [ rewrite Z.land_spec | rewrite Z.lor_spec | rewrite Z.lxor_spec
    | rewrite Z.shiftr_spec by lia
    | rewrite Z.shiftl_spec by lia
    | rewrite Z.bits_0
    | match goal with
      | |- context [Z.testbit (Z.ones ?k) ?m] =>
          first [ rewrite (Z.ones_spec_low k m) by lia
                | rewrite (Z.ones_spec_high k m) by lia
                | rewrite (Z.testbit_neg_r (Z.ones k) m) by lia ]
      | |- context [Z.testbit (?a mod 2 ^ ?k) ?m] =>
          first [ rewrite (Z.mod_pow2_bits_low a k m) by lia
                | rewrite (Z.mod_pow2_bits_high a k m) by lia ]
      | |- context [Z.testbit ?a ?m] =>
          first [ rewrite (Z.testbit_neg_r a m) by lia
                | progress (ring_simplify m) ]
      end ];
  rewrite ?andb_true_r, ?andb_false_r, ?orb_false_r, ?orb_true_r,
          ?andb_true_l, ?andb_false_l, ?orb_false_l, ?orb_true_l;
  try reflexivity.

Ltac bits_by_ranges cuts :=
  apply Z.bits_inj'; intros n Hn;
  let rec go cs :=
    lazymatch cs with
    | nil => bit_step
    | cons ?c ?cs' =>
        destruct (Z_lt_le_dec n c); [ bit_step | go cs' ]
    end in
  go cuts.

Lemma b_h_set_b_h (v : Z) (p : Z80.PAIR) : Z80.b_h (Z80.set_b_h v p) = uint8 v.
Proof.
  unfold Z80.b_h, Z80.set_b_h, uint8. pair_masks.
  bits_by_ranges (8 :: nil).
Qed.

Lemma b_l_set_b_h (v : Z) (p : Z80.PAIR) : Z80.b_l (Z80.set_b_h v p) = Z80.b_l p.
Proof.
  unfold Z80.b_l, Z80.set_b_h, uint8. pair_masks.
  bits_by_ranges (8 :: nil).
Qed.

Lemma b_h_set_b_l (v : Z) (p : Z80.PAIR) : Z80.b_h (Z80.set_b_l v p) = Z80.b_h p.
Proof.
  unfold Z80.b_h, Z80.set_b_l, uint8. pair_masks.
  bits_by_ranges (8 :: nil).
Qed.

Lemma b_l_set_b_l (v : Z) (p : Z80.PAIR) : Z80.b_l (Z80.set_b_l v p) = uint8 v.
Proof.
  unfold Z80.b_l, Z80.set_b_l, uint8. pair_masks.
  bits_by_ranges (8 :: nil).
Qed.

Lemma land_ff00_b_h (p : Z80.PAIR) : Z.land p 0xff00 = Z.shiftl (Z80.b_h p) 8.
Proof.
  unfold Z80.b_h. pair_masks.
  bits_by_ranges (8 :: 16 :: nil).
Qed.

Lemma land_1_b_l (p : Z80.PAIR) : Z.land p 1 = Z.land (Z80.b_l p) 1.
Proof.
  unfold Z80.b_l. rewrite <- Z.land_assoc. reflexivity.
Qed.

(** ** The accumulator and the flags through the setters *)

Lemma A_set_A (v : Z) (z : Z80.z80_device) : Z80.A (Z80.set_A v z) = uint8 v.
Proof. apply b_h_set_b_h. Qed.

Lemma F_set_A (v : Z) (z : Z80.z80_device) : Z80.F (Z80.set_A v z) = Z80.F z.
Proof. apply b_l_set_b_h. Qed.

Lemma A_set_F (v : Z) (z : Z80.z80_device) : Z80.A (Z80.set_F v z) = Z80.A z.
Proof. apply b_h_set_b_l. Qed.

Lemma F_set_F (v : Z) (z : Z80.z80_device) : Z80.F (Z80.set_F v z) = uint8 v.
Proof. apply b_l_set_b_l. Qed.

Lemma A_range (z : Z80.z80_device) : 0 <= Z80.A z < 256.
Proof. unfold Z80.A. rewrite <- uint8_b_h. apply uint8_range. Qed.

Lemma F_range (z : Z80.z80_device) : 0 <= Z80.F z < 256.
Proof. unfold Z80.F. rewrite <- uint8_b_l. apply uint8_range. Qed.

Lemma AFD_high (z : Z80.z80_device) :
  Z.land (Z80.AFD z) 0xff00 = Z.shiftl (Z80.A z) 8.
Proof. apply land_ff00_b_h. Qed.

Lemma AFD_carry (z : Z80.z80_device) : Z.land (Z80.AFD z) 1 = Z.land (Z80.F z) 1.
Proof. apply land_1_b_l. Qed.

Lemma shiftr_shiftl_8 (a : Z) : Z.shiftr (Z.shiftl a 8) 8 = a.
Proof. rewrite Z.shiftr_shiftl_l by lia. apply Z.shiftl_0_r. Qed.

Lemma uint8_idem (x : Z) : uint8 (uint8 x) = uint8 x.
Proof. unfold uint8. apply Z.mod_mod. lia. Qed.

Lemma uint8_small (x : Z) : 0 <= x < 256 -> uint8 x = x.
Proof. intros H. apply Z.mod_small. exact H. Qed.

Lemma all256_2 (P : Z -> Z -> bool) :
  all256 (fun a => all256 (P a)) = true ->
  forall a b, 0 <= a < 256 -> 0 <= b < 256 -> P a b = true.
Proof.
  intros H a b Ha Hb. exact (all256_spec _ (all256_spec _ H a Ha) b Hb).
Qed.

(** ** The tables of the 8-bit additions and subtractions, entry by entry *)

Lemma SZHVC_add_entry (c a r : Z) :
  0 <= c <= 1 -> 0 <= a < 256 -> 0 <= r < 256 ->
  tbl Z80.SZHVC_add (add_index c a r) =
    if c =? 0 then Z80.padd_entry a r else Z80.padc_entry a r.
Proof.
  intros Hc Ha Hr. rewrite add_index_sum by assumption.
  unfold Z80.SZHVC_add.
  assert (c = 0 \/ c = 1) as [-> | ->] by lia.
  - rewrite tbl_app_l by (rewrite length_walk; lia).
    simpl (0 * 65536 + _). apply tbl_walk; assumption.
  - rewrite <- (length_walk Z80.padd_entry), Z.mul_1_l.
    rewrite tbl_app_r by lia. apply tbl_walk; assumption.
Qed.

Lemma SZHVC_sub_entry (c a r : Z) :
  0 <= c <= 1 -> 0 <= a < 256 -> 0 <= r < 256 ->
  tbl Z80.SZHVC_sub (add_index c a r) =
    if c =? 0 then Z80.psub_entry a r else Z80.psbc_entry a r.
Proof.
  intros Hc Ha Hr. rewrite add_index_sum by assumption.
  unfold Z80.SZHVC_sub.
  assert (c = 0 \/ c = 1) as [-> | ->] by lia.
  - rewrite tbl_app_l by (rewrite length_walk; lia).
    simpl (0 * 65536 + _). apply tbl_walk; assumption.
  - rewrite <- (length_walk Z80.psub_entry), Z.mul_1_l.
    rewrite tbl_app_r by lia. apply tbl_walk; assumption.
Qed.

Lemma add_entries_flags (a b : Z) :
  0 <= a < 256 -> 0 <= b < 256 ->
  uint8 (Z80.padd_entry a (uint8 (a + b))) = add_flags_reference a b 0
  /\ uint8 (Z80.padc_entry a (uint8 (a + b + 1))) = add_flags_reference a b 1.
Proof.
  intros Ha Hb.
  assert (H : all256 (fun a => all256 (fun b =>
            (uint8 (Z80.padd_entry a (uint8 (a + b))) =? add_flags_reference a b 0)
            && (uint8 (Z80.padc_entry a (uint8 (a + b + 1)))
                =? add_flags_reference a b 1))) = true)
    by (vm_compute; reflexivity).
  pose proof (all256_2 _ H a b Ha Hb) as H'.
  apply andb_true_iff in H'. destruct H' as [H0 H1].
  apply Z.eqb_eq in H0, H1. split; assumption.
Qed.

Lemma sub_entries_flags (a b : Z) :
  0 <= a < 256 -> 0 <= b < 256 ->
  uint8 (Z80.psub_entry a (uint8 (a - b))) = sub_flags_reference a b 0
  /\ uint8 (Z80.psbc_entry a (uint8 (a - b - 1))) = sub_flags_reference a b 1.
Proof.
  intros Ha Hb.
  assert (H : all256 (fun a => all256 (fun b =>
            (uint8 (Z80.psub_entry a (uint8 (a - b))) =? sub_flags_reference a b 0)
            && (uint8 (Z80.psbc_entry a (uint8 (a - b - 1)))
                =? sub_flags_reference a b 1))) = true)
    by (vm_compute; reflexivity).
  pose proof (all256_2 _ H a b Ha Hb) as H'.
  apply andb_true_iff in H'. destruct H' as [H0 H1].
  apply Z.eqb_eq in H0, H1. split; assumption.
Qed.

Lemma carry_bit (f : Z) : 0 <= Z.land f 1 <= 1.
Proof.
  replace (Z.land f 1) with (f mod 2 ^ 1).
  - pose proof (Z.mod_pos_bound f (2 ^ 1) ltac:(lia)). lia.
  - rewrite <- Z.land_ones by lia. reflexivity.
Qed.

(** The index the 8-bit additions and subtractions use. *)
Lemma alu_index (z : Z80.z80_device) (c r : Z) :
  Z.lor (Z.lor (Z.shiftl c 16) (Z.land (Z80.AFD z) 0xff00)) r = add_index c (Z80.A z) r.
Proof. rewrite AFD_high. reflexivity. Qed.

Lemma alu_index_0 (z : Z80.z80_device) (r : Z) :
  Z.lor (Z.land (Z80.AFD z) 0xff00) r = add_index 0 (Z80.A z) r.
Proof. rewrite AFD_high. reflexivity. Qed.

Lemma add_a_AF (z : Z80.z80_device) (value : Z) :
  Z80.A (Z80.add_a z value) = (Z80.A z + uint8 value) mod 256
  /\ Z80.F (Z80.add_a z value) = add_flags_reference (Z80.A z) (uint8 value) 0.
Proof.
  pose proof (A_range z) as Ha. pose proof (uint8_range value) as Hb.
  destruct (add_entries_flags _ _ Ha Hb) as [Hadd _].
  unfold Z80.add_a. cbv zeta.
  rewrite A_set_A, F_set_A, F_set_F, alu_index_0, AFD_high, shiftr_shiftl_8.
  rewrite !uint8_idem.
  rewrite SZHVC_add_entry by (try apply uint8_range; lia).
  split; [ reflexivity | exact Hadd ].
Qed.

Lemma adc_a_AF (z : Z80.z80_device) (value : Z) :
  let c := Z.land (Z80.F z) Z80.CF in
  Z80.A (Z80.adc_a z value) = (Z80.A z + uint8 value + c) mod 256
  /\ Z80.F (Z80.adc_a z value) = add_flags_reference (Z80.A z) (uint8 value) c.
Proof.
  intros c.
  pose proof (A_range z) as Ha. pose proof (uint8_range value) as Hb.
  pose proof (carry_bit (Z80.F z)) as Hc. change (Z.land (Z80.F z) 1) with c in Hc.
  destruct (add_entries_flags _ _ Ha Hb) as [Hadd Hadc].
  unfold Z80.adc_a. cbv zeta.
  rewrite A_set_A, F_set_A, F_set_F, AFD_carry, alu_index, AFD_high, shiftr_shiftl_8.
  change (Z.land (Z80.F z) 1) with c.
  rewrite !uint8_idem.
  rewrite SZHVC_add_entry by (try apply uint8_range; lia).
  split; [ reflexivity | ].
  assert (c = 0 \/ c = 1) as [-> | ->] by lia.
  - change (0 =? 0) with true. cbv iota. rewrite Z.add_0_r. exact Hadd.
  - change (1 =? 0) with false. cbv iota. exact Hadc.
Qed.

Lemma sub_AF (z : Z80.z80_device) (value : Z) :
  Z80.A (Z80.sub z value) = (Z80.A z - uint8 value) mod 256
  /\ Z80.F (Z80.sub z value) = sub_flags_reference (Z80.A z) (uint8 value) 0.
Proof.
  pose proof (A_range z) as Ha. pose proof (uint8_range value) as Hb.
  destruct (sub_entries_flags _ _ Ha Hb) as [Hsub _].
  unfold Z80.sub. cbv zeta.
  rewrite A_set_A, F_set_A, F_set_F, alu_index_0, AFD_high, shiftr_shiftl_8.
  rewrite !uint8_idem.
  rewrite SZHVC_sub_entry by (try apply uint8_range; lia).
  split; [ reflexivity | exact Hsub ].
Qed.

Lemma sbc_a_AF (z : Z80.z80_device) (value : Z) :
  let c := Z.land (Z80.F z) Z80.CF in
  Z80.A (Z80.sbc_a z value) = (Z80.A z - uint8 value - c) mod 256
  /\ Z80.F (Z80.sbc_a z value) = sub_flags_reference (Z80.A z) (uint8 value) c.
Proof.
  intros c.
  pose proof (A_range z) as Ha. pose proof (uint8_range value) as Hb.
  pose proof (carry_bit (Z80.F z)) as Hc. change (Z.land (Z80.F z) 1) with c in Hc.
  destruct (sub_entries_flags _ _ Ha Hb) as [Hsub Hsbc].
  unfold Z80.sbc_a. cbv zeta.
  rewrite A_set_A, F_set_A, F_set_F, AFD_carry, alu_index, AFD_high, shiftr_shiftl_8.
  change (Z.land (Z80.F z) 1) with c.
  rewrite !uint8_idem.
  rewrite SZHVC_sub_entry by (try apply uint8_range; lia).
  split; [ reflexivity | ].
  assert (c = 0 \/ c = 1) as [-> | ->] by lia.
  - change (0 =? 0) with true. cbv iota. rewrite Z.sub_0_r. exact Hsub.
  - change (1 =? 0) with false. cbv iota. exact Hsbc.
Qed.

(** X1.  [add_a] and [adc_a] leave in A the sum of A, the operand and (for
    [adc_a]) the carry flag, modulo 256, and in F the flag byte of the
    reference recipe for that addition. *)
Theorem add_a_adc_a_result (z : Z80.z80_device) (value : Z) :
  let a := Z80.A z in
  let b := uint8 value in
  let c := Z.land (Z80.F z) Z80.CF in
  Z80.A (Z80.add_a z value) = (a + b) mod 256
  /\ Z80.F (Z80.add_a z value) = add_flags_reference a b 0
  /\ Z80.A (Z80.adc_a z value) = (a + b + c) mod 256
  /\ Z80.F (Z80.adc_a z value) = add_flags_reference a b c.
Proof.
  intros a b c.
  destruct (add_a_AF z value) as [H1 H2]. destruct (adc_a_AF z value) as [H3 H4].
  repeat split; assumption.
Qed.

(** X2.  [sub] and [sbc_a] leave in A the difference of A, the operand and
    (for [sbc_a]) the carry flag, modulo 256, and in F the flag byte of
    the reference recipe for that subtraction. *)
Theorem sub_sbc_a_result (z : Z80.z80_device) (value : Z) :
  let a := Z80.A z in
  let b := uint8 value in
  let c := Z.land (Z80.F z) Z80.CF in
  Z80.A (Z80.sub z value) = (a - b) mod 256
  /\ Z80.F (Z80.sub z value) = sub_flags_reference a b 0
  /\ Z80.A (Z80.sbc_a z value) = (a - b - c) mod 256
  /\ Z80.F (Z80.sbc_a z value) = sub_flags_reference a b c.
Proof.
  intros a b c.
  destruct (sub_AF z value) as [H1 H2]. destruct (sbc_a_AF z value) as [H3 H4].
  repeat split; assumption.
Qed.

(** ** Exhaustive checks over the bytes an operation depends on *)

Lemma all256_1 (P : Z -> bool) :
  all256 P = true -> forall a, 0 <= a < 256 -> P a = true.
Proof. exact (all256_spec P). Qed.

(** A goal [b = true] about one or two bytes in range, by running the
    check over every byte. *)
Ltac check_bytes1 a Ha :=
  match goal with
  | |- ?G = true =>
      let P := eval pattern a in G in
      lazymatch P with
      | ?Q a => exact (all256_1 Q ltac:(vm_compute; reflexivity) a Ha)
      end
  end.

Ltac check_bytes2 a b Ha Hb :=
  match goal with
  | |- ?G = true =>
      let P := eval pattern a, b in G in
      lazymatch P with
      | ?Q a b => exact (all256_2 Q ltac:(vm_compute; reflexivity) a b Ha Hb)
      end
  end.

(** A checked conjunction of boolean facts, fact by fact. *)
Ltac break_checks :=
  repeat match goal with
         | Hc : _ && _ = true |- _ =>
             apply andb_true_iff in Hc; destruct Hc
         end;
  repeat match goal with
         | Hc : eqb _ _ = true |- _ => apply eqb_prop in Hc
         | Hc : (_ =? _) = true |- _ => apply Z.eqb_eq in Hc
         end.

Ltac split_checks H := break_checks; repeat split; assumption.

(** ** Compare, negate and the logical operations *)

(** X3.  [cp] leaves A as it was and sets the flags of the subtraction
    [A - value]: Z tells equality, C tells that A is below the operand as
    unsigned bytes, S xor V tells it for signed bytes, N is set, and Y and
    X are copied from the operand. *)
Theorem cp_compares (z : Z80.z80_device) (value : Z) :
  let a := Z80.A z in
  let b := uint8 value in
  let f := Z80.F (Z80.cp z value) in
  Z80.A (Z80.cp z value) = a
  /\ Z.testbit f 6 = (a =? b)
  /\ Z.testbit f 0 = (a <? b)
  /\ xorb (Z.testbit f 7) (Z.testbit f 2) = (int8 a <? int8 b)
  /\ Z.testbit f 1 = true
  /\ Z.testbit f 5 = Z.testbit b 5
  /\ Z.testbit f 3 = Z.testbit b 3
  /\ Z.land f (Z.lnot (Z.lor Z80.YF Z80.XF))
     = Z.land (sub_flags_reference a b 0) (Z.lnot (Z.lor Z80.YF Z80.XF)).
Proof.
  intros a b f.
  pose proof (A_range z) as Ha. pose proof (uint8_range value) as Hb.
  fold a in Ha. fold b in Hb.
  assert (Hf : f = uint8 (Z.lor (Z.land (Z80.psub_entry a (uint8 (a - b)))
                                        (Z.lnot (Z.lor Z80.YF Z80.XF)))
                                (Z.land b (Z.lor Z80.YF Z80.XF)))).
  { unfold f, Z80.cp. cbv zeta. rewrite F_set_F, alu_index_0, AFD_high, shiftr_shiftl_8.
    fold a b. rewrite SZHVC_sub_entry by (try apply uint8_range; lia).
    reflexivity. }
  split; [ unfold Z80.cp; cbv zeta; apply A_set_F | ].
  assert (H : (let f := uint8 (Z.lor (Z.land (Z80.psub_entry a (uint8 (a - b)))
                                             (Z.lnot (Z.lor Z80.YF Z80.XF)))
                                     (Z.land b (Z.lor Z80.YF Z80.XF))) in
               eqb (Z.testbit f 6) (a =? b)
               && eqb (Z.testbit f 0) (a <? b)
               && eqb (xorb (Z.testbit f 7) (Z.testbit f 2)) (int8 a <? int8 b)
               && eqb (Z.testbit f 1) true
               && eqb (Z.testbit f 5) (Z.testbit b 5)
               && eqb (Z.testbit f 3) (Z.testbit b 3)
               && (Z.land f (Z.lnot (Z.lor Z80.YF Z80.XF))
                   =? Z.land (sub_flags_reference a b 0) (Z.lnot (Z.lor Z80.YF Z80.XF))))
              = true) by check_bytes2 a b Ha Hb.
  cbv zeta in H. rewrite <- Hf in H. split_checks H.
Qed.

(** X4.  [neg] replaces A by its two's complement with the flags of the
    subtraction [0 - A]: C is set unless A was 0, V is set only for 0x80,
    and negating twice gives A back. *)
Theorem neg_twos_complement (z : Z80.z80_device) :
  let a := Z80.A z in
  let f := Z80.F (Z80.neg z) in
  Z80.A (Z80.neg z) = (- a) mod 256
  /\ f = sub_flags_reference 0 a 0
  /\ Z.testbit f 0 = negb (a =? 0)
  /\ Z.testbit f 2 = (a =? 0x80)
  /\ Z80.A (Z80.neg (Z80.neg z)) = a.
Proof.
  intros a f.
  assert (Hneg : forall z0,
            Z80.A (Z80.neg z0) = uint8 (0 - Z80.A z0)
            /\ Z80.F (Z80.neg z0) = uint8 (Z80.psub_entry 0 (uint8 (0 - Z80.A z0)))).
  { intros z0. unfold Z80.neg, Z80.sub. cbv zeta.
    rewrite A_set_A, F_set_A, F_set_F, alu_index_0, AFD_high, A_set_A.
    rewrite (uint8_small (Z80.A z0)) by apply A_range.
    change (uint8 0) with 0. rewrite shiftr_shiftl_8.
    rewrite uint8_idem.
    rewrite SZHVC_sub_entry by (try apply uint8_range; lia).
    split; reflexivity. }
  pose proof (A_range z) as Ha. fold a in Ha.
  destruct (Hneg z) as [HA HF]. destruct (Hneg (Z80.neg z)) as [HA2 _].
  rewrite HA2, HA. unfold f. rewrite HF. fold a.
  assert (H : (let f := uint8 (Z80.psub_entry 0 (uint8 (0 - a))) in
               (uint8 (0 - a) =? (- a) mod 256)
               && (f =? sub_flags_reference 0 a 0)
               && eqb (Z.testbit f 0) (negb (a =? 0))
               && eqb (Z.testbit f 2) (a =? 0x80)
               && (uint8 (0 - uint8 (0 - a)) =? a)) = true)
    by check_bytes1 a Ha.
  cbv zeta in H. split_checks H.
Qed.


(** X5.  [and_a], [or_a] and [xor_a] leave in A the bitwise result and in
    F the flags of a logical operation: S, Z, Y and X from the result, P
    set for an even number of one bits, N and C clear, H set by [and_a]
    only.  In particular [xor_a] of A with itself clears A. *)
Theorem logic_ops_result (z : Z80.z80_device) (value : Z) :
  let a := Z80.A z in
  let b := uint8 value in
  (Z80.A (Z80.and_a z value) = Z.land a b
   /\ Z80.F (Z80.and_a z value) = logic_flags_reference (Z.land a b) true)
  /\ (Z80.A (Z80.or_a z value) = Z.lor a b
      /\ Z80.F (Z80.or_a z value) = logic_flags_reference (Z.lor a b) false)
  /\ (Z80.A (Z80.xor_a z value) = Z.lxor a b
      /\ Z80.F (Z80.xor_a z value) = logic_flags_reference (Z.lxor a b) false)
  /\ Z80.A (Z80.xor_a z a) = 0.
Proof.
  intros a b.
  pose proof (A_range z) as Ha. pose proof (uint8_range value) as Hb.
  fold a in Ha. fold b in Hb.
  unfold Z80.and_a, Z80.or_a, Z80.xor_a. cbv zeta.
  rewrite !F_set_F, !A_set_F, !A_set_A. fold a b.
  rewrite (uint8_small a) by exact Ha.
  assert (H : (let chk (r : Z) (h : bool) :=
                 (uint8 r =? r)
                 && (uint8 (Z.lor (tbl Z80.SZP (uint8 r)) (if h then Z80.HF else 0))
                     =? logic_flags_reference r h) in
               chk (Z.land a b) true && chk (Z.lor a b) false && chk (Z.lxor a b) false)
              = true)
    by check_bytes2 a b Ha Hb.
  cbv zeta beta iota in H.
  rewrite !Z.lor_0_r in H. break_checks.
  rewrite Z.lxor_nilpotent.
  repeat split; solve [ assumption | reflexivity ].
Qed.

Lemma set_F_uint8 (v : Z) (z : Z80.z80_device) :
  Z80.set_F (uint8 v) z = Z80.set_F v z.
Proof. unfold Z80.set_F, Z80.set_b_l. rewrite uint8_idem. reflexivity. Qed.

(** X6.  [inc] and [dec] return the byte one above and one below, modulo
    256, change nothing of the context but F, keep C and set the other
    flags by the reference recipe; [dec] undoes [inc]. *)
Theorem inc_dec_result (z : Z80.z80_device) (value : Z) :
  let b := uint8 value in
  let c := Z.land (Z80.F z) Z80.CF in
  fst (Z80.inc z value) = (b + 1) mod 256
  /\ Z80.F (snd (Z80.inc z value)) = inc_flags_reference b c
  /\ fst (Z80.dec z value) = (b - 1) mod 256
  /\ Z80.F (snd (Z80.dec z value)) = dec_flags_reference b c
  /\ snd (Z80.inc z value) = Z80.set_F (Z80.F (snd (Z80.inc z value))) z
  /\ snd (Z80.dec z value) = Z80.set_F (Z80.F (snd (Z80.dec z value))) z
  /\ fst (Z80.dec (snd (Z80.inc z value)) (fst (Z80.inc z value))) = b.
Proof.
  intros b c.
  pose proof (F_range z) as Hf. pose proof (uint8_range value) as Hb.
  fold b in Hb.
  unfold Z80.inc, Z80.dec. cbv zeta. cbn [fst snd].
  rewrite !F_set_F, !set_F_uint8. fold b.
  change (Z.land (Z80.F z) Z80.CF) with c.
  assert (H : (let f := Z80.F z in
               (uint8 (b + 1) =? (b + 1) mod 256)
               && (uint8 (Z.lor (Z.land f Z80.CF) (tbl Z80.SZHV_inc (uint8 (b + 1))))
                   =? inc_flags_reference b (Z.land f Z80.CF))
               && (uint8 (b - 1) =? (b - 1) mod 256)
               && (uint8 (Z.lor (Z.land f Z80.CF) (tbl Z80.SZHV_dec (uint8 (b - 1))))
                   =? dec_flags_reference b (Z.land f Z80.CF))
               && (uint8 (uint8 (uint8 (b + 1)) - 1) =? b)) = true)
    by check_bytes2 (Z80.F z) b Hf Hb.
  cbv zeta in H. change (Z.land (Z80.F z) Z80.CF) with c in H.
  break_checks. repeat split; solve [ assumption | reflexivity ].
Qed.

(** ** Rotates of the accumulator *)

(** X7.  [rlca] and [rrca] rotate the eight bits of A, [rla] and [rra]
    rotate the nine bits of A and the carry; each keeps S, Z and P, clears
    H and N, copies Y and X from the new A and leaves in C the bit that
    left A.  A right rotate undoes the left rotate of the same kind. *)
Theorem accumulator_rotates (z : Z80.z80_device) :
  let a := Z80.A z in
  let f := Z80.F z in
  let c := Z.land f Z80.CF in
  (Z80.A (Z80.rlca z) = (2 * a + bit_of a 7) mod 256
   /\ Z80.F (Z80.rlca z) = rotate_a_flags_reference f (Z80.A (Z80.rlca z)) (bit_of a 7))
  /\ (Z80.A (Z80.rrca z) = a / 2 + 128 * bit_of a 0
      /\ Z80.F (Z80.rrca z) = rotate_a_flags_reference f (Z80.A (Z80.rrca z)) (bit_of a 0))
  /\ (Z80.A (Z80.rla z) = (2 * a + c) mod 256
      /\ Z80.F (Z80.rla z) = rotate_a_flags_reference f (Z80.A (Z80.rla z)) (bit_of a 7))
  /\ (Z80.A (Z80.rra z) = a / 2 + 128 * c
      /\ Z80.F (Z80.rra z) = rotate_a_flags_reference f (Z80.A (Z80.rra z)) (bit_of a 0))
  /\ Z80.A (Z80.rrca (Z80.rlca z)) = a
  /\ (Z80.A (Z80.rra (Z80.rla z)) = a
      /\ Z.land (Z80.F (Z80.rra (Z80.rla z))) Z80.CF = c).
Proof.
  intros a f c.
  assert (Hrlca : forall z0,
            Z80.A (Z80.rlca z0)
              = uint8 (Z.lor (Z.shiftl (Z80.A z0) 1) (Z.shiftr (Z80.A z0) 7))
            /\ Z80.F (Z80.rlca z0)
               = uint8 (Z.lor (Z.land (Z80.F z0) (Z.lor (Z.lor Z80.SF Z80.ZF) Z80.PF))
                              (Z.land (uint8 (Z.lor (Z.shiftl (Z80.A z0) 1)
                                                    (Z.shiftr (Z80.A z0) 7)))
                                      (Z.lor (Z.lor Z80.YF Z80.XF) Z80.CF)))).
  { intros z0. unfold Z80.rlca. cbv zeta.
    rewrite A_set_F, F_set_F, F_set_A, A_set_A. split; reflexivity. }
  assert (Hrrca : forall z0,
            Z80.A (Z80.rrca z0)
              = uint8 (Z.lor (Z.shiftr (Z80.A z0) 1) (Z.shiftl (Z80.A z0) 7))
            /\ Z80.F (Z80.rrca z0)
               = uint8 (Z.lor (uint8 (Z.lor (Z.land (Z80.F z0)
                                                   (Z.lor (Z.lor Z80.SF Z80.ZF) Z80.PF))
                                            (Z.land (Z80.A z0) Z80.CF)))
                              (Z.land (uint8 (Z.lor (Z.shiftr (Z80.A z0) 1)
                                                    (Z.shiftl (Z80.A z0) 7)))
                                      (Z.lor Z80.YF Z80.XF)))).
  { intros z0. unfold Z80.rrca. cbv zeta.
    rewrite A_set_F, F_set_F, F_set_A, !A_set_A, F_set_F, !A_set_F. split; reflexivity. }
  assert (Hrla : forall z0,
            Z80.A (Z80.rla z0)
              = uint8 (Z.lor (Z.shiftl (Z80.A z0) 1) (Z.land (Z80.F z0) Z80.CF))
            /\ Z80.F (Z80.rla z0)
               = uint8 (Z.lor (Z.lor (Z.land (Z80.F z0) (Z.lor (Z.lor Z80.SF Z80.ZF) Z80.PF))
                                     (uint8 (if truthy (Z.land (Z80.A z0) 0x80)
                                             then Z80.CF else 0)))
                              (Z.land (uint8 (Z.lor (Z.shiftl (Z80.A z0) 1)
                                                    (Z.land (Z80.F z0) Z80.CF)))
                                      (Z.lor Z80.YF Z80.XF)))).
  { intros z0. unfold Z80.rla. cbv zeta.
    rewrite A_set_A, F_set_A, F_set_F, uint8_idem. split; reflexivity. }
  assert (Hrra : forall z0,
            Z80.A (Z80.rra z0)
              = uint8 (Z.lor (Z.shiftr (Z80.A z0) 1) (Z.shiftl (Z80.F z0) 7))
            /\ Z80.F (Z80.rra z0)
               = uint8 (Z.lor (Z.lor (Z.land (Z80.F z0) (Z.lor (Z.lor Z80.SF Z80.ZF) Z80.PF))
                                     (uint8 (if truthy (Z.land (Z80.A z0) 0x01)
                                             then Z80.CF else 0)))
                              (Z.land (uint8 (Z.lor (Z.shiftr (Z80.A z0) 1)
                                                    (Z.shiftl (Z80.F z0) 7)))
                                      (Z.lor Z80.YF Z80.XF)))).
  { intros z0. unfold Z80.rra. cbv zeta.
    rewrite A_set_A, F_set_A, F_set_F, uint8_idem. split; reflexivity. }
  pose proof (A_range z) as Ha. pose proof (F_range z) as Hf.
  fold a in Ha. fold f in Hf.
  destruct (Hrlca z) as [A1 F1]. destruct (Hrrca z) as [A2 F2].
  destruct (Hrla z) as [A3 F3]. destruct (Hrra z) as [A4 F4].
  destruct (Hrrca (Z80.rlca z)) as [A5 _].
  destruct (Hrra (Z80.rla z)) as [A6 F6].
  rewrite A5, A6, F6, A1, F1, A2, F2, A3, F3, A4, F4. fold a f.
  unfold c.
  assert (H : (let keep := Z.lor (Z.lor Z80.SF Z80.ZF) Z80.PF in
               let yx := Z.lor Z80.YF Z80.XF in
               let c := Z.land f Z80.CF in
               let a1 := uint8 (Z.lor (Z.shiftl a 1) (Z.shiftr a 7)) in
               let f1 := uint8 (Z.lor (Z.land f keep)
                                      (Z.land a1 (Z.lor yx Z80.CF))) in
               let a2 := uint8 (Z.lor (Z.shiftr a 1) (Z.shiftl a 7)) in
               let f2 := uint8 (Z.lor (uint8 (Z.lor (Z.land f keep) (Z.land a Z80.CF)))
                                      (Z.land a2 yx)) in
               let a3 := uint8 (Z.lor (Z.shiftl a 1) c) in
               let f3 := uint8 (Z.lor (Z.lor (Z.land f keep)
                                  (uint8 (if truthy (Z.land a 0x80) then Z80.CF else 0)))
                                  (Z.land a3 yx)) in
               let a4 := uint8 (Z.lor (Z.shiftr a 1) (Z.shiftl f 7)) in
               let f4 := uint8 (Z.lor (Z.lor (Z.land f keep)
                                  (uint8 (if truthy (Z.land a 0x01) then Z80.CF else 0)))
                                  (Z.land a4 yx)) in
               (a1 =? (2 * a + bit_of a 7) mod 256)
               && (f1 =? rotate_a_flags_reference f a1 (bit_of a 7))
               && (a2 =? a / 2 + 128 * bit_of a 0)
               && (f2 =? rotate_a_flags_reference f a2 (bit_of a 0))
               && (a3 =? (2 * a + c) mod 256)
               && (f3 =? rotate_a_flags_reference f a3 (bit_of a 7))
               && (a4 =? a / 2 + 128 * c)
               && (f4 =? rotate_a_flags_reference f a4 (bit_of a 0))
               && (uint8 (Z.lor (Z.shiftr a1 1) (Z.shiftl a1 7)) =? a)
               && (uint8 (Z.lor (Z.shiftr a3 1) (Z.shiftl f3 7)) =? a)
               && (Z.land (uint8 (Z.lor (Z.lor (Z.land f3 keep)
                                  (uint8 (if truthy (Z.land a3 0x01) then Z80.CF else 0)))
                                  (Z.land (uint8 (Z.lor (Z.shiftr a3 1) (Z.shiftl f3 7))) yx)))
                          Z80.CF =? c)) = true)
    by check_bytes2 a f Ha Hf.
  cbv zeta in H. break_checks.
  repeat split; assumption.
Qed.

(** ** Rotates and shifts of a byte, bit operations *)

Lemma shiftl7_carry (x f : Z) :
  Z.land (Z.lor x (Z.shiftl f 7)) 0xff = Z.land (Z.lor x (Z.shiftl (Z.land f 1) 7)) 0xff.
Proof.
  change 1 with (Z.ones 1). pair_masks.
  apply Z.bits_inj'; intros n Hn.
  destruct (Z_lt_le_dec n 7); [ bit_step | ].
  destruct (Z_lt_le_dec n 8); [ replace n with 7 by lia; bit_step | bit_step ].
Qed.

(** X8.  The eight rotates and shifts of the CB page return the rotated
    or shifted byte ([sra] keeps the sign bit, [sll] shifts a one in,
    [rl] and [rr] go through the carry) and set the flags of a logical
    result with C the bit that left the byte. *)
Theorem byte_shifts_result (z : Z80.z80_device) (value : Z) :
  let b := uint8 value in
  let c := Z.land (Z80.F z) Z80.CF in
  let ok (r : Z * Z80.z80_device) (res cout : Z) :=
    fst r = res /\ Z80.F (snd r) = shift_flags_reference res cout in
  ok (Z80.rlc z value) ((2 * b + bit_of b 7) mod 256) (bit_of b 7)
  /\ ok (Z80.rrc z value) (b / 2 + 128 * bit_of b 0) (bit_of b 0)
  /\ ok (Z80.rl z value) ((2 * b + c) mod 256) (bit_of b 7)
  /\ ok (Z80.rr z value) (b / 2 + 128 * c) (bit_of b 0)
  /\ ok (Z80.sla z value) ((2 * b) mod 256) (bit_of b 7)
  /\ ok (Z80.sra z value) (b / 2 + 128 * bit_of b 7) (bit_of b 0)
  /\ ok (Z80.sll z value) ((2 * b + 1) mod 256) (bit_of b 7)
  /\ ok (Z80.srl z value) (b / 2) (bit_of b 0).
Proof.
  intros b c ok. unfold ok.
  pose proof (uint8_range value) as Hb. fold b in Hb.
  pose proof (carry_bit (Z80.F z)) as Hc.
  unfold Z80.rlc, Z80.rrc, Z80.rl, Z80.rr, Z80.sla, Z80.sra, Z80.sll, Z80.srl.
  cbv zeta. cbn [fst snd]. rewrite !F_set_F, !(shiftl7_carry _ (Z80.F z)). fold b.
  unfold c. change (Z.land (Z80.F z) Z80.CF) with (Z.land (Z80.F z) 1).
  revert Hc. generalize (Z.land (Z80.F z) 1). clear c. intros c Hc.
  assert (Hc' : 0 <= c < 256) by lia.
  assert (H : (if c <? 2 then
               let c7 := if truthy (Z.land b 0x80) then Z80.CF else 0 in
               let c0 := if truthy (Z.land b 0x01) then Z80.CF else 0 in
               let chk (r cf res cout : Z) :=
                 (uint8 r =? res)
                 && (uint8 (Z.lor (tbl Z80.SZP r) cf) =? shift_flags_reference res cout) in
               chk (Z.land (Z.lor (Z.shiftl b 1) (Z.shiftr b 7)) 0xff) c7
                   ((2 * b + bit_of b 7) mod 256) (bit_of b 7)
               && chk (Z.land (Z.lor (Z.shiftr b 1) (Z.shiftl b 7)) 0xff) c0
                      (b / 2 + 128 * bit_of b 0) (bit_of b 0)
               && chk (Z.land (Z.lor (Z.shiftl b 1) c) 0xff) c7
                      ((2 * b + c) mod 256) (bit_of b 7)
               && chk (Z.land (Z.lor (Z.shiftr b 1) (Z.shiftl c 7)) 0xff) c0
                      (b / 2 + 128 * c) (bit_of b 0)
               && chk (Z.land (Z.shiftl b 1) 0xff) c7 ((2 * b) mod 256) (bit_of b 7)
               && chk (Z.land (Z.lor (Z.shiftr b 1) (Z.land b 0x80)) 0xff) c0
                      (b / 2 + 128 * bit_of b 7) (bit_of b 0)
               && chk (Z.land (Z.lor (Z.shiftl b 1) 0x01) 0xff) c7
                      ((2 * b + 1) mod 256) (bit_of b 7)
               && chk (Z.land (Z.shiftr b 1) 0xff) c0 (b / 2) (bit_of b 0)
               else true) = true)
    by check_bytes2 c b Hc' Hb.
  destruct (Z.ltb_spec c 2) as [_ | Hge]; [ | lia ].
  cbv zeta beta in H.
  break_checks. repeat split; assumption.
Qed.

(** X9.  For a bit number below 8, [bit] sets Z exactly when the tested
    bit is 0, sets H, clears N and keeps C; [res] takes the weight of the
    bit off a byte that has it, [set] adds it to a byte that lacks it. *)
Theorem bit_res_set_result (z : Z80.z80_device) (n value : Z) :
  0 <= n < 8 ->
  let b := uint8 value in
  let f := Z80.F (Z80.bit z n value) in
  Z.testbit f 6 = negb (Z.testbit b n)
  /\ Z.testbit f 4 = true
  /\ Z.testbit f 1 = false
  /\ Z.land f Z80.CF = Z.land (Z80.F z) Z80.CF
  /\ Z80.res n value = b - 2 ^ n * bit_of b n
  /\ Z80.set n value = b + 2 ^ n * (1 - bit_of b n)
  /\ Z.testbit (Z80.F (Z80.bit z n (Z80.set n value))) 6 = false
  /\ Z.testbit (Z80.F (Z80.bit z n (Z80.res n value))) 6 = true.
Proof.
  intros Hn b f.
  assert (Hn' : 0 <= n < 256) by lia.
  pose proof (uint8_range value) as Hb. fold b in Hb.
  pose proof (carry_bit (Z80.F z)) as Hc.
  unfold f, Z80.bit, Z80.res, Z80.set. cbv zeta. rewrite !F_set_F, !uint8_idem. fold b.
  change (Z.land (Z80.F z) Z80.CF) with (Z.land (Z80.F z) 1).
  revert Hc. generalize (Z.land (Z80.F z) 1). intros c Hc.
  assert (H : (if n <? 8 then
                let flags (c v : Z) :=
                  uint8 (Z.lor (Z.lor (Z.lor c Z80.HF)
                           (Z.land (tbl Z80.SZ_BIT (Z.land v (Z.shiftl 1 n)))
                                   (Z.lnot (Z.lor Z80.YF Z80.XF))))
                           (Z.land v (Z.lor Z80.YF Z80.XF))) in
                let r := uint8 (Z.land b (Z.lnot (Z.shiftl 1 n))) in
                let s := uint8 (Z.lor b (Z.shiftl 1 n)) in
                let chk (c : Z) :=
                  eqb (Z.testbit (flags c b) 6) (negb (Z.testbit b n))
                  && eqb (Z.testbit (flags c b) 4) true
                  && eqb (Z.testbit (flags c b) 1) false
                  && (Z.land (flags c b) Z80.CF =? c)
                  && eqb (Z.testbit (flags c s) 6) false
                  && eqb (Z.testbit (flags c r) 6) true in
                chk 0 && chk 1
                && (r =? b - 2 ^ n * bit_of b n)
                && (s =? b + 2 ^ n * (1 - bit_of b n))
                else true) = true)
    by check_bytes2 n b Hn' Hb.
  destruct (Z.ltb_spec n 8) as [_ | Hge]; [ | lia ].
  cbv zeta beta in H.
  assert (c = 0 \/ c = 1) as [-> | ->] by lia; break_checks; repeat split; assumption.
Qed.

Lemma bit_res_set_result_witness :
  0 <= 3 < 8
  /\ Z.testbit (Z80.F (Z80.bit example_z80 3 0x08)) 6 = false
  /\ Z80.res 3 0x0F = 0x07
  /\ Z80.set 3 0x07 = 0x0F.
Proof.
  pose proof (bit_res_set_result example_z80 3 0x08 ltac:(lia)) as H.
  pose proof (bit_res_set_result example_z80 3 0x0F ltac:(lia)) as H1.
  pose proof (bit_res_set_result example_z80 3 0x07 ltac:(lia)) as H2.
  cbv zeta in H, H1, H2.
  destruct H as (Hz & _). destruct H1 as (_ & _ & _ & _ & Hr & _).
  destruct H2 as (_ & _ & _ & _ & _ & Hs & _).
  split; [ lia | ]. split; [ rewrite Hz; reflexivity | ].
  split; [ rewrite Hr; reflexivity | rewrite Hs; reflexivity ].
Defined.

(** ** Decimal adjust *)

(** The boolean check of a conjunction of equations between integers or
    between booleans. *)
Ltac bool_of P :=
  lazymatch P with
  | ?A /\ ?B => let a := bool_of A in let b := bool_of B in constr:(a && b)
  | @eq Z ?u ?v => constr:(u =? v)
  | @eq bool ?u ?v => constr:(eqb u v)
  end.

(** A closed goal about two bytes [a] and [b] in range, under the guard
    [g]: the check is run wherever the guard holds. *)
Ltac check_guarded2 g a b Ha Hb Hg :=
  lazymatch goal with
  | |- ?P =>
      let c := bool_of P in
      let H := fresh "Hchk" in
      assert (H : (if g then c else true) = true) by check_bytes2 a b Ha Hb;
      rewrite Hg in H; break_checks; repeat split; assumption
  end.

Lemma daa_AF (z : Z80.z80_device) :
  let a := Z80.A z in
  let f := Z80.F z in
  let lo := truthy (Z.lor (Z.land f Z80.HF) (Z80.cbool (Z.land a 0xf >? 9))) in
  let hi := truthy (Z.lor (Z.land f Z80.CF) (Z80.cbool (a >? 0x99))) in
  let r :=
    if truthy (Z.land f Z80.NF) then
      let r := if lo then uint8 (a - 6) else a in
      if hi then uint8 (r - 0x60) else r
    else
      let r := if lo then uint8 (a + 6) else a in
      if hi then uint8 (r + 0x60) else r in
  Z80.A (Z80.daa z) = r
  /\ Z80.F (Z80.daa z)
     = uint8 (Z.lor (Z.lor (Z.lor (Z.land f (Z.lor Z80.CF Z80.NF)) (Z80.cbool (a >? 0x99)))
                           (Z.land (Z.lxor a r) Z80.HF))
                    (tbl Z80.SZP r)).
Proof.
  intros a f lo hi r.
  pose proof (A_range z) as Ha. fold a in Ha.
  unfold Z80.daa. cbv zeta. rewrite A_set_A, F_set_A, F_set_F.
  fold a f. fold lo hi. split; [ | reflexivity ].
  unfold r. destruct (truthy (Z.land f Z80.NF)), lo, hi;
    cbv zeta; rewrite ?uint8_idem; try reflexivity; apply uint8_small; exact Ha.
Qed.

(** X10.  After [adc_a] (or [add_a], the carry being clear) of two bytes
    that spell two decimal digits each, [daa] leaves in A the two decimal
    digits of the sum modulo 100 and in C the decimal carry; after
    [sbc_a], the digits of the difference and the decimal borrow. *)
Theorem daa_decimal_adjust (z : Z80.z80_device) (value : Z) :
  let x := Z80.A z in
  let y := uint8 value in
  let c := Z.land (Z80.F z) Z80.CF in
  let za := Z80.daa (Z80.adc_a z value) in
  let zs := Z80.daa (Z80.sbc_a z value) in
  is_bcd x = true -> is_bcd y = true ->
  is_bcd (Z80.A za) = true
  /\ bcd_value (Z80.A za) = (bcd_value x + bcd_value y + c) mod 100
  /\ Z.testbit (Z80.F za) 0 = (100 <=? bcd_value x + bcd_value y + c)
  /\ is_bcd (Z80.A zs) = true
  /\ bcd_value (Z80.A zs) = (bcd_value x - bcd_value y - c) mod 100
  /\ Z.testbit (Z80.F zs) 0 = (bcd_value x <? bcd_value y + c).
Proof.
  intros x y c za zs Hx Hy.
  pose proof (A_range z) as Ha. pose proof (uint8_range value) as Hb.
  pose proof (carry_bit (Z80.F z)) as Hc.
  fold x in Ha. fold y in Hb. change (Z.land (Z80.F z) 1) with c in Hc.
  destruct (daa_AF (Z80.adc_a z value)) as [HAa HFa].
  destruct (daa_AF (Z80.sbc_a z value)) as [HAs HFs].
  destruct (adc_a_AF z value) as [A1 F1]. destruct (sbc_a_AF z value) as [A2 F2].
  cbv zeta in A1, F1, A2, F2. rewrite A1, F1 in HAa, HFa. rewrite A2, F2 in HAs, HFs.
  fold x y c in HAa, HFa, HAs, HFs.
  unfold za, zs. rewrite HAa, HFa, HAs, HFs. clear HAa HFa HAs HFs A1 F1 A2 F2 za zs.
  assert (Hg : is_bcd x && is_bcd y = true) by (rewrite Hx, Hy; reflexivity).
  assert (c = 0 \/ c = 1) as [-> | ->] by lia;
    check_guarded2 (is_bcd x && is_bcd y) x y Ha Hb Hg.
Qed.

(** 0x19 + 0x28 = 0x47 in decimal, and 0x75 + 0x50 = 0x25 with a carry. *)
Lemma daa_decimal_adjust_witness :
  Z80.A (Z80.daa (Z80.adc_a (Z80.set_A 0x19 example_z80) 0x28)) = 0x47.
Proof.
  pose proof (daa_decimal_adjust (Z80.set_A 0x19 example_z80) 0x28) as H.
  cbv zeta in H.
  assert (HA : Z80.A (Z80.set_A 0x19 example_z80) = 0x19) by (vm_compute; reflexivity).
  assert (HF : Z80.F (Z80.set_A 0x19 example_z80) = 0x40) by (vm_compute; reflexivity).
  rewrite HA, HF in H.
  destruct (H eq_refl eq_refl) as (Hbcd & Hval & _).
  revert Hbcd Hval.
  generalize (Z80.A (Z80.daa (Z80.adc_a (Z80.set_A 0x19 example_z80) 0x28))).
  intros r Hbcd Hval.
  change ((bcd_value 25 + bcd_value (uint8 40) + Z.land 64 Z80.CF) mod 100) with 47 in Hval.
  unfold is_bcd in Hbcd. unfold bcd_value in Hval.
  apply andb_true_iff in Hbcd. destruct Hbcd as [Hlo Hhi].
  apply Z.ltb_lt in Hlo, Hhi.
  assert (Hr : r = 16 * Z.shiftr r 4 + Z.land r 0xF).
  { rewrite Z.shiftr_div_pow2 by lia. change 0xF with (Z.ones 4).
    rewrite Z.land_ones by lia. change (2 ^ 4) with 16.
    pose proof (Z.div_mod r 16 ltac:(lia)). lia. }
  assert (0 <= Z.land r 0xF) by (apply Z.land_nonneg; lia).
  assert (0 <= Z.shiftr r 4 \/ Z.shiftr r 4 < 0) as [Hs | Hs] by lia; lia.
Defined.

(** ** Memory of the Z80 on the fast path *)

(** The members of the context through the setters. *)
Ltac z80_fields :=
  cbn [Z80.options Z80.mem_pointers Z80.system Z80.m_prvpc Z80.m_pc Z80.m_sp Z80.m_af
       Z80.m_bc Z80.m_de Z80.m_hl Z80.m_ix Z80.m_iy Z80.m_wz Z80.m_af2 Z80.m_bc2
       Z80.m_de2 Z80.m_hl2 Z80.m_r Z80.m_r2 Z80.m_iff1 Z80.m_iff2 Z80.m_halt Z80.m_im
       Z80.m_i Z80.m_nmi_state Z80.m_nmi_pending Z80.m_irq_state Z80.m_wait_state
       Z80.busreq Z80.busack Z80.reset Z80.m_after_ei Z80.m_after_ldair Z80.m_ea
       Z80.m_icount Z80.current_cycle Z80.nmi_start Z80.int_pulse_start
       Z80.int_pulse_end Z80.bank_reg Z80.m_rtemp Z80.int_is_nmi Z80.im2_vector
       Z80.m_cc_op Z80.m_cc_cb Z80.m_cc_ed Z80.m_cc_xy Z80.m_cc_xycb Z80.m_cc_ex
       Z80.read_pointers Z80.write_pointers Z80.host
       Z80.set_options Z80.set_mem_pointers Z80.set_system Z80.set_m_prvpc
       Z80.set_m_pc Z80.set_m_sp Z80.set_m_af Z80.set_m_bc Z80.set_m_de Z80.set_m_hl
       Z80.set_m_ix Z80.set_m_iy Z80.set_m_wz Z80.set_m_af2 Z80.set_m_bc2
       Z80.set_m_de2 Z80.set_m_hl2 Z80.set_m_r Z80.set_m_r2 Z80.set_m_iff1
       Z80.set_m_iff2 Z80.set_m_halt Z80.set_m_im Z80.set_m_i Z80.set_m_nmi_state
       Z80.set_m_nmi_pending Z80.set_m_irq_state Z80.set_m_wait_state Z80.set_busreq
       Z80.set_busack Z80.set_reset Z80.set_m_after_ei Z80.set_m_after_ldair
       Z80.set_m_ea Z80.set_m_icount Z80.set_current_cycle Z80.set_nmi_start
       Z80.set_int_pulse_start Z80.set_int_pulse_end Z80.set_bank_reg Z80.set_m_rtemp
       Z80.set_int_is_nmi Z80.set_im2_vector Z80.set_m_cc_op Z80.set_m_cc_cb
       Z80.set_m_cc_ed Z80.set_m_cc_xy Z80.set_m_cc_xycb Z80.set_m_cc_ex
       Z80.set_read_pointers Z80.set_write_pointers Z80.set_host
       Z80.set_PCD Z80.set_PC Z80.set_SP Z80.set_A Z80.set_F Z80.set_BC Z80.set_HL
       Z80.set_DE Z80.set_IX Z80.set_IY Z80.set_WZ Z80.set_WZ_L Z80.set_WZ_H
       Z80.PCD Z80.PC Z80.SPD Z80.SP Z80.AFD Z80.A Z80.F Z80.BC Z80.B Z80.DE Z80.HL
       Z80.HLD Z80.IX Z80.IY Z80.WZ Z80.PRVPC
       Z80.get_pair Z80.set_pair fst snd] in *.

Lemma upd_same (f : Z -> Z) (k v : Z) : upd f k v k = v.
Proof. unfold upd. rewrite Z.eqb_refl. reflexivity. Qed.

Lemma upd_other (f : Z -> Z) (k v x : Z) : x <> k -> upd f k v x = f x.
Proof. unfold upd. intros H. destruct (Z.eqb_spec x k); [contradiction | reflexivity]. Qed.

Section FastPath.

Variable E : Z80.z80_env.

Lemma rm_cell (z : Z80.z80_device) (a c : Z) :
  read_cell z a = Some c -> Z80.rm E z a = (uint8 (Z80.host z c), z).
Proof.
  unfold read_cell. intros H.
  destruct (Z80.read_pointers z (Z.shiftr (uint16 a) 13)) as [p|] eqn:Hp; [|discriminate].
  injection H as <-. apply rm_fast. exact Hp.
Qed.

Lemma wm_cell (z : Z80.z80_device) (a v c : Z) :
  write_cell z a = Some c ->
  Z80.wm E z a v = Z80.set_host (upd (Z80.host z) c (uint8 v)) z.
Proof.
  unfold write_cell. intros H.
  destruct (Z80.write_pointers z (Z.shiftr (uint16 a) 13)) as [p|] eqn:Hp; [|discriminate].
  injection H as <-. apply wm_fast. exact Hp.
Qed.

(** X11.  A byte stored by [wm] on the fast path is the byte [rm] loads
    from every address backed by the same host cell (the address itself
    and its mirrors); addresses backed by another cell load what they did
    before; the store changes the host cell and nothing else of the
    context. *)
Theorem wm_then_rm (z : Z80.z80_device) (a v c : Z) :
  write_cell z a = Some c ->
  Z80.wm E z a v = Z80.set_host (upd (Z80.host z) c (uint8 v)) z
  /\ (forall a', read_cell z a' = Some c -> z80_byte E (Z80.wm E z a v) a' = uint8 v)
  /\ (forall a' c', read_cell z a' = Some c' -> c' <> c ->
        z80_byte E (Z80.wm E z a v) a' = z80_byte E z a').
Proof.
  intros Hw. rewrite (wm_cell z a v c Hw).
  split; [reflexivity|]. split.
  - intros a' Hr. unfold z80_byte.
    rewrite (rm_cell _ a' c) by exact Hr.
    cbn [fst Z80.host Z80.set_host]. rewrite upd_same. apply uint8_idem.
  - intros a' c' Hr Hne. unfold z80_byte.
    rewrite (rm_cell _ a' c') by exact Hr.
    rewrite (rm_cell z a' c') by exact Hr.
    cbn [fst Z80.host Z80.set_host]. rewrite upd_other by exact Hne. reflexivity.
Qed.

End FastPath.

(** The eight pages of the example mirror one RAM: a store at 0x0005 is
    seen at 0x2005. *)
Lemma wm_then_rm_witness :
  write_cell example_z80 0x0005 = Some 0x100005
  /\ z80_byte example_env (Z80.wm example_env example_z80 0x0005 0x42) 0x2005 = 0x42.
Proof.
  assert (Hw : write_cell example_z80 0x0005 = Some 0x100005) by (vm_compute; reflexivity).
  assert (Hr : read_cell example_z80 0x2005 = Some 0x100005) by (vm_compute; reflexivity).
  split; [exact Hw|].
  exact (proj1 (proj2 (wm_then_rm example_env example_z80 0x0005 0x42 0x100005 Hw))
           0x2005 Hr).
Defined.

(** ** Words in memory and the stack *)

Lemma w_l_bytes (p : Z80.PAIR) : Z80.w_l p = Z80.b_l p + 256 * Z80.b_h p.
Proof.
  unfold Z80.w_l, Z80.b_l, Z80.b_h.
  change 0xFFFF with (Z.ones 16). change 0xFF with (Z.ones 8).
  rewrite !Z.land_ones, Z.shiftr_div_pow2 by lia.
  change (2 ^ 16) with (2 ^ 8 * 2 ^ 8). rewrite Z.rem_mul_r by lia. reflexivity.
Qed.

Lemma w_l_set_bytes (l h : Z) (p : Z80.PAIR) :
  Z80.w_l (Z80.set_b_h h (Z80.set_b_l l p)) = uint8 l + 256 * uint8 h.
Proof. rewrite w_l_bytes, b_l_set_b_h, b_h_set_b_h, b_l_set_b_l. reflexivity. Qed.

Lemma w_l_range (p : Z80.PAIR) : 0 <= Z80.w_l p < 65536.
Proof.
  unfold Z80.w_l. change 0xFFFF with (Z.ones 16). rewrite Z.land_ones by lia.
  apply Z.mod_pos_bound. lia.
Qed.

Lemma uint16_small (x : Z) : 0 <= x < 65536 -> uint16 x = x.
Proof. intros H. apply Z.mod_small. exact H. Qed.

Lemma uint16_idem (x : Z) : uint16 (uint16 x) = uint16 x.
Proof. unfold uint16. apply Z.mod_mod. lia. Qed.

Lemma uint16_add_l (x k : Z) : uint16 (uint16 x + k) = uint16 (x + k).
Proof. unfold uint16. apply Z.add_mod_idemp_l. lia. Qed.

Lemma read_cell_cong (z : Z80.z80_device) (a b : Z) :
  uint16 a = uint16 b -> read_cell z a = read_cell z b.
Proof. unfold read_cell. intros ->. reflexivity. Qed.

Lemma write_cell_cong (z : Z80.z80_device) (a b : Z) :
  uint16 a = uint16 b -> write_cell z a = write_cell z b.
Proof. unfold write_cell. intros ->. reflexivity. Qed.

Section Stack.

Variable E : Z80.z80_env.

Lemma rm16_cells (z : Z80.z80_device) (a c0 c1 : Z) (r : Z80.pair_ref) :
  read_cell z a = Some c0 -> read_cell z (a + 1) = Some c1 ->
  Z80.rm16 E z a r =
    Z80.set_pair r (Z80.set_b_h (Z80.host z c1)
                      (Z80.set_b_l (Z80.host z c0) (Z80.get_pair r z))) z.
Proof.
  intros H0 H1. unfold Z80.rm16. cbv zeta.
  rewrite (rm_cell E z (uint16 a) c0)
    by (rewrite <- H0; apply read_cell_cong, uint16_idem).
  assert (H1' : forall v, read_cell (Z80.set_pair r v z) (uint16 a + 1) = Some c1).
  { intros v. rewrite <- H1. unfold read_cell.
    rewrite read_pointers_set_pair, uint16_add_l. reflexivity. }
  rewrite (rm_cell E _ _ c1 (H1' _)).
  rewrite get_set_pair, set_pair_set_pair, host_set_pair.
  unfold Z80.set_b_l, Z80.set_b_h. rewrite !uint8_idem. reflexivity.
Qed.

Lemma wm16_cells (z : Z80.z80_device) (a c0 c1 : Z) (r : Z80.pair_ref) :
  write_cell z a = Some c0 -> write_cell z (a + 1) = Some c1 ->
  Z80.wm16 E z a r =
    Z80.set_host (upd (upd (Z80.host z) c0 (Z80.b_l (Z80.get_pair r z)))
                      c1 (Z80.b_h (Z80.get_pair r z))) z.
Proof.
  intros H0 H1. unfold Z80.wm16. cbv zeta.
  rewrite (wm_cell E z (uint16 a) _ c0)
    by (rewrite <- H0; apply write_cell_cong, uint16_idem).
  rewrite (wm_cell E _ (uint16 a + 1) _ c1)
    by (rewrite <- H1; unfold write_cell; cbn [Z80.write_pointers Z80.set_host];
        rewrite uint16_add_l; reflexivity).
  rewrite get_pair_set_host, uint8_b_l, uint8_b_h. reflexivity.
Qed.

Lemma z80_word_cells (z : Z80.z80_device) (a c0 c1 : Z) :
  read_cell z a = Some c0 -> read_cell z (a + 1) = Some c1 ->
  z80_word E z a = uint8 (Z80.host z c0) + 256 * uint8 (Z80.host z c1).
Proof.
  intros H0 H1. unfold z80_word, z80_byte.
  rewrite (rm_cell E z a c0 H0), (rm_cell E z (a + 1) c1 H1). reflexivity.
Qed.

(** What a 16-bit store followed by a load at the same address gives. *)
Lemma wm16_rm16_cells (z : Z80.z80_device) (a c0 c1 : Z) (r r' : Z80.pair_ref) :
  ram_cell z a c0 -> ram_cell z (a + 1) c1 -> c0 <> c1 ->
  z80_word E (Z80.wm16 E z a r) a = Z80.w_l (Z80.get_pair r z)
  /\ Z80.rm16 E (Z80.wm16 E z a r) a r' =
       Z80.set_pair r'
         (Z80.set_b_h (Z80.b_h (Z80.get_pair r z))
            (Z80.set_b_l (Z80.b_l (Z80.get_pair r z))
               (Z80.get_pair r' (Z80.wm16 E z a r))))
         (Z80.wm16 E z a r).
Proof.
  intros [Hr0 Hw0] [Hr1 Hw1] Hne.
  rewrite (wm16_cells z a c0 c1 r Hw0 Hw1).
  set (h := upd (upd (Z80.host z) c0 _) c1 _).
  assert (Hr0' : read_cell (Z80.set_host h z) a = Some c0) by exact Hr0.
  assert (Hr1' : read_cell (Z80.set_host h z) (a + 1) = Some c1) by exact Hr1.
  assert (Hh0 : h c0 = Z80.b_l (Z80.get_pair r z)).
  { unfold h. rewrite upd_other by exact Hne. apply upd_same. }
  assert (Hh1 : h c1 = Z80.b_h (Z80.get_pair r z)) by apply upd_same.
  split.
  - rewrite (z80_word_cells _ a c0 c1 Hr0' Hr1').
    cbn [Z80.host Z80.set_host]. rewrite Hh0, Hh1, uint8_b_l, uint8_b_h.
    symmetry. apply w_l_bytes.
  - rewrite (rm16_cells _ a c0 c1 r' Hr0' Hr1').
    cbn [Z80.host Z80.set_host]. rewrite Hh0, Hh1. reflexivity.
Qed.

(** X12.  On RAM of the fast path whose two bytes are distinct host
    cells, the word [wm16] stores at an address is the word read back
    there, by [rm16] into any register pair and byte by byte, low byte
    first; the store changes the two host cells and nothing else. *)
Theorem wm16_then_rm16 (z : Z80.z80_device) (a c0 c1 : Z) (r r' : Z80.pair_ref) :
  ram_cell z a c0 -> ram_cell z (a + 1) c1 -> c0 <> c1 ->
  let z1 := Z80.wm16 E z a r in
  z1 = Z80.set_host (upd (upd (Z80.host z) c0 (Z80.b_l (Z80.get_pair r z)))
                         c1 (Z80.b_h (Z80.get_pair r z))) z
  /\ z80_word E z1 a = Z80.w_l (Z80.get_pair r z)
  /\ Z80.w_l (Z80.get_pair r' (Z80.rm16 E z1 a r')) = Z80.w_l (Z80.get_pair r z).
Proof.
  intros H0 H1 Hne z1.
  destruct (wm16_rm16_cells z a c0 c1 r r' H0 H1 Hne) as [Hw Hr].
  split; [ apply wm16_cells; [ apply H0 | apply H1 ] | ].
  split; [ exact Hw | ].
  unfold z1. rewrite Hr, get_set_pair, w_l_set_bytes, uint8_b_l, uint8_b_h.
  symmetry. apply w_l_bytes.
Qed.

End Stack.

(** The word 0xBEEF stored from HL at 0xFFFF wraps to address 0 and reads
    back into BC. *)
Lemma wm16_then_rm16_witness :
  Z80.BC (Z80.rm16 example_env
            (Z80.wm16 example_env (Z80.set_HL 0xBEEF example_z80) 0xFFFF Z80.R_hl)
            0xFFFF Z80.R_bc) = 0xBEEF.
Proof.
  assert (H0 : ram_cell (Z80.set_HL 0xBEEF example_z80) 0xFFFF 0x101FFF)
    by (split; vm_compute; reflexivity).
  assert (H1 : ram_cell (Z80.set_HL 0xBEEF example_z80) (0xFFFF + 1) 0x100000)
    by (split; vm_compute; reflexivity).
  assert (Hne : 0x101FFF <> 0x100000) by lia.
  pose proof (wm16_then_rm16 example_env _ _ _ _ Z80.R_hl Z80.R_bc H0 H1 Hne) as H.
  cbv zeta in H. destruct H as (_ & _ & H).
  unfold Z80.BC. cbn [Z80.get_pair] in H. rewrite H.
  vm_compute. reflexivity.
Defined.

(** ** Push, pop, call and return *)

Lemma uint16_w_l (p : Z80.PAIR) : uint16 (Z80.w_l p) = Z80.w_l p.
Proof. apply uint16_small, w_l_range. Qed.

Lemma uint16_sub_add (x k : Z) : uint16 (uint16 (x - k) + k) = uint16 x.
Proof. rewrite uint16_add_l. f_equal. lia. Qed.

Lemma set_w_l_get (v : Z) (p : Z80.PAIR) :
  uint16 v = Z80.w_l p -> 0 <= p < 2 ^ 32 -> Z80.set_w_l v p = p.
Proof.
  intros Hv Hp. unfold Z80.set_w_l. rewrite Hv. unfold Z80.w_l.
  rewrite <- Z.land_lor_distr_r. change (Z.lor 0xFFFF0000 0xFFFF) with (Z.ones 32).
  rewrite Z.land_ones by lia. apply Z.mod_small. exact Hp.
Qed.

Lemma ram_cell_cong (z : Z80.z80_device) (a b c : Z) :
  uint16 a = uint16 b -> ram_cell z a c -> ram_cell z b c.
Proof.
  intros H [Hr Hw]. split.
  - rewrite <- Hr. symmetry. apply read_cell_cong. exact H.
  - rewrite <- Hw. symmetry. apply write_cell_cong. exact H.
Qed.

Section Calls.

Variable E : Z80.z80_env.

(** [push] on a stack in RAM. *)
Lemma push_cells (z : Z80.z80_device) (c0 c1 : Z) (r : Z80.pair_ref) :
  ram_cell z (Z80.SP z - 2) c0 -> ram_cell z (Z80.SP z - 1) c1 ->
  r <> Z80.R_sp ->
  Z80.push E z r =
    Z80.set_host (upd (upd (Z80.host z) c0 (Z80.b_l (Z80.get_pair r z)))
                      c1 (Z80.b_h (Z80.get_pair r z)))
      (Z80.set_SP (Z80.SP z - 2) z).
Proof.
  intros [_ H0] [_ H1] Hr. unfold Z80.push. cbv zeta.
  set (z1 := Z80.set_SP (Z80.SP z - 2) z).
  assert (Hsp : uint16 (Z80.SPD z1) = uint16 (Z80.SP z - 2)).
  { unfold z1, Z80.SPD, Z80.set_SP. cbn [Z80.m_sp Z80.set_m_sp]. apply uint16_set_w_l. }
  assert (Hw0 : write_cell z1 (Z80.SPD z1) = Some c0).
  { rewrite <- H0. unfold write_cell. rewrite Hsp. reflexivity. }
  assert (Hw1 : write_cell z1 (Z80.SPD z1 + 1) = Some c1).
  { rewrite <- H1. unfold write_cell.
    rewrite <- (uint16_add_l (Z80.SPD z1)), Hsp, uint16_add_l.
    replace (Z80.SP z - 2 + 1) with (Z80.SP z - 1) by lia. reflexivity. }
  rewrite (wm16_cells E z1 _ c0 c1 r Hw0 Hw1).
  assert (Hg : Z80.get_pair r z1 = Z80.get_pair r z) by (destruct r; try reflexivity; contradiction).
  rewrite Hg. reflexivity.
Qed.

(** [pop] from a stack in RAM. *)
Lemma pop_cells (z : Z80.z80_device) (c0 c1 : Z) (r : Z80.pair_ref) :
  read_cell z (Z80.SP z) = Some c0 -> read_cell z (Z80.SP z + 1) = Some c1 ->
  r <> Z80.R_sp ->
  Z80.pop E z r =
    Z80.set_SP (Z80.SP z + 2)
      (Z80.set_pair r (Z80.set_b_h (Z80.host z c1)
                         (Z80.set_b_l (Z80.host z c0) (Z80.get_pair r z))) z).
Proof.
  intros H0 H1 Hr. unfold Z80.pop. cbv zeta.
  assert (Hsp : uint16 (Z80.SPD z) = uint16 (Z80.SP z)).
  { unfold Z80.SPD, Z80.SP, Z80.w_l, uint16.
    change 0xFFFF with (Z.ones 16). rewrite Z.land_ones by lia.
    symmetry. apply Z.mod_mod. lia. }
  assert (Hr0 : read_cell z (Z80.SPD z) = Some c0)
    by (rewrite <- H0; apply read_cell_cong, Hsp).
  assert (Hr1 : read_cell z (Z80.SPD z + 1) = Some c1).
  { rewrite <- H1. apply read_cell_cong.
    rewrite <- (uint16_add_l (Z80.SPD z)), Hsp, uint16_add_l. reflexivity. }
  rewrite (rm16_cells E z _ c0 c1 r Hr0 Hr1).
  f_equal. f_equal. destruct r; try reflexivity; contradiction.
Qed.

(** X13.  On a stack in RAM of the fast path, [push] moves SP down by two
    and stores the pair at the new SP, low byte first; a [pop] that
    follows loads that word into its pair and moves SP back. *)
Theorem push_then_pop (z : Z80.z80_device) (c0 c1 : Z) (r r' : Z80.pair_ref) :
  ram_cell z (Z80.SP z - 2) c0 -> ram_cell z (Z80.SP z - 1) c1 -> c0 <> c1 ->
  r <> Z80.R_sp -> r' <> Z80.R_sp ->
  let z1 := Z80.push E z r in
  let z2 := Z80.pop E z1 r' in
  Z80.SP z1 = uint16 (Z80.SP z - 2)
  /\ z80_word E z1 (Z80.SP z1) = Z80.w_l (Z80.get_pair r z)
  /\ Z80.SP z2 = Z80.SP z
  /\ Z80.w_l (Z80.get_pair r' z2) = Z80.w_l (Z80.get_pair r z)
  /\ Z80.host z2 = Z80.host z1.
Proof.
  intros H0 H1 Hne Hr Hr' z1 z2.
  assert (Hz1 : z1 = Z80.set_host (upd (upd (Z80.host z) c0 (Z80.b_l (Z80.get_pair r z)))
                                       c1 (Z80.b_h (Z80.get_pair r z)))
                       (Z80.set_SP (Z80.SP z - 2) z))
    by (apply push_cells; assumption).
  assert (Hsp1 : Z80.SP z1 = uint16 (Z80.SP z - 2)).
  { rewrite Hz1. unfold Z80.SP, Z80.set_SP. cbn [Z80.m_sp Z80.set_m_sp Z80.set_host].
    apply w_l_set_w_l. }
  assert (Hc0 : read_cell z1 (Z80.SP z1) = Some c0).
  { rewrite Hsp1. rewrite Hz1. unfold read_cell.
    cbn [Z80.read_pointers Z80.set_host Z80.set_SP Z80.set_m_sp].
    rewrite uint16_idem. apply H0. }
  assert (Hc1 : read_cell z1 (Z80.SP z1 + 1) = Some c1).
  { rewrite Hsp1. rewrite Hz1. unfold read_cell.
    cbn [Z80.read_pointers Z80.set_host Z80.set_SP Z80.set_m_sp].
    rewrite uint16_add_l. replace (Z80.SP z - 2 + 1) with (Z80.SP z - 1) by lia.
    apply H1. }
  assert (Hh0 : Z80.host z1 c0 = Z80.b_l (Z80.get_pair r z)).
  { rewrite Hz1. cbn [Z80.host Z80.set_host]. rewrite upd_other by exact Hne.
    apply upd_same. }
  assert (Hh1 : Z80.host z1 c1 = Z80.b_h (Z80.get_pair r z)).
  { rewrite Hz1. cbn [Z80.host Z80.set_host]. apply upd_same. }
  assert (Hz2 : z2 = Z80.set_SP (Z80.SP z1 + 2)
                       (Z80.set_pair r' (Z80.set_b_h (Z80.host z1 c1)
                          (Z80.set_b_l (Z80.host z1 c0) (Z80.get_pair r' z1))) z1))
    by (apply pop_cells; assumption).
  split; [ exact Hsp1 | ]. split.
  - rewrite (z80_word_cells E z1 _ c0 c1 Hc0 Hc1), Hh0, Hh1, uint8_b_l, uint8_b_h.
    symmetry. apply w_l_bytes.
  - rewrite Hz2, Hh0, Hh1. split; [ | split ].
    + unfold Z80.SP at 1, Z80.set_SP. cbn [Z80.m_sp Z80.set_m_sp].
      rewrite w_l_set_w_l, Hsp1, uint16_sub_add. apply uint16_w_l.
    + assert (Hg : forall v y, Z80.get_pair r' (Z80.set_SP v y) = Z80.get_pair r' y)
        by (intros v y; destruct r'; try reflexivity; contradiction).
      rewrite Hg, get_set_pair, w_l_set_bytes, uint8_b_l, uint8_b_h.
      symmetry. apply w_l_bytes.
    + unfold Z80.set_SP. cbn [Z80.host Z80.set_m_sp]. apply host_set_pair.
Qed.

End Calls.

(** PUSH BC with BC = 0x1234 and SP = 0, then POP HL. *)
Lemma push_then_pop_witness :
  Z80.HL (Z80.pop example_env
            (Z80.push example_env (Z80.set_BC 0x1234 example_z80) Z80.R_bc) Z80.R_hl)
  = 0x1234.
Proof.
  assert (H0 : ram_cell (Z80.set_BC 0x1234 example_z80)
                 (Z80.SP (Z80.set_BC 0x1234 example_z80) - 2) 0x101FFE)
    by (split; vm_compute; reflexivity).
  assert (H1 : ram_cell (Z80.set_BC 0x1234 example_z80)
                 (Z80.SP (Z80.set_BC 0x1234 example_z80) - 1) 0x101FFF)
    by (split; vm_compute; reflexivity).
  pose proof (push_then_pop example_env _ _ _ Z80.R_bc Z80.R_hl H0 H1
                ltac:(lia) ltac:(discriminate) ltac:(discriminate)) as H.
  cbv zeta in H. destruct H as (_ & _ & _ & H & _).
  unfold Z80.HL. cbn [Z80.get_pair] in H. rewrite H.
  vm_compute. reflexivity.
Defined.

(** ** Operand fetch, call and return, interrupt entry *)

Lemma uint16_land_ffff (x : Z) : uint16 (Z.land x 0xffff) = uint16 x.
Proof.
  unfold uint16. change 0xffff with (Z.ones 16). rewrite Z.land_ones by lia.
  apply Z.mod_mod. lia.
Qed.

Lemma uint16_PCD (z : Z80.z80_device) : uint16 (Z80.PCD z) = Z80.PC z.
Proof.
  unfold Z80.PCD, Z80.PC, Z80.w_l, uint16.
  change 0xFFFF with (Z.ones 16). rewrite Z.land_ones by lia. reflexivity.
Qed.

Lemma le_word (lo hi : Z) :
  0 <= lo < 256 -> 0 <= hi < 256 ->
  uint16 (Z.lor lo (Z.shiftl hi 8)) = lo + 256 * hi.
Proof.
  intros Hlo Hhi. rewrite Z.lor_comm, lor_shiftl_add by lia.
  change (2 ^ 8) with 256. rewrite uint16_small by lia. lia.
Qed.

Section Fetch.

Variable E : Z80.z80_env.

Lemma rop_cell (z : Z80.z80_device) (k : Z) :
  read_cell z (Z80.PC z) = Some k ->
  Z80.rop E z = (uint8 (Z80.host z k), Z80.set_PC (Z80.PC z + 1) z).
Proof.
  intros H. unfold Z80.rop. cbv zeta.
  rewrite (rm_cell E (Z80.set_PC (Z80.PC z + 1) z) (Z80.PCD z) k); [ reflexivity | ].
  rewrite <- H. unfold read_cell.
  cbn [Z80.read_pointers Z80.set_PC Z80.set_m_pc]. rewrite uint16_PCD.
  rewrite (uint16_small (Z80.PC z)) by apply w_l_range. reflexivity.
Qed.

Lemma arg16_cells (z : Z80.z80_device) (k0 k1 : Z) :
  read_cell z (Z80.PC z) = Some k0 -> read_cell z (Z80.PC z + 1) = Some k1 ->
  Z80.arg16 E z =
    (uint8 (Z80.host z k0) + 256 * uint8 (Z80.host z k1), Z80.set_PC (Z80.PC z + 2) z).
Proof.
  intros H0 H1. unfold Z80.arg16. cbv zeta.
  set (z1 := Z80.set_PC (Z80.PC z + 2) z).
  assert (Hr0 : read_cell z1 (Z80.PCD z) = Some k0).
  { rewrite <- H0. unfold read_cell, z1.
    cbn [Z80.read_pointers Z80.set_PC Z80.set_m_pc]. rewrite uint16_PCD.
    rewrite (uint16_small (Z80.PC z)) by apply w_l_range. reflexivity. }
  assert (Hr1 : read_cell z1 (Z.land (Z80.PCD z + 1) 0xffff) = Some k1).
  { rewrite <- H1. unfold read_cell, z1.
    cbn [Z80.read_pointers Z80.set_PC Z80.set_m_pc].
    rewrite uint16_land_ffff, <- (uint16_add_l (Z80.PCD z)), uint16_PCD. reflexivity. }
  rewrite (rm_cell E z1 _ k0 Hr0), (rm_cell E z1 _ k1 Hr1).
  rewrite le_word by apply uint8_range. reflexivity.
Qed.

Lemma z80_word_PC (z : Z80.z80_device) (k0 k1 : Z) :
  read_cell z (Z80.PC z) = Some k0 -> read_cell z (Z80.PC z + 1) = Some k1 ->
  z80_word E z (Z80.PC z) = uint8 (Z80.host z k0) + 256 * uint8 (Z80.host z k1).
Proof. apply z80_word_cells. Qed.

Lemma word_range (lo hi : Z) : 0 <= uint8 lo + 256 * uint8 hi < 65536.
Proof. pose proof (uint8_range lo). pose proof (uint8_range hi). lia. Qed.

Lemma w_l_small (x : Z) : 0 <= x < 65536 -> Z80.w_l x = x.
Proof.
  intros H. unfold Z80.w_l. change 0xFFFF with (Z.ones 16).
  rewrite Z.land_ones by lia. apply Z.mod_small. exact H.
Qed.

Lemma uint32_word (x : Z) : 0 <= x < 65536 -> uint32 x = x.
Proof. intros H. apply Z.mod_small. lia. Qed.

(** [ret]: the handler of opcode C9, on a stack in RAM. *)
Lemma ret_cells (z : Z80.z80_device) (c0 c1 : Z) :
  read_cell z (Z80.SP z) = Some c0 -> read_cell z (Z80.SP z + 1) = Some c1 ->
  Z80.PC (Z80.op_c9 E z) = uint8 (Z80.host z c0) + 256 * uint8 (Z80.host z c1)
  /\ Z80.SP (Z80.op_c9 E z) = uint16 (Z80.SP z + 2)
  /\ Z80.host (Z80.op_c9 E z) = Z80.host z.
Proof.
  intros H0 H1. unfold Z80.op_c9. cbv zeta.
  rewrite (pop_cells E z c0 c1 Z80.R_pc H0 H1) by discriminate.
  unfold Z80.PC, Z80.SP, Z80.set_WZ, Z80.set_SP, Z80.PCD.
  cbn [Z80.m_pc Z80.m_sp Z80.host Z80.set_m_wz Z80.set_m_sp Z80.set_pair Z80.set_m_pc
       Z80.get_pair].
  rewrite w_l_set_bytes, w_l_set_w_l. repeat split; reflexivity.
Qed.

(** X14.  On code and a stack on the fast path, [call] jumps to the word
    that follows the opcode and leaves on the stack the address of the
    instruction after it; the [ret] (opcode C9) that follows resumes
    there with SP as it was before the call. *)
Theorem call_then_ret (z : Z80.z80_device) (k0 k1 c0 c1 : Z) :
  read_cell z (Z80.PC z) = Some k0 -> read_cell z (Z80.PC z + 1) = Some k1 ->
  ram_cell z (Z80.SP z - 2) c0 -> ram_cell z (Z80.SP z - 1) c1 -> c0 <> c1 ->
  let z1 := Z80.call E z in
  let z2 := Z80.op_c9 E z1 in
  Z80.PC z1 = z80_word E z (Z80.PC z)
  /\ Z80.SP z1 = uint16 (Z80.SP z - 2)
  /\ z80_word E z1 (Z80.SP z1) = uint16 (Z80.PC z + 2)
  /\ Z80.PC z2 = uint16 (Z80.PC z + 2)
  /\ Z80.SP z2 = Z80.SP z.
Proof.
  intros Hk0 Hk1 H0 H1 Hne z1 z2.
  rewrite (z80_word_PC z k0 k1 Hk0 Hk1).
  set (target := uint8 (Z80.host z k0) + 256 * uint8 (Z80.host z k1)).
  assert (Ht : 0 <= target < 65536) by apply word_range.
  set (zc := Z80.set_WZ (uint32 target)
               (Z80.set_m_ea (uint32 target) (Z80.set_PC (Z80.PC z + 2) z))).
  assert (H0c : ram_cell zc (Z80.SP zc - 2) c0) by exact H0.
  assert (H1c : ram_cell zc (Z80.SP zc - 1) c1) by exact H1.
  assert (Hcall : z1 = Z80.set_PCD (uint32 target) (Z80.push E zc Z80.R_pc)).
  { unfold z1, Z80.call. rewrite (arg16_cells z k0 k1 Hk0 Hk1). fold target.
    cbv zeta.
    change (Z80.set_PCD (Z80.m_ea (Z80.push E zc Z80.R_pc)) (Z80.push E zc Z80.R_pc)
            = Z80.set_PCD (uint32 target) (Z80.push E zc Z80.R_pc)).
    rewrite (push_cells E zc c0 c1 Z80.R_pc H0c H1c) by discriminate. reflexivity. }
  rewrite (push_cells E zc c0 c1 Z80.R_pc H0c H1c) in Hcall by discriminate.
  set (ret := Z80.set_w_l (Z80.PC z + 2) (Z80.m_pc z)) in *.
  assert (Hret : Z80.get_pair Z80.R_pc zc = ret) by reflexivity.
  rewrite Hret in Hcall.
  assert (Hsp1 : Z80.SP z1 = uint16 (Z80.SP z - 2)).
  { rewrite Hcall. unfold Z80.SP, Z80.set_PCD, Z80.set_SP.
    cbn [Z80.m_sp Z80.set_m_pc Z80.set_host Z80.set_m_sp]. apply w_l_set_w_l. }
  assert (Hc0 : read_cell z1 (Z80.SP z1) = Some c0).
  { rewrite Hsp1, Hcall. unfold read_cell.
    cbn [Z80.read_pointers Z80.set_PCD Z80.set_m_pc Z80.set_host Z80.set_SP Z80.set_m_sp].
    rewrite uint16_idem. apply H0. }
  assert (Hc1 : read_cell z1 (Z80.SP z1 + 1) = Some c1).
  { rewrite Hsp1, Hcall. unfold read_cell.
    cbn [Z80.read_pointers Z80.set_PCD Z80.set_m_pc Z80.set_host Z80.set_SP Z80.set_m_sp].
    rewrite uint16_add_l. replace (Z80.SP z - 2 + 1) with (Z80.SP z - 1) by lia.
    apply H1. }
  assert (Hh0 : Z80.host z1 c0 = Z80.b_l ret).
  { rewrite Hcall. cbn [Z80.host Z80.set_PCD Z80.set_m_pc Z80.set_host].
    rewrite upd_other by exact Hne. apply upd_same. }
  assert (Hh1 : Z80.host z1 c1 = Z80.b_h ret).
  { rewrite Hcall. cbn [Z80.host Z80.set_PCD Z80.set_m_pc Z80.set_host]. apply upd_same. }
  assert (Hw : uint8 (Z80.b_l ret) + 256 * uint8 (Z80.b_h ret) = uint16 (Z80.PC z + 2)).
  { rewrite uint8_b_l, uint8_b_h, <- w_l_bytes. apply w_l_set_w_l. }
  destruct (ret_cells z1 c0 c1 Hc0 Hc1) as (Hpc2 & Hsp2 & _).
  fold z2 in Hpc2, Hsp2.
  split.
  { rewrite Hcall. unfold Z80.PC, Z80.set_PCD, Z80.set_d. cbn [Z80.m_pc Z80.set_m_pc].
    rewrite !(uint32_word target Ht). apply w_l_small. exact Ht. }
  split; [ exact Hsp1 | ]. split.
  { rewrite (z80_word_cells E z1 _ c0 c1 Hc0 Hc1), Hh0, Hh1. exact Hw. }
  split.
  { rewrite Hpc2, Hh0, Hh1. exact Hw. }
  rewrite Hsp2, Hsp1, uint16_sub_add. apply uint16_w_l.
Qed.

(** [leave_halt] steps over the HALT a halted Z80 stays on. *)
Lemma leave_halt_fields (z : Z80.z80_device) :
  Z80.m_halt (Z80.leave_halt z) = 0
  /\ Z80.PC (Z80.leave_halt z)
     = uint16 (Z80.PC z + (if truthy (Z80.m_halt z) then 1 else 0))
  /\ Z80.m_sp (Z80.leave_halt z) = Z80.m_sp z
  /\ Z80.read_pointers (Z80.leave_halt z) = Z80.read_pointers z
  /\ Z80.write_pointers (Z80.leave_halt z) = Z80.write_pointers z
  /\ Z80.host (Z80.leave_halt z) = Z80.host z
  /\ Z80.m_icount (Z80.leave_halt z) = Z80.m_icount z
  /\ Z80.m_cc_op (Z80.leave_halt z) = Z80.m_cc_op z
  /\ Z80.m_im (Z80.leave_halt z) = Z80.m_im z.
Proof.
  unfold Z80.leave_halt, truthy.
  destruct (Z.eqb_spec (Z80.m_halt z) 0) as [H0 | Hn]; cbn [negb].
  - rewrite Z.add_0_r. unfold Z80.PC. rewrite uint16_w_l.
    repeat split; try reflexivity. exact H0.
  - cbv zeta. unfold Z80.PC, Z80.set_PC. cbn [Z80.m_pc Z80.set_m_pc Z80.set_m_halt].
    rewrite w_l_set_w_l. repeat split; reflexivity.
Qed.

(** X15.  In interrupt mode 1 and with the stack in RAM of the fast path,
    [take_interrupt] clears IFF1, IFF2 and the halt flag, pushes the
    address to resume at (the interrupted PC, or the address after the
    HALT a halted Z80 was on), jumps to 0x0038 and takes the cycles of
    RST 38h plus two off [m_icount]; the [ret] that ends the handler
    resumes at the pushed address with SP as it was. *)
Theorem take_interrupt_mode1 (z : Z80.z80_device) (c0 c1 : Z) :
  Z80.m_im z = 1 ->
  ram_cell z (Z80.SP z - 2) c0 -> ram_cell z (Z80.SP z - 1) c1 -> c0 <> c1 ->
  let resume := uint16 (Z80.PC z + (if truthy (Z80.m_halt z) then 1 else 0)) in
  let z1 := Z80.take_interrupt E z in
  let z2 := Z80.op_c9 E z1 in
  Z80.PC z1 = 0x38
  /\ Z80.m_iff1 z1 = 0 /\ Z80.m_iff2 z1 = 0 /\ Z80.m_halt z1 = 0
  /\ Z80.SP z1 = uint16 (Z80.SP z - 2)
  /\ z80_word E z1 (Z80.SP z1) = resume
  /\ Z80.m_icount z1 = int32 (Z80.m_icount z - (tbl (Z80.m_cc_op z) 0xff + 2))
  /\ Z80.PC z2 = resume
  /\ Z80.SP z2 = Z80.SP z.
Proof.
  intros Him H0 H1 Hne resume z1 z2.
  set (zh := Z80.leave_halt (Z80.set_m_prvpc 0xffff z)).
  destruct (leave_halt_fields (Z80.set_m_prvpc 0xffff z))
    as (Hhalt & Hpc & Hsp & Hrp & Hwp & Hhost & Hic & Hcc & Himh).
  fold zh in Hhalt, Hpc, Hsp, Hrp, Hwp, Hhost, Hic, Hcc, Himh.
  cbn [Z80.m_halt Z80.m_sp Z80.read_pointers Z80.write_pointers Z80.host Z80.m_icount
       Z80.m_cc_op Z80.m_im Z80.set_m_prvpc] in Hpc, Hsp, Hrp, Hwp, Hhost, Hic, Hcc, Himh.
  change (Z80.PC (Z80.set_m_prvpc 65535 z)) with (Z80.PC z) in Hpc. fold resume in Hpc.
  set (zi := Z80.set_m_iff1 0 (Z80.set_m_iff2 0 zh)).
  assert (Hcell : forall a c, ram_cell z a c -> ram_cell zi a c).
  { intros a c [Hr Hw]. unfold ram_cell, read_cell, write_cell, zi.
    cbn [Z80.read_pointers Z80.write_pointers Z80.set_m_iff1 Z80.set_m_iff2].
    rewrite Hrp, Hwp. split; assumption. }
  assert (Hspi : Z80.SP zi = Z80.SP z).
  { unfold Z80.SP, zi. cbn [Z80.m_sp Z80.set_m_iff1 Z80.set_m_iff2]. rewrite Hsp.
    reflexivity. }
  assert (H0i : ram_cell zi (Z80.SP zi - 2) c0) by (rewrite Hspi; apply Hcell, H0).
  assert (H1i : ram_cell zi (Z80.SP zi - 1) c1) by (rewrite Hspi; apply Hcell, H1).
  assert (Hz1 : z1 = Z80.set_WZ 0x38
                 (Z80.set_m_icount
                    (int32 (Z80.m_icount z - (tbl (Z80.m_cc_op z) 0xff + 2)))
                    (Z80.set_PCD 0x38 (Z80.push E zi Z80.R_pc)))).
  { unfold z1, Z80.take_interrupt. cbv zeta. fold zh. fold zi.
    assert (Himi : Z80.m_im zi = 1) by (unfold zi; cbn [Z80.m_im Z80.set_m_iff1
      Z80.set_m_iff2]; rewrite Himh; exact Him).
    rewrite Himi. change (1 =? 2) with false. change (1 =? 1) with true. cbv iota.
    rewrite (push_cells E zi c0 c1 Z80.R_pc H0i H1i) by discriminate.
    cbn [Z80.m_icount Z80.m_cc_op Z80.set_PCD Z80.set_m_pc Z80.set_host Z80.set_SP
         Z80.set_m_sp Z80.set_m_icount Z80.PCD Z80.m_pc].
    replace (Z80.m_icount zi) with (Z80.m_icount z) by (symmetry; exact Hic).
    replace (Z80.m_cc_op zi) with (Z80.m_cc_op z) by (symmetry; exact Hcc).
    reflexivity. }
  rewrite (push_cells E zi c0 c1 Z80.R_pc H0i H1i) in Hz1 by discriminate.
  set (ret := Z80.get_pair Z80.R_pc zi) in *.
  assert (Hret : Z80.w_l ret = resume).
  { unfold ret, zi. cbn [Z80.get_pair Z80.m_pc Z80.set_m_iff1 Z80.set_m_iff2].
    exact Hpc. }
  assert (Hhi : Z80.host zi = Z80.host z) by exact Hhost.
  assert (Hsp1 : Z80.SP z1 = uint16 (Z80.SP z - 2)).
  { rewrite Hz1. unfold Z80.SP, Z80.set_WZ, Z80.set_PCD, Z80.set_SP.
    cbn [Z80.m_sp Z80.set_m_wz Z80.set_m_icount Z80.set_m_pc Z80.set_host Z80.set_m_sp].
    fold (Z80.SP zi). rewrite Hspi. apply w_l_set_w_l. }
  assert (Hrp1 : Z80.read_pointers z1 = Z80.read_pointers z).
  { rewrite Hz1. cbn [Z80.read_pointers Z80.set_WZ Z80.set_m_wz Z80.set_m_icount
      Z80.set_PCD Z80.set_m_pc Z80.set_host Z80.set_SP Z80.set_m_sp].
    unfold zi. cbn [Z80.read_pointers Z80.set_m_iff1 Z80.set_m_iff2]. exact Hrp. }
  assert (Hc0 : read_cell z1 (Z80.SP z1) = Some c0).
  { rewrite Hsp1. unfold read_cell. rewrite Hrp1, uint16_idem. apply H0. }
  assert (Hc1 : read_cell z1 (Z80.SP z1 + 1) = Some c1).
  { rewrite Hsp1. unfold read_cell. rewrite Hrp1, uint16_add_l.
    replace (Z80.SP z - 2 + 1) with (Z80.SP z - 1) by lia. apply H1. }
  assert (Hh0 : Z80.host z1 c0 = Z80.b_l ret).
  { rewrite Hz1. cbn [Z80.host Z80.set_WZ Z80.set_m_wz Z80.set_m_icount Z80.set_PCD
      Z80.set_m_pc Z80.set_host]. rewrite upd_other by exact Hne. apply upd_same. }
  assert (Hh1 : Z80.host z1 c1 = Z80.b_h ret).
  { rewrite Hz1. cbn [Z80.host Z80.set_WZ Z80.set_m_wz Z80.set_m_icount Z80.set_PCD
      Z80.set_m_pc Z80.set_host]. apply upd_same. }
  assert (Hw : uint8 (Z80.b_l ret) + 256 * uint8 (Z80.b_h ret) = resume).
  { rewrite uint8_b_l, uint8_b_h, <- w_l_bytes. exact Hret. }
  destruct (ret_cells z1 c0 c1 Hc0 Hc1) as (Hpc2 & Hsp2 & _).
  fold z2 in Hpc2, Hsp2.
  split; [ rewrite Hz1; reflexivity | ].
  split; [ rewrite Hz1; reflexivity | ].
  split; [ rewrite Hz1; reflexivity | ].
  split.
  { rewrite Hz1. cbn [Z80.m_halt Z80.set_WZ Z80.set_m_wz Z80.set_m_icount Z80.set_PCD
      Z80.set_m_pc Z80.set_host Z80.set_SP Z80.set_m_sp].
    unfold zi. cbn [Z80.m_halt Z80.set_m_iff1 Z80.set_m_iff2]. exact Hhalt. }
  split; [ exact Hsp1 | ].
  split; [ rewrite (z80_word_cells E z1 _ c0 c1 Hc0 Hc1), Hh0, Hh1; exact Hw | ].
  split; [ rewrite Hz1; reflexivity | ].
  split; [ rewrite Hpc2, Hh0, Hh1; exact Hw | ].
  rewrite Hsp2, Hsp1, uint16_sub_add. apply uint16_w_l.
Qed.

End Fetch.

(** The operand 0x1234 at address 0, the stack at 0x1000: [call] from
    PC = 0 goes to 0x1234 and the return comes back to 2. *)
Lemma call_then_ret_witness :
  let z := Z80.set_SP 0x1000 (with_program [0x34; 0x12] example_z80) in
  Z80.PC (Z80.call example_env z) = 0x1234
  /\ Z80.PC (Z80.op_c9 example_env (Z80.call example_env z)) = 2.
Proof.
  intros z.
  assert (Hk0 : read_cell z (Z80.PC z) = Some 0x100000) by (vm_compute; reflexivity).
  assert (Hk1 : read_cell z (Z80.PC z + 1) = Some 0x100001) by (vm_compute; reflexivity).
  assert (H0 : ram_cell z (Z80.SP z - 2) 0x100FFE) by (split; vm_compute; reflexivity).
  assert (H1 : ram_cell z (Z80.SP z - 1) 0x100FFF) by (split; vm_compute; reflexivity).
  pose proof (call_then_ret example_env z _ _ _ _ Hk0 Hk1 H0 H1 ltac:(lia)) as H.
  cbv zeta in H. destruct H as (Hpc & _ & _ & Hret & _).
  split.
  - rewrite Hpc. vm_compute. reflexivity.
  - rewrite Hret. vm_compute. reflexivity.
Defined.

(** A halted Z80 at 0x0201 in interrupt mode 1 with the stack at 0x1000:
    the handler's return resumes at 0x0202. *)
Lemma take_interrupt_mode1_witness :
  let z := Z80.set_m_im 1 (Z80.set_SP 0x1000 (Z80.halt (Z80.set_PC 0x0202 example_z80))) in
  Z80.PC (Z80.take_interrupt example_env z) = 0x38
  /\ Z80.PC (Z80.op_c9 example_env (Z80.take_interrupt example_env z)) = 0x0202
  /\ Z80.m_icount (Z80.take_interrupt example_env z) = -13.
Proof.
  intros z.
  assert (H0 : ram_cell z (Z80.SP z - 2) 0x100FFE) by (split; vm_compute; reflexivity).
  assert (H1 : ram_cell z (Z80.SP z - 1) 0x100FFF) by (split; vm_compute; reflexivity).
  pose proof (take_interrupt_mode1 example_env z _ _ eq_refl H0 H1 ltac:(lia)) as H.
  cbv zeta in H. destruct H as (Hpc & _ & _ & _ & _ & _ & Hic & Hret & _).
  split; [ exact Hpc | ]. split.
  - rewrite Hret. vm_compute. reflexivity.
  - rewrite Hic. vm_compute. reflexivity.
Defined.

(** ** HALT, relative jumps and block transfers *)

Section Spin.

Variable E : Z80.z80_env.

Lemma set_PC_cong (v w : Z) (y : Z80.z80_device) :
  uint16 v = uint16 w -> Z80.set_PC v y = Z80.set_PC w y.
Proof. intros H. unfold Z80.set_PC, Z80.set_w_l. rewrite H. reflexivity. Qed.

Lemma PC_set_PC (v : Z) (y : Z80.z80_device) :
  Z80.PC (Z80.set_PC v y) = uint16 v.
Proof. unfold Z80.PC, Z80.set_PC. cbn [Z80.m_pc Z80.set_m_pc]. apply w_l_set_w_l. Qed.

(** One instruction on a HALT opcode. *)
Lemma exec_one_halt (z : Z80.z80_device) (k : Z) :
  read_cell z (Z80.PC z) = Some k -> uint8 (Z80.host z k) = 0x76 ->
  Z80.exec_one E z =
    Z80.set_m_halt 1
      (Z80.set_PC (Z80.PC z)
         (Z80.set_m_icount (int32 (Z80.m_icount z - tbl (Z80.m_cc_op z) 0x76))
            (Z80.set_PC (Z80.PC z + 1)
               (Z80.set_m_r (uint8 (Z80.m_r z + 1))
                  (Z80.set_m_prvpc (Z80.PCD z)
                     (Z80.set_m_after_ldair 0 (Z80.set_m_after_ei 0 z))))))).
Proof.
  intros Hk Hop. unfold Z80.exec_one. cbv zeta.
  set (z0 := Z80.set_m_r _ _).
  assert (Hk0 : read_cell z0 (Z80.PC z0) = Some k) by exact Hk.
  rewrite (rop_cell E z0 k Hk0).
  change (Z80.host z0 k) with (Z80.host z k). rewrite Hop.
  unfold Z80.EXEC_op. cbv zeta. cbv iota. unfold Z80.op_76, Z80.halt, Z80.CC_op.
  cbv zeta.
  change (Z80.m_icount (Z80.set_PC (Z80.PC z0 + 1) z0)) with (Z80.m_icount z).
  change (Z80.m_cc_op (Z80.set_PC (Z80.PC z0 + 1) z0)) with (Z80.m_cc_op z).
  change (Z80.PC z0) with (Z80.PC z).
  set (zi := Z80.set_m_icount _ _).
  f_equal. apply set_PC_cong.
  unfold Z80.PC at 1. unfold zi, Z80.set_PC. cbn [Z80.m_pc Z80.set_m_icount Z80.set_m_pc].
  rewrite w_l_set_w_l.
  replace (uint16 (Z80.PC z + 1) - 1) with (uint16 (Z80.PC z + 1) + -1) by lia.
  rewrite uint16_add_l. f_equal. lia.
Qed.

(** X16.  A Z80 whose PC is on a HALT opcode (on the fast path) stays
    there: every instruction it executes leaves PC, SP, the registers'
    memory and the pointer tables as they were, sets the halt flag and
    takes [m_cc_op[0x76]] T-states; [leave_halt] then steps over the
    opcode. *)
Theorem halt_spins (z : Z80.z80_device) (k : Z) (n : nat) :
  read_cell z (Z80.PC z) = Some k -> uint8 (Z80.host z k) = 0x76 ->
  let zn := Nat.iter (S n) (Z80.exec_one E) z in
  Z80.PC zn = Z80.PC z
  /\ Z80.m_halt zn = 1
  /\ Z80.host zn = Z80.host z
  /\ Z80.m_sp zn = Z80.m_sp z
  /\ Z80.m_icount (Z80.exec_one E z)
     = int32 (Z80.m_icount z - tbl (Z80.m_cc_op z) 0x76)
  /\ Z80.PC (Z80.leave_halt zn) = uint16 (Z80.PC z + 1).
Proof.
  intros Hk Hop zn.
  assert (Hstep : forall y,
            Z80.read_pointers y = Z80.read_pointers z -> Z80.PC y = Z80.PC z ->
            Z80.host y = Z80.host z -> Z80.m_sp y = Z80.m_sp z ->
            Z80.read_pointers (Z80.exec_one E y) = Z80.read_pointers z
            /\ Z80.PC (Z80.exec_one E y) = Z80.PC z
            /\ Z80.host (Z80.exec_one E y) = Z80.host z
            /\ Z80.m_sp (Z80.exec_one E y) = Z80.m_sp z
            /\ Z80.m_halt (Z80.exec_one E y) = 1).
  { intros y Hrp Hpc Hh Hsp.
    assert (Hky : read_cell y (Z80.PC y) = Some k)
      by (unfold read_cell; rewrite Hrp, Hpc; exact Hk).
    assert (Hopy : uint8 (Z80.host y k) = 0x76) by (rewrite Hh; exact Hop).
    rewrite (exec_one_halt y k Hky Hopy).
    unfold Z80.PC, Z80.set_PC.
    cbn [Z80.read_pointers Z80.host Z80.m_sp Z80.m_halt Z80.m_pc Z80.set_m_halt
         Z80.set_m_pc Z80.set_m_icount Z80.set_m_r Z80.set_m_prvpc
         Z80.set_m_after_ldair Z80.set_m_after_ei].
    rewrite w_l_set_w_l. fold (Z80.PC y). rewrite Hpc.
    unfold Z80.PC. rewrite uint16_w_l. repeat split; assumption. }
  assert (Hn : Z80.read_pointers zn = Z80.read_pointers z
               /\ Z80.PC zn = Z80.PC z /\ Z80.host zn = Z80.host z
               /\ Z80.m_sp zn = Z80.m_sp z /\ Z80.m_halt zn = 1).
  { unfold zn. induction n as [|n IH].
    - rewrite Nat.iter_succ. apply (Hstep z); reflexivity.
    - destruct IH as (Hrp & Hpc & Hh & Hsp & _).
      rewrite Nat.iter_succ.
      exact (Hstep (Nat.iter (S n) (Z80.exec_one E) z) Hrp Hpc Hh Hsp). }
  destruct Hn as (Hrp & Hpc & Hh & Hsp & Hhalt).
  split; [ exact Hpc | ]. split; [ exact Hhalt | ].
  split; [ exact Hh | ]. split; [ exact Hsp | ]. split.
  - rewrite (exec_one_halt z k Hk Hop). reflexivity.
  - destruct (leave_halt_fields zn) as (_ & Hl & _).
    rewrite Hl, Hhalt, Hpc. reflexivity.
Qed.


End Spin.

(** A RAM of zeros but a HALT at address 0x10: three instructions later
    the Z80 is still on it. *)
Lemma halt_spins_witness :
  let z := Z80.set_PC 0x10
             (Z80.set_host (fun a => if a =? 0x100010 then 0x76 else 0) example_z80) in
  Z80.PC (Nat.iter 3 (Z80.exec_one example_env) z) = 0x10
  /\ Z80.m_icount (Z80.exec_one example_env z) = -4.
Proof.
  intros z.
  assert (Hk : read_cell z (Z80.PC z) = Some 0x100010) by (vm_compute; reflexivity).
  pose proof (halt_spins example_env z _ 2 Hk eq_refl) as H.
  cbv zeta in H. destruct H as (Hpc & _ & _ & _ & Hic & _).
  split.
  - rewrite Hpc. vm_compute. reflexivity.
  - rewrite Hic. vm_compute. reflexivity.
Defined.


(** ** The gate array of the Sega CD *)

(** The register an address of the gate array selects. *)
Lemma gate_reg_range (address : Z) :
  0 <= Z.shiftr (Z.land (uint32 address) 0x1FF) 1 < 256.
Proof.
  rewrite Z.shiftr_div_pow2 by lia.
  change 0x1FF with (Z.ones 9). rewrite Z.land_ones by lia.
  assert (0 <= uint32 address mod 2 ^ 9 < 2 ^ 9) by (apply Z.mod_pos_bound; lia).
  change (2 ^ 9) with 512 in *. change (2 ^ 1) with 2.
  split; [ apply Z.div_pos; lia | apply Z.div_lt_upper_bound; lia ].
Qed.

(** The three ways of a word write, for each CPU. *)
Lemma main_gate_write16_cases (address value : Z) (cd : SegaCD.segacd_context) :
  let reg := Z.shiftr (Z.land (uint32 address) 0x1FF) 1 in
  SegaCD.main_gate_write16 address cd value =
    if reg =? 7 then
      let cd1 := SegaCD.set_gate 7 (Z.land (SegaCD.gate_array cd 7) 0xFF) cd in
      SegaCD.set_gate 7
        (Z.lor (SegaCD.gate_array cd1 7) (Z.land (uint16 value) 0xFF00)) cd1
    else if (8 <=? reg) && (reg <=? 0xF) then SegaCD.set_gate reg (uint16 value) cd
    else SegaCD.printf_unhandled (uint32 address) (uint16 value) cd.
Proof.
  unfold SegaCD.main_gate_write16. cbv zeta.
  set (reg := Z.shiftr _ 1). clearbody reg.
  destruct reg as [|p|p]; try reflexivity.
  do 6 (try (destruct p as [p|p|]; try reflexivity)).
Qed.

Lemma sub_gate_write16_cases (address value : Z) (cd : SegaCD.segacd_context) :
  let reg := Z.shiftr (Z.land (uint32 address) 0x1FF) 1 in
  SegaCD.sub_gate_write16 address cd value =
    if reg =? 7 then
      let cd1 := SegaCD.set_gate 7 (Z.land (SegaCD.gate_array cd 7) 0xFF00) cd in
      SegaCD.set_gate 7
        (Z.lor (SegaCD.gate_array cd1 7) (Z.land (uint16 value) 0xFF)) cd1
    else if (0x10 <=? reg) && (reg <=? 0x17) then SegaCD.set_gate reg (uint16 value) cd
    else SegaCD.printf_unhandled (uint32 address) (uint16 value) cd.
Proof.
  unfold SegaCD.sub_gate_write16. cbv zeta.
  set (reg := Z.shiftr _ 1). clearbody reg.
  destruct reg as [|p|p]; try reflexivity.
  do 6 (try (destruct p as [p|p|]; try reflexivity)).
Qed.

Lemma uint32_idem (x : Z) : uint32 (uint32 x) = uint32 x.
Proof. unfold uint32. apply Z.mod_mod. lia. Qed.

Lemma gate_array_set_gate (reg v r : Z) (cd : SegaCD.segacd_context) :
  SegaCD.gate_array (SegaCD.set_gate reg v cd) r
  = if r =? reg then uint16 v else SegaCD.gate_array cd r.
Proof. reflexivity. Qed.











(** X20.  Register 7 of the gate array holds the communication flags, the
    main CPU's in the high byte and the sub CPU's in the low byte.  A
    word write stores only the writer's byte; a byte write to the
    writer's own byte stores it, and a byte write to the other CPU's byte
    leaves the register as it was. *)
Theorem comm_flags_halves (address value : Z) (cd : SegaCD.segacd_context) :
  gate_reg address = 7 ->
  0 <= SegaCD.gate_array cd 7 < 65536 ->
  let g := SegaCD.gate_array cd 7 in
  SegaCD.gate_array (SegaCD.main_gate_write16 address cd value) 7
  = Z.lor (Z.land g 0xFF) (Z.land (uint16 value) 0xFF00)
  /\ SegaCD.gate_array (SegaCD.sub_gate_write16 address cd value) 7
     = Z.lor (Z.land g 0xFF00) (Z.land (uint16 value) 0xFF)
  /\ SegaCD.gate_array (SegaCD.main_gate_write8 address cd value) 7
     = (if gate_odd address then g
        else Z.lor (Z.land g 0xFF) (Z.shiftl (uint8 value) 8))
  /\ SegaCD.gate_array (SegaCD.sub_gate_write8 address cd value) 7
     = (if gate_odd address then Z.lor (Z.land g 0xFF00) (uint8 value)
        else g).
Proof.
  intros H7 Hg g.
  assert (Hg16 : g = g mod 2 ^ 16) by (symmetry; apply Z.mod_small; exact Hg).
  unfold SegaCD.main_gate_write8, SegaCD.sub_gate_write8. cbv zeta.
  rewrite !main_gate_write16_cases, !sub_gate_write16_cases. cbv zeta.
  rewrite !uint32_idem. fold (gate_reg address). fold (gate_odd address).
  rewrite H7. change (7 =? 7) with true. cbv iota.
  rewrite !gate_array_set_gate. change (7 =? 7) with true. cbv iota.
  fold g. clearbody g.
  split; [ | split; [ | split ] ].
  - unfold uint16. pair_masks. bits_by_ranges (8 :: 16 :: nil).
  - unfold uint16. pair_masks. bits_by_ranges (8 :: 16 :: nil).
  - destruct (gate_odd address).
    + rewrite Hg16 at 3. unfold uint16, uint8. pair_masks.
      bits_by_ranges (8 :: 16 :: nil).
    + unfold uint16, uint8. pair_masks. bits_by_ranges (8 :: 16 :: nil).
  - destruct (gate_odd address).
    + unfold uint16, uint8. pair_masks. bits_by_ranges (8 :: 16 :: nil).
    + rewrite Hg16 at 3. unfold uint16, uint8. pair_masks.
      bits_by_ranges (8 :: 16 :: nil).
Qed.

(** The sub CPU writes a byte to the main CPU's half of the flags
    (address 0xFF800E): the register keeps 0x1234. *)
Lemma comm_flags_halves_witness :
  SegaCD.gate_array
    (SegaCD.sub_gate_write8 0xFF800E
       (SegaCD.Build_segacd_context (fun _ => 0x1234) nil) 0x5A) 7 = 0x1234.
Proof.
  assert (H7 : gate_reg 0xFF800E = 7) by (vm_compute; reflexivity).
  assert (Hg : 0 <= SegaCD.gate_array
                      (SegaCD.Build_segacd_context (fun _ => 0x1234) nil) 7 < 65536)
    by (vm_compute; split; [ discriminate | reflexivity ]).
  pose proof (comm_flags_halves 0xFF800E 0x5A
                (SegaCD.Build_segacd_context (fun _ => 0x1234) nil) H7 Hg) as H.
  cbv zeta in H. destruct H as (_ & _ & _ & H). exact H.
Defined.

(** ** Bytes and words of the 68000 on the fast path *)

(** The 24-bit address of an access, and its parts. *)
Lemma addr24_mod (a : Z) : Z.land (uint32 a) 0xFFFFFF = a mod 2 ^ 24.
Proof.
  unfold uint32. change 0xFFFFFF with (Z.ones 24).
  bits_by_ranges (24 :: nil).
Qed.

Lemma lxor_1 (x : Z) : Z.lxor x 1 = if Z.even x then x + 1 else x - 1.
Proof.
  destruct (Z.even x) eqn:Hx.
  - rewrite <- Z.add_nocarry_lxor; [ reflexivity | ].
    apply Z.bits_inj'; intros n Hn. rewrite Z.land_spec, Z.bits_0.
    destruct (Z.eq_dec n 0) as [->|Hn0].
    + rewrite Z.bit0_odd, <- Z.negb_even, Hx. reflexivity.
    + change 1 with (Z.ones 1). rewrite Z.ones_spec_high by lia. apply andb_false_r.
  - assert (Hy : Z.even (x - 1) = true).
    { rewrite Z.even_sub, Hx. reflexivity. }
    replace x with ((x - 1) + 1) at 1 by lia.
    rewrite (Z.add_nocarry_lxor (x - 1) 1).
    + rewrite Z.lxor_assoc. change (Z.lxor 1 1) with 0. apply Z.lxor_0_r.
    + apply Z.bits_inj'; intros n Hn. rewrite Z.land_spec, Z.bits_0.
      destruct (Z.eq_dec n 0) as [->|Hn0].
      * rewrite Z.bit0_odd, <- Z.negb_even, Hy. reflexivity.
      * change 1 with (Z.ones 1). rewrite Z.ones_spec_high by lia. apply andb_false_r.
Qed.

Lemma even_mod_pow2 (a k : Z) : 0 < k -> Z.even (a mod 2 ^ k) = Z.even a.
Proof.
  intros Hk. rewrite <- !Z.negb_odd, <- !Z.bit0_odd.
  rewrite Z.mod_pow2_bits_low by lia. reflexivity.
Qed.

(** The cells of an even address and of the address after it. *)
Lemma m68k_cells_even (a : Z) :
  Z.even a = true ->
  let a24 := Z.land (uint32 a) 0xFFFFFF in
  let b24 := Z.land (uint32 (a + 1)) 0xFFFFFF in
  Z.shiftr b24 16 = Z.shiftr a24 16
  /\ Z.land (Z.lxor a24 1) 0xFFFF = 2 * Z.land (Z.shiftr a24 1) 0x7FFF + 1
  /\ Z.land (Z.lxor b24 1) 0xFFFF = 2 * Z.land (Z.shiftr a24 1) 0x7FFF.
Proof.
  intros Ha a24 b24. unfold a24, b24. rewrite !addr24_mod.
  assert (He : Z.even (a mod 2 ^ 24) = true) by (rewrite even_mod_pow2 by lia; exact Ha).
  assert (Hr : 0 <= a mod 2 ^ 24 < 2 ^ 24) by (apply Z.mod_pos_bound; lia).
  apply Z.even_spec in He. destruct He as [h Hh].
  assert (Hb : (a + 1) mod 2 ^ 24 = a mod 2 ^ 24 + 1).
  { rewrite Z.add_mod by lia. rewrite (Z.mod_small 1) by lia.
    apply Z.mod_small. change (2 ^ 24) with 16777216 in *. lia. }
  rewrite Hb.
  assert (Hodd : Z.even (a mod 2 ^ 24 + 1) = false).
  { rewrite Hh, Z.even_add, Z.even_mul. reflexivity. }
  rewrite !lxor_1, Hodd.
  assert (He' : Z.even (a mod 2 ^ 24) = true) by (rewrite Hh, Z.even_mul; reflexivity).
  rewrite He'.
  change 0xFFFF with (Z.ones 16). change 0x7FFF with (Z.ones 15).
  rewrite !Z.land_ones, !Z.shiftr_div_pow2 by lia.
  change (2 ^ 24) with 16777216 in *. change (2 ^ 16) with 65536.
  change (2 ^ 15) with 32768. change (2 ^ 1) with 2.
  repeat split; Z.div_mod_to_equations; lia.
Qed.

(** The cell of a byte and of its partner in the same word. *)
Lemma addr24_lxor (a : Z) :
  Z.land (uint32 (Z.lxor a 1)) 0xFFFFFF = Z.lxor (Z.land (uint32 a) 0xFFFFFF) 1.
Proof.
  unfold uint32. change 0xFFFFFF with (Z.ones 24). change 1 with (Z.ones 1).
  bits_by_ranges (1 :: 24 :: 32 :: nil); rewrite ?xorb_false_r; reflexivity.
Qed.

Lemma page_lxor (x : Z) : Z.shiftr (Z.lxor x 1) 16 = Z.shiftr x 16.
Proof.
  change 1 with (Z.ones 1). bits_by_ranges (@nil Z). apply xorb_false_r.
Qed.

Lemma lxor_1_twice (x : Z) : Z.lxor (Z.lxor x 1) 1 = x.
Proof. rewrite Z.lxor_assoc. change (Z.lxor 1 1) with 0. apply Z.lxor_0_r. Qed.

Lemma cell_lxor (x : Z) :
  Z.land (Z.lxor x 1) 0xFFFF <> Z.land x 0xFFFF.
Proof.
  intros H.
  assert (Hb : Z.testbit (Z.land (Z.lxor x 1) 0xFFFF) 0 = Z.testbit (Z.land x 0xFFFF) 0)
    by (rewrite H; reflexivity).
  rewrite !Z.land_spec, Z.lxor_spec in Hb.
  change (Z.testbit 1 0) with true in Hb. change (Z.testbit 0xFFFF 0) with true in Hb.
  destruct (Z.testbit x 0); discriminate.
Qed.

Section M68KFastPath.

Variable E : M68K.m68k_env.

(** X21.  On the fast path the word [m68ki_read_16] loads at an even
    address is big-endian in the bytes [m68ki_read_8] loads: the byte at
    the address is its high byte and the byte at the next address its low
    byte; none of the three reads changes the context. *)
Theorem m68k_word_of_bytes (m : M68K.m68000_base_device) (address chunk : Z) :
  M68K.read_pointers m (Z.shiftr (Z.land (uint32 address) 0xFFFFFF) 16) = Some chunk ->
  Z.even address = true ->
  fst (M68K.m68ki_read_16 E m address)
  = 256 * fst (M68K.m68ki_read_8 E m address)
    + fst (M68K.m68ki_read_8 E m (address + 1))
  /\ snd (M68K.m68ki_read_16 E m address) = m
  /\ snd (M68K.m68ki_read_8 E m address) = m
  /\ snd (M68K.m68ki_read_8 E m (address + 1)) = m.
Proof.
  intros Hrp Heven.
  destruct (m68k_cells_even address Heven) as (Hbase & Hhi & Hlo).
  unfold M68K.m68ki_read_16, M68K.m68ki_read_8. cbv zeta.
  rewrite Hbase, Hrp, Hhi, Hlo. cbn [fst snd].
  repeat split.
  unfold M68K.host16.
  set (i := 2 * Z.land _ 0x7FFF).
  rewrite Z.add_assoc, Z.lor_comm.
  rewrite (lor_shiftl_add _ _ 8) by (try lia; apply uint8_range).
  change (2 ^ 8) with 256. lia.
Qed.

(** X22.  A byte [m68ki_write_8] stores through a pointer of the fast
    path that reads and writes the same buffer is the byte
    [m68ki_read_8] loads at that address; the other byte of the same word
    loads what it did before; the store changes one host cell and
    nothing else of the context. *)
Theorem m68ki_write_8_then_read_8 (m : M68K.m68000_base_device)
    (address value chunk : Z) :
  let base := Z.shiftr (Z.land (uint32 address) 0xFFFFFF) 16 in
  M68K.write_pointers m base = Some chunk ->
  M68K.read_pointers m base = Some chunk ->
  let m' := M68K.m68ki_write_8 E m address value in
  m' = M68K.set_host
         (upd (M68K.host m)
              (chunk + Z.land (Z.lxor (Z.land (uint32 address) 0xFFFFFF) 1) 0xFFFF)
              (uint8 value)) m
  /\ fst (M68K.m68ki_read_8 E m' address) = uint8 value
  /\ fst (M68K.m68ki_read_8 E m' (Z.lxor address 1))
     = fst (M68K.m68ki_read_8 E m (Z.lxor address 1)).
Proof.
  intros base Hwp Hrp m'.
  assert (Hm : m' = M68K.set_host
         (upd (M68K.host m)
              (chunk + Z.land (Z.lxor (Z.land (uint32 address) 0xFFFFFF) 1) 0xFFFF)
              (uint8 value)) m).
  { unfold m', M68K.m68ki_write_8. cbv zeta. fold base. rewrite Hwp. reflexivity. }
  clearbody m'. subst m'.
  split; [ reflexivity | ].
  unfold M68K.m68ki_read_8. cbv zeta.
  rewrite addr24_lxor, page_lxor, lxor_1_twice. fold base.
  cbn [M68K.read_pointers M68K.set_host M68K.host]. rewrite Hrp. cbn [fst].
  split.
  - rewrite upd_same. apply uint8_idem.
  - rewrite upd_other; [ reflexivity | ].
    intros Hc. apply (cell_lxor (Z.land (uint32 address) 0xFFFFFF)). lia.
Qed.

End M68KFastPath.

(** A 68000 whose 16 MiB read and write one buffer at host address
    0x200000. *)
Lemma m68k_word_of_bytes_witness :
  let m := M68K.set_host (fun a => if a =? 0x200011 then 0xBE else 0xEF)
             (M68K.set_read_pointers (fun _ => Some 0x200000) example_m68k_blank) in
  fst (M68K.m68ki_read_16 example_m68k_env m 0x10) = 0xBEEF.
Proof.
  intros m.
  assert (Hrp : M68K.read_pointers m (Z.shiftr (Z.land (uint32 0x10) 0xFFFFFF) 16)
                = Some 0x200000) by reflexivity.
  destruct (m68k_word_of_bytes example_m68k_env m 0x10 0x200000 Hrp eq_refl) as (H & _).
  rewrite H. vm_compute. reflexivity.
Defined.

Lemma m68ki_write_8_then_read_8_witness :
  let m := M68K.set_write_pointers (fun _ => Some 0x200000)
             (M68K.set_read_pointers (fun _ => Some 0x200000) example_m68k_blank) in
  fst (M68K.m68ki_read_8 example_m68k_env
         (M68K.m68ki_write_8 example_m68k_env m 0x11 0x5A) 0x11) = 0x5A.
Proof.
  intros m.
  assert (Hwp : M68K.write_pointers m (Z.shiftr (Z.land (uint32 0x11) 0xFFFFFF) 16)
                = Some 0x200000) by reflexivity.
  assert (Hrp : M68K.read_pointers m (Z.shiftr (Z.land (uint32 0x11) 0xFFFFFF) 16)
                = Some 0x200000) by reflexivity.
  pose proof (m68ki_write_8_then_read_8 example_m68k_env m 0x11 0x5A 0x200000 Hwp Hrp) as H.
  cbv zeta in H. destruct H as (_ & H & _). exact H.
Defined.

(** ** Exchanges and the refresh register *)




(** ** Block transfers *)

Lemma land_pow2 (x n : Z) :
  0 <= n -> Z.land x (2 ^ n) = if Z.testbit x n then 2 ^ n else 0.
Proof.
  intros Hn. apply Z.bits_inj'. intros m Hm.
  rewrite Z.land_spec, Z.pow2_bits_eqb by lia.
  destruct (Z.eqb_spec n m) as [->|Hne].
  - destruct (Z.testbit x m); [ rewrite Z.pow2_bits_true by lia | rewrite Z.bits_0 ];
      reflexivity.
  - rewrite andb_false_r.
    destruct (Z.testbit x n); [ rewrite Z.pow2_bits_false by lia | rewrite Z.bits_0 ];
      reflexivity.
Qed.

Lemma truthy_bit (x n : Z) : 0 <= n -> truthy (Z.land x (2 ^ n)) = Z.testbit x n.
Proof.
  intros Hn. rewrite land_pow2 by exact Hn. unfold truthy.
  destruct (Z.testbit x n); [ | reflexivity ].
  destruct (Z.eqb_spec (2 ^ n) 0) as [H0|]; [ | reflexivity ].
  pose proof (Z.pow_pos_nonneg 2 n ltac:(lia) Hn). lia.
Qed.

(** The flags of a block transfer step, from the old flags [f], the two
    tests on [A + io] and the test of the new BC. *)
Lemma block_flags (f : Z) (y x v : bool) :
  0 <= f < 256 ->
  let f0 := uint8 (Z.land f (Z.lor (Z.lor Z80.SF Z80.ZF) Z80.CF)) in
  let f1 := if y then uint8 (Z.lor f0 Z80.YF) else f0 in
  let f2 := if x then uint8 (Z.lor f1 Z80.XF) else f1 in
  (if v then uint8 (Z.lor f2 Z80.VF) else f2)
  = Z.land f (Z.lor (Z.lor Z80.SF Z80.ZF) Z80.CF)
    + (if y then Z80.YF else 0) + (if x then Z80.XF else 0)
    + (if v then Z80.VF else 0).
Proof.
  intros Hf. cbv zeta. apply Z.eqb_eq. destruct y, x, v; check_bytes1 f Hf.
Qed.

(** A flag raised under a condition: what it leaves alone. *)
Lemma flag_step (y : Z80.z80_device) (b : bool) (fl : Z) :
  let y1 := if b then Z80.set_F (Z.lor (Z80.F y) fl) y else y in
  Z80.F y1 = (if b then uint8 (Z.lor (Z80.F y) fl) else Z80.F y)
  /\ Z80.A y1 = Z80.A y
  /\ Z80.host y1 = Z80.host y
  /\ Z80.m_hl y1 = Z80.m_hl y /\ Z80.m_de y1 = Z80.m_de y /\ Z80.m_bc y1 = Z80.m_bc y
  /\ Z80.m_pc y1 = Z80.m_pc y /\ Z80.m_sp y1 = Z80.m_sp y
  /\ Z80.m_icount y1 = Z80.m_icount y /\ Z80.m_cc_ex y1 = Z80.m_cc_ex y.
Proof.
  destruct b; cbv zeta; [ rewrite F_set_F, A_set_F | ]; repeat split.
Qed.

(** The pointer moves of a block transfer step and its P/V flag. *)
Lemma block_tail (y : Z80.z80_device) (d : Z) :
  let yb := Z80.set_BC (Z80.BC y - 1) (Z80.set_DE (Z80.DE y + d) (Z80.set_HL (Z80.HL y + d) y)) in
  let y1 := if truthy (Z80.BC yb) then Z80.set_F (Z.lor (Z80.F yb) Z80.VF) yb else yb in
  Z80.host y1 = Z80.host y
  /\ Z80.HL y1 = uint16 (Z80.HL y + d)
  /\ Z80.DE y1 = uint16 (Z80.DE y + d)
  /\ Z80.BC y1 = uint16 (Z80.BC y - 1)
  /\ Z80.F y1 = (if uint16 (Z80.BC y - 1) =? 0 then Z80.F y
                 else uint8 (Z.lor (Z80.F y) Z80.VF))
  /\ Z80.A y1 = Z80.A y
  /\ Z80.m_pc y1 = Z80.m_pc y /\ Z80.m_sp y1 = Z80.m_sp y
  /\ Z80.m_icount y1 = Z80.m_icount y /\ Z80.m_cc_ex y1 = Z80.m_cc_ex y.
Proof.
  intros yb y1.
  assert (Hbc : Z80.BC yb = uint16 (Z80.BC y - 1)) by apply w_l_set_w_l.
  assert (Hhl : Z80.HL yb = uint16 (Z80.HL y + d)) by apply w_l_set_w_l.
  assert (Hde : Z80.DE yb = uint16 (Z80.DE y + d)) by apply w_l_set_w_l.
  destruct (flag_step yb (truthy (Z80.BC yb)) Z80.VF)
    as (HF & HA & Hh & Hmhl & Hmde & Hmbc & Hpc & Hsp & Hic & Hex).
  cbv zeta in HF, HA, Hh, Hmhl, Hmde, Hmbc, Hpc, Hsp, Hic, Hex.
  fold y1 in HF, HA, Hh, Hmhl, Hmde, Hmbc, Hpc, Hsp, Hic, Hex.
  split; [ rewrite Hh; reflexivity | ].
  split; [ unfold Z80.HL; rewrite Hmhl; exact Hhl | ].
  split; [ unfold Z80.DE; rewrite Hmde; exact Hde | ].
  split; [ unfold Z80.BC; rewrite Hmbc; exact Hbc | ].
  split.
  { rewrite HF, Hbc. unfold truthy.
    destruct (uint16 (Z80.BC y - 1) =? 0); reflexivity. }
  split; [ rewrite HA; reflexivity | ].
  split; [ rewrite Hpc; reflexivity | ].
  split; [ rewrite Hsp; reflexivity | ].
  split; [ rewrite Hic; reflexivity | rewrite Hex; reflexivity ].
Qed.

Section Block.

Variable E : Z80.z80_env.

(** X25.  On the fast path [ldi] copies the byte at HL to DE, moves HL
    and DE up by one and BC down by one (each modulo 65536); it keeps S,
    Z and C, clears H and N, sets P/V exactly when BC is not yet 0, and
    copies bits 1 and 3 of [A + byte] to Y and X.  [ldd] does the same
    moving HL and DE down.  Nothing else of the context changes but the
    host cell written. *)
Theorem ldi_ldd_step (z : Z80.z80_device) (k c : Z) :
  read_cell z (Z80.HL z) = Some k -> write_cell z (Z80.DE z) = Some c ->
  let io := uint8 (Z80.host z k) in
  let step (z1 : Z80.z80_device) (d : Z) :=
    Z80.host z1 = upd (Z80.host z) c io
    /\ Z80.HL z1 = uint16 (Z80.HL z + d)
    /\ Z80.DE z1 = uint16 (Z80.DE z + d)
    /\ Z80.BC z1 = uint16 (Z80.BC z - 1)
    /\ Z80.F z1 = Z.land (Z80.F z) (Z.lor (Z.lor Z80.SF Z80.ZF) Z80.CF)
                  + (if Z.testbit (Z80.A z + io) 1 then Z80.YF else 0)
                  + (if Z.testbit (Z80.A z + io) 3 then Z80.XF else 0)
                  + (if Z80.BC z1 =? 0 then 0 else Z80.VF)
    /\ Z80.A z1 = Z80.A z
    /\ Z80.m_pc z1 = Z80.m_pc z /\ Z80.m_sp z1 = Z80.m_sp z
    /\ Z80.m_icount z1 = Z80.m_icount z /\ Z80.m_cc_ex z1 = Z80.m_cc_ex z in
  step (Z80.ldi E z) 1 /\ step (Z80.ldd E z) (-1).
Proof.
  intros Hk Hc io step.
  assert (Hio : uint8 io = io) by apply uint8_idem.
  pose proof (F_range z) as Hf.
  assert (Hgen : forall d z1,
            z1 = (let z0 := Z80.set_host (upd (Z80.host z) c io) z in
                  let zm := Z80.set_F (Z.land (Z80.F z0)
                                         (Z.lor (Z.lor Z80.SF Z80.ZF) Z80.CF)) z0 in
                  let zy := if truthy (Z.land (Z80.A zm + io) 0x02)
                            then Z80.set_F (Z.lor (Z80.F zm) Z80.YF) zm else zm in
                  let zx := if truthy (Z.land (Z80.A zy + io) 0x08)
                            then Z80.set_F (Z.lor (Z80.F zy) Z80.XF) zy else zy in
                  let zb := Z80.set_BC (Z80.BC zx - 1)
                              (Z80.set_DE (Z80.DE zx + d) (Z80.set_HL (Z80.HL zx + d) zx)) in
                  if truthy (Z80.BC zb) then Z80.set_F (Z.lor (Z80.F zb) Z80.VF) zb
                  else zb) ->
            step z1 d).
  { intros d z1 ->.
    pose (z0 := Z80.set_host (upd (Z80.host z) c io) z).
    pose (zm := Z80.set_F (Z.land (Z80.F z0) (Z.lor (Z.lor Z80.SF Z80.ZF) Z80.CF)) z0).
    assert (HAm : Z80.A zm = Z80.A z) by (unfold zm; rewrite A_set_F; reflexivity).
    assert (HFm : Z80.F zm = uint8 (Z.land (Z80.F z) (Z.lor (Z.lor Z80.SF Z80.ZF) Z80.CF)))
      by (unfold zm; rewrite F_set_F; reflexivity).
    assert (Hy : truthy (Z.land (Z80.A zm + io) 0x02) = Z.testbit (Z80.A z + io) 1)
      by (rewrite HAm; apply (truthy_bit _ 1); lia).
    pose (zy := if truthy (Z.land (Z80.A zm + io) 0x02)
                then Z80.set_F (Z.lor (Z80.F zm) Z80.YF) zm else zm).
    destruct (flag_step zm (truthy (Z.land (Z80.A zm + io) 0x02)) Z80.YF)
      as (HFy & HAy & Hhy & Hhly & Hdey & Hbcy & Hpcy & Hspy & Hicy & Hexy).
    cbv zeta in HFy, HAy, Hhy, Hhly, Hdey, Hbcy, Hpcy, Hspy, Hicy, Hexy.
    fold zy in HFy, HAy, Hhy, Hhly, Hdey, Hbcy, Hpcy, Hspy, Hicy, Hexy.
    rewrite Hy in HFy.
    assert (Hx : truthy (Z.land (Z80.A zy + io) 0x08) = Z.testbit (Z80.A z + io) 3)
      by (rewrite HAy, HAm; apply (truthy_bit _ 3); lia).
    pose (zx := if truthy (Z.land (Z80.A zy + io) 0x08)
                then Z80.set_F (Z.lor (Z80.F zy) Z80.XF) zy else zy).
    destruct (flag_step zy (truthy (Z.land (Z80.A zy + io) 0x08)) Z80.XF)
      as (HFx & HAx & Hhx & Hhlx & Hdex & Hbcx & Hpcx & Hspx & Hicx & Hexx).
    cbv zeta in HFx, HAx, Hhx, Hhlx, Hdex, Hbcx, Hpcx, Hspx, Hicx, Hexx.
    fold zx in HFx, HAx, Hhx, Hhlx, Hdex, Hbcx, Hpcx, Hspx, Hicx, Hexx.
    rewrite Hx in HFx.
    change (step (let zb := Z80.set_BC (Z80.BC zx - 1)
                              (Z80.set_DE (Z80.DE zx + d) (Z80.set_HL (Z80.HL zx + d) zx)) in
                  if truthy (Z80.BC zb) then Z80.set_F (Z.lor (Z80.F zb) Z80.VF) zb
                  else zb) d).
    assert (Hhm : Z80.host zm = upd (Z80.host z) c io) by reflexivity.
    assert (Hhlm : Z80.m_hl zm = Z80.m_hl z) by reflexivity.
    assert (Hdem : Z80.m_de zm = Z80.m_de z) by reflexivity.
    assert (Hbcm : Z80.m_bc zm = Z80.m_bc z) by reflexivity.
    assert (Hpcm : Z80.m_pc zm = Z80.m_pc z) by reflexivity.
    assert (Hspm : Z80.m_sp zm = Z80.m_sp z) by reflexivity.
    assert (Hicm : Z80.m_icount zm = Z80.m_icount z) by reflexivity.
    assert (Hexm : Z80.m_cc_ex zm = Z80.m_cc_ex z) by reflexivity.
    clearbody zx zy zm.
    destruct (block_tail zx d)
      as (Hh & Hhl & Hde & Hbc & HF & HA & Hpc & Hsp & Hic & Hex).
    cbv zeta in Hh, Hhl, Hde, Hbc, HF, HA, Hpc, Hsp, Hic, Hex. cbv zeta.
    unfold step.
    rewrite Hh, Hhl, Hde, Hbc, HF, HA, Hpc, Hsp, Hic, Hex.
    unfold Z80.HL, Z80.DE, Z80.BC.
    rewrite Hhx, Hhy, Hhlx, Hhly, Hdex, Hdey, Hbcx, Hbcy, HAx, HAy, HAm,
            Hpcx, Hpcy, Hspx, Hspy, Hicx, Hicy, Hexx, Hexy,
            Hhm, Hhlm, Hdem, Hbcm, Hpcm, Hspm, Hicm, Hexm.
    repeat split.
    rewrite HFx, HFy, HFm.
    pose proof (block_flags (Z80.F z) (Z.testbit (Z80.A z + io) 1)
                  (Z.testbit (Z80.A z + io) 3)
                  (negb (uint16 (Z80.w_l (Z80.m_bc z) - 1) =? 0)) Hf) as Hbf.
    cbv zeta in Hbf.
    destruct (uint16 (Z80.w_l (Z80.m_bc z) - 1) =? 0); cbn [negb] in Hbf;
      rewrite Hbf; reflexivity. }
  split.
  - apply Hgen. unfold Z80.ldi. rewrite (rm_cell E z (Z80.HL z) k Hk).
    rewrite (wm_cell E z (Z80.DE z) _ c Hc). fold io. rewrite Hio. reflexivity.
  - apply Hgen. unfold Z80.ldd. rewrite (rm_cell E z (Z80.HL z) k Hk).
    rewrite (wm_cell E z (Z80.DE z) _ c Hc). fold io. rewrite Hio. reflexivity.
Qed.

(** X26.  [ldir] is [ldi], and unless that brought BC to 0 it moves PC
    back over its two opcode bytes (so that the instruction runs again),
    leaves in WZ the address of its second byte and takes
    [m_cc_ex[0xb0]] more T-states; with BC = 1 on entry it is [ldi] alone,
    with BC = 0 on entry it repeats (65536 bytes in all).  [lddr] does
    the same with [ldd] and [m_cc_ex[0xb8]]. *)
Theorem ldir_lddr_repeat (z : Z80.z80_device) (k c : Z) :
  read_cell z (Z80.HL z) = Some k -> write_cell z (Z80.DE z) = Some c ->
  let repeats (one block : Z80.z80_device) (opcode : Z) :=
    (Z80.BC z = 1 -> block = one)
    /\ (Z80.BC z <> 1 ->
        Z80.PC block = uint16 (Z80.PC z - 2)
        /\ Z80.WZ block = uint16 (Z80.PC z - 1)
        /\ Z80.m_icount block
           = int32 (Z80.m_icount z - tbl (Z80.m_cc_ex z) opcode)
        /\ Z80.BC block = uint16 (Z80.BC z - 1)
        /\ Z80.host block = Z80.host one
        /\ Z80.m_hl block = Z80.m_hl one /\ Z80.m_de block = Z80.m_de one
        /\ Z80.m_af block = Z80.m_af one) in
  repeats (Z80.ldi E z) (Z80.ldir E z) 0xb0
  /\ repeats (Z80.ldd E z) (Z80.lddr E z) 0xb8.
Proof.
  intros Hk Hc repeats.
  destruct (ldi_ldd_step z k c Hk Hc) as (Hi & Hd). cbv zeta in Hi, Hd.
  assert (Hbc1 : uint16 (Z80.BC z - 1) = 0 <-> Z80.BC z = 1).
  { pose proof (w_l_range (Z80.m_bc z)) as Hr. fold (Z80.BC z) in Hr.
    unfold uint16. split.
    - intros H0. destruct (Z.eq_dec (Z80.BC z) 0) as [Hz|Hz].
      + rewrite Hz in H0. vm_compute in H0. discriminate.
      + rewrite Z.mod_small in H0 by lia. lia.
    - intros ->. reflexivity. }
  assert (Hgen : forall one block opcode,
            Z80.BC one = uint16 (Z80.BC z - 1) ->
            Z80.m_pc one = Z80.m_pc z -> Z80.m_icount one = Z80.m_icount z ->
            Z80.m_cc_ex one = Z80.m_cc_ex z ->
            block = (if negb (Z80.BC one =? 0)
                     then let y := Z80.set_PC (Z80.PC one - 2) one in
                          let y := Z80.set_WZ (Z80.PC y + 1) y in
                          Z80.CC_ex opcode y
                     else one) ->
            repeats one block opcode).
  { intros one block opcode Hbc Hpc Hic Hex ->. unfold repeats. rewrite Hbc.
    split.
    - intros H1. apply Hbc1 in H1. rewrite H1. reflexivity.
    - intros Hn1.
      destruct (Z.eqb_spec (uint16 (Z80.BC z - 1)) 0) as [H0|H0];
        [ apply Hbc1 in H0; contradiction | ].
      cbn [negb]. cbv zeta. unfold Z80.CC_ex.
      assert (Hp : Z80.PC one = Z80.PC z) by (unfold Z80.PC; rewrite Hpc; reflexivity).
      split.
      { change (Z80.PC (Z80.set_m_icount ?v ?y)) with (Z80.PC y).
        change (Z80.PC (Z80.set_WZ ?v ?y)) with (Z80.PC y).
        rewrite PC_set_PC, Hp. reflexivity. }
      split.
      { change (Z80.WZ (Z80.set_m_icount ?v ?y)) with (Z80.WZ y).
        unfold Z80.WZ, Z80.set_WZ. cbn [Z80.m_wz Z80.set_m_wz].
        rewrite w_l_set_w_l, PC_set_PC, Hp, uint16_add_l. f_equal. lia. }
      split.
      { cbn [Z80.m_icount Z80.set_m_icount].
        change (Z80.m_icount (Z80.set_WZ ?v ?y)) with (Z80.m_icount y).
        change (Z80.m_icount (Z80.set_PC ?v ?y)) with (Z80.m_icount y).
        change (Z80.m_cc_ex (Z80.set_WZ ?v ?y)) with (Z80.m_cc_ex y).
        change (Z80.m_cc_ex (Z80.set_PC ?v ?y)) with (Z80.m_cc_ex y).
        rewrite Hic, Hex. reflexivity. }
      split; [ exact Hbc | ].
      repeat split. }
  destruct Hi as (_ & _ & _ & Hbci & _ & _ & Hpci & _ & Hici & Hexi).
  destruct Hd as (_ & _ & _ & Hbcd & _ & _ & Hpcd & _ & Hicd & Hexd).
  split.
  - apply Hgen; try assumption. reflexivity.
  - apply Hgen; try assumption. reflexivity.
Qed.

End Block.

(** The example Z80 with HL = 0x0010, DE = 0x0020 and BC = 2, the byte
    0x42 behind HL. *)
Lemma ldi_ldd_step_witness :
  let z := Z80.set_BC 2 (Z80.set_DE 0x20 (Z80.set_HL 0x10
             (Z80.set_host (fun a => if a =? 0x100010 then 0x42 else 0) example_z80))) in
  Z80.host (Z80.ldi example_env z) 0x100020 = 0x42
  /\ Z80.BC (Z80.ldi example_env z) = 1.
Proof.
  intros z.
  assert (Hk : read_cell z (Z80.HL z) = Some 0x100010) by (vm_compute; reflexivity).
  assert (Hc : write_cell z (Z80.DE z) = Some 0x100020) by (vm_compute; reflexivity).
  pose proof (ldi_ldd_step example_env z _ _ Hk Hc) as H.
  cbv zeta in H. destruct H as ((Hh & _ & _ & Hbc & _) & _).
  split.
  - rewrite Hh. vm_compute. reflexivity.
  - rewrite Hbc. vm_compute. reflexivity.
Defined.

Lemma ldir_lddr_repeat_witness :
  let z := Z80.set_PC 0x102 (Z80.set_BC 2 (Z80.set_DE 0x20 (Z80.set_HL 0x10
             (Z80.set_host (fun a => if a =? 0x100010 then 0x42 else 0) example_z80)))) in
  Z80.PC (Z80.ldir example_env z) = 0x100.
Proof.
  intros z.
  assert (Hk : read_cell z (Z80.HL z) = Some 0x100010) by (vm_compute; reflexivity).
  assert (Hc : write_cell z (Z80.DE z) = Some 0x100020) by (vm_compute; reflexivity).
  assert (Hbc : Z80.BC z <> 1) by (vm_compute; discriminate).
  pose proof (ldir_lddr_repeat example_env z _ _ Hk Hc) as H.
  cbv zeta in H. destruct H as ((_ & H) & _).
  destruct (H Hbc) as (Hpc & _).
  rewrite Hpc. vm_compute. reflexivity.
Defined.

(** ** The cost of an opcode *)

(** The budget through a setter of the context. *)
Ltac strip_setters :=
  repeat match goal with
         | |- context [budget (?f ?v ?y)] =>
             progress change (budget (f v y)) with (budget y)
         | |- context [budget (?f ?y)] =>
             progress change (budget (f y)) with (budget y)
         | H : context [budget (?f ?v ?y)] |- _ =>
             progress change (budget (f v y)) with (budget y) in H
         | H : context [budget (?f ?y)] |- _ =>
             progress change (budget (f y)) with (budget y) in H
         end.

Lemma tbl_le_table_max (l : list Z) (i : Z) : tbl l i <= table_max l.
Proof.
  unfold tbl, table_max. generalize (Z.to_nat i). intros n. revert n.
  induction l as [|x l IH]; intros [|n]; cbn [nth fold_right]; try lia.
  specialize (IH n). lia.
Qed.

Section Cost.

Variable E : Z80.z80_env.
Hypothesis quiet : quiet_host E.

Lemma rm_budget (z : Z80.z80_device) (a : Z) :
  budget (snd (Z80.rm E z a)) = budget z.
Proof.
  unfold Z80.rm. cbv zeta.
  destruct (Z80.read_pointers z (Z.shiftr (uint16 a) 13)); [ reflexivity | ].
  pose proof (proj1 quiet (uint16 a) z) as H.
  destruct (Z80.read_byte E (uint16 a) z). exact H.
Qed.

Lemma wm_budget (z : Z80.z80_device) (a v : Z) :
  budget (Z80.wm E z a v) = budget z.
Proof.
  unfold Z80.wm. cbv zeta.
  destruct (Z80.write_pointers z (Z.shiftr (uint16 a) 13)); [ reflexivity | ].
  apply (proj2 quiet).
Qed.

(** The reads that return a value with the context. *)
Ltac bud_read :=
  match goal with
  | |- context [let (_, _) := ?p in _] =>
      let Hb := fresh "Hb" in
      lazymatch p with
      | Z80.rm _ ?z ?a => pose proof (rm_budget z a) as Hb
      end;
      destruct p as [? ?]; cbn [snd] in Hb
  end.

Ltac bud :=
  repeat first
    [ bud_read
    | rewrite wm_budget
    | progress strip_setters ];
  try congruence.

Lemma rm16_budget (z : Z80.z80_device) (a : Z) (r : Z80.pair_ref) :
  budget (Z80.rm16 E z a r) = budget z.
Proof.
  unfold Z80.rm16. cbv zeta. bud_read.
  set (y := Z80.set_pair r _ _).
  assert (Hy : budget y = budget z) by (unfold y; destruct r; exact Hb).
  clearbody y. bud_read.
  destruct r; strip_setters; congruence.
Qed.

Lemma wm16_budget (z : Z80.z80_device) (a : Z) (r : Z80.pair_ref) :
  budget (Z80.wm16 E z a r) = budget z.
Proof. unfold Z80.wm16. cbv zeta. rewrite !wm_budget. reflexivity. Qed.

Lemma rop_budget (z : Z80.z80_device) : budget (snd (Z80.rop E z)) = budget z.
Proof. unfold Z80.rop. cbv zeta. rewrite rm_budget. reflexivity. Qed.

Lemma arg16_budget (z : Z80.z80_device) : budget (snd (Z80.arg16 E z)) = budget z.
Proof.
  unfold Z80.arg16. cbv zeta. do 2 bud_read. cbn [snd]. strip_setters. congruence.
Qed.

Lemma pop_budget (z : Z80.z80_device) (r : Z80.pair_ref) :
  budget (Z80.pop E z r) = budget z.
Proof. unfold Z80.pop. cbv zeta. strip_setters. apply rm16_budget. Qed.

Lemma push_budget (z : Z80.z80_device) (r : Z80.pair_ref) :
  budget (Z80.push E z r) = budget z.
Proof. unfold Z80.push. cbv zeta. rewrite wm16_budget. reflexivity. Qed.

(** The reads of the opcode handlers. *)
Ltac bud_fetch :=
  match goal with
  | |- context [let (_, _) := ?p in _] =>
      let Hb := fresh "Hb" in
      lazymatch p with
      | Z80.rm _ ?z ?a => pose proof (rm_budget z a) as Hb
      | Z80.rop _ ?z => pose proof (rop_budget z) as Hb
      | Z80.arg _ ?z =>
          pose proof (rop_budget z : budget (snd (Z80.arg E z)) = budget z) as Hb
      | Z80.arg16 _ ?z => pose proof (arg16_budget z) as Hb
      end;
      destruct p as [? ?]; cbn [snd] in Hb
  end.

Ltac bud_handler :=
  cbv zeta;
  repeat first
    [ bud_fetch
    | rewrite wm_budget | rewrite wm16_budget | rewrite rm16_budget
    | rewrite pop_budget | rewrite push_budget
    | progress change (budget (Z80.add_a ?y ?v)) with (budget y)
    | progress change (budget (Z80.adc_a ?y ?v)) with (budget y)
    | progress strip_setters ];
  try congruence.

(** Every translated handler leaves the budget as the charge of its
    opcode left it. *)
Lemma handler_budget (z : Z80.z80_device) (op : Z) :
  In op translated_opcodes ->
  budget (Z80.EXEC_op E op z) = budget (Z80.CC_op op z).
Proof.
  intros Hin. unfold translated_opcodes in Hin. cbn [In] in Hin.
  unfold Z80.EXEC_op. cbv zeta.
  set (y := Z80.CC_op op z). clearbody y.
  repeat (destruct Hin as [<- | Hin]; [ cbv iota | ]); try contradiction.
  all: unfold Z80.op_00, Z80.op_01, Z80.op_21, Z80.op_22, Z80.op_2a, Z80.op_31,
         Z80.op_32, Z80.op_36, Z80.op_3a, Z80.op_3e, Z80.op_76, Z80.op_77,
         Z80.op_7e, Z80.op_80, Z80.op_88, Z80.op_c1, Z80.op_c3, Z80.op_c5,
         Z80.op_c6, Z80.op_c9, Z80.op_cd, Z80.op_ce, Z80.op_f3, Z80.op_fb,
         Z80.op_ff, Z80.jp, Z80.call, Z80.rst.
  all: bud_handler.
Qed.

(** X27.  An instruction whose opcode is one of the translated ones of
    the main table takes exactly [m_cc_op[opcode]] T-states off
    [m_icount], whatever it reads or writes, on a host whose memory
    callbacks leave the budget alone; that is at most the largest entry
    of the table, and the tables themselves stay as they were. *)
Theorem translated_opcode_cost (z : Z80.z80_device) :
  In (next_opcode E z) translated_opcodes ->
  Z80.m_icount (Z80.exec_one E z)
  = int32 (Z80.m_icount z - tbl (Z80.m_cc_op z) (next_opcode E z))
  /\ tbl (Z80.m_cc_op z) (next_opcode E z) <= table_max (Z80.m_cc_op z)
  /\ Z80.m_cc_op (Z80.exec_one E z) = Z80.m_cc_op z
  /\ Z80.m_cc_ex (Z80.exec_one E z) = Z80.m_cc_ex z.
Proof.
  unfold next_opcode, Z80.exec_one. cbv zeta.
  set (z0 := Z80.set_m_r _ _).
  pose proof (rop_budget z0) as Hrop.
  destruct (Z80.rop E z0) as [opcode z1]. cbn [fst snd] in *.
  intros Hin.
  pose proof (handler_budget z1 opcode Hin) as Hb.
  unfold budget in *. unfold Z80.CC_op in Hb.
  cbn [Z80.m_icount Z80.m_cc_op Z80.m_cc_ex Z80.set_m_icount] in Hb.
  change (Z80.m_icount z0) with (Z80.m_icount z) in Hrop.
  change (Z80.m_cc_op z0) with (Z80.m_cc_op z) in Hrop.
  change (Z80.m_cc_ex z0) with (Z80.m_cc_ex z) in Hrop.
  injection Hb as Hic Hop Hex. injection Hrop as Hic1 Hop1 Hex1.
  split; [ | split; [ apply tbl_le_table_max | split ] ]; congruence.
Qed.

End Cost.

(** The example Z80 fetches a NOP from its RAM of zeros: four T-states. *)
Lemma translated_opcode_cost_witness :
  Z80.m_icount (Z80.exec_one example_env example_z80)
  = int32 (Z80.m_icount example_z80 - 4).
Proof.
  assert (Hq : quiet_host example_env) by (split; reflexivity).
  assert (Hop : next_opcode example_env example_z80 = 0) by (vm_compute; reflexivity).
  assert (Hin : In (next_opcode example_env example_z80) translated_opcodes)
    by (rewrite Hop; left; reflexivity).
  destruct (translated_opcode_cost example_env Hq example_z80 Hin) as (H & _).
  rewrite H, Hop. f_equal.
Defined.

(** ** Jumps, calls and returns under a condition *)


Section Conditional.

Variable E : Z80.z80_env.


(** X29.  [retn] and [reti] pop PC (WZ follows it) and copy IFF2 to
    IFF1, so that the interrupts a non-maskable interrupt had switched
    off come back as they were; the two handlers are the same. *)
Theorem retn_restores_iff1 (z : Z80.z80_device) (c0 c1 : Z) :
  read_cell z (Z80.SP z) = Some c0 -> read_cell z (Z80.SP z + 1) = Some c1 ->
  let y := Z80.retn E z in
  Z80.PC y = z80_word E z (Z80.SP z)
  /\ Z80.WZ y = Z80.PC y
  /\ Z80.SP y = uint16 (Z80.SP z + 2)
  /\ Z80.m_iff1 y = Z80.m_iff2 z
  /\ Z80.m_iff2 y = Z80.m_iff2 z
  /\ Z80.host y = Z80.host z
  /\ Z80.reti E z = y.
Proof.
  intros H0 H1 y. unfold y, Z80.retn, Z80.reti. cbv zeta.
  rewrite (z80_word_cells E z _ c0 c1 H0 H1).
  rewrite (pop_cells E z c0 c1 Z80.R_pc H0 H1) by discriminate.
  set (zp := Z80.set_SP _ _).
  assert (Hpc : Z80.PC zp = uint8 (Z80.host z c0) + 256 * uint8 (Z80.host z c1)).
  { unfold zp, Z80.PC, Z80.set_SP.
    cbn [Z80.m_pc Z80.set_m_sp Z80.set_pair Z80.set_m_pc Z80.get_pair].
    apply w_l_set_bytes. }
  change (Z80.PC (Z80.set_m_iff1 ?v ?u)) with (Z80.PC u).
  change (Z80.PC (Z80.set_WZ ?v ?u)) with (Z80.PC u).
  split; [ exact Hpc | ].
  split.
  { change (Z80.WZ (Z80.set_m_iff1 ?v ?u)) with (Z80.WZ u).
    unfold Z80.WZ, Z80.set_WZ. cbn [Z80.m_wz Z80.set_m_wz].
    rewrite w_l_set_w_l. apply uint16_small. rewrite Hpc. apply word_range. }
  split.
  { change (Z80.SP (Z80.set_m_iff1 ?v ?u)) with (Z80.SP u).
    change (Z80.SP (Z80.set_WZ ?v ?u)) with (Z80.SP u).
    unfold zp, Z80.SP, Z80.set_SP. cbn [Z80.m_sp Z80.set_m_sp].
    apply w_l_set_w_l. }
  repeat split.
Qed.

End Conditional.


(** A return address 0x1234 on the stack of the example Z80, IFF1 clear
    and IFF2 set, as after a non-maskable interrupt. *)
Lemma retn_restores_iff1_witness :
  let z := Z80.set_m_iff2 1 (Z80.set_SP 0x10
             (Z80.set_host (fun a => if a =? 0x100010 then 0x34
                                     else if a =? 0x100011 then 0x12 else 0)
                example_z80)) in
  Z80.PC (Z80.retn example_env z) = 0x1234
  /\ Z80.m_iff1 (Z80.retn example_env z) = 1.
Proof.
  intros z.
  assert (H0 : read_cell z (Z80.SP z) = Some 0x100010) by (vm_compute; reflexivity).
  assert (H1 : read_cell z (Z80.SP z + 1) = Some 0x100011) by (vm_compute; reflexivity).
  pose proof (retn_restores_iff1 example_env z _ _ H0 H1) as H.
  cbv zeta in H. destruct H as (Hpc & _ & _ & Hiff & _).
  split.
  - rewrite Hpc. vm_compute. reflexivity.
  - rewrite Hiff. reflexivity.
Defined.

(** ** 16-bit additions *)

(** A bit of a sum: the bits of the operands and the carry into it. *)
Lemma add_bit (a b c n : Z) :
  0 <= n -> 0 <= c <= 1 ->
  Z.testbit (a + b + c) n
  = xorb (xorb (Z.testbit a n) (Z.testbit b n))
         (2 ^ n <=? a mod 2 ^ n + b mod 2 ^ n + c).
Proof.
  intros Hn Hc.
  assert (Hp : 0 < 2 ^ n) by (apply Z.pow_pos_nonneg; lia).
  rewrite !Z.testbit_odd, !Z.shiftr_div_pow2 by exact Hn.
  pose proof (Z.div_mod a (2 ^ n) ltac:(lia)) as Ha.
  pose proof (Z.div_mod b (2 ^ n) ltac:(lia)) as Hb.
  pose proof (Z.mod_pos_bound a (2 ^ n) Hp) as Hra.
  pose proof (Z.mod_pos_bound b (2 ^ n) Hp) as Hrb.
  set (qa := a / 2 ^ n) in *. set (qb := b / 2 ^ n) in *.
  set (ra := a mod 2 ^ n) in *. set (rb := b mod 2 ^ n) in *.
  destruct (Z.leb_spec (2 ^ n) (ra + rb + c)) as [Hle|Hlt].
  - assert (Hq : (a + b + c) / 2 ^ n = qa + qb + 1).
    { symmetry. apply Z.div_unique with (r := ra + rb + c - 2 ^ n); [ lia | ].
      rewrite Ha, Hb at 1. ring. }
    rewrite Hq, !Z.odd_add. change (Z.odd 1) with true.
    destruct (Z.odd qa), (Z.odd qb); reflexivity.
  - assert (Hq : (a + b + c) / 2 ^ n = qa + qb).
    { symmetry. apply Z.div_unique with (r := ra + rb + c); [ lia | ].
      rewrite Ha, Hb at 1. ring. }
    rewrite Hq, !Z.odd_add.
    destruct (Z.odd qa), (Z.odd qb); reflexivity.
Qed.

(** The carry out of a sum that fits one more bit. *)
Lemma carry_out (x n : Z) :
  0 <= n -> 0 <= x < 2 * 2 ^ n -> Z.testbit x n = (2 ^ n <=? x).
Proof.
  intros Hn Hx.
  assert (Hp : 0 < 2 ^ n) by (apply Z.pow_pos_nonneg; lia).
  rewrite Z.testbit_odd, Z.shiftr_div_pow2 by exact Hn.
  destruct (Z.leb_spec (2 ^ n) x) as [Hle|Hlt].
  - replace (x / 2 ^ n) with 1; [ reflexivity | ].
    apply Z.div_unique with (r := x - 2 ^ n); lia.
  - rewrite Z.div_small by lia. reflexivity.
Qed.

(** The bits of the flag masks. *)
Ltac flag_bits :=
  repeat match goal with
         | |- context [Z.testbit ?c ?n] =>
             lazymatch c with
             | Z80.HF => idtac
             | Z80.CF => idtac
             | Z80.NF => idtac
             | Z80.ZF => idtac
             | Z.lor Z80.YF Z80.XF => idtac
             | Z.lor (Z.lor Z80.SF Z80.YF) Z80.XF => idtac
             | Z.lor (Z.lor Z80.SF Z80.ZF) Z80.VF => idtac
             | 0 => idtac
             end;
             let v := eval vm_compute in (Z.testbit c n) in
             change (Z.testbit c n) with v
         end;
  rewrite ?andb_true_r, ?andb_false_r, ?orb_false_r, ?orb_true_r,
          ?andb_true_l, ?andb_false_l, ?orb_false_l, ?orb_true_l.

(** One bit of a flag byte built with [Z.lor], [Z.land] and shifts. *)
Ltac flag_bit :=
  unfold uint8; rewrite ?Z.mod_pow2_bits_low by lia;
  repeat first [ rewrite Z.lor_spec | rewrite Z.land_spec
               | rewrite Z.shiftr_spec by lia ];
  flag_bits.

(** X30.  [add16] adds the source pair to the destination pair modulo
    65536 (both holding 16-bit values): C is the carry out of bit 15, H
    the carry out of bit 11, N is cleared, S, Z and P/V stay as they
    were, Y and X are bits 13 and 11 of the sum; WZ is the old
    destination plus one and A is untouched. *)
Theorem add16_result (z : Z80.z80_device) (dr sr : Z80.pair_ref) :
  dr <> Z80.R_af -> dr <> Z80.R_wz -> sr <> Z80.R_wz ->
  let a := Z80.get_pair dr z in
  let b := Z80.get_pair sr z in
  0 <= a < 65536 -> 0 <= b < 65536 ->
  let y := Z80.add16 z dr sr in
  Z80.get_pair dr y = (a + b) mod 65536
  /\ Z.testbit (Z80.F y) 0 = (65536 <=? a + b)
  /\ Z.testbit (Z80.F y) 4 = (4096 <=? a mod 4096 + b mod 4096)
  /\ Z.testbit (Z80.F y) 1 = false
  /\ Z.testbit (Z80.F y) 7 = Z.testbit (Z80.F z) 7
  /\ Z.testbit (Z80.F y) 6 = Z.testbit (Z80.F z) 6
  /\ Z.testbit (Z80.F y) 2 = Z.testbit (Z80.F z) 2
  /\ Z.testbit (Z80.F y) 5 = Z.testbit (a + b) 13
  /\ Z.testbit (Z80.F y) 3 = Z.testbit (a + b) 11
  /\ Z80.WZ y = uint16 (a + 1)
  /\ Z80.A y = Z80.A z.
Proof.
  intros Haf Hwz Hswz a b Ha Hb y.
  assert (Hres : uint32 (a + b) = a + b) by (apply Z.mod_small; lia).
  assert (Hy : y = Z80.set_pair dr (Z80.set_w_l (a + b) a)
                 (Z80.set_F
                    (Z.lor (Z.lor (Z.lor
                       (Z.land (Z80.F z) (Z.lor (Z.lor Z80.SF Z80.ZF) Z80.VF))
                       (Z.land (Z.shiftr (Z.lxor (Z.lxor a (a + b)) b) 8) Z80.HF))
                       (Z.land (Z.shiftr (a + b) 16) Z80.CF))
                       (Z.land (Z.shiftr (a + b) 8) (Z.lor Z80.YF Z80.XF)))
                    (Z80.set_WZ (a + 1) z))).
  { unfold y, Z80.add16. cbv zeta. fold a b. rewrite Hres.
    destruct dr; try contradiction; destruct sr; try contradiction; reflexivity. }
  clearbody y. subst y.
  set (fl := Z.lor _ _).
  assert (HF : Z80.F (Z80.set_pair dr (Z80.set_w_l (a + b) a)
                        (Z80.set_F fl (Z80.set_WZ (a + 1) z))) = uint8 fl).
  { destruct dr; try contradiction;
      (change (Z80.F (Z80.set_pair ?r ?v ?u)) with (Z80.F u); apply F_set_F). }
  rewrite HF. unfold fl.
  split.
  { rewrite get_set_pair. unfold Z80.set_w_l, uint16.
    rewrite <- (Z.mod_small a (2 ^ 16)) at 1 by lia.
    change 0xFFFF0000 with (Z.shiftl (Z.ones 16) 16).
    change 65536 with (2 ^ 16).
    bits_by_ranges (16 :: nil). }
  split.
  { flag_bit. rewrite Z.add_0_l. apply (carry_out (a + b) 16); lia. }
  split.
  { flag_bit. rewrite Z.lxor_spec, Z.lxor_spec.
    change (4 + 8) with 12.
    rewrite <- (Z.add_0_r (a + b)) at 1.
    rewrite (add_bit a b 0 12) by lia.
    change (2 ^ 12) with 4096. rewrite Z.add_0_r.
    destruct (Z.testbit a 12), (Z.testbit b 12), (4096 <=? a mod 4096 + b mod 4096);
      reflexivity. }
  split; [ flag_bit; reflexivity | ].
  split; [ flag_bit; reflexivity | ].
  split; [ flag_bit; reflexivity | ].
  split; [ flag_bit; reflexivity | ].
  split; [ flag_bit; reflexivity | ].
  split; [ flag_bit; reflexivity | ].
  split.
  { destruct dr; try contradiction;
      (change (Z80.WZ (Z80.set_pair ?r ?v ?u)) with (Z80.WZ u);
       change (Z80.WZ (Z80.set_F ?v ?u)) with (Z80.WZ u);
       unfold Z80.WZ, Z80.set_WZ; cbn [Z80.m_wz Z80.set_m_wz]; apply w_l_set_w_l). }
  destruct dr; try contradiction;
    (change (Z80.A (Z80.set_pair ?r ?v ?u)) with (Z80.A u);
     rewrite A_set_F; reflexivity).
Qed.

(** ADD HL,BC with HL = 0xF000 and BC = 0x1234: the sum wraps to 0x0234
    with a carry. *)
Lemma add16_result_witness :
  let z := Z80.set_BC 0x1234 (Z80.set_HL 0xF000 example_z80) in
  Z80.HL (Z80.add16 z Z80.R_hl Z80.R_bc) = 0x0234
  /\ Z.testbit (Z80.F (Z80.add16 z Z80.R_hl Z80.R_bc)) 0 = true.
Proof.
  intros z.
  assert (Ha : 0 <= Z80.get_pair Z80.R_hl z < 65536)
    by (vm_compute; split; [ discriminate | reflexivity ]).
  assert (Hb : 0 <= Z80.get_pair Z80.R_bc z < 65536)
    by (vm_compute; split; [ discriminate | reflexivity ]).
  pose proof (add16_result z Z80.R_hl Z80.R_bc ltac:(discriminate) ltac:(discriminate)
                ltac:(discriminate) Ha Hb) as H.
  cbv zeta in H. destruct H as (Hv & Hc & _).
  split.
  - unfold Z80.HL. change (Z80.m_hl ?u) with (Z80.get_pair Z80.R_hl u).
    rewrite Hv. vm_compute. reflexivity.
  - rewrite Hc. vm_compute. reflexivity.
Defined.
